(** * File Organizer: rule matching, duplicate handling, planning and execution

    A shallow embedding of the Python sources under [scripts/]
    ([parser.py], [runner.py], [actions/deduplicator.py],
    [actions/renamer.py], [actions/mover.py], [actions/tagger.py], and
    the rule check of [organizer.py]) together with the properties stated
    about them.

    Conventions of the embedding:
    - a Python [str] is a [string]; the text is taken to be ASCII (code
      points above 127 are carried along unchanged by [upper]/[lower] and
      are never digits or whitespace);
    - a Python [int] is a [Z]; a Python [float] is a binary64 value, with
      the rounding of [float(str)] and of the product written out;
    - a call that may raise returns a [result]; [except] clauses are
      written out with the class test they perform;
    - file system, clock, platform and external processes are reached
      through the operations of the class [Host]; mutating calls are also
      recorded in a trace. *)

From Stdlib Require Import ZArith List Bool Ascii String Lia.
Import ListNotations.

Local Open Scope string_scope.
Local Open Scope Z_scope.

(* ================================================================= *)
(** ** Exceptions and results *)

Inductive exn_class :=
| ValueError | OverflowError | TypeError | KeyError | IndexError
| AttributeError
| OSError | FileNotFoundError | FileExistsError | PermissionError
| ReError | RuntimeError.

Record exn := Exn { exn_cls : exn_class; exn_msg : string }.

Inductive result (A : Type) :=
| PyOk (a : A)
| PyRaise (e : exn).
Arguments PyOk {A} a.
Arguments PyRaise {A} e.

Definition exn_class_eqb (a b : exn_class) : bool :=
  match a, b with
  | ValueError, ValueError | OverflowError, OverflowError
  | TypeError, TypeError | KeyError, KeyError | IndexError, IndexError
  | AttributeError, AttributeError | OSError, OSError
  | FileNotFoundError, FileNotFoundError
  | FileExistsError, FileExistsError
  | PermissionError, PermissionError
  | ReError, ReError | RuntimeError, RuntimeError => true
  | _, _ => false
  end.

(** [except ValueError]: the class itself (none of the modelled classes
    derives from it). *)
Definition is_ValueError (e : exn) : bool := exn_class_eqb (exn_cls e) ValueError.

(** [except OSError]: the class and the subclasses the file system raises. *)
Definition is_OSError (e : exn) : bool :=
  match exn_cls e with
  | OSError | FileNotFoundError | FileExistsError | PermissionError => true
  | _ => false
  end.

Definition rbind {A B} (r : result A) (k : A -> result B) : result B :=
  match r with
  | PyOk a => k a
  | PyRaise e => PyRaise e
  end.

(* ================================================================= *)
(** ** Python string primitives *)

Module PyStr.

Definition code (c : ascii) : nat := nat_of_ascii c.

Definition is_digit (c : ascii) : bool :=
  (Nat.leb 48 (code c) && Nat.leb (code c) 57)%bool.

(** [str.isspace] on ASCII: TAB, LF, VT, FF, CR, FS, GS, RS, US, space. *)
Definition is_space (c : ascii) : bool :=
  (Nat.leb 9 (code c) && Nat.leb (code c) 13
   || Nat.leb 28 (code c) && Nat.leb (code c) 32)%bool.

(** The whitespace that [int(str)] and [float(str)] skip around an ASCII
    text (the [isspace] of C): TAB, LF, VT, FF, CR and space. The
    separators FS, GS, RS, US, which [str.strip] removes, are not among
    them. *)
Definition is_c_space (c : ascii) : bool :=
  (Nat.leb 9 (code c) && Nat.leb (code c) 13 || Nat.eqb (code c) 32)%bool.

Definition is_lower (c : ascii) : bool :=
  (Nat.leb 97 (code c) && Nat.leb (code c) 122)%bool.

Definition is_upper (c : ascii) : bool :=
  (Nat.leb 65 (code c) && Nat.leb (code c) 90)%bool.

Definition is_letter (c : ascii) : bool := (is_lower c || is_upper c)%bool.

Definition upper_char (c : ascii) : ascii :=
  if is_lower c then ascii_of_nat (code c - 32) else c.

Definition lower_char (c : ascii) : ascii :=
  if is_upper c then ascii_of_nat (code c + 32) else c.

Fixpoint map_str (f : ascii -> ascii) (s : string) : string :=
  match s with
  | EmptyString => EmptyString
  | String c t => String (f c) (map_str f t)
  end.

Definition upper : string -> string := map_str upper_char.
Definition lower : string -> string := map_str lower_char.

(** [s.lstrip(chars)], [s.rstrip(chars)], [s.strip(chars)] for a
    character class [p]. *)
Fixpoint lstrip_by (p : ascii -> bool) (s : string) : string :=
  match s with
  | EmptyString => EmptyString
  | String c t => if p c then lstrip_by p t else s
  end.

Fixpoint rstrip_by (p : ascii -> bool) (s : string) : string :=
  match s with
  | EmptyString => EmptyString
  | String c t =>
      match rstrip_by p t with
      | EmptyString => if p c then EmptyString else String c EmptyString
      | r => String c r
      end
  end.

Definition strip_by (p : ascii -> bool) (s : string) : string :=
  rstrip_by p (lstrip_by p s).

Definition strip : string -> string := strip_by is_space.

Fixpoint mem_char (c : ascii) (chars : string) : bool :=
  match chars with
  | EmptyString => false
  | String d t => (Ascii.eqb c d || mem_char c t)%bool
  end.

(** [s.strip(chars)]: strips the characters that occur in [chars]. *)
Definition strip_chars (chars s : string) : string :=
  strip_by (fun c => mem_char c chars) s.
Definition lstrip_chars (chars s : string) : string :=
  lstrip_by (fun c => mem_char c chars) s.

Fixpoint startswith (s pre : string) : bool :=
  match pre, s with
  | EmptyString, _ => true
  | String p pre', String c s' => (Ascii.eqb c p && startswith s' pre')%bool
  | String _ _, EmptyString => false
  end.

Fixpoint endswith (s suf : string) : bool :=
  (String.eqb s suf
   || match s with
      | EmptyString => false
      | String _ t => endswith t suf
      end)%bool.

(** [s[:-n]] for [n > 0]. *)
Definition drop_last (n : nat) (s : string) : string :=
  substring 0 (String.length s - n) s.

(** [s[n:]]. *)
Fixpoint drop_first (n : nat) (s : string) : string :=
  match n, s with
  | O, _ => s
  | S n', String _ t => drop_first n' t
  | S _, EmptyString => EmptyString
  end.

Fixpoint last_char (s : string) : option ascii :=
  match s with
  | EmptyString => None
  | String c EmptyString => Some c
  | String _ t => last_char t
  end.

Fixpoint all_chars (p : ascii -> bool) (s : string) : bool :=
  match s with
  | EmptyString => true
  | String c t => (p c && all_chars p t)%bool
  end.

(** Truthiness of a string: non-empty. *)
Definition truthy (s : string) : bool :=
  match s with EmptyString => false | _ => true end.

End PyStr.

(* ================================================================= *)
(** ** Python numbers: [int(str)], [float(str)], [float * int], [int(float)] *)

Module PyNum.
Import PyStr.

Definition digit_val (c : ascii) : Z := Z.of_nat (code c - 48).

(** The tail of a [digitpart]: digits, each optionally preceded by a single
    underscore. Returns the digits read and the unread rest. *)
Fixpoint digits_tail (s : string) : string * string :=
  match s with
  | String c t =>
      if is_digit c then
        let (ds, r) := digits_tail t in (String c ds, r)
      else if Ascii.eqb c "_" then
        match t with
        | String d t' =>
            if is_digit d then
              let (ds, r) := digits_tail t' in (String d ds, r)
            else (EmptyString, s)
        | EmptyString => (EmptyString, s)
        end
      else (EmptyString, s)
  | EmptyString => (EmptyString, s)
  end.

(** [digitpart ::= digit (["_"] digit)*]. *)
Definition digitpart (s : string) : option (string * string) :=
  match s with
  | String c t =>
      if is_digit c then
        let (ds, r) := digits_tail t in Some (String c ds, r)
      else None
  | EmptyString => None
  end.

Fixpoint digits_value_from (acc : Z) (ds : string) : Z :=
  match ds with
  | EmptyString => acc
  | String c t => digits_value_from (10 * acc + digit_val c) t
  end.

Definition digits_value : string -> Z := digits_value_from 0.

(** An optional sign; [true] is a minus. *)
Definition opt_sign (s : string) : bool * string :=
  match s with
  | String c t =>
      if Ascii.eqb c "-" then (true, t)
      else if Ascii.eqb c "+" then (false, t)
      else (false, s)
  | EmptyString => (false, s)
  end.

Definition value_error (msg : string) : exn := Exn ValueError msg.

(** [int(s)] for a string (base 10): surrounding whitespace (that of
    [is_c_space]) is skipped, then an optional sign and a [digitpart] must
    make up the whole text.
    (Recent interpreters also refuse, with [ValueError], a text of more
    than 4300 digits; that limit is a setting of the interpreter and is
    left out.) *)
Definition py_int (s : string) : result Z :=
  let (neg, body) := opt_sign (strip_by is_c_space s) in
  match digitpart body with
  | Some (ds, EmptyString) =>
      PyOk (if neg then - digits_value ds else digits_value ds)
  | _ => PyRaise (value_error "invalid literal for int() with base 10")
  end.

(** A binary64 value: [FFin m e] is [m * 2^e]. *)
Inductive pyfloat :=
| FFin (m e : Z)
| FInf (neg : bool)
| FNan.

(** Round to nearest, ties to even, of [num / den] ([den > 0]). *)
Definition round_half_even (num den : Z) : Z :=
  let q := num / den in
  let r := num mod den in
  if 2 * r <? den then q
  else if den <? 2 * r then q + 1
  else if Z.even q then q else q + 1.

(** The binary64 nearest to [p / q] for [p, q > 0], with the sign [neg]:
    53 significant bits, least exponent -1074, overflow to infinity. *)
Definition b64_of_ratio (neg : bool) (p q : Z) : pyfloat :=
  let e0 := Z.log2 p - Z.log2 q in
  let below :=
    if 0 <=? e0 then p <? q * 2 ^ e0 else p * 2 ^ (- e0) <? q in
  let e := if below then e0 - 1 else e0 in
  let ex := Z.max (e - 52) (-1074) in
  let m :=
    if 0 <=? ex then round_half_even p (q * 2 ^ ex)
    else round_half_even (p * 2 ^ (- ex)) q in
  if (971 <? ex) || ((ex =? 971) && (2 ^ 53 <=? m)) then FInf neg
  else FFin (if neg then - m else m) ex.

(** The binary64 nearest to [(-1)^neg * d * 10^e10] for [d >= 0]. *)
Definition b64_of_decimal (neg : bool) (d e10 : Z) : pyfloat :=
  if d =? 0 then FFin 0 0
  else if 0 <=? e10 then b64_of_ratio neg (d * 10 ^ e10) 1
  else b64_of_ratio neg d (10 ^ (- e10)).

(** [["e"|"E"] [sign] digitpart]; the exponent is 0 when there is none.
    An "e" that no exponent follows is left unread. *)
Definition opt_exponent (s : string) : Z * string :=
  match s with
  | String c t =>
      if (Ascii.eqb c "e" || Ascii.eqb c "E")%bool then
        let (eneg, t') := opt_sign t in
        match digitpart t' with
        | Some (ds, r) =>
            ((if eneg then - digits_value ds else digits_value ds), r)
        | None => (0, s)
        end
      else (0, s)
  | EmptyString => (0, s)
  end.

(** [digitpart ["." [digitpart]] [exponent] | "." digitpart [exponent]]:
    the decimal mantissa, the power of ten and the unread rest. *)
Definition float_number (s : string) : option (Z * Z * string) :=
  match digitpart s with
  | Some (ip, r) =>
      match r with
      | String c r1 =>
          if Ascii.eqb c "." then
            match digitpart r1 with
            | Some (fp, r2) =>
                let (x, r3) := opt_exponent r2 in
                Some (digits_value (ip ++ fp),
                      x - Z.of_nat (String.length fp), r3)
            | None =>
                let (x, r3) := opt_exponent r1 in
                Some (digits_value ip, x, r3)
            end
          else
            let (x, r3) := opt_exponent r in
            Some (digits_value ip, x, r3)
      | EmptyString => Some (digits_value ip, 0, EmptyString)
      end
  | None =>
      match s with
      | String c r1 =>
          if Ascii.eqb c "." then
            match digitpart r1 with
            | Some (fp, r2) =>
                let (x, r3) := opt_exponent r2 in
                Some (digits_value fp, x - Z.of_nat (String.length fp), r3)
            | None => None
            end
          else None
      | EmptyString => None
      end
  end.

(** [float(s)] for a string: surrounding whitespace (that of
    [is_c_space]) is skipped. *)
Definition py_float (s : string) : result pyfloat :=
  let (neg, body) := opt_sign (strip_by is_c_space s) in
  let word := lower body in
  if (String.eqb word "inf" || String.eqb word "infinity")%bool then
    PyOk (FInf neg)
  else if String.eqb word "nan" then PyOk FNan
  else
    match float_number body with
    | Some (d, e10, EmptyString) => PyOk (b64_of_decimal neg d e10)
    | _ => PyRaise (value_error "could not convert string to float")
    end.

(** [f * k] for a float [f] and an int [k] with [0 < k < 2^53] (the int
    converts exactly). *)
Definition float_mul_int (f : pyfloat) (k : Z) : pyfloat :=
  match f with
  | FFin m e =>
      if m =? 0 then FFin 0 0
      else if 0 <=? e then b64_of_ratio (m <? 0) (Z.abs m * k * 2 ^ e) 1
      else b64_of_ratio (m <? 0) (Z.abs m * k) (2 ^ (- e))
  | FInf neg => FInf neg
  | FNan => FNan
  end.

(** [int(f)]: truncation toward zero; infinities and NaN raise. *)
Definition int_of_float (f : pyfloat) : result Z :=
  match f with
  | FFin m e =>
      PyOk (if 0 <=? e then m * 2 ^ e else Z.quot m (2 ^ (- e)))
  | FInf _ =>
      PyRaise (Exn OverflowError "cannot convert float infinity to integer")
  | FNan => PyRaise (value_error "cannot convert float NaN to integer")
  end.

End PyNum.

(* ================================================================= *)
(** ** parser.py: [parse_size] *)

Import PyStr PyNum.

Definition units : list (string * Z) :=
  [ ("B", 1);
    ("KB", 1024);
    ("MB", 1024 * 1024);
    ("GB", 1024 * 1024 * 1024);
    ("TB", 1024 * 1024 * 1024 * 1024) ].

(** The [for unit, multiplier in units.items()] loop of [parse_size].
    [PyOk (Some n)]: the loop returned [n]; [PyOk None]: the loop ended
    (exhausted, or left by [break]); [PyRaise e]: an exception other than
    [ValueError] escaped. *)
Fixpoint parse_size_loop (size_str : string) (us : list (string * Z))
  : result (option Z) :=
  match us with
  | [] => PyOk None
  | (unit, multiplier) :: rest =>
      if endswith size_str unit then
        match
          rbind (py_float (drop_last (String.length unit) size_str))
                (fun f => int_of_float (float_mul_int f multiplier))
        with
        | PyOk n => PyOk (Some n)
        | PyRaise e => if is_ValueError e then PyOk None else PyRaise e
        end
      else parse_size_loop size_str rest
  end.

Definition parse_size (size_str : string) : result Z :=
  let size_str := upper (strip size_str) in
  match parse_size_loop size_str units with
  | PyRaise e => PyRaise e
  | PyOk (Some n) => PyOk n
  | PyOk None =>
      match py_int size_str with
      | PyOk n => PyOk n
      | PyRaise e => if is_ValueError e then PyOk 0 else PyRaise e
      end
  end.

(* ================================================================= *)
(** ** pathlib: pure paths (POSIX flavour) *)

(** A path is its anchor (absolute or not) and its components; [Path(s)]
    drops empty and ["."] components, so equality of paths is equality of
    these records. (A text that starts with exactly two slashes keeps them
    as its root in pathlib; here it is an absolute path like any other.)
    [suffix] and [stem] are those of Python 3.8 to 3.13. *)
Record Path := MkPath { is_absolute : bool; parts : list string }.

Fixpoint split_on (sep : ascii) (s : string) : list string :=
  match s with
  | EmptyString => [EmptyString]
  | String c t =>
      if Ascii.eqb c sep then EmptyString :: split_on sep t
      else
        match split_on sep t with
        | h :: r => String c h :: r
        | [] => [String c EmptyString]
        end
  end.

Definition real_component (c : string) : bool :=
  negb (String.eqb c "" || String.eqb c ".").

Definition path_of_str (s : string) : Path :=
  {| is_absolute := startswith s "/";
     parts := filter real_component (split_on "/" s) |}.

Fixpoint join_with (sep : string) (l : list string) : string :=
  match l with
  | [] => ""
  | [x] => x
  | x :: rest => x ++ sep ++ join_with sep rest
  end.

(** [str(p)]. *)
Definition path_str (p : Path) : string :=
  if is_absolute p then "/" ++ join_with "/" (parts p)
  else match parts p with
       | [] => "."
       | ps => join_with "/" ps
       end.

(** [p.name]: the final component, or the empty string. *)
Definition path_name (p : Path) : string := last (parts p) "".

(** [p.parent]. *)
Definition path_parent (p : Path) : Path :=
  {| is_absolute := is_absolute p; parts := removelast (parts p) |}.

(** [p / s]. *)
Definition path_join (p : Path) (s : string) : Path :=
  let q := path_of_str s in
  if is_absolute q then q
  else {| is_absolute := is_absolute p; parts := (parts p ++ parts q)%list |}.

Fixpoint rfind_char (ch : ascii) (s : string) : option nat :=
  match s with
  | EmptyString => None
  | String c t =>
      match rfind_char ch t with
      | Some i => Some (S i)
      | None => if Ascii.eqb c ch then Some O else None
      end
  end.

(** The index [i] of the last dot of [name] when [0 < i < len(name) - 1]. *)
Definition suffix_index (name : string) : option nat :=
  match rfind_char "." name with
  | Some i =>
      if (Nat.ltb 0 i && Nat.ltb i (String.length name - 1))%bool
      then Some i else None
  | None => None
  end.

(** [p.suffix] and [p.stem]. *)
Definition path_suffix (p : Path) : string :=
  let name := path_name p in
  match suffix_index name with
  | Some i => drop_first i name
  | None => ""
  end.

Definition path_stem (p : Path) : string :=
  let name := path_name p in
  match suffix_index name with
  | Some i => substring 0 i name
  | None => name
  end.

Fixpoint list_eqb {A} (eqb : A -> A -> bool) (l1 l2 : list A) : bool :=
  match l1, l2 with
  | [], [] => true
  | x :: t1, y :: t2 => (eqb x y && list_eqb eqb t1 t2)%bool
  | _, _ => false
  end.

(** [p == q]. *)
Definition path_eqb (p q : Path) : bool :=
  (Bool.eqb (is_absolute p) (is_absolute q)
   && list_eqb String.eqb (parts p) (parts q))%bool.

(* ================================================================= *)
(** ** Dynamically typed values ([Dict[str, Any]], YAML data) *)

#[warnings="-register-all"]
Inductive pyval :=
| VNone
| VBool (b : bool)
| VInt (n : Z)
| VStr (s : string)
| VPaths (l : list Path)
| VDict (d : list (string * pyval)).

Definition pydict := list (string * pyval).

(** [d.get(k)] ([None] when absent) and [d.get(k, default)]. *)
Fixpoint dict_find (d : pydict) (k : string) : option pyval :=
  match d with
  | [] => None
  | (k', v) :: rest => if String.eqb k' k then Some v else dict_find rest k
  end.

Definition dict_get (d : pydict) (k : string) : pyval :=
  match dict_find d k with Some v => v | None => VNone end.

Definition dict_get_default (d : pydict) (k : string) (dflt : pyval) : pyval :=
  match dict_find d k with Some v => v | None => dflt end.

(** Truth value testing. *)
Definition pyval_truthy (v : pyval) : bool :=
  match v with
  | VNone => false
  | VBool b => b
  | VInt n => negb (n =? 0)
  | VStr s => truthy s
  | VPaths l => match l with [] => false | _ => true end
  | VDict d => match d with [] => false | _ => true end
  end.

(** [v == s] for a string literal [s]. *)
Definition pyval_eq_str (v : pyval) (s : string) : bool :=
  match v with
  | VStr t => String.eqb t s
  | _ => false
  end.

Definition opt_str_truthy (o : option string) : bool :=
  match o with Some s => truthy s | None => false end.

Definition opt_int_truthy (o : option Z) : bool :=
  match o with Some n => negb (n =? 0) | None => false end.

(* ================================================================= *)
(** ** Rule files *)

(** What [yaml.safe_load] hands over. The parsers call [get] on the
    document, on each entry of its ["rules"], and on the values of the
    keys ["condition"] and ["action"]: for these it is kept whether the
    value is a mapping or something else (null, a scalar, a sequence),
    since [get] exists on mappings only. The key ["enabled"] holds any
    scalar: the loader tests its truth value, and a key without a value
    (null) is not the same as an absent key. The other keys hold what
    the dataclasses annotate, every key optional; a size bound is an
    integer or a string. *)

(** A scalar. *)
Inductive atom :=
| ANull
| ABool (b : bool)
| AInt (n : Z)
| AFloat (f : pyfloat)
| AStr (s : string).

(** A value that is not a mapping: a scalar, or a sequence of [len]
    items. *)
Inductive other :=
| OAtom (a : atom)
| OSeq (len : nat).

Inductive node (A : Type) :=
| Mapping (a : A)
| NotMapping (v : other).
Arguments Mapping {A} a.
Arguments NotMapping {A} v.

(** [type(v).__name__]. *)
Definition atom_type (a : atom) : string :=
  match a with
  | ANull => "NoneType"
  | ABool _ => "bool"
  | AInt _ => "int"
  | AFloat _ => "float"
  | AStr _ => "str"
  end.

Definition type_name (v : other) : string :=
  match v with
  | OAtom a => atom_type a
  | OSeq _ => "list"
  end.

(** Truth value testing. *)
Definition other_truthy (v : other) : bool :=
  match v with
  | OAtom ANull => false
  | OAtom (ABool b) => b
  | OAtom (AInt n) => negb (n =? 0)
  | OAtom (AFloat (FFin m _)) => negb (m =? 0)
  | OAtom (AFloat _) => true
  | OAtom (AStr s) => truthy s
  | OSeq len => negb (Nat.eqb len 0)
  end.

(** [v.get] for a [v] that has no such method. *)
Definition no_get (v : other) : exn :=
  Exn AttributeError ("'" ++ type_name v ++ "' object has no attribute 'get'").

(** The value on which [get] is called: a mapping, or the call raises. *)
Definition as_mapping {A} (n : node A) : result A :=
  match n with
  | Mapping a => PyOk a
  | NotMapping v => PyRaise (no_get v)
  end.

Inductive size_data :=
| SizeInt (n : Z)
| SizeStr (s : string).

Record cond_data := {
  cd_path : option string;
  cd_extension : option (list string);
  cd_pattern : option string;
  cd_name_pattern : option string;
  cd_size_gt : option size_data;
  cd_size_lt : option size_data
}.

Record action_data := {
  ad_move : option string;
  ad_create_if_missing : option bool;
  ad_rename : option string;
  ad_replace : option string;
  ad_prefix : option string;
  ad_suffix : option string;
  ad_separator : option string;
  ad_tag : option pydict
}.

Record rule_data := {
  rd_name : option string;
  rd_condition : option (node cond_data);
  rd_action : option (node action_data);
  rd_enabled : option atom
}.

Record dup_rule_data := {
  drd_name : option string;
  drd_check_by : option string;
  drd_action : option pydict;
  drd_enabled : option atom
}.

(** The value of the key ["rules"]: a sequence of entries, a mapping (of
    which the loop sees the keys), or a scalar. *)
Inductive rules_value (D : Type) :=
| RulesSeq (l : list (node D))
| RulesKeys (keys : list atom)
| RulesAtom (a : atom).
Arguments RulesSeq {D} l.
Arguments RulesKeys {D} keys.
Arguments RulesAtom {D} a.

(** A document: a mapping, with the value of its key ["rules"] when it
    has one, or a value of another kind (null for an empty file). *)
Definition document (D : Type) : Type := node (option (rules_value D)).

(** [yaml.safe_load(f) or {}], then [data.get("rules", [])]: a document
    that tests false is replaced by the empty mapping. *)
Definition rules_of_document {D} (data : document D)
  : result (option (rules_value D)) :=
  match data with
  | Mapping rules => PyOk rules
  | NotMapping v => if other_truthy v then PyRaise (no_get v) else PyOk None
  end.

Fixpoint chars_of (s : string) : list string :=
  match s with
  | EmptyString => []
  | String c t => String c "" :: chars_of t
  end.

(** What [for rule_data in ...] iterates over: the items of a sequence,
    the keys of a mapping, the characters of a text; no key gives the
    default [[]], and any other scalar is not iterable. *)
Definition iterate_rules {D} (rules : option (rules_value D))
  : result (list (node D)) :=
  match rules with
  | None => PyOk []
  | Some (RulesSeq l) => PyOk l
  | Some (RulesKeys keys) => PyOk (map (fun k => NotMapping (OAtom k)) keys)
  | Some (RulesAtom (AStr s)) =>
      PyOk (map (fun c => NotMapping (OAtom (AStr c))) (chars_of s))
  | Some (RulesAtom a) =>
      PyRaise (Exn TypeError ("'" ++ atom_type a ++ "' object is not iterable"))
  end.

(* ================================================================= *)
(** ** The host: file system, processes, clock, libraries *)

Record stat_result := { st_size : Z; st_mtime : Z }.

(** Mutating calls, as recorded in the trace. *)
Inductive syscall :=
| SysMkdir (p : Path)                      (* p.mkdir(parents=True, exist_ok=True) *)
| SysMove (src dst : string)               (* shutil.move(src, dst) *)
| SysRename (src dst : Path)               (* src.rename(dst) *)
| SysUnlink (p : Path)                     (* p.unlink() *)
| SysXattrTags (tags : list string) (file : string)
                                           (* xattr -w ..._kMDItemUserTags <plist of tags> file *)
| SysFinderLabel (file : Path) (color_index : Z)
                                           (* osascript: set label index *)
| SysFinderTrash (file : Path).            (* osascript: Finder delete *)

(** What the program needs from outside itself. [St] is the state of the
    machine; queries read it, mutating calls return the new state and
    whether they raised.

    - [re_search pattern text]: [re.search(pattern, text) is not None],
      for the patterns written in rule files;
    - [sha256_hex bytes]: [hashlib.sha256(bytes).hexdigest()];
    - [path_exists], [is_file], [is_dir]: the methods of pathlib, which
      answer [False] for a path that is not there and raise any other
      error of the underlying call (a directory that may not be searched,
      a name that is too long);
    - [rglob dir]: the paths that the generator [dir.rglob("*")] yields,
      in order, and the exception that ends it, if any;
    - [read_bytes]: opening the file and reading it to the end;
    - [yaml_rules], [yaml_dup_rules]: opening a rule file and
      [yaml.safe_load];
    - [xattr_tags] returns the return code of the [xattr] process. *)
Class Host (St : Type) := {
  is_macos : bool;
  expanduser : string -> string;
  re_search : string -> string -> result bool;
  sha256_hex : string -> string;
  path_exists : St -> Path -> result bool;
  is_file : St -> Path -> result bool;
  is_dir : St -> Path -> result bool;
  stat : St -> Path -> result stat_result;
  rglob : St -> Path -> list Path * option exn;
  read_bytes : St -> Path -> result string;
  resolve : St -> Path -> result Path;
  now : St -> Z;
  yaml_rules : St -> Path -> result (document rule_data);
  yaml_dup_rules : St -> Path -> result (document dup_rule_data);
  mkdir_parents : Path -> St -> result unit * St;
  shutil_move : string -> string -> St -> result unit * St;
  os_rename : Path -> Path -> St -> result unit * St;
  os_unlink : Path -> St -> result unit * St;
  xattr_tags : list string -> string -> St -> result Z * St;
  finder_label : Path -> Z -> St -> result unit * St;
  finder_trash : Path -> St -> result unit * St
}.

(** Lines printed on standard output. *)
Inductive message :=
| MsgTagsUnsupported
| MsgFileNotFound (p : Path)
| MsgTagError (e : exn)
| MsgDeleteError (p : Path) (e : exn)
| MsgRuleError (rule : string) (e : exn).

(** Records of the [logging] module. *)
Inductive log_record :=
| LogDryRun
| LogSuccess (operation : nat)
| LogFailed (operation : nat) (e : exn).

Record World (St : Type) := MkWorld {
  os_state : St;
  trace : list syscall;
  console : list message;
  log : list log_record
}.
Arguments MkWorld {St}.
Arguments os_state {St}.
Arguments trace {St}.
Arguments console {St}.
Arguments log {St}.

(* ================================================================= *)
(** ** A state and exception monad *)

Definition M (S A : Type) : Type := S -> result A * S.

Definition ret {S A} (a : A) : M S A := fun s => (PyOk a, s).

Definition raise {S A} (e : exn) : M S A := fun s => (PyRaise e, s).

Definition bind {S A B} (m : M S A) (k : A -> M S B) : M S B :=
  fun s =>
    match m s with
    | (PyOk a, s') => k a s'
    | (PyRaise e, s') => (PyRaise e, s')
    end.

(** [try: m  except Exception as e: h e]. *)
Definition try_except {S A} (m : M S A) (h : exn -> M S A) : M S A :=
  fun s =>
    match m s with
    | (PyOk a, s') => (PyOk a, s')
    | (PyRaise e, s') => h e s'
    end.

Definition gets {S A} (f : S -> A) : M S A := fun s => (PyOk (f s), s).

Definition modify {S} (f : S -> S) : M S unit := fun s => (PyOk tt, f s).

Definition lift_result {S A} (r : result A) : M S A := fun s => (r, s).

Declare Scope monad_scope.
Delimit Scope monad_scope with monad.
Notation "x <- m ;; k" := (bind m (fun x => k))
  (at level 61, m at next level, right associativity) : monad_scope.
Notation "m ;; k" := (bind m (fun _ => k))
  (at level 61, right associativity) : monad_scope.
Local Open Scope monad_scope.

(** [for x in l: body x]. *)
Fixpoint for_each {S A} (l : list A) (body : A -> M S unit) : M S unit :=
  match l with
  | [] => ret tt
  | x :: rest => body x ;; for_each rest body
  end.

(** The world as the program sees it. *)
Section WorldOps.
Context {St : Type} `{Host St}.

Definition query {A} (f : St -> A) : M (World St) A :=
  gets (fun w => f (os_state w)).

Definition query_result {A} (f : St -> result A) : M (World St) A :=
  fun w => (f (os_state w), w).

(** A mutating call: the trace grows by [c], the machine moves on. *)
Definition syscall_run {A} (c : syscall) (f : St -> result A * St)
  : M (World St) A :=
  fun w =>
    let (r, st') := f (os_state w) in
    (r, MkWorld st' (trace w ++ [c])%list (console w) (log w)).

Definition print (m : message) : M (World St) unit :=
  modify (fun w => MkWorld (os_state w) (trace w) (console w ++ [m])%list (log w)).

Definition logging (r : log_record) : M (World St) unit :=
  modify (fun w => MkWorld (os_state w) (trace w) (console w) (log w ++ [r])%list).

Definition sys_mkdir (p : Path) : M (World St) unit :=
  syscall_run (SysMkdir p) (mkdir_parents p).
Definition sys_move (src dst : string) : M (World St) unit :=
  syscall_run (SysMove src dst) (shutil_move src dst).
Definition sys_rename (src dst : Path) : M (World St) unit :=
  syscall_run (SysRename src dst) (os_rename src dst).
Definition sys_unlink (p : Path) : M (World St) unit :=
  syscall_run (SysUnlink p) (os_unlink p).
Definition sys_xattr_tags (tags : list string) (file : string)
  : M (World St) Z :=
  syscall_run (SysXattrTags tags file) (xattr_tags tags file).
Definition sys_finder_label (p : Path) (idx : Z) : M (World St) unit :=
  syscall_run (SysFinderLabel p idx) (finder_label p idx).
Definition sys_finder_trash (p : Path) : M (World St) unit :=
  syscall_run (SysFinderTrash p) (finder_trash p).
End WorldOps.

(* ================================================================= *)
(** ** parser.py *)

Record Condition := {
  path : option string;
  extension : option (list string);
  pattern : option string;
  size_gt : option Z;
  size_lt : option Z;
  name_pattern : option string
}.

Record Action := {
  move : option string;
  create_if_missing : bool;
  rename : option string;
  replace : option string;
  prefix : option string;
  suffix : option string;
  separator : string;
  tag : option pydict
}.

Record Rule := {
  name : string;
  condition : Condition;
  action : Action;
  enabled : bool
}.

Record DuplicateRule := {
  dup_name : string;
  check_by : string;
  dup_action : pydict;
  dup_enabled : bool
}.

(** [rule_data.get("enabled", True)], as the loader reads it in
    [if r.enabled]: by its truth value. *)
Definition enabled_flag (o : option atom) : bool :=
  match o with
  | Some v => other_truthy (OAtom v)
  | None => true
  end.

Definition empty_cond_data : cond_data :=
  {| cd_path := None; cd_extension := None; cd_pattern := None;
     cd_name_pattern := None; cd_size_gt := None; cd_size_lt := None |}.

Definition empty_action_data : action_data :=
  {| ad_move := None; ad_create_if_missing := None; ad_rename := None;
     ad_replace := None; ad_prefix := None; ad_suffix := None;
     ad_separator := None; ad_tag := None |}.

Definition or_default {A} (o : option A) (d : A) : A :=
  match o with Some a => a | None => d end.

(** [size = cond_data.get(k); if isinstance(size, str): size = parse_size(size)]. *)
Definition parse_size_field (o : option size_data) : result (option Z) :=
  match o with
  | None => PyOk None
  | Some (SizeInt n) => PyOk (Some n)
  | Some (SizeStr s) => rbind (parse_size s) (fun n => PyOk (Some n))
  end.

(** Each parser calls [get] on its argument first: an argument that is
    not a mapping raises there. *)
Definition parse_condition (data : node cond_data) : result Condition :=
  rbind (as_mapping data) (fun cd =>
  rbind (parse_size_field (cd_size_gt cd)) (fun size_gt =>
  rbind (parse_size_field (cd_size_lt cd)) (fun size_lt =>
  PyOk {| path := cd_path cd;
          extension := cd_extension cd;
          pattern := cd_pattern cd;
          name_pattern := cd_name_pattern cd;
          size_gt := size_gt;
          size_lt := size_lt |}))).

Definition parse_action (data : node action_data) : result Action :=
  rbind (as_mapping data) (fun ad =>
  PyOk {| move := ad_move ad;
          create_if_missing := or_default (ad_create_if_missing ad) false;
          rename := ad_rename ad;
          replace := ad_replace ad;
          prefix := ad_prefix ad;
          suffix := ad_suffix ad;
          separator := or_default (ad_separator ad) "-";
          tag := match ad_tag ad with
                 | Some [] => None
                 | Some tag_data => Some tag_data
                 | None => None
                 end |}).

(** The arguments of [Rule(...)] are evaluated in the order written: the
    condition is parsed before the action. *)
Definition parse_rule (data : node rule_data) : result Rule :=
  rbind (as_mapping data) (fun rd =>
  rbind (parse_condition
           (or_default (rd_condition rd) (Mapping empty_cond_data))) (fun c =>
  rbind (parse_action
           (or_default (rd_action rd) (Mapping empty_action_data))) (fun a =>
  PyOk {| name := or_default (rd_name rd) "Unnamed Rule";
          condition := c;
          action := a;
          enabled := enabled_flag (rd_enabled rd) |}))).

Definition parse_duplicate_rule (data : node dup_rule_data)
  : result DuplicateRule :=
  rbind (as_mapping data) (fun rd =>
  PyOk {| dup_name := or_default (drd_name rd) "Unnamed Duplicate Rule";
          check_by := or_default (drd_check_by rd) "content";
          dup_action := or_default (drd_action rd) [];
          dup_enabled := enabled_flag (drd_enabled rd) |}).

(** [rule_data.get('name')], as the loader prints it. *)
Definition entry_name {D} (name_of : D -> option string) (data : node D)
  : result string :=
  rbind (as_mapping data) (fun rd => PyOk (or_default (name_of rd) "None")).

Section Matches.
Context {St : Type} `{Host St}.

(** [Condition.matches(self, file_path)], as a sequence of checks each
    of which may return [False] early. *)
Definition check_path (self : Condition) (file_path : Path) : bool :=
  match path self with
  | Some p =>
      if truthy p then
        let path_pattern := expanduser p in
        startswith (path_str file_path) path_pattern
      else true
  | None => true
  end.

Definition norm_ext (e : string) : string := lstrip_chars "." (lower e).

Definition check_extension (self : Condition) (file_path : Path) : bool :=
  match extension self with
  | Some [] => true
  | Some exts =>
      let ext := norm_ext (path_suffix file_path) in
      existsb (String.eqb ext) (map norm_ext exts)
  | None => true
  end.

Definition check_regex (pat : option string) (file_path : Path) : result bool :=
  match pat with
  | Some p => if truthy p then re_search p (path_name file_path) else PyOk true
  | None => PyOk true
  end.

Definition check_size (st : St) (self : Condition) (file_path : Path)
  : result bool :=
  if (opt_int_truthy (size_gt self) || opt_int_truthy (size_lt self))%bool then
    match stat st file_path with
    | PyOk s =>
        let size := st_size s in
        if (opt_int_truthy (size_gt self)
            && (size <=? or_default (size_gt self) 0))%bool then PyOk false
        else if (opt_int_truthy (size_lt self)
                 && (or_default (size_lt self) 0 <=? size))%bool then PyOk false
        else PyOk true
    | PyRaise e => if is_OSError e then PyOk false else PyRaise e
    end
  else PyOk true.

Definition matches (st : St) (self : Condition) (file_path : Path)
  : result bool :=
  if negb (check_path self file_path) then PyOk false
  else if negb (check_extension self file_path) then PyOk false
  else
    rbind (check_regex (name_pattern self) file_path) (fun ok_name =>
    if negb ok_name then PyOk false
    else
      rbind (check_regex (pattern self) file_path) (fun ok_pat =>
      if negb ok_pat then PyOk false
      else check_size st self file_path)).
End Matches.

Section RuleParser.
Context {St : Type} `{Host St}.

(** The loop of [_load_rules]: an entry whose parser raises is reported
    and skipped. The report calls [get] on the entry: for an entry that
    is not a mapping the handler itself raises, and the loop with it. *)
Fixpoint parse_entries {D R} (parser : node D -> result R)
    (name_of : D -> option string) (l : list (node D))
  : M (World St) (list R) :=
  match l with
  | [] => ret []
  | data :: rest =>
      match parser data with
      | PyOk r =>
          rs <- parse_entries parser name_of rest ;;
          ret (r :: rs)
      | PyRaise e =>
          shown <- lift_result (entry_name name_of data) ;;
          print (MsgRuleError shown e) ;;
          parse_entries parser name_of rest
      end
  end.

Definition _load_rules {D R} (rules_dir : Path) (filename : string)
    (load : St -> Path -> result (document D)) (parser : node D -> result R)
    (name_of : D -> option string) (is_enabled : R -> bool)
  : M (World St) (list R) :=
  let rule_file := path_join rules_dir filename in
  present <- query_result (fun st => path_exists st rule_file) ;;
  if negb present then ret []
  else
    data <- query_result (fun st => load st rule_file) ;;
    entries <- lift_result (rbind (rules_of_document data) iterate_rules) ;;
    rules <- parse_entries parser name_of entries ;;
    ret (filter is_enabled rules).

Definition load_move_rules (rules_dir : Path) : M (World St) (list Rule) :=
  _load_rules rules_dir "move.yaml" yaml_rules parse_rule rd_name enabled.
Definition load_rename_rules (rules_dir : Path) : M (World St) (list Rule) :=
  _load_rules rules_dir "rename.yaml" yaml_rules parse_rule rd_name enabled.
Definition load_tag_rules (rules_dir : Path) : M (World St) (list Rule) :=
  _load_rules rules_dir "tag.yaml" yaml_rules parse_rule rd_name enabled.
Definition load_duplicate_rules (rules_dir : Path)
  : M (World St) (list DuplicateRule) :=
  _load_rules rules_dir "duplicate.yaml" yaml_dup_rules
              parse_duplicate_rule drd_name dup_enabled.

Record AllRules := {
  move_rules : list Rule;
  rename_rules : list Rule;
  tag_rules : list Rule;
  duplicate_rules : list DuplicateRule
}.

Definition load_all_rules (rules_dir : Path) : M (World St) AllRules :=
  mv <- load_move_rules rules_dir ;;
  rn <- load_rename_rules rules_dir ;;
  tg <- load_tag_rules rules_dir ;;
  dp <- load_duplicate_rules rules_dir ;;
  ret {| move_rules := mv; rename_rules := rn;
         tag_rules := tg; duplicate_rules := dp |}.
End RuleParser.

(* ================================================================= *)
(** ** actions/tagger.py *)

Module Tagger.

Definition TAG_COLORS : list string :=
  ["gray"; "red"; "orange"; "yellow"; "green"; "blue"; "purple"].

Definition TAG_COLOR_INDEX : list (string * Z) :=
  [("gray", 1); ("red", 2); ("orange", 3); ("yellow", 4);
   ("green", 5); ("blue", 6); ("purple", 7)].

Fixpoint color_index_of (t : string) (table : list (string * Z)) : option Z :=
  match table with
  | [] => None
  | (k, i) :: rest => if String.eqb k t then Some i else color_index_of t rest
  end.

(** The first tag that names a colour gives the label index, else 0. *)
Fixpoint first_color_index (tags : list string) : Z :=
  match tags with
  | [] => 0
  | t :: rest =>
      match color_index_of (lower t) TAG_COLOR_INDEX with
      | Some i => i
      | None => first_color_index rest
      end
  end.

(** [", ".join(tags)] accepts strings only. *)
Fixpoint all_strings (tags : list pyval) : result (list string) :=
  match tags with
  | [] => PyOk []
  | VStr s :: rest => rbind (all_strings rest) (fun l => PyOk (s :: l))
  | _ :: _ => PyRaise (Exn TypeError "sequence item: expected str instance")
  end.

(** Binding [**kwargs] to the parameters [color] and [label]. *)
Fixpoint bind_kwargs (kw : pydict) (color label : pyval)
  : result (pyval * pyval) :=
  match kw with
  | [] => PyOk (color, label)
  | (k, v) :: rest =>
      if String.eqb k "color" then bind_kwargs rest v label
      else if String.eqb k "label" then bind_kwargs rest color v
      else PyRaise (Exn TypeError
                    ("add_tag() got an unexpected keyword argument '"
                       ++ k ++ "'"))
  end.

Section Methods.
Context {St : Type} `{Host St}.

Definition _add_tag_osascript (file_path : Path) (tags : list string)
  : M (World St) unit :=
  let color_index := first_color_index tags in
  abs_path <- query_result (fun st => resolve st file_path) ;;
  sys_finder_label abs_path color_index.

(** [if color and color.lower() in TAG_COLORS: tags.append(...)]. *)
Definition color_tags (color : pyval) : result (list pyval) :=
  if pyval_truthy color then
    match color with
    | VStr c =>
        if existsb (String.eqb (lower c)) TAG_COLORS
        then PyOk [VStr (lower c)] else PyOk []
    | _ => PyRaise (Exn AttributeError "object has no attribute 'lower'")
    end
  else PyOk [].

Definition add_tag (file_path : Path) (color label : pyval)
  : M (World St) bool :=
  if negb is_macos then print MsgTagsUnsupported ;; ret false
  else
    present <- query_result (fun st => path_exists st file_path) ;;
    if negb present then print (MsgFileNotFound file_path) ;; ret false
    else
      ctags <- lift_result (color_tags color) ;;
      let tags := (ctags ++ (if pyval_truthy label then [label] else []))%list in
      match tags with
      | [] => ret false
      | _ =>
          try_except
            (strs <- lift_result (all_strings tags) ;;
             returncode <- sys_xattr_tags strs (path_str file_path) ;;
             (if negb (returncode =? 0)
              then _add_tag_osascript file_path strs
              else ret tt) ;;
             ret true)
            (fun e => print (MsgTagError e) ;; ret false)
      end.

(** [add_tag(file_path, **kw)]. *)
Definition add_tag_kwargs (file_path : Path) (kw : pydict)
  : M (World St) bool :=
  match bind_kwargs kw VNone VNone with
  | PyOk (color, label) => add_tag file_path color label
  | PyRaise e => raise e
  end.
End Methods.
End Tagger.

(* ================================================================= *)
(** ** actions/mover.py *)

Module Mover.
Section Methods.
Context {St : Type} `{Host St}.

Definition move (source destination : Path) : M (World St) Path :=
  present <- query_result (fun st => path_exists st source) ;;
  if negb present then
    raise (Exn FileNotFoundError
               ("Source file not found: " ++ path_str source))
  else
    into_dir <- query_result (fun st => is_dir st destination) ;;
    let destination :=
      if into_dir then path_join destination (path_name source)
      else destination in
    sys_mkdir (path_parent destination) ;;
    sys_move (path_str source) (path_str destination) ;;
    ret destination.
End Methods.
End Mover.

(* ================================================================= *)
(** ** The [re] calls of renamer.py

    [re.sub] with the four patterns the renamer uses, each written as a
    matcher: given the text from some position on, the length of the match
    that starts there and its groups (group 0 first). None of the patterns
    matches the empty string. Digits and whitespace are the ASCII ones. *)

Module Re.

Definition re_error (msg : string) : exn := Exn ReError msg.

(** *** Replacement templates *)

Inductive titem :=
| TLit (c : ascii)
| TGroup (n : nat).

Inductive tstate :=
| SNorm
| SEsc                       (* after a backslash *)
| SG                         (* after \g *)
| SName (acc : string)       (* inside \g<...> *)
| SOct (n : nat) (v : nat)   (* \0 and up to two more octal digits *)
| SD1 (c : ascii)            (* \c, c in 1..9 *)
| SD2 (c d : ascii).         (* \cd, both digits *)

Definition is_octal (c : ascii) : bool :=
  (Nat.leb 48 (code c) && Nat.leb (code c) 55)%bool.

Definition dig (c : ascii) : nat := (code c - 48)%nat.

Definition escape_char (c : ascii) : option ascii :=
  if Ascii.eqb c "a" then Some (ascii_of_nat 7)
  else if Ascii.eqb c "b" then Some (ascii_of_nat 8)
  else if Ascii.eqb c "f" then Some (ascii_of_nat 12)
  else if Ascii.eqb c "n" then Some (ascii_of_nat 10)
  else if Ascii.eqb c "r" then Some (ascii_of_nat 13)
  else if Ascii.eqb c "t" then Some (ascii_of_nat 9)
  else if Ascii.eqb c "v" then Some (ascii_of_nat 11)
  else if Ascii.eqb c "\" then Some "\"%char
  else None.

Definition is_identifier (s : string) : bool :=
  match s with
  | EmptyString => false
  | String c t =>
      ((is_letter c || Ascii.eqb c "_")
       && all_chars (fun d => is_letter d || is_digit d || Ascii.eqb d "_") t)%bool
  end.

Definition group_ref (groups n : nat) : result (list titem) :=
  if Nat.ltb groups n then PyRaise (re_error "invalid group reference")
  else PyOk [TGroup n].

Definition plain (c : ascii) : tstate * list titem :=
  if Ascii.eqb c "\" then (SEsc, []) else (SNorm, [TLit c]).

(** One character of the template. [groups] is the number of groups of
    the pattern (it has no named group). *)
Definition tstep (groups : nat) (st : tstate) (c : ascii)
  : result (tstate * list titem) :=
  match st with
  | SNorm => PyOk (plain c)
  | SEsc =>
      if Ascii.eqb c "g" then PyOk (SG, [])
      else if Ascii.eqb c "0" then PyOk (SOct 1 0, [])
      else if is_digit c then PyOk (SD1 c, [])
      else
        match escape_char c with
        | Some e => PyOk (SNorm, [TLit e])
        | None =>
            if is_letter c then PyRaise (re_error "bad escape")
            else PyOk (SNorm, [TLit "\"%char; TLit c])
        end
  | SG =>
      if Ascii.eqb c "<" then PyOk (SName "", [])
      else PyRaise (re_error "missing <")
  | SName acc =>
      if Ascii.eqb c ">" then
        if String.eqb acc "" then PyRaise (re_error "missing group name")
        else if is_identifier acc then
          PyRaise (Exn IndexError "unknown group name")
        else if all_chars is_digit acc then
          rbind (group_ref groups (Z.to_nat (digits_value acc)))
                (fun items => PyOk (SNorm, items))
        else PyRaise (re_error "bad character in group name")
      else PyOk (SName (acc ++ String c ""), [])
  | SOct n v =>
      if (Nat.ltb n 3 && is_octal c)%bool then
        PyOk (SOct (S n) (8 * v + dig c), [])
      else
        let (st', items) := plain c in
        PyOk (st', TLit (ascii_of_nat (v mod 256)) :: items)
  | SD1 d1 =>
      if is_digit c then PyOk (SD2 d1 c, [])
      else
        rbind (group_ref groups (dig d1)) (fun g =>
        let (st', items) := plain c in PyOk (st', (g ++ items)%list))
  | SD2 d1 d2 =>
      if (is_octal d1 && is_octal d2 && is_octal c)%bool then
        let v := (64 * dig d1 + 8 * dig d2 + dig c)%nat in
        if Nat.ltb 255 v then PyRaise (re_error "octal escape value outside of range")
        else PyOk (SNorm, [TLit (ascii_of_nat v)])
      else
        rbind (group_ref groups (10 * dig d1 + dig d2)) (fun g =>
        let (st', items) := plain c in PyOk (st', (g ++ items)%list))
  end.

(** The end of the template. *)
Definition tflush (groups : nat) (st : tstate) : result (list titem) :=
  match st with
  | SNorm => PyOk []
  | SEsc => PyRaise (re_error "bad escape (end of pattern)")
  | SG => PyRaise (re_error "missing <")
  | SName _ => PyRaise (re_error "missing >, unterminated name")
  | SOct _ v => PyOk [TLit (ascii_of_nat (v mod 256))]
  | SD1 d1 => group_ref groups (dig d1)
  | SD2 d1 d2 => group_ref groups (10 * dig d1 + dig d2)
  end.

Fixpoint parse_template_from (groups : nat) (st : tstate) (repl : string)
  : result (list titem) :=
  match repl with
  | EmptyString => tflush groups st
  | String c t =>
      rbind (tstep groups st c) (fun '(st', items) =>
      rbind (parse_template_from groups st' t) (fun rest =>
      PyOk (items ++ rest)%list))
  end.

Definition parse_template (groups : nat) (repl : string) : result (list titem) :=
  parse_template_from groups SNorm repl.

(** A group that took no part in the match expands to the empty string. *)
Fixpoint expand (tmpl : list titem) (groups : list string) : string :=
  match tmpl with
  | [] => ""
  | TLit c :: rest => String c (expand rest groups)
  | TGroup n :: rest => nth n groups "" ++ expand rest groups
  end.

(** *** Substitution *)

Definition matcher := string -> option (nat * list string).

(** Leftmost non-overlapping matches, left to right; [skip] counts the
    characters of the current match still to be passed over. *)
Fixpoint sub_loop (m : matcher) (tmpl : list titem) (skip : nat) (s : string)
  : string :=
  match s with
  | EmptyString => EmptyString
  | String c t =>
      match skip with
      | S k => sub_loop m tmpl k t
      | O =>
          match m s with
          | Some (S k, groups) => expand tmpl groups ++ sub_loop m tmpl k t
          | _ => String c (sub_loop m tmpl O t)
          end
      end
  end.

(** [re.sub(pattern, repl, s)] for a pattern given by its matcher and its
    number of groups. *)
Definition sub (m : matcher) (groups : nat) (repl s : string) : result string :=
  rbind (parse_template groups repl) (fun tmpl => PyOk (sub_loop m tmpl O s)).

(** *** The patterns *)

(** [\d+]: the digits read and the rest. *)
Fixpoint digits1 (s : string) : string * string :=
  match s with
  | String c t =>
      if is_digit c then let (ds, r) := digits1 t in (String c ds, r)
      else (EmptyString, s)
  | EmptyString => (EmptyString, s)
  end.

Definition consumed (s rest : string) : nat :=
  (String.length s - String.length rest)%nat.

(** The fullwidth parentheses U+FF08 and U+FF09, in UTF-8. *)
Definition fw_open : string :=
  String (ascii_of_nat 239) (String (ascii_of_nat 188) (String (ascii_of_nat 136) "")).
Definition fw_close : string :=
  String (ascii_of_nat 239) (String (ascii_of_nat 188) (String (ascii_of_nat 137) "")).

(** [open \d+ close] at the head of [s]: the digits and the rest. *)
Definition bracketed (open close s : string) : option (string * string) :=
  if startswith s open then
    let (ds, r) := digits1 (drop_first (String.length open) s) in
    if (truthy ds && startswith r close)%bool
    then Some (ds, drop_first (String.length close) r)
    else None
  else None.

(** The pattern of the first substitution: fullwidth parentheses around
    digits (group 1), or ASCII parentheses around digits (group 2). *)
Definition m_numbered : matcher := fun s =>
  match bracketed fw_open fw_close s with
  | Some (ds, r) =>
      let n := consumed s r in Some (n, [substring 0 n s; ds; ""])
  | None =>
      match bracketed "(" ")" s with
      | Some (ds, r) =>
          let n := consumed s r in Some (n, [substring 0 n s; ""; ds])
      | None => None
      end
  end.

(** [\s* open \d+ close \s*]. *)
Definition m_spaced (open close : string) : matcher := fun s =>
  match bracketed open close (lstrip_by is_space s) with
  | Some (_, r) =>
      let n := consumed s (lstrip_by is_space r) in
      Some (n, [substring 0 n s])
  | None => None
  end.

Fixpoint run_of (c : ascii) (s : string) : string :=
  match s with
  | String d t => if Ascii.eqb d c then run_of c t else s
  | EmptyString => s
  end.

(** [re.escape(separator) + "+"] for a non-empty separator: its characters
    but the last, then the last one once or more. *)
Definition m_separator (init : string) (last : ascii) : matcher := fun s =>
  if startswith s init then
    match drop_first (String.length init) s with
    | String d t =>
        if Ascii.eqb d last then
          let n := consumed s (run_of last t) in
          Some (n, [substring 0 n s])
        else None
    | EmptyString => None
    end
  else None.

Fixpoint split_last (s : string) : option (string * ascii) :=
  match s with
  | EmptyString => None
  | String c t =>
      match split_last t with
      | Some (init, l) => Some (String c init, l)
      | None => Some (EmptyString, c)
      end
  end.

(** [re.sub(rf"{re.escape(separator)}+", separator, name)]. *)
Definition collapse_separator (separator name : string) : result string :=
  match split_last separator with
  | None => PyRaise (re_error "nothing to repeat")
  | Some (init, l) => sub (m_separator init l) 0 separator name
  end.

(** *** The patterns of [clean_garbled] *)

(** [[\u0000-\u001f\u007f-\u009f]]: an ASCII control character, or one
    of U+0080 to U+009F, in UTF-8 the byte 0xC2 followed by a byte from
    0x80 to 0x9F. *)
Definition is_control (c : ascii) : bool :=
  (Nat.ltb (code c) 32 || Nat.eqb (code c) 127)%bool.

Definition m_control : matcher := fun s =>
  match s with
  | String c t =>
      if is_control c then Some (1%nat, [substring 0 1 s])
      else if Nat.eqb (code c) 194 then
        match t with
        | String d _ =>
            if (Nat.leb 128 (code d) && Nat.leb (code d) 159)%bool
            then Some (2%nat, [substring 0 2 s]) else None
        | EmptyString => None
        end
      else None
  | EmptyString => None
  end.

(** The trade mark, copyright and registered signs U+2122, U+00A9 and
    U+00AE, in UTF-8. *)
Definition trade_mark : string :=
  String (ascii_of_nat 226) (String (ascii_of_nat 132) (String (ascii_of_nat 162) "")).
Definition copyright : string :=
  String (ascii_of_nat 194) (String (ascii_of_nat 169) "").
Definition registered : string :=
  String (ascii_of_nat 194) (String (ascii_of_nat 174) "").

(** The character class of the three signs. *)
Definition m_symbol : matcher := fun s =>
  if startswith s trade_mark then Some (3%nat, [substring 0 3 s])
  else if (startswith s copyright || startswith s registered)%bool
  then Some (2%nat, [substring 0 2 s])
  else None.

(** [\s+]. *)
Definition m_whitespace : matcher := fun s =>
  match consumed s (lstrip_by is_space s) with
  | O => None
  | n => Some (n, [substring 0 n s])
  end.

End Re.

(* ================================================================= *)
(** ** actions/renamer.py *)

Module Renamer.

(** The three substitutions applied when [replace] is given. *)
Definition apply_replace (replace name : string) : result string :=
  rbind (Re.sub Re.m_numbered 2 replace name) (fun name =>
  rbind (Re.sub (Re.m_spaced "(" ")") 0 replace name) (fun name =>
  Re.sub (Re.m_spaced "[" "]") 0 replace name)).

(** The file name computed by [rename]: [f"{name}{ext}"]. *)
Definition new_name_of (file_path : Path)
    (replace prefix suffix : option string) (separator : string)
  : result string :=
  let name := path_stem file_path in
  let ext := path_suffix file_path in
  rbind (if opt_str_truthy replace
         then apply_replace (or_default replace "") name
         else PyOk name) (fun name =>
  let name :=
    if opt_str_truthy prefix
    then or_default prefix "" ++ separator ++ name else name in
  let name :=
    if opt_str_truthy suffix
    then name ++ separator ++ or_default suffix "" else name in
  rbind (Re.collapse_separator separator name) (fun name =>
  let name := strip_chars separator name in
  PyOk (name ++ ext))).

(** The name that [clean_garbled] makes of the stem: control characters
    and the three signs are removed, runs of whitespace become one space,
    and the ends are stripped. *)
Definition clean_name (name : string) : result string :=
  rbind (Re.sub Re.m_control 0 "" name) (fun name =>
  rbind (Re.sub Re.m_symbol 0 "" name) (fun name =>
  rbind (Re.sub Re.m_whitespace 0 " " name) (fun name =>
  PyOk (strip name)))).

(** [new_path = file_path.parent / f"{name}{ext}"]. *)
Definition new_path_of (file_path : Path)
    (replace prefix suffix : option string) (separator : string)
  : result Path :=
  rbind (new_name_of file_path replace prefix suffix separator)
        (fun new_name => PyOk (path_join (path_parent file_path) new_name)).

Section Methods.
Context {St : Type} `{Host St}.

Definition rename (file_path : Path)
    (replace prefix suffix : option string) (separator : string)
  : M (World St) Path :=
  present <- query_result (fun st => path_exists st file_path) ;;
  if negb present then
    raise (Exn FileNotFoundError ("File not found: " ++ path_str file_path))
  else
    new_path <- lift_result
                  (new_path_of file_path replace prefix suffix separator) ;;
    (if negb (path_eqb new_path file_path)
     then sys_rename file_path new_path
     else ret tt) ;;
    ret new_path.

Definition clean_garbled (file_path : Path) : M (World St) Path :=
  present <- query_result (fun st => path_exists st file_path) ;;
  if negb present then
    raise (Exn FileNotFoundError ("File not found: " ++ path_str file_path))
  else
    let name := path_stem file_path in
    let ext := path_suffix file_path in
    new_path <- lift_result
                  (rbind (clean_name name) (fun name =>
                   PyOk (path_join (path_parent file_path) (name ++ ext)))) ;;
    (if negb (path_eqb new_path file_path)
     then sys_rename file_path new_path
     else ret tt) ;;
    ret new_path.
End Methods.
End Renamer.

(* ================================================================= *)
(** ** actions/deduplicator.py *)

Module Deduplicator.

(** [groups[key].append(file_path)] on a [defaultdict(list)]; the keys keep
    their order of first insertion. *)
Fixpoint group_add (key : string) (file_path : Path)
    (groups : list (string * list Path)) : list (string * list Path) :=
  match groups with
  | [] => [(key, [file_path])]
  | (k, paths) :: rest =>
      if String.eqb k key then (k, (paths ++ [file_path])%list) :: rest
      else (k, paths) :: group_add key file_path rest
  end.

(** [[paths for paths in groups.values() if len(paths) > 1]]. *)
Definition more_than_one (groups : list (string * list Path)) : list (list Path) :=
  filter (fun paths => Nat.ltb 1 (List.length paths)) (map snd groups).

Definition _find_by_name (files : list Path) : list (list Path) :=
  more_than_one
    (fold_left (fun groups file_path =>
                  group_add (path_name file_path) file_path groups)
               files []).

(** [max(l, key=...)] and [min(l, key=...)] over a non-empty list given
    with its keys: the first element that no later one beats. *)
Fixpoint max_by_key (best : Path) (kbest : Z) (l : list (Path * Z)) : Path :=
  match l with
  | [] => best
  | (p, k) :: rest =>
      if kbest <? k then max_by_key p k rest else max_by_key best kbest rest
  end.

Fixpoint min_by_key (best : Path) (kbest : Z) (l : list (Path * Z)) : Path :=
  match l with
  | [] => best
  | (p, k) :: rest =>
      if k <? kbest then min_by_key p k rest else min_by_key best kbest rest
  end.

Section Methods.
Context {St : Type} `{Host St}.

(** The file is read in chunks of [chunk_size] bytes, each fed to the
    hasher: the digest is that of the whole content. *)
Definition _hash_file (st : St) (file_path : Path) : result string :=
  rbind (read_bytes st file_path) (fun content => PyOk (sha256_hex content)).

(** One turn of the loop of [_find_by_content]: the test [is_file()]
    stands before the [try], whose handler passes over a file that cannot
    be hashed. *)
Definition hash_step (st : St) (hash_groups : list (string * list Path))
    (file_path : Path) : result (list (string * list Path)) :=
  rbind (is_file st file_path) (fun regular =>
  if negb regular then PyOk hash_groups
  else
    match _hash_file st file_path with
    | PyOk file_hash => PyOk (group_add file_hash file_path hash_groups)
    | PyRaise _ => PyOk hash_groups
    end).

Fixpoint hash_loop (st : St) (files : list Path)
    (hash_groups : list (string * list Path))
  : result (list (string * list Path)) :=
  match files with
  | [] => PyOk hash_groups
  | file_path :: rest =>
      rbind (hash_step st hash_groups file_path) (hash_loop st rest)
  end.

Definition _find_by_content (st : St) (files : list Path)
  : result (list (list Path)) :=
  rbind (hash_loop st files []) (fun hash_groups =>
  PyOk (more_than_one hash_groups)).

Definition find_duplicates (st : St) (files : list Path) (check_by : string)
  : result (list (list Path)) :=
  if String.eqb check_by "name" then PyOk (_find_by_name files)
  else _find_by_content st files.

(** [p.stat().st_mtime] for each member, in order. *)
Fixpoint mtimes (st : St) (l : list Path) : result (list (Path * Z)) :=
  match l with
  | [] => PyOk []
  | p :: rest =>
      rbind (stat st p) (fun s =>
      rbind (mtimes st rest) (fun ks => PyOk ((p, st_mtime s) :: ks)))
  end.

(** The choice of [keep_file], for a group that is not empty. *)
Definition select_keep (st : St) (duplicate_group : list Path) (keep : pyval)
  : result Path :=
  if pyval_eq_str keep "newest" then
    rbind (mtimes st duplicate_group) (fun ks =>
    match ks with
    | (p, k) :: rest => PyOk (max_by_key p k rest)
    | [] => PyRaise (Exn ValueError "max() arg is an empty sequence")
    end)
  else if pyval_eq_str keep "oldest" then
    rbind (mtimes st duplicate_group) (fun ks =>
    match ks with
    | (p, k) :: rest => PyOk (min_by_key p k rest)
    | [] => PyRaise (Exn ValueError "min() arg is an empty sequence")
    end)
  else
    match duplicate_group with
    | p :: _ => PyOk p
    | [] => PyRaise (Exn IndexError "list index out of range")
    end.

Definition _move_to_trash (file_path : Path) : M (World St) unit :=
  if is_macos then sys_finder_trash file_path
  else
    try_except (sys_unlink file_path)
               (fun e => print (MsgDeleteError file_path e)).

(** The body of the loop over the group. *)
Definition dispose (keep_file : Path) (tag_duplicates : bool)
    (duplicate_label : pyval) (file_path : Path) : M (World St) unit :=
  if path_eqb file_path keep_file then ret tt
  else if tag_duplicates then
    Tagger.add_tag file_path VNone duplicate_label ;; ret tt
  else _move_to_trash file_path.

Definition handle_duplicates (duplicate_group : list Path) (keep : pyval)
    (tag_duplicates : bool) (duplicate_label : pyval) : M (World St) unit :=
  if Nat.ltb (List.length duplicate_group) 2 then ret tt
  else
    keep_file <- query_result
                   (fun st => select_keep st duplicate_group keep) ;;
    for_each duplicate_group
             (dispose keep_file tag_duplicates duplicate_label).
End Methods.
End Deduplicator.

(* ================================================================= *)
(** ** runner.py *)

Record Operation := {
  rule_name : string;
  operation_type : string;
  source : Path;
  details : pydict;
  executed : bool;
  success : bool;
  error : option string
}.

(** [Operation(rule_name, operation_type, source, details)]. *)
Definition new_operation (rule_name operation_type : string) (source : Path)
    (details : pydict) : Operation :=
  {| rule_name := rule_name; operation_type := operation_type;
     source := source; details := details;
     executed := false; success := false; error := None |}.

(** A result refers to its operation, an object of [Runner.operations]
    that the executor mutates in place: the reference is the position of
    the operation in that list. *)
Record OperationResult := {
  operation : nat;
  timestamp : Z
}.

Record Runner := {
  rules_dir : Path;
  logs_dir : Path;
  dry_run : bool;
  operations : list Operation;
  results : list OperationResult
}.

Definition with_operations (r : Runner) (ops : list Operation) : Runner :=
  {| rules_dir := rules_dir r; logs_dir := logs_dir r; dry_run := dry_run r;
     operations := ops; results := results r |}.

Definition with_results (r : Runner) (rs : list OperationResult) : Runner :=
  {| rules_dir := rules_dir r; logs_dir := logs_dir r; dry_run := dry_run r;
     operations := operations r; results := rs |}.

Record RState (St : Type) := MkRState {
  runner : Runner;
  world : World St
}.
Arguments MkRState {St}.
Arguments runner {St}.
Arguments world {St}.

Definition opt_str_val (o : option string) : pyval :=
  match o with Some s => VStr s | None => VNone end.

(** An [Optional[str]] argument. *)
Definition as_opt_str (v : pyval) : result (option string) :=
  match v with
  | VNone => PyOk None
  | VStr s => PyOk (Some s)
  | _ => PyRaise (Exn TypeError "expected str or None")
  end.

Definition as_str (v : pyval) : result string :=
  match v with
  | VStr s => PyOk s
  | _ => PyRaise (Exn TypeError "expected str")
  end.

(** The default duplicate label, two CJK characters in UTF-8. *)
Definition default_duplicate_label : string :=
  String (ascii_of_nat 233) (String (ascii_of_nat 135) (String (ascii_of_nat 141)
  (String (ascii_of_nat 229) (String (ascii_of_nat 164) (String (ascii_of_nat 141) ""))))).

Definition rename_scan_paths : list string :=
  ["~/Downloads"; "~/Documents"; "~/Desktop"].

Definition duplicate_scan_paths : list string :=
  ["~/Downloads"; "~/Documents"].

Definition set_flags (op : Operation) (ok : bool) (err : option string)
  : Operation :=
  {| rule_name := rule_name op; operation_type := operation_type op;
     source := source op; details := details op;
     executed := true; success := ok; error := err |}.

(** [l[i] = f(l[i])]. *)
Fixpoint update_nth {A} (i : nat) (f : A -> A) (l : list A) : list A :=
  match l, i with
  | [], _ => []
  | x :: rest, O => f x :: rest
  | x :: rest, S j => x :: update_nth j f rest
  end.

Section RunnerMethods.
Context {St : Type} `{Host St}.

Definition on_world {A} (m : M (World St) A) : M (RState St) A :=
  fun s =>
    let (r, w') := m (world s) in
    (r, MkRState (runner s) w').

Definition on_runner (f : Runner -> Runner) : M (RState St) unit :=
  modify (fun s => MkRState (f (runner s)) (world s)).

Definition append_operation (op : Operation) : M (RState St) unit :=
  on_runner (fun r => with_operations r (operations r ++ [op])%list).

(** [for item in scan_path.rglob("*"): if item.is_file(): files.append(item)]
    over the items that the generator yields before it ends, with
    [ending] if it ends by raising. *)
Fixpoint regular_items (st : St) (items : list Path) (ending : option exn)
  : result (list Path) :=
  match items with
  | [] =>
      match ending with
      | None => PyOk []
      | Some e => PyRaise e
      end
  | item :: rest =>
      rbind (is_file st item) (fun regular =>
      rbind (regular_items st rest ending) (fun files =>
      PyOk (if regular then item :: files else files)))
  end.

Definition _scan_directory (st : St) (path : string) : result (list Path) :=
  let scan_path := path_of_str (expanduser path) in
  rbind (path_exists st scan_path) (fun present =>
  if negb present then PyOk []
  else
    rbind (is_file st scan_path) (fun regular =>
    if regular then PyOk [scan_path]
    else
      let (items, ending) := rglob st scan_path in
      regular_items st items ending)).

(** [for scan_path in scan_paths: all_files.extend(self._scan_directory(scan_path))]. *)
Fixpoint scan_all (st : St) (scan_paths : list string) : result (list Path) :=
  match scan_paths with
  | [] => PyOk []
  | scan_path :: rest =>
      rbind (_scan_directory st scan_path) (fun files =>
      rbind (scan_all st rest) (fun more => PyOk (files ++ more)%list))
  end.

Definition move_details (rule : Rule) (dest : string) : pydict :=
  [ ("destination", VStr dest);
    ("create_if_missing", VBool (create_if_missing (action rule)));
    ("tag", match tag (action rule) with
            | Some d => VDict d
            | None => VNone
            end) ].

(** The loop over the scanned files: [plan] runs for each file that the
    rule's condition matches. *)
Definition plan_matching (rule : Rule) (files : list Path)
    (plan : Path -> M (RState St) unit) : M (RState St) unit :=
  for_each files (fun file_path =>
    ok <- on_world
            (query_result
               (fun st => matches st (condition rule) file_path)) ;;
    if ok then plan file_path else ret tt).

Definition _plan_move_operations (rule : Rule) : M (RState St) unit :=
  match path (condition rule) with
  | Some scope =>
      if negb (truthy scope) then ret tt
      else
        files <- on_world
                   (query_result (fun st => _scan_directory st scope)) ;;
        plan_matching rule files (fun file_path =>
          match move (action rule) with
          | Some m =>
              append_operation
                (new_operation (name rule) "move" file_path
                               (move_details rule (expanduser m)))
          | None =>
              raise (Exn TypeError "expected str, bytes or os.PathLike object, not NoneType")
          end)
  | None => ret tt
  end.

Definition rename_details (rule : Rule) : pydict :=
  [ ("replace", opt_str_val (replace (action rule)));
    ("prefix", opt_str_val (prefix (action rule)));
    ("suffix", opt_str_val (suffix (action rule)));
    ("separator", VStr (separator (action rule))) ].

(** The two nested loops shared by the rename and the tag planner. *)
Definition plan_over (scan_paths : list string) (rule : Rule)
    (operation_type : string) (dets : pydict) : M (RState St) unit :=
  for_each scan_paths (fun scan_path =>
    files <- on_world
               (query_result (fun st => _scan_directory st scan_path)) ;;
    plan_matching rule files (fun file_path =>
      append_operation
        (new_operation (name rule) operation_type file_path dets))).

Definition _plan_rename_operations (rule : Rule) : M (RState St) unit :=
  plan_over rename_scan_paths rule "rename" (rename_details rule).

Definition _plan_tag_operations (rule : Rule) : M (RState St) unit :=
  plan_over rename_scan_paths rule "tag" (or_default (tag (action rule)) []).

Definition duplicate_details (rule : DuplicateRule) (group : list Path)
  : pydict :=
  [ ("duplicates", VPaths group); ("action", VDict (dup_action rule)) ].

Definition _plan_duplicate_operations (rule : DuplicateRule)
  : M (RState St) unit :=
  all_files <- on_world
    (query_result (fun st => scan_all st duplicate_scan_paths)) ;;
  duplicates <- on_world
    (query_result
       (fun st =>
          Deduplicator.find_duplicates st all_files (check_by rule))) ;;
  for_each duplicates (fun duplicate_group =>
    match duplicate_group with
    | first :: _ =>
        append_operation
          (new_operation (dup_name rule) "duplicate" first
                         (duplicate_details rule duplicate_group))
    | [] => raise (Exn IndexError "list index out of range")
    end).

Definition scan_and_plan : M (RState St) (list Operation) :=
  on_runner (fun r => with_operations r []) ;;
  dir <- gets (fun s => rules_dir (runner s)) ;;
  rules <- on_world (load_all_rules dir) ;;
  for_each (move_rules rules) _plan_move_operations ;;
  for_each (rename_rules rules) _plan_rename_operations ;;
  for_each (tag_rules rules) _plan_tag_operations ;;
  for_each (duplicate_rules rules) _plan_duplicate_operations ;;
  gets (fun s => operations (runner s)).

(** [operation.details[key]]. *)
Definition details_item (op : Operation) (key : string) : result pyval :=
  match dict_find (details op) key with
  | Some v => PyOk v
  | None => PyRaise (Exn KeyError key)
  end.

Definition _execute_move (op : Operation) : M (World St) unit :=
  d <- lift_result (rbind (details_item op "destination") as_str) ;;
  let dest := path_of_str d in
  (if pyval_truthy (dict_get (details op) "create_if_missing")
   then sys_mkdir dest else ret tt) ;;
  Mover.move (source op) dest ;;
  (* Apply tag if specified *)
  if pyval_truthy (dict_get (details op) "tag") then
    match dict_get (details op) "tag" with
    | VDict kw => Tagger.add_tag_kwargs (source op) kw ;; ret tt
    | _ => raise (Exn TypeError "argument after ** must be a mapping")
    end
  else ret tt.

Definition _execute_rename (op : Operation) : M (World St) unit :=
  rp <- lift_result (as_opt_str (dict_get (details op) "replace")) ;;
  pf <- lift_result (as_opt_str (dict_get (details op) "prefix")) ;;
  sf <- lift_result (as_opt_str (dict_get (details op) "suffix")) ;;
  sp <- lift_result
          (as_str (dict_get_default (details op) "separator" (VStr "-"))) ;;
  Renamer.rename (source op) rp pf sf sp ;; ret tt.

Definition _execute_tag (op : Operation) : M (World St) unit :=
  Tagger.add_tag_kwargs (source op) (details op) ;; ret tt.

Definition _execute_duplicate (op : Operation) : M (World St) unit :=
  match dict_get_default (details op) "action" (VDict []),
        dict_get_default (details op) "duplicates" (VPaths []) with
  | VDict act, VPaths duplicates =>
      Deduplicator.handle_duplicates duplicates
        (dict_get_default act "keep" (VStr "newest"))
        (pyval_truthy (dict_get_default act "tag_duplicates" (VBool false)))
        (dict_get_default act "duplicate_label" (VStr default_duplicate_label))
  | VDict _, _ => raise (Exn TypeError "duplicates is not a list of paths")
  | _, _ => raise (Exn AttributeError "action has no attribute 'get'")
  end.

(** The [if]/[elif] chain on [operation.operation_type]. *)
Definition dispatch (op : Operation) : M (World St) unit :=
  if String.eqb (operation_type op) "move" then _execute_move op
  else if String.eqb (operation_type op) "rename" then _execute_rename op
  else if String.eqb (operation_type op) "tag" then _execute_tag op
  else if String.eqb (operation_type op) "duplicate" then _execute_duplicate op
  else ret tt.

Definition update_operation (i : nat) (f : Operation -> Operation)
  : M (RState St) unit :=
  on_runner (fun r => with_operations r (update_nth i f (operations r))).

(** The body of the loop of [execute], for the operation at position [i]. *)
Definition execute_one (i : nat) (op : Operation) : M (RState St) unit :=
  try_except
    (on_world (dispatch op) ;;
     update_operation i (fun o => set_flags o true (error o)) ;;
     on_world (logging (LogSuccess i)))
    (fun e =>
       update_operation i (fun o => set_flags o false (Some (exn_msg e))) ;;
       on_world (logging (LogFailed i e))) ;;
  t <- on_world (query now) ;;
  on_runner (fun r =>
    with_results r (results r ++ [{| operation := i; timestamp := t |}])%list).

Fixpoint execute_from (i : nat) (ops : list Operation) : M (RState St) unit :=
  match ops with
  | [] => ret tt
  | op :: rest => execute_one i op ;; execute_from (S i) rest
  end.

Definition execute : M (RState St) (list OperationResult) :=
  dry <- gets (fun s => dry_run (runner s)) ;;
  if dry then
    on_world (logging LogDryRun) ;;
    ret []
  else
    on_runner (fun r => with_results r []) ;;
    ops <- gets (fun s => operations (runner s)) ;;
    execute_from O ops ;;
    gets (fun s => results (runner s)).
End RunnerMethods.

(** [Runner.get_summary]: the dictionary
    [{"total": ..., "by_type": {"move": ..., "rename": ..., "tag": ...,
    "duplicate": ...}, "dry_run": ...}]. *)
Record Summary := {
  total : Z;
  by_move : Z;
  by_rename : Z;
  by_tag : Z;
  by_duplicate : Z;
  summary_dry_run : bool
}.

(** [sum(1 for o in self.operations if o.operation_type == t)]. *)
Definition count_type (t : string) (ops : list Operation) : Z :=
  fold_left
    (fun acc o => if String.eqb (operation_type o) t then acc + 1 else acc)
    ops 0.

Definition get_summary (self : Runner) : Summary :=
  {| total := Z.of_nat (List.length (operations self));
     by_move := count_type "move" (operations self);
     by_rename := count_type "rename" (operations self);
     by_tag := count_type "tag" (operations self);
     by_duplicate := count_type "duplicate" (operations self);
     summary_dry_run := dry_run self |}.

(* ================================================================= *)
(** ** organizer.py *)

(** [check_rules_status(config)]:
    [any(len(rules[rule_type]) > 0 for rule_type in rules)] over the four
    lists that [load_all_rules] returns. *)
Definition check_rules_status {St : Type} `{Host St} (rules_dir : Path)
  : M (World St) bool :=
  rules <- load_all_rules rules_dir ;;
  ret (existsb (fun n => Nat.ltb 0 n)
               [ List.length (move_rules rules);
                 List.length (rename_rules rules);
                 List.length (tag_rules rules);
                 List.length (duplicate_rules rules) ]).

(* ================================================================= *)
(** ** A host in memory

    A small machine on which the program can be run: a flat table of
    files and directories, a list of paths that lie in a directory which
    may not be searched, a clock that advances with every mutation,
    literal patterns, and the content itself as its digest. It is one
    instance of [Host] among many; the general statements below do not
    depend on it. *)

Module MemHost.

Record entry := {
  e_path : Path;
  e_is_dir : bool;
  e_content : string;
  e_mtime : Z;
  e_tags : list string
}.

Record state := {
  entries : list entry;
  locked : list Path;
  clock : Z;
  rule_files : list (Path * document rule_data);
  dup_rule_files : list (Path * document dup_rule_data)
}.

Definition with_entries (st : state) (es : list entry) : state :=
  {| entries := es; locked := locked st; clock := clock st + 1;
     rule_files := rule_files st; dup_rule_files := dup_rule_files st |}.


Fixpoint lookup (es : list entry) (p : Path) : option entry :=
  match es with
  | [] => None
  | e :: rest => if path_eqb (e_path e) p then Some e else lookup rest p
  end.

Definition remove (es : list entry) (p : Path) : list entry :=
  filter (fun e => negb (path_eqb (e_path e) p)) es.

Fixpoint is_prefix (xs ys : list string) : bool :=
  match xs, ys with
  | [], _ => true
  | x :: xs', y :: ys' => (String.eqb x y && is_prefix xs' ys')%bool
  | _ :: _, [] => false
  end.

Definition below (dir p : Path) : bool :=
  (Bool.eqb (is_absolute dir) (is_absolute p)
   && is_prefix (parts dir) (parts p)
   && Nat.ltb (List.length (parts dir)) (List.length (parts p)))%bool.

Fixpoint contains (text pat : string) : bool :=
  (startswith text pat
   || match text with
      | EmptyString => false
      | String _ t => contains t pat
      end)%bool.

Definition mem_expanduser (s : string) : string :=
  if String.eqb s "~" then "/home/user"
  else if startswith s "~/" then "/home/user" ++ drop_first 1 s
  else s.

Definition no_such_file : exn := Exn FileNotFoundError "No such file or directory".

Definition permission_denied : exn := Exn PermissionError "Permission denied".

(** A query about [p]: refused when [p] is locked. *)
Definition guarded {A} (st : state) (p : Path) (r : result A) : result A :=
  if existsb (path_eqb p) (locked st) then PyRaise permission_denied else r.

Definition mem_stat (st : state) (p : Path) : result stat_result :=
  guarded st p
    match lookup (entries st) p with
    | Some e => PyOk {| st_size := Z.of_nat (String.length (e_content e));
                        st_mtime := e_mtime e |}
    | None => PyRaise no_such_file
    end.

Definition mem_read (st : state) (p : Path) : result string :=
  guarded st p
    match lookup (entries st) p with
    | Some e => if e_is_dir e then PyRaise (Exn OSError "Is a directory")
                else PyOk (e_content e)
    | None => PyRaise no_such_file
    end.

Fixpoint find_file {D} (table : list (Path * D)) (p : Path) : result D :=
  match table with
  | [] => PyRaise no_such_file
  | (q, d) :: rest => if path_eqb q p then PyOk d else find_file rest p
  end.

(** Rule files are kept apart from the files that rules act upon. *)
Definition mem_exists (st : state) (p : Path) : result bool :=
  guarded st p
    (PyOk match lookup (entries st) p with
          | Some _ => true
          | None =>
              (existsb (fun f => path_eqb (fst f) p) (rule_files st)
               || existsb (fun f => path_eqb (fst f) p) (dup_rule_files st))%bool
          end).

Definition mem_is_file (st : state) (p : Path) : result bool :=
  guarded st p
    (PyOk match lookup (entries st) p with
          | Some e => negb (e_is_dir e)
          | None => false
          end).

Definition mem_is_dir (st : state) (p : Path) : result bool :=
  guarded st p
    (PyOk match lookup (entries st) p with
          | Some e => e_is_dir e
          | None => false
          end).

(** The listing passes over what it may not read. *)
Definition mem_rglob (st : state) (dir : Path) : list Path * option exn :=
  (map e_path (filter (fun e => below dir (e_path e)) (entries st)), None).

Definition mem_mkdir (p : Path) (st : state) : result unit * state :=
  match lookup (entries st) p with
  | Some e => if e_is_dir e then (PyOk tt, st)
              else (PyRaise (Exn FileExistsError "File exists"), st)
  | None =>
      (PyOk tt,
       with_entries st
         (entries st ++ [{| e_path := p; e_is_dir := true; e_content := "";
                            e_mtime := clock st; e_tags := [] |}])%list)
  end.

Definition relocate (src dst : Path) (st : state) : result unit * state :=
  match lookup (entries st) src with
  | Some e =>
      (PyOk tt,
       with_entries st
         (remove (remove (entries st) src) dst
          ++ [{| e_path := dst; e_is_dir := e_is_dir e;
                 e_content := e_content e; e_mtime := e_mtime e;
                 e_tags := e_tags e |}])%list)
  | None => (PyRaise no_such_file, st)
  end.

Definition mem_unlink (p : Path) (st : state) : result unit * state :=
  match lookup (entries st) p with
  | Some _ => (PyOk tt, with_entries st (remove (entries st) p))
  | None => (PyRaise no_such_file, st)
  end.

Definition set_tags (tags : list string) (p : Path) (e : entry) : entry :=
  if path_eqb (e_path e) p then
    {| e_path := e_path e; e_is_dir := e_is_dir e; e_content := e_content e;
       e_mtime := e_mtime e; e_tags := tags |}
  else e.

Definition mem_xattr (tags : list string) (file : string) (st : state)
  : result Z * state :=
  let p := path_of_str file in
  match lookup (entries st) p with
  | Some _ => (PyOk 0, with_entries st (map (set_tags tags p) (entries st)))
  | None => (PyOk 1, st)
  end.

#[global] Instance host : Host state := {
  is_macos := true;
  expanduser := mem_expanduser;
  re_search := fun pat text => PyOk (contains text pat);
  sha256_hex := fun content => content;
  path_exists := mem_exists;
  is_file := mem_is_file;
  is_dir := mem_is_dir;
  stat := mem_stat;
  rglob := mem_rglob;
  read_bytes := mem_read;
  resolve := fun st p => PyOk p;
  now := clock;
  yaml_rules := fun st p => find_file (rule_files st) p;
  yaml_dup_rules := fun st p => find_file (dup_rule_files st) p;
  mkdir_parents := mem_mkdir;
  shutil_move := fun src dst => relocate (path_of_str src) (path_of_str dst);
  os_rename := relocate;
  os_unlink := mem_unlink;
  xattr_tags := mem_xattr;
  finder_label := fun p idx st => (PyOk tt, st);
  finder_trash := mem_unlink
}.

(** The same machine under another operating system, with a pattern
    compiler that refuses the unbalanced pattern "(". *)
Definition elsewhere : Host state := {|
  is_macos := false;
  expanduser := mem_expanduser;
  re_search := fun pat text =>
    if String.eqb pat "("
    then PyRaise (Re.re_error "missing ), unterminated subpattern")
    else PyOk (contains text pat);
  sha256_hex := fun content => content;
  path_exists := mem_exists;
  is_file := mem_is_file;
  is_dir := mem_is_dir;
  stat := mem_stat;
  rglob := mem_rglob;
  read_bytes := mem_read;
  resolve := fun st p => PyOk p;
  now := clock;
  yaml_rules := fun st p => find_file (rule_files st) p;
  yaml_dup_rules := fun st p => find_file (dup_rule_files st) p;
  mkdir_parents := mem_mkdir;
  shutil_move := fun src dst => relocate (path_of_str src) (path_of_str dst);
  os_rename := relocate;
  os_unlink := mem_unlink;
  xattr_tags := mem_xattr;
  finder_label := fun p idx st => (PyOk tt, st);
  finder_trash := mem_unlink
|}.

Definition file (p : string) (content : string) (mtime : Z) : entry :=
  {| e_path := path_of_str p; e_is_dir := false; e_content := content;
     e_mtime := mtime; e_tags := [] |}.

Definition dir (p : string) : entry :=
  {| e_path := path_of_str p; e_is_dir := true; e_content := "";
     e_mtime := 0; e_tags := [] |}.

Definition machine (es : list entry) : state :=
  {| entries := es; locked := []; clock := 100;
     rule_files := []; dup_rule_files := [] |}.

Definition fresh (st : state) : World state :=
  MkWorld st [] [] [].

End MemHost.

(* ================================================================= *)
(** * The vocabulary of the statements *)

(** ** Texts and conditions *)

(** [ends_in c s]: the last character of [s] is [c]. *)
Definition ends_in (c : ascii) (s : string) : Prop :=
  exists y, s = y ++ String c "".

(** A character that is neither part of a decimal literal nor
    whitespace, and that does not end "inf", "infinity" or "nan". *)
Definition inert (c : ascii) : bool :=
  (negb (is_digit c) && negb (is_space c)
   && negb (mem_char c "_.eE+-")
   && negb (mem_char (lower_char c) "fyn"))%bool.

(** A component as [Path(s)] produces them: not empty, not ".", without
    a slash. *)
Definition is_component (n : string) : bool :=
  (real_component n && negb (mem_char "/" n))%bool.

(** [Condition()]: every field at its default. *)
Definition unset_condition : Condition :=
  {| path := None; extension := None; pattern := None;
     size_gt := None; size_lt := None; name_pattern := None |}.

Definition without_size_bounds (c : Condition) : Condition :=
  {| path := path c; extension := extension c; pattern := pattern c;
     size_gt := None; size_lt := None; name_pattern := name_pattern c |}.

(** The condition data [{"size_gt": s}]. *)
Definition size_gt_only (s : string) : node cond_data :=
  Mapping {| cd_path := None; cd_extension := None; cd_pattern := None;
             cd_name_pattern := None; cd_size_gt := Some (SizeStr s);
             cd_size_lt := None |}.

Definition sample_zero_bound : Condition :=
  {| path := None; extension := Some ["txt"]; pattern := None;
     size_gt := Some 0; size_lt := None; name_pattern := None |}.

(** ** Parts of the state that a computation leaves alone *)

(** [preserves proj m]: running [m] does not change the part [proj] of the
    state, whether it returns or raises. *)
Definition preserves {S X A : Type} (proj : S -> X) (m : M S A) : Prop :=
  forall s, proj (snd (m s)) = proj s.

(** ** Duplicate groups *)

(** The list filed under [key], empty when there is none. *)
Fixpoint group_of (key : string) (groups : list (string * list Path))
  : list Path :=
  match groups with
  | [] => []
  | (k, paths) :: rest =>
      if String.eqb k key then paths else group_of key rest
  end.

(** A group with the modification time of each member. *)
Definition keyed (info : Path -> stat_result) (l : list Path)
  : list (Path * Z) :=
  map (fun p => (p, st_mtime (info p))) l.

(** ** Tag-setting calls *)

Definition is_tag_call (c : syscall) : Prop :=
  match c with
  | SysXattrTags _ _ | SysFinderLabel _ _ => True
  | _ => False
  end.

(** ** Worlds, plans and outcomes *)

Section Vocabulary.
Context {St : Type} `{Host St}.

(** What a file mutation would change: the state of the machine, and the
    trace of mutating calls. *)
Definition files_of (w : World St) : St * list syscall :=
  (os_state w, trace w).

Definition runner_files (s : RState St) : St * list syscall :=
  files_of (world s).

(** What the executor writes into an operation after its dispatch ended
    with [r]. *)
Definition flag_outcome (r : result unit) (o : Operation) : Operation :=
  match r with
  | PyOk _ => set_flags o true (error o)
  | PyRaise e => set_flags o false (Some (exn_msg e))
  end.





(** [matches] returned [True]. *)
Definition matched (st : St) (c : Condition) (f : Path) : bool :=
  match matches st c f with
  | PyOk true => true
  | _ => false
  end.

(** The effect of a planning step on the state: the world is left
    alone and [new] is appended to the operations. *)
Definition plans (s s' : RState St) (new : list Operation) : Prop :=
  world s' = world s
  /\ operations (runner s') = (operations (runner s) ++ new)%list.

(** The computation makes no mutating call but tag-setting ones. *)
Definition tags_only {A} (m : M (World St) A) : Prop :=
  forall w, exists calls,
    trace (snd (m w)) = (trace w ++ calls)%list /\ Forall is_tag_call calls.

(** A set of machine states that the tag-setting calls do not lead out
    of. *)
Definition tag_closed (I : St -> Prop) : Prop :=
  (forall tags file st, I st -> I (snd (xattr_tags tags file st)))
  /\ (forall p idx st, I st -> I (snd (finder_label p idx st))).

(** The preparation of the destination directory. *)
Definition prepare_destination (op : Operation) (dest : Path)
  : M (World St) unit :=
  if pyval_truthy (dict_get (details op) "create_if_missing")
  then sys_mkdir dest else ret tt.

End Vocabulary.

(** The exception of [int(f)] for an infinite [f]. *)
Definition float_overflow : exn :=
  Exn OverflowError "cannot convert float infinity to integer".

(** ** Rule files *)

(** The entries of a rule file that [parser] accepts, parsed, in order. *)
Fixpoint accepted {D R} (parser : node D -> result R) (l : list (node D))
  : list R :=
  match l with
  | [] => []
  | d :: rest =>
      match parser d with
      | PyOk r => r :: accepted parser rest
      | PyRaise _ => accepted parser rest
      end
  end.

(** The lines printed for the entries, mappings all of them, that
    [parser] rejects, in order. *)
Fixpoint rejections {D R} (parser : node D -> result R)
    (name_of : D -> option string) (l : list D) : list message :=
  match l with
  | [] => []
  | d :: rest =>
      match parser (Mapping d) with
      | PyOk _ => rejections parser name_of rest
      | PyRaise e =>
          MsgRuleError (or_default (name_of d) "None") e
          :: rejections parser name_of rest
      end
  end.

(** A size bound given as a text. *)
Definition is_text (o : option size_data) : bool :=
  match o with
  | Some (SizeStr _) => true
  | _ => false
  end.

(** The value of a key is absent or a mapping. *)
Definition absent_or_mapping {A} (o : option (node A)) : bool :=
  match o with
  | Some (NotMapping _) => false
  | _ => true
  end.

(** A condition that is absent, or a mapping without a size bound given
    as a text. *)
Definition plain_condition (o : option (node cond_data)) : bool :=
  match o with
  | None => true
  | Some (Mapping cd) =>
      (negb (is_text (cd_size_gt cd)) && negb (is_text (cd_size_lt cd)))%bool
  | Some (NotMapping _) => false
  end.

(** The world after [lines] were printed. *)
Definition printed {St : Type} (w : World St) (lines : list message)
  : World St :=
  MkWorld (os_state w) (trace w) (console w ++ lines)%list (log w).

Definition with_extension (c : Condition) (exts : option (list string))
  : Condition :=
  {| path := path c; extension := exts; pattern := pattern c;
     size_gt := size_gt c; size_lt := size_lt c;
     name_pattern := name_pattern c |}.

(** An extension as a rule file may spell it: with a leading dot and in
    capitals. *)
Definition dotted_upper (e : string) : string := "." ++ upper e.

(** ** Keys of duplicate groups *)

(** The key under which the content grouping files a path: the digest of
    a regular file that can be read, none for any other path. *)
Definition content_key {St : Type} `{Host St} (st : St) (f : Path)
  : option string :=
  match is_file st f with
  | PyOk true =>
      match Deduplicator._hash_file st f with
      | PyOk h => Some h
      | PyRaise _ => None
      end
  | _ => None
  end.

(** The key of the grouping by name. *)
Definition name_key (f : Path) : option string := Some (path_name f).

(** [f] is filed under [k]. *)
Definition filed_under (key : Path -> option string) (k : string) (f : Path)
  : bool :=
  match key f with
  | Some k' => String.eqb k' k
  | None => false
  end.

(** One turn of a grouping loop, for a given key. *)
Definition file_under (key : Path -> option string)
    (groups : list (string * list Path)) (f : Path)
  : list (string * list Path) :=
  match key f with
  | Some k => Deduplicator.group_add k f groups
  | None => groups
  end.

(** ** Disposal of duplicates *)

(** The call by which [_move_to_trash] disposes of a file: the Finder on
    macOS, [unlink] elsewhere. *)
Definition disposal {St : Type} `{Host St} (p : Path) : syscall :=
  if is_macos then SysFinderTrash p else SysUnlink p.

(** The members of a group other than the one to keep, in order. *)
Definition others (keep_file : Path) (group : list Path) : list Path :=
  filter (fun p => negb (path_eqb p keep_file)) group.

(** ** File names *)

(** [s] holds no two adjacent [c]. *)
Fixpoint no_double (c : ascii) (s : string) : bool :=
  match s with
  | EmptyString => true
  | String a t =>
      (match t with
       | EmptyString => true
       | String b _ => negb (Ascii.eqb a c && Ascii.eqb b c)
       end && no_double c t)%bool
  end.

(** [s] holds no backslash. *)
Definition no_backslash (s : string) : bool :=
  all_chars (fun c => negb (Ascii.eqb c "\")) s.

(** No character of [s] occurs in [chars]. *)
Definition free_of (chars s : string) : bool :=
  all_chars (fun c => negb (mem_char c chars)) s.

(** ** Planned operations *)

(** A freshly planned operation of type [t] on what is, in the state
    [st], a regular file. *)
Definition planned_as {St : Type} `{Host St} (st : St) (t : string)
    (o : Operation) : Prop :=
  operation_type o = t /\ is_file st (source o) = PyOk true
  /\ executed o = false /\ success o = false /\ error o = None.

(** The operation planned for a group of duplicates: on its first
    member, of at least two, with the whole group in the details. *)
Definition duplicate_operation (rule : DuplicateRule) (g : list Path)
    (o : Operation) : Prop :=
  exists first rest,
    g = first :: rest /\ rest <> []
    /\ o = new_operation (dup_name rule) "duplicate" first
                         (duplicate_details rule g).

(** A planning step in the machine state [st]: the world is left alone
    and operations that satisfy [Q] are appended, whether the step
    returns or raises. *)
Definition plans_only {St : Type} `{Host St} (st : St)
    (Q : Operation -> Prop) (m : M (RState St) unit) : Prop :=
  forall s, os_state (world s) = st ->
    exists new, plans s (snd (m s)) new /\ Forall Q new.

(** An operation whose type is none of the four that [execute] and
    [get_summary] know. *)
Definition unknown_type (o : Operation) : bool :=
  negb (String.eqb (operation_type o) "move"
        || String.eqb (operation_type o) "rename"
        || String.eqb (operation_type o) "tag"
        || String.eqb (operation_type o) "duplicate").

(** ** Texts *)

(** Every character is an ASCII character. *)
Definition ascii_text (s : string) : bool :=
  all_chars (fun c => Nat.ltb (code c) 128) s.

(** No character is a control character. *)
Definition printable (s : string) : bool :=
  all_chars (fun c => negb (Re.is_control c)) s.

(** The characters of [s] that satisfy [p]. *)
Fixpoint keep_chars (p : ascii -> bool) (s : string) : string :=
  match s with
  | EmptyString => EmptyString
  | String c t => if p c then String c (keep_chars p t) else keep_chars p t
  end.

(** ** Sample runs on the host in memory *)

Module Samples.
Import MemHost.

Definition inbox : state :=
  machine [dir "/in"; file "/in/a.txt" "same" 10; file "/in/b.txt" "same" 20;
           file "/in/c.txt" "other" 15; dir "/out"].

Definition move_with_tag (kw : pydict) : Operation :=
  new_operation "sort" "move" (path_of_str "/in/a.txt")
    [ ("destination", VStr "/out"%string);
      ("create_if_missing", VBool false);
      ("tag", match kw with [] => VNone | _ => VDict kw end) ].

Definition runner_for (dry : bool) (ops : list Operation) : RState state :=
  MkRState
    {| rules_dir := path_of_str "/rules"; logs_dir := path_of_str "/logs";
       dry_run := dry; operations := ops; results := [] |}
    (fresh inbox).

Definition group_ab : list Path :=
  [path_of_str "/in/a.txt"; path_of_str "/in/b.txt"].

Definition info_of (p : Path) : stat_result :=
  match mem_stat inbox p with
  | PyOk s => s
  | PyRaise _ => {| st_size := 0; st_mtime := 0 |}
  end.

Definition downloads : state :=
  machine [dir "/home/user/Downloads";
           file "/home/user/Downloads/vacation.png" "img" 1;
           file "/home/user/Downloads/notes.txt" "txt" 2].

Definition png_rule : Rule :=
  {| name := "pictures";
     condition := {| path := Some "~/Downloads"%string;
                     extension := Some ["png"%string]; pattern := None;
                     size_gt := None; size_lt := None; name_pattern := None |};
     action := {| move := Some "~/Pictures"%string; create_if_missing := true;
                  rename := None; replace := None; prefix := Some "IMG"%string;
                  suffix := None; separator := "-"; tag := None |};
     enabled := true |}.

Definition planning : RState state :=
  MkRState
    {| rules_dir := path_of_str "/rules"; logs_dir := path_of_str "/logs";
       dry_run := true; operations := []; results := [] |}
    (fresh downloads).

(** A rule whose size bound reads as an infinity. *)
Definition infinite_bound : rule_data :=
  {| rd_name := Some "huge"%string;
     rd_condition := Some (size_gt_only "infb");
     rd_action := None; rd_enabled := None |}.

Definition disabled_rule : rule_data :=
  {| rd_name := Some "off"%string; rd_condition := None;
     rd_action := None; rd_enabled := Some (ABool false) |}.

(** A rule whose key ["enabled"] is there without a value. *)
Definition unset_switch : rule_data :=
  {| rd_name := Some "unset"%string; rd_condition := None;
     rd_action := None; rd_enabled := Some ANull |}.

Definition plain_rule : rule_data :=
  {| rd_name := Some "plain"%string; rd_condition := None;
     rd_action := None; rd_enabled := None |}.

(** A rule whose key ["condition"] is there without a value. *)
Definition hollow_rule : rule_data :=
  {| rd_name := Some "hollow"%string;
     rd_condition := Some (NotMapping (OAtom ANull));
     rd_action := None; rd_enabled := None |}.

(** An entry that is a text, not a mapping. *)
Definition stray_entry : other := OAtom (AStr "move everything").

Definition vacation : Path := path_of_str "/home/user/Downloads/vacation.png".

Definition notes : Path := path_of_str "/home/user/Downloads/notes.txt".

Definition small_picture : Condition :=
  {| path := Some "~/Downloads"%string; extension := Some [".PNG"%string];
     pattern := Some "png"%string; size_gt := Some 2; size_lt := Some 10;
     name_pattern := Some "vac"%string |}.

Definition condition_data (scope name_pattern : option string)
  : node cond_data :=
  Mapping {| cd_path := scope; cd_extension := None; cd_pattern := None;
             cd_name_pattern := name_pattern; cd_size_gt := None;
             cd_size_lt := None |}.

(** A rule whose name pattern is not a regular expression. *)
Definition bad_pattern_rule : node rule_data :=
  Mapping {| rd_name := Some "broken"%string;
             rd_condition := Some (condition_data None (Some "("%string));
             rd_action := None; rd_enabled := None |}.

(** A move rule with a path and no target. *)
Definition targetless_rule : node rule_data :=
  Mapping {| rd_name := Some "nowhere"%string;
             rd_condition :=
               Some (condition_data (Some "~/Downloads"%string) None);
             rd_action := None; rd_enabled := None |}.

(** The rule that a rule file entry parses to. *)
Definition rule_of (rd : node rule_data) : Rule :=
  match parse_rule rd with
  | PyOk r => r
  | PyRaise _ => png_rule
  end.

(** The downloads machine with one rule file, a mapping whose key
    ["rules"] holds the sequence [rules]. *)
Definition with_rule_file (filename : string) (rules : list (node rule_data))
  : RState state :=
  MkRState
    {| rules_dir := path_of_str "/rules"; logs_dir := path_of_str "/logs";
       dry_run := true; operations := []; results := [] |}
    (fresh {| entries := entries downloads; locked := []; clock := clock downloads;
              rule_files := [(path_join (path_of_str "/rules") filename,
                              Mapping (Some (RulesSeq rules)))];
              dup_rule_files := [] |}).

(** A download directory with two copies of one file. *)
Definition twins : state :=
  machine [dir "/home/user/Downloads";
           file "/home/user/Downloads/a.txt" "same" 1;
           file "/home/user/Downloads/b.txt" "same" 2;
           file "/home/user/Downloads/c.txt" "other" 3].

Definition twins_planning : RState state :=
  MkRState
    {| rules_dir := path_of_str "/rules"; logs_dir := path_of_str "/logs";
       dry_run := true; operations := []; results := [] |}
    (fresh twins).

Definition bare_duplicate_rule : DuplicateRule :=
  {| dup_name := "dups"; check_by := "content"; dup_action := [];
     dup_enabled := true |}.

Definition tag_operation (f : string) (kw : pydict) : Operation :=
  new_operation "label" "tag" (path_of_str f) kw.

End Samples.

(* ================================================================= *)
(** * Properties *)

(** ** Strings *)

Lemma eqb_refl_str (s : string) : String.eqb s s = true.
Proof. apply String.eqb_refl. Qed.

Lemma endswith_refl (s : string) : endswith s s = true.
Proof. destruct s; simpl; [reflexivity|]. rewrite Ascii.eqb_refl, eqb_refl_str. reflexivity. Qed.

Lemma endswith_app (a b : string) : endswith (a ++ b) b = true.
Proof.
  induction a as [|c a IH]; simpl.
  - apply endswith_refl.
  - rewrite IH. apply orb_true_r.
Qed.

Lemma length_app_str (a b : string) :
  String.length (a ++ b) = (String.length a + String.length b)%nat.
Proof. induction a; simpl; congruence. Qed.

Lemma substring_app_left (a b : string) :
  substring 0 (String.length a) (a ++ b) = a.
Proof. induction a; simpl; [destruct b; reflexivity | congruence]. Qed.

Lemma drop_last_app (a b : string) :
  drop_last (String.length b) (a ++ b) = a.
Proof.
  unfold drop_last. rewrite length_app_str.
  replace (String.length a + String.length b - String.length b)%nat
    with (String.length a) by lia.
  apply substring_app_left.
Qed.

Lemma app_assoc_str (a b c : string) : (a ++ b) ++ c = a ++ (b ++ c).
Proof. induction a; simpl; congruence. Qed.

Lemma app_nil_r_str (a : string) : a ++ "" = a.
Proof. induction a; simpl; congruence. Qed.

(** ** [parse_size]: texts that end in a letter no number contains *)

Section InertEnding.

Variable c : ascii.
Hypothesis c_inert : inert c = true.

Lemma inert_not_digit : is_digit c = false.
Proof.
  unfold inert in c_inert. destruct (is_digit c); [discriminate|reflexivity].
Qed.

Lemma inert_not_space : is_space c = false.
Proof.
  unfold inert in c_inert.
  destruct (is_digit c), (is_space c); try discriminate; reflexivity.
Qed.

Lemma inert_not_symbol (d : ascii) :
  mem_char d "_.eE+-" = true -> Ascii.eqb c d = false.
Proof.
  intros Hd. destruct (Ascii.eqb c d) eqn:E; [|reflexivity].
  apply Ascii.eqb_eq in E. subst d.
  unfold inert in c_inert. rewrite Hd in c_inert.
  rewrite !andb_false_r in c_inert; simpl in c_inert.
  destruct (negb (is_digit c) && negb (is_space c))%bool; discriminate.
Qed.

Lemma inert_not_word_end : mem_char (lower_char c) "fyn" = false.
Proof.
  unfold inert in c_inert.
  destruct (mem_char (lower_char c) "fyn"); [|reflexivity].
  rewrite !andb_false_r in c_inert. discriminate.
Qed.

Lemma ends_in_nonempty : ~ ends_in c "".
Proof. intros [[|a y] Hy]; discriminate. Qed.

Lemma ends_in_tail (a : ascii) (t : string) :
  ends_in c (String a t) -> a <> c -> ends_in c t.
Proof.
  intros [[|b y] Hy] Hne; simpl in Hy; inversion Hy; subst.
  - contradiction.
  - exists y. reflexivity.
Qed.

Lemma ends_in_cons (a : ascii) (t : string) :
  ends_in c t -> ends_in c (String a t).
Proof. intros [y ->]. exists (String a y). reflexivity. Qed.

Lemma digit_is_not_c (a : ascii) : is_digit a = true -> a <> c.
Proof. intros Ha ->. rewrite inert_not_digit in Ha. discriminate. Qed.

Lemma symbol_is_not_c (a d : ascii) :
  Ascii.eqb a d = true -> mem_char d "_.eE+-" = true -> a <> c.
Proof.
  intros Ha Hd ->. rewrite (inert_not_symbol d Hd) in Ha. discriminate.
Qed.

Lemma last_char_app (y : string) : last_char (y ++ String c "") = Some c.
Proof.
  induction y as [|a y IH]; simpl; [reflexivity|].
  rewrite IH. destruct y; reflexivity.
Qed.

Lemma space_of_c_space (a : ascii) : is_c_space a = true -> is_space a = true.
Proof.
  unfold is_c_space, is_space. intros Ha.
  apply orb_true_iff in Ha. apply orb_true_iff. destruct Ha as [Ha|Ha].
  - left. exact Ha.
  - right. apply Nat.eqb_eq in Ha. rewrite Ha. reflexivity.
Qed.

Lemma inert_not_c_space : is_c_space c = false.
Proof.
  destruct (is_c_space c) eqn:E; [|reflexivity].
  apply space_of_c_space in E. rewrite inert_not_space in E. discriminate.
Qed.

Lemma lstrip_ends_in (p : ascii -> bool) (s : string) :
  p c = false -> ends_in c s -> ends_in c (lstrip_by p s).
Proof.
  intros Hp. induction s as [|a t IH]; intros Hs; simpl; [exact Hs|].
  destruct (p a) eqn:Ea; [|exact Hs].
  apply IH. apply (ends_in_tail a); [exact Hs|].
  intros ->. rewrite Hp in Ea. discriminate.
Qed.

Lemma rstrip_ends_in (p : ascii -> bool) (y : string) :
  p c = false -> rstrip_by p (y ++ String c "") = y ++ String c "".
Proof.
  intros Hp. induction y as [|a y IH]; simpl.
  - rewrite Hp. reflexivity.
  - rewrite IH. destruct y; reflexivity.
Qed.

Lemma strip_by_ends_in (p : ascii -> bool) (s : string) :
  p c = false -> ends_in c s -> ends_in c (strip_by p s).
Proof.
  intros Hp Hs. unfold strip_by.
  destruct (lstrip_ends_in p s Hp Hs) as [y Hy].
  rewrite Hy, rstrip_ends_in by exact Hp. exists y. reflexivity.
Qed.

Lemma strip_ends_in (s : string) : ends_in c s -> ends_in c (strip s).
Proof. apply strip_by_ends_in, inert_not_space. Qed.

(** The readers of a number leave the inert ending unread. *)
Lemma digits_tail_ends_in (n : nat) :
  forall s, (String.length s <= n)%nat ->
            ends_in c s -> ends_in c (snd (digits_tail s)).
Proof.
  induction n as [|n IH]; intros s Hlen Hs.
  - destruct s; [exact Hs | simpl in Hlen; lia].
  - destruct s as [|a t]; [exact Hs|]. simpl in Hlen. simpl.
    destruct (is_digit a) eqn:Ea.
    + pose proof (IH t ltac:(lia)
                     (ends_in_tail a t Hs (digit_is_not_c a Ea))) as Ht.
      destruct (digits_tail t). exact Ht.
    + destruct (Ascii.eqb a "_") eqn:Eu; [|exact Hs].
      destruct t as [|d t']; [exact Hs|].
      destruct (is_digit d) eqn:Ed; [|exact Hs].
      assert (Ht : ends_in c (String d t')).
      { apply (ends_in_tail a); [exact Hs|].
        apply (symbol_is_not_c a "_"); [exact Eu | reflexivity]. }
      simpl in Hlen.
      pose proof (IH t' ltac:(lia)
                     (ends_in_tail d t' Ht (digit_is_not_c d Ed))) as Ht'.
      destruct (digits_tail t'). exact Ht'.
Qed.

Lemma digitpart_ends_in (s ds r : string) :
  digitpart s = Some (ds, r) -> ends_in c s -> ends_in c r.
Proof.
  unfold digitpart. destruct s as [|a t]; [discriminate|].
  destruct (is_digit a) eqn:Ea; [|discriminate].
  intros Hd Hs.
  pose proof (digits_tail_ends_in (String.length t) t (le_n _)
                (ends_in_tail a t Hs (digit_is_not_c a Ea))) as Ht.
  destruct (digits_tail t) as [ds' r']. inversion Hd; subst. exact Ht.
Qed.

Lemma opt_sign_ends_in (s : string) :
  ends_in c s -> ends_in c (snd (opt_sign s)).
Proof.
  intros Hs. unfold opt_sign. destruct s as [|a t]; [exact Hs|].
  destruct (Ascii.eqb a "-") eqn:Em.
  - simpl. apply (ends_in_tail a); [exact Hs|].
    apply (symbol_is_not_c a "-"); [exact Em | reflexivity].
  - destruct (Ascii.eqb a "+") eqn:Ep; [|exact Hs].
    simpl. apply (ends_in_tail a); [exact Hs|].
    apply (symbol_is_not_c a "+"); [exact Ep | reflexivity].
Qed.

Lemma opt_exponent_ends_in (s : string) :
  ends_in c s -> ends_in c (snd (opt_exponent s)).
Proof.
  intros Hs. unfold opt_exponent. destruct s as [|a t]; [exact Hs|].
  destruct (Ascii.eqb a "e" || Ascii.eqb a "E")%bool eqn:Ee; [|exact Hs].
  assert (Ht : ends_in c t).
  { apply (ends_in_tail a); [exact Hs|].
    apply orb_true_iff in Ee. destruct Ee as [Ee|Ee].
    - apply (symbol_is_not_c a "e"); [exact Ee | reflexivity].
    - apply (symbol_is_not_c a "E"); [exact Ee | reflexivity]. }
  pose proof (opt_sign_ends_in t Ht) as Hsg.
  destruct (opt_sign t) as [eneg t']. simpl in Hsg.
  destruct (digitpart t') as [[ds r]|] eqn:Ed; [|exact Hs].
  simpl. exact (digitpart_ends_in t' ds r Ed Hsg).
Qed.

Lemma float_number_ends_in (s : string) (d e10 : Z) (r : string) :
  float_number s = Some (d, e10, r) -> ends_in c s -> ends_in c r.
Proof.
  unfold float_number. intros Hf Hs.
  destruct (digitpart s) as [[ip r0]|] eqn:Ei.
  - pose proof (digitpart_ends_in s ip r0 Ei Hs) as Hr0.
    destruct r0 as [|a r1]; [exfalso; exact (ends_in_nonempty Hr0)|].
    destruct (Ascii.eqb a ".") eqn:Edot.
    + assert (Hr1 : ends_in c r1).
      { apply (ends_in_tail a); [exact Hr0|].
        apply (symbol_is_not_c a "."); [exact Edot | reflexivity]. }
      destruct (digitpart r1) as [[fp r2]|] eqn:Ef.
      * pose proof (opt_exponent_ends_in r2
                      (digitpart_ends_in r1 fp r2 Ef Hr1)) as Hx.
        destruct (opt_exponent r2). inversion Hf; subst. exact Hx.
      * pose proof (opt_exponent_ends_in r1 Hr1) as Hx.
        destruct (opt_exponent r1). inversion Hf; subst. exact Hx.
    + pose proof (opt_exponent_ends_in (String a r1) Hr0) as Hx.
      destruct (opt_exponent (String a r1)). inversion Hf; subst. exact Hx.
  - destruct s as [|a r1]; [discriminate|].
    destruct (Ascii.eqb a ".") eqn:Edot; [|discriminate].
    assert (Hr1 : ends_in c r1).
    { apply (ends_in_tail a); [exact Hs|].
      apply (symbol_is_not_c a "."); [exact Edot | reflexivity]. }
    destruct (digitpart r1) as [[fp r2]|] eqn:Ef; [|discriminate].
    pose proof (opt_exponent_ends_in r2
                  (digitpart_ends_in r1 fp r2 Ef Hr1)) as Hx.
    destruct (opt_exponent r2). inversion Hf; subst. exact Hx.
Qed.

Lemma lower_ends_in (s : string) :
  ends_in c s -> last_char (lower s) <> Some "f"%char
                 /\ last_char (lower s) <> Some "y"%char
                 /\ last_char (lower s) <> Some "n"%char.
Proof.
  intros [y ->].
  assert (E : last_char (lower (y ++ String c "")) = Some (lower_char c)).
  { induction y as [|a y IH]; simpl; [reflexivity|].
    unfold lower in IH. rewrite IH. destruct y; reflexivity. }
  rewrite E. pose proof inert_not_word_end as Hw. simpl in Hw.
  repeat split; intros Heq; inversion Heq as [Hc]; rewrite Hc in Hw;
    simpl in Hw; discriminate.
Qed.

Lemma py_float_inert_ending (s : string) :
  ends_in c s ->
  py_float s = PyRaise (value_error "could not convert string to float").
Proof.
  intros Hs. unfold py_float.
  pose proof (opt_sign_ends_in _ (strip_by_ends_in is_c_space s
                                    inert_not_c_space Hs)) as Hb.
  destruct (opt_sign (strip_by is_c_space s)) as [neg body]. simpl in Hb.
  destruct (lower_ends_in body Hb) as (Hf & Hy & Hn).
  destruct (String.eqb (lower body) "inf") eqn:E1.
  { apply String.eqb_eq in E1. rewrite E1 in Hf. exfalso. apply Hf. reflexivity. }
  destruct (String.eqb (lower body) "infinity") eqn:E2.
  { apply String.eqb_eq in E2. rewrite E2 in Hy. exfalso. apply Hy. reflexivity. }
  destruct (String.eqb (lower body) "nan") eqn:E3.
  { apply String.eqb_eq in E3. rewrite E3 in Hn. exfalso. apply Hn. reflexivity. }
  simpl.
  destruct (float_number body) as [[[d e10] r]|] eqn:Ef; [|reflexivity].
  pose proof (float_number_ends_in body d e10 r Ef Hb) as Hr.
  destruct r; [exfalso; exact (ends_in_nonempty Hr) | reflexivity].
Qed.

Lemma py_int_inert_ending (s : string) :
  ends_in c s ->
  py_int s = PyRaise (value_error "invalid literal for int() with base 10").
Proof.
  intros Hs. unfold py_int.
  pose proof (opt_sign_ends_in _ (strip_by_ends_in is_c_space s
                                    inert_not_c_space Hs)) as Hb.
  destruct (opt_sign (strip_by is_c_space s)) as [neg body]. simpl in Hb.
  destruct (digitpart body) as [[ds r]|] eqn:Ed; [|reflexivity].
  pose proof (digitpart_ends_in body ds r Ed Hb) as Hr.
  destruct r; [exfalso; exact (ends_in_nonempty Hr) | reflexivity].
Qed.

End InertEnding.

(** Every text that, stripped and upper-cased, is some text followed by
    one of K, M, G, T and then B parses to 0: the loop meets the unit "B"
    first, [float] rejects what stands before it, the loop is left, and
    [int] rejects the whole text. *)
Lemma parse_size_two_letter_unit (s body : string) (k : ascii) :
  In k ["K"; "M"; "G"; "T"]%char ->
  upper (strip s) = body ++ String k "B" ->
  parse_size s = PyOk 0.
Proof.
  intros Hk Hs. unfold parse_size. rewrite Hs.
  assert (Hki : inert k = true).
  { simpl in Hk. destruct Hk as [<-|[<-|[<-|[<-|[]]]]]; reflexivity. }
  assert (Hsplit : body ++ String k "B" = (body ++ String k "") ++ "B").
  { rewrite app_assoc_str. reflexivity. }
  unfold units, parse_size_loop.
  rewrite Hsplit at 1. rewrite endswith_app.
  rewrite Hsplit at 1. rewrite (drop_last_app (body ++ String k "") "B").
  rewrite (py_float_inert_ending k Hki (body ++ String k ""))
    by (exists body; reflexivity).
  simpl rbind. cbv iota beta.
  change (is_ValueError (value_error "could not convert string to float"))
    with true. cbv iota.
  rewrite (py_int_inert_ending "B" eq_refl (body ++ String k "B")).
  - reflexivity.
  - exists (body ++ String k ""). exact Hsplit.
Qed.

(** ** [parse_size]: plain numbers, with the unit B or none *)

Lemma round_half_even_exact (a d : Z) : 0 < d -> round_half_even (a * d) d = a.
Proof.
  intros Hd. unfold round_half_even.
  rewrite Z.div_mul, Z.mod_mul by lia.
  destruct (2 * 0 <? d) eqn:E; [reflexivity|].
  apply Z.ltb_ge in E. lia.
Qed.

Lemma b64_of_ratio_exact (neg : bool) (n k : Z) :
  0 < n < 2 ^ 53 -> 0 <= k ->
  b64_of_ratio neg (n * 2 ^ k) (2 ^ k)
  = FFin (if neg then - (n * 2 ^ (52 - Z.log2 n)) else n * 2 ^ (52 - Z.log2 n))
         (Z.log2 n - 52).
Proof.
  intros [Hpos Hlt] Hk.
  pose proof (Z.log2_nonneg n) as HL0.
  assert (HL : Z.log2 n < 53) by (apply Z.log2_lt_pow2; lia).
  destruct (Z.log2_spec n Hpos) as [Hlo Hhi].
  set (L := Z.log2 n) in *.
  assert (H2k : 0 < 2 ^ k) by (apply Z.pow_pos_nonneg; lia).
  assert (H2L : 0 < 2 ^ L) by (apply Z.pow_pos_nonneg; lia).
  unfold b64_of_ratio.
  rewrite Z.log2_mul_pow2, Z.log2_pow2 by lia. fold L.
  replace (k + L - k) with L by lia.
  assert (E0 : (0 <=? L) = true) by (apply Z.leb_le; lia). rewrite E0.
  assert (Eb : (n * 2 ^ k <? 2 ^ k * 2 ^ L) = false) by (apply Z.ltb_ge; nia).
  rewrite Eb.
  replace (Z.max (L - 52) (-1074)) with (L - 52) by lia.
  assert (Eo1 : (971 <? L - 52) = false) by (apply Z.ltb_ge; lia).
  assert (Eo2 : (L - 52 =? 971) = false) by (apply Z.eqb_neq; lia).
  rewrite Eo1, Eo2. simpl orb. cbv iota.
  destruct (0 <=? L - 52) eqn:Ex.
  - apply Z.leb_le in Ex. assert (L = 52) by lia.
    replace (L - 52) with 0 by lia. replace (52 - L) with 0 by lia.
    rewrite Z.pow_0_r, !Z.mul_1_r, round_half_even_exact by lia. reflexivity.
  - apply Z.leb_gt in Ex.
    replace (- (L - 52)) with (52 - L) by lia.
    replace (n * 2 ^ k * 2 ^ (52 - L)) with (n * 2 ^ (52 - L) * 2 ^ k) by ring.
    rewrite round_half_even_exact by lia. reflexivity.
Qed.

Lemma b64_of_int_exact (n : Z) :
  0 < n < 2 ^ 53 ->
  b64_of_ratio false n 1 = FFin (n * 2 ^ (52 - Z.log2 n)) (Z.log2 n - 52).
Proof.
  intros Hn. pose proof (b64_of_ratio_exact false n 0 Hn (Z.le_refl 0)) as E.
  rewrite Z.pow_0_r, Z.mul_1_r in E. exact E.
Qed.

Lemma int_float_roundtrip (n : Z) :
  0 <= n < 2 ^ 53 ->
  int_of_float (float_mul_int (b64_of_decimal false n 0) 1) = PyOk n.
Proof.
  intros [Hn Hlt]. unfold b64_of_decimal.
  destruct (n =? 0) eqn:En.
  - apply Z.eqb_eq in En. subst n. reflexivity.
  - apply Z.eqb_neq in En.
    assert (Hpos : 0 < n) by lia.
    pose proof (Z.log2_nonneg n) as HL0.
    assert (HL : Z.log2 n < 53) by (apply Z.log2_lt_pow2; lia).
    change (0 <=? 0) with true. cbv iota.
    rewrite Z.pow_0_r, Z.mul_1_r, b64_of_int_exact by lia.
    set (L := Z.log2 n) in *.
    assert (H2 : 0 < 2 ^ (52 - L)) by (apply Z.pow_pos_nonneg; lia).
    unfold float_mul_int.
    assert (Em : (n * 2 ^ (52 - L) =? 0) = false) by (apply Z.eqb_neq; nia).
    assert (Es : (n * 2 ^ (52 - L) <? 0) = false) by (apply Z.ltb_ge; nia).
    rewrite Em, Es, Z.abs_eq, Z.mul_1_r by nia.
    destruct (0 <=? L - 52) eqn:Ex.
    + apply Z.leb_le in Ex. assert (EL : L = 52) by lia.
      replace (52 - L) with 0 by lia. replace (L - 52) with 0 by lia.
      rewrite !Z.pow_0_r, !Z.mul_1_r, b64_of_int_exact by lia. fold L.
      replace (L - 52) with 0 by lia. replace (52 - L) with 0 by lia.
      unfold int_of_float. change (0 <=? 0) with true. cbv iota.
      rewrite !Z.pow_0_r, !Z.mul_1_r. reflexivity.
    + pose proof Ex as Exlt. apply Z.leb_gt in Exlt.
      replace (- (L - 52)) with (52 - L) by lia.
      rewrite (b64_of_ratio_exact false n (52 - L)) by lia. fold L.
      unfold int_of_float. rewrite Ex.
      replace (- (L - 52)) with (52 - L) by lia.
      rewrite Z.quot_mul by lia. reflexivity.
Qed.

Lemma all_chars_app (p : ascii -> bool) (a b : string) :
  all_chars p (a ++ b) = (all_chars p a && all_chars p b)%bool.
Proof. induction a as [|c a IH]; simpl; [reflexivity|]. rewrite IH, andb_assoc. reflexivity. Qed.

Lemma lstrip_none (p : ascii -> bool) (s : string) :
  all_chars (fun c => negb (p c)) s = true -> lstrip_by p s = s.
Proof.
  destruct s as [|c t]; simpl; [reflexivity|].
  intros Hs. apply andb_true_iff in Hs. destruct Hs as [Hc _].
  destruct (p c); [discriminate | reflexivity].
Qed.

Lemma rstrip_none (p : ascii -> bool) (s : string) :
  all_chars (fun c => negb (p c)) s = true -> rstrip_by p s = s.
Proof.
  induction s as [|c t IH]; simpl; [reflexivity|].
  intros Hs. apply andb_true_iff in Hs. destruct Hs as [Hc Ht].
  rewrite (IH Ht). destruct t; [|reflexivity].
  destruct (p c); [discriminate | reflexivity].
Qed.

Lemma upper_none (s : string) :
  all_chars (fun c => negb (is_lower c)) s = true -> upper s = s.
Proof.
  unfold upper. induction s as [|c t IH]; simpl; [reflexivity|].
  intros Hs. apply andb_true_iff in Hs. destruct Hs as [Hc Ht].
  rewrite (IH Ht). unfold upper_char.
  destruct (is_lower c); [discriminate | reflexivity].
Qed.

Lemma lower_none (s : string) :
  all_chars (fun c => negb (is_upper c)) s = true -> lower s = s.
Proof.
  unfold lower. induction s as [|c t IH]; simpl; [reflexivity|].
  intros Hs. apply andb_true_iff in Hs. destruct Hs as [Hc Ht].
  rewrite (IH Ht). unfold lower_char.
  destruct (is_upper c); [discriminate | reflexivity].
Qed.

Lemma all_chars_impl (p q : ascii -> bool) (s : string) :
  (forall c, p c = true -> q c = true) ->
  all_chars p s = true -> all_chars q s = true.
Proof.
  intros Hpq. induction s as [|c t IH]; simpl; [reflexivity|].
  intros Hs. apply andb_true_iff in Hs. destruct Hs as [Hc Ht].
  rewrite (Hpq c Hc), (IH Ht). reflexivity.
Qed.

Lemma digit_apart (c d : ascii) :
  is_digit c = true -> is_digit d = false -> Ascii.eqb c d = false.
Proof.
  intros Hc Hd. destruct (Ascii.eqb c d) eqn:E; [|reflexivity].
  apply Ascii.eqb_eq in E. subst d. congruence.
Qed.

Lemma digit_plain (c : ascii) :
  is_digit c = true ->
  is_space c = false /\ is_lower c = false /\ is_upper c = false.
Proof.
  unfold is_digit, is_space, is_lower, is_upper. intros Hd.
  apply andb_true_iff in Hd. destruct Hd as [H1 H2].
  apply Nat.leb_le in H1, H2.
  repeat split.
  - apply orb_false_iff. split; apply andb_false_iff.
    + right. apply Nat.leb_gt. lia.
    + right. apply Nat.leb_gt. lia.
  - apply andb_false_iff. left. apply Nat.leb_gt. lia.
  - apply andb_false_iff. left. apply Nat.leb_gt. lia.
Qed.

Lemma digits_tail_all (t : string) :
  all_chars is_digit t = true -> digits_tail t = (t, "").
Proof.
  induction t as [|c t IH]; simpl; [reflexivity|].
  intros Hs. apply andb_true_iff in Hs. destruct Hs as [Hc Ht].
  rewrite Hc, (IH Ht). reflexivity.
Qed.

Lemma digitpart_all (ds : string) :
  ds <> "" -> all_chars is_digit ds = true -> digitpart ds = Some (ds, "").
Proof.
  destruct ds as [|c t]; [contradiction|]. simpl. intros _ Hs.
  apply andb_true_iff in Hs. destruct Hs as [Hc Ht].
  rewrite Hc, (digits_tail_all t Ht). reflexivity.
Qed.

Lemma digits_strip (ds : string) :
  all_chars is_digit ds = true -> strip ds = ds.
Proof.
  intros Hd. unfold strip, strip_by.
  assert (Hs : all_chars (fun c => negb (is_space c)) ds = true).
  { eapply all_chars_impl; [|exact Hd]. intros c Hc.
    destruct (digit_plain c Hc) as (-> & _). reflexivity. }
  rewrite lstrip_none, rstrip_none by exact Hs. reflexivity.
Qed.

Lemma c_space_of_space (c : ascii) : is_space c = false -> is_c_space c = false.
Proof.
  intros Hs. destruct (is_c_space c) eqn:E; [|reflexivity].
  unfold is_c_space in E. unfold is_space in Hs.
  apply orb_true_iff in E. apply orb_false_iff in Hs. destruct Hs as [H1 H2].
  destruct E as [E|E]; [congruence|].
  apply Nat.eqb_eq in E. rewrite E in H2. discriminate.
Qed.

Lemma digits_c_strip (ds : string) :
  all_chars is_digit ds = true -> strip_by is_c_space ds = ds.
Proof.
  intros Hd. unfold strip_by.
  assert (Hs : all_chars (fun c => negb (is_c_space c)) ds = true).
  { eapply all_chars_impl; [|exact Hd]. intros c Hc.
    destruct (digit_plain c Hc) as (Hsp & _).
    rewrite (c_space_of_space c Hsp). reflexivity. }
  rewrite lstrip_none, rstrip_none by exact Hs. reflexivity.
Qed.

Lemma digits_lower (ds : string) :
  all_chars is_digit ds = true -> lower ds = ds.
Proof.
  intros Hd. apply lower_none. eapply all_chars_impl; [|exact Hd].
  intros c Hc. destruct (digit_plain c Hc) as (_ & _ & ->). reflexivity.
Qed.

Lemma py_float_digits (ds : string) :
  ds <> "" -> all_chars is_digit ds = true ->
  py_float ds = PyOk (b64_of_decimal false (digits_value ds) 0).
Proof.
  intros Hne Hd. unfold py_float. rewrite (digits_c_strip ds Hd).
  destruct ds as [|c t] eqn:Eds; [contradiction|]. rewrite <- Eds in *.
  assert (Hc : is_digit c = true).
  { rewrite Eds in Hd. simpl in Hd. apply andb_true_iff in Hd. tauto. }
  assert (Hsign : opt_sign ds = (false, ds)).
  { rewrite Eds. unfold opt_sign.
    rewrite (digit_apart c "-" Hc eq_refl), (digit_apart c "+" Hc eq_refl).
    reflexivity. }
  rewrite Hsign, (digits_lower ds Hd).
  assert (E1 : String.eqb ds "inf" = false)
    by (rewrite Eds; simpl; rewrite (digit_apart c "i" Hc eq_refl); reflexivity).
  assert (E2 : String.eqb ds "infinity" = false)
    by (rewrite Eds; simpl; rewrite (digit_apart c "i" Hc eq_refl); reflexivity).
  assert (E3 : String.eqb ds "nan" = false)
    by (rewrite Eds; simpl; rewrite (digit_apart c "n" Hc eq_refl); reflexivity).
  rewrite E1, E2, E3. simpl orb. cbv iota.
  unfold float_number. rewrite (digitpart_all ds Hne Hd). reflexivity.
Qed.

Lemma py_int_digits (ds : string) :
  ds <> "" -> all_chars is_digit ds = true ->
  py_int ds = PyOk (digits_value ds).
Proof.
  intros Hne Hd. unfold py_int. rewrite (digits_c_strip ds Hd).
  destruct ds as [|c t] eqn:Eds; [contradiction|]. rewrite <- Eds in *.
  assert (Hc : is_digit c = true).
  { rewrite Eds in Hd. simpl in Hd. apply andb_true_iff in Hd. tauto. }
  assert (Hsign : opt_sign ds = (false, ds)).
  { rewrite Eds. unfold opt_sign.
    rewrite (digit_apart c "-" Hc eq_refl), (digit_apart c "+" Hc eq_refl).
    reflexivity. }
  rewrite Hsign, (digitpart_all ds Hne Hd). reflexivity.
Qed.

Lemma digits_value_from_nonneg (ds : string) :
  forall acc, 0 <= acc -> 0 <= digits_value_from acc ds.
Proof.
  induction ds as [|c t IH]; intros acc Hacc; cbn [digits_value_from];
    [exact Hacc|].
  apply IH. unfold digit_val.
  pose proof (Nat2Z.is_nonneg (code c - 48)). lia.
Qed.

Lemma endswith_all_chars (p : ascii -> bool) (s suf : string) :
  endswith s suf = true -> all_chars p s = true -> all_chars p suf = true.
Proof.
  induction s as [|c t IH]; simpl; intros He Hs.
  - rewrite orb_false_r in He. destruct suf; [reflexivity | discriminate].
  - apply orb_true_iff in He. destruct He as [He|He].
    + destruct suf as [|d suf']; [reflexivity|].
      apply andb_true_iff in He. destruct He as [Hcd Hts].
      apply Ascii.eqb_eq in Hcd. apply String.eqb_eq in Hts. subst.
      exact Hs.
    + apply andb_true_iff in Hs. destruct Hs as [_ Ht]. exact (IH He Ht).
Qed.

(** With the unit B, a plain decimal number below 2^53 parses to itself. *)
Lemma parse_size_bytes (ds : string) :
  ds <> "" -> all_chars is_digit ds = true -> digits_value ds < 2 ^ 53 ->
  parse_size (ds ++ "B") = PyOk (digits_value ds).
Proof.
  intros Hne Hd Hlt.
  assert (Hplain : upper (strip (ds ++ "B")) = ds ++ "B").
  { unfold strip, strip_by.
    assert (Hs : all_chars (fun c => negb (is_space c)) (ds ++ "B") = true).
    { rewrite all_chars_app. apply andb_true_iff. split; [|reflexivity].
      eapply all_chars_impl; [|exact Hd]. intros c Hc.
      destruct (digit_plain c Hc) as (-> & _). reflexivity. }
    rewrite lstrip_none, rstrip_none by exact Hs.
    apply upper_none. rewrite all_chars_app. apply andb_true_iff.
    split; [|reflexivity].
    eapply all_chars_impl; [|exact Hd]. intros c Hc.
    destruct (digit_plain c Hc) as (_ & -> & _). reflexivity. }
  unfold parse_size. rewrite Hplain. unfold units, parse_size_loop.
  rewrite endswith_app, (drop_last_app ds "B"), (py_float_digits ds Hne Hd).
  simpl rbind. rewrite int_float_roundtrip; [reflexivity|].
  split; [|exact Hlt]. apply digits_value_from_nonneg. lia.
Qed.

(** Without a unit, a plain decimal number parses to itself (stated for
    texts within the interpreter's limit on digits). *)
Lemma parse_size_raw_number (ds : string) :
  ds <> "" -> all_chars is_digit ds = true ->
  (String.length ds <= 4300)%nat ->
  parse_size ds = PyOk (digits_value ds).
Proof.
  intros Hne Hd _.
  assert (Hplain : upper (strip ds) = ds).
  { rewrite (digits_strip ds Hd). apply upper_none.
    eapply all_chars_impl; [|exact Hd]. intros c Hc.
    destruct (digit_plain c Hc) as (_ & -> & _). reflexivity. }
  assert (Hno : forall u, all_chars is_digit u = false -> endswith ds u = false).
  { intros u Hu. destruct (endswith ds u) eqn:E; [|reflexivity].
    rewrite (endswith_all_chars is_digit ds u E Hd) in Hu. discriminate. }
  unfold parse_size. rewrite Hplain. unfold units, parse_size_loop.
  rewrite !Hno by reflexivity.
  rewrite (py_int_digits ds Hne Hd). reflexivity.
Qed.

(** ** C1: [parse_size] *)

(** C1. The specification states that a text [<number><unit>] with unit
    in B, KB, MB, GB, TB parses to [number * 1024^k], and that any other
    text parses to 0. On the text "100MB" [parse_size] returns 0, not
    104857600: the units are tried in the order B, KB, MB, GB, TB, every
    text with a longer unit also ends in "B", [float] rejects "100M" and
    the loop is left by [break]; [int] then rejects the whole text.
    [parse_size_two_letter_unit] gives the same for every text with one of
    the units KB, MB, GB, TB; [parse_size_bytes] and
    [parse_size_raw_number] show that the unit B and plain numbers parse
    as stated. *)
Theorem parse_size_100MB_is_zero :
  parse_size "100MB" = PyOk 0 /\ 100 * 1024 ^ 2 <> 0.
Proof. split; [vm_compute; reflexivity | lia]. Qed.

Example parse_size_100B : parse_size "100B" = PyOk 100.
Proof. vm_compute. reflexivity. Qed.

Example parse_size_fraction : parse_size " 1.5 b " = PyOk 1.
Proof. vm_compute. reflexivity. Qed.

Example parse_size_raw_bytes : parse_size "2048" = PyOk 2048.
Proof. vm_compute. reflexivity. Qed.

Example parse_size_unparseable : parse_size "big" = PyOk 0.
Proof. vm_compute. reflexivity. Qed.

Example parse_size_units_other_than_B :
  map parse_size ["1KB"; "1.5MB"; "2gb"; "3 TB"] = [PyOk 0; PyOk 0; PyOk 0; PyOk 0].
Proof. vm_compute. reflexivity. Qed.

(** A text that [float] reads as an infinity makes [parse_size] raise:
    [int(inf)] raises [OverflowError], which [except ValueError] lets pass. *)
Example parse_size_infinity_raises :
  exists msg, parse_size "infB" = PyRaise (Exn OverflowError msg).
Proof. eexists. vm_compute. reflexivity. Qed.

(** ** C9, C10: [Condition.matches] *)

(** C9. A condition with every optional field unset matches every file,
    whatever the state of the file system. *)
Theorem unset_condition_matches_every_file :
  forall (St : Type) (H : Host St) (st : St) (f : Path),
    matches st unset_condition f = PyOk true.
Proof. intros. reflexivity. Qed.

(** The scenario of the specification: extensions jpg and png against
    photo.JPG and doc.pdf. *)
Example extension_is_case_folded :
  forall st : MemHost.state,
    let c := {| path := None; extension := Some ["jpg"; "png"]; pattern := None;
                size_gt := None; size_lt := None; name_pattern := None |} in
    matches st c (path_of_str "/d/photo.JPG") = PyOk true
    /\ matches st c (path_of_str "/d/doc.pdf") = PyOk false.
Proof. intros st. split; reflexivity. Qed.

Lemma check_size_skipped {St : Type} `{Host St} (st : St) (c : Condition) (f : Path) :
  (size_gt c = None \/ size_gt c = Some 0) ->
  (size_lt c = None \/ size_lt c = Some 0) ->
  check_size st c f = PyOk true.
Proof.
  intros [Hg|Hg] [Hl|Hl]; unfold check_size; rewrite Hg, Hl; reflexivity.
Qed.

Lemma matches_without_size {St : Type} `{Host St} (st : St) (c : Condition) (f : Path) :
  check_size st c f = PyOk true ->
  matches st c f = matches st (without_size_bounds c) f.
Proof.
  intros Hs. unfold matches, check_path, check_extension. simpl.
  destruct (negb _); [reflexivity|].
  destruct (negb _); [reflexivity|].
  destruct (check_regex (name_pattern c) f) as [[|]|]; simpl; try reflexivity.
  destruct (check_regex (pattern c) f) as [[|]|]; simpl; try reflexivity.
  rewrite Hs. reflexivity.
Qed.

(** C10. When [size_gt] and [size_lt] are each unset or 0, the size check
    is skipped: it succeeds in every state (also one where [stat] raises),
    the condition matches exactly as without size fields, and its verdict
    does not depend on the state of the file system. In particular a
    [size_gt] text that [parse_size] turned into 0 bounds nothing: the
    condition parsed from it matches every file. *)
Theorem zero_size_bounds_are_skipped :
  forall (St : Type) (H : Host St) (c : Condition) (f : Path),
    (size_gt c = None \/ size_gt c = Some 0) ->
    (size_lt c = None \/ size_lt c = Some 0) ->
    (forall st, check_size st c f = PyOk true)
    /\ (forall st, matches st c f = matches st (without_size_bounds c) f)
    /\ (forall st st', matches st c f = matches st' c f)
    /\ (forall (s : string) (st : St) (g : Path),
          parse_size s = PyOk 0 ->
          rbind (parse_condition (size_gt_only s)) (fun c' => matches st c' g)
          = PyOk true).
Proof.
  intros St H c f Hg Hl.
  assert (Hskip : forall st, check_size st c f = PyOk true).
  { intros st. apply check_size_skipped; assumption. }
  repeat split.
  - exact Hskip.
  - intros st. apply matches_without_size. apply Hskip.
  - intros st st'.
    rewrite (matches_without_size st c f (Hskip st)).
    rewrite (matches_without_size st' c f (Hskip st')).
    reflexivity.
  - intros s st g Hs. unfold parse_condition, size_gt_only. simpl.
    rewrite Hs. reflexivity.
Qed.

Lemma zero_size_bounds_are_skipped_witness :
  (forall st : MemHost.state,
      check_size st sample_zero_bound (path_of_str "/d/empty.txt") = PyOk true)
  /\ parse_size "huge" = PyOk 0.
Proof.
  split.
  - exact (proj1 (zero_size_bounds_are_skipped MemHost.state MemHost.host
                    sample_zero_bound (path_of_str "/d/empty.txt")
                    (or_intror eq_refl) (or_introl eq_refl))).
  - vm_compute. reflexivity.
Defined.

(** ** Computations that leave a part of the state alone *)

Section Preserves.
Context {S X : Type} (proj : S -> X).

Lemma preserves_ret {A} (a : A) : preserves proj (ret a).
Proof. intros s. reflexivity. Qed.

Lemma preserves_raise {A} (e : exn) : preserves proj (@raise S A e).
Proof. intros s. reflexivity. Qed.

Lemma preserves_gets {A} (f : S -> A) : preserves proj (gets f).
Proof. intros s. reflexivity. Qed.

Lemma preserves_lift_result {A} (r : result A) : preserves proj (@lift_result S A r).
Proof. intros s. reflexivity. Qed.

Lemma preserves_bind {A B} (m : M S A) (k : A -> M S B) :
  preserves proj m -> (forall a, preserves proj (k a)) -> preserves proj (bind m k).
Proof.
  intros Hm Hk s. unfold bind. specialize (Hm s).
  destruct (m s) as [[a|e] s1]; simpl in *.
  - rewrite Hk. exact Hm.
  - exact Hm.
Qed.

Lemma preserves_try_except {A} (m : M S A) (h : exn -> M S A) :
  preserves proj m -> (forall e, preserves proj (h e)) -> preserves proj (try_except m h).
Proof.
  intros Hm Hh s. unfold try_except. specialize (Hm s).
  destruct (m s) as [[a|e] s1]; simpl in *.
  - exact Hm.
  - rewrite Hh. exact Hm.
Qed.

Lemma preserves_for_each {A} (l : list A) (body : A -> M S unit) :
  (forall a, preserves proj (body a)) -> preserves proj (for_each l body).
Proof.
  intros Hb. induction l as [|a l IH]; simpl.
  - apply preserves_ret.
  - apply preserves_bind; [apply Hb | intros _; exact IH].
Qed.

Lemma preserves_modify (f : S -> S) :
  (forall s, proj (f s) = proj s) -> preserves proj (modify f).
Proof. intros Hf s. simpl. apply Hf. Qed.

Lemma preserves_if {A} (b : bool) (m1 m2 : M S A) :
  preserves proj m1 -> preserves proj m2 -> preserves proj (if b then m1 else m2).
Proof. destruct b; auto. Qed.
End Preserves.

Section ReadOnly.
Context {St : Type} `{Host St}.

Lemma query_read_only {A} (f : St -> A) : preserves (@files_of St) (query f).
Proof. intros w. reflexivity. Qed.

Lemma query_result_read_only {A} (f : St -> result A) :
  preserves (@files_of St) (query_result f).
Proof. intros w. reflexivity. Qed.

Lemma print_read_only (m : message) : preserves (@files_of St) (print m).
Proof. intros w. reflexivity. Qed.

Lemma logging_read_only (r : log_record) : preserves (@files_of St) (logging r).
Proof. intros w. reflexivity. Qed.

Lemma on_world_read_only {A} (m : M (World St) A) :
  preserves (@files_of St) m -> preserves (@runner_files St) (on_world m).
Proof.
  intros Hm s. unfold on_world, runner_files. specialize (Hm (world s)).
  destruct (m (world s)) as [r w']. simpl in *. exact Hm.
Qed.

Lemma on_runner_read_only (f : Runner -> Runner) :
  preserves (@runner_files St) (on_runner f).
Proof. intros s. reflexivity. Qed.

Lemma parse_entries_read_only {D R} (parser : node D -> result R)
    (name_of : D -> option string) (l : list (node D)) :
  preserves (@files_of St) (parse_entries parser name_of l).
Proof.
  induction l as [|d l IH]; simpl.
  - apply preserves_ret.
  - destruct (parser d).
    + apply preserves_bind; [exact IH | intros; apply preserves_ret].
    + apply preserves_bind; [apply preserves_lift_result | intros shown].
      apply preserves_bind; [apply print_read_only | intros; exact IH].
Qed.

Lemma _load_rules_read_only {D R} rules_dir filename
    (load : St -> Path -> result (document D)) (parser : node D -> result R)
    name_of is_enabled :
  preserves (@files_of St)
    (_load_rules rules_dir filename load parser name_of is_enabled).
Proof.
  unfold _load_rules.
  apply preserves_bind; [apply query_result_read_only|]. intros present.
  apply preserves_if; [apply preserves_ret|].
  apply preserves_bind; [apply query_result_read_only|]. intros data.
  apply preserves_bind; [apply preserves_lift_result|]. intros entries.
  apply preserves_bind; [apply parse_entries_read_only|]. intros rules.
  apply preserves_ret.
Qed.

Lemma load_all_rules_read_only (rules_dir : Path) :
  preserves (@files_of St) (load_all_rules rules_dir).
Proof.
  unfold load_all_rules, load_move_rules, load_rename_rules,
    load_tag_rules, load_duplicate_rules.
  repeat (apply preserves_bind; [apply _load_rules_read_only | intros ?]).
  apply preserves_ret.
Qed.

Lemma append_operation_read_only (op : Operation) :
  preserves (@runner_files St) (append_operation op).
Proof. apply on_runner_read_only. Qed.

Lemma plan_matching_read_only (rule : Rule) (files : list Path)
    (plan : Path -> M (RState St) unit) :
  (forall f, preserves (@runner_files St) (plan f)) ->
  preserves (@runner_files St) (plan_matching rule files plan).
Proof.
  intros Hp. unfold plan_matching. apply preserves_for_each. intros f.
  apply preserves_bind.
  - apply on_world_read_only, query_result_read_only.
  - intros ok. apply preserves_if; [apply Hp | apply preserves_ret].
Qed.

Lemma _plan_move_operations_read_only (rule : Rule) :
  preserves (@runner_files St) (_plan_move_operations rule).
Proof.
  unfold _plan_move_operations.
  destruct (path (condition rule)) as [scope|]; [|apply preserves_ret].
  apply preserves_if; [apply preserves_ret|].
  apply preserves_bind.
  - apply on_world_read_only, query_result_read_only.
  - intros files. apply plan_matching_read_only. intros f.
    destruct (move (action rule)).
    + apply append_operation_read_only.
    + apply preserves_raise.
Qed.

Lemma plan_over_read_only scan_paths rule operation_type dets :
  preserves (@runner_files St) (plan_over scan_paths rule operation_type dets).
Proof.
  unfold plan_over. apply preserves_for_each. intros scan_path.
  apply preserves_bind.
  - apply on_world_read_only, query_result_read_only.
  - intros files. apply plan_matching_read_only. intros f.
    apply append_operation_read_only.
Qed.

Lemma _plan_duplicate_operations_read_only (rule : DuplicateRule) :
  preserves (@runner_files St) (_plan_duplicate_operations rule).
Proof.
  unfold _plan_duplicate_operations.
  apply preserves_bind; [apply on_world_read_only, query_result_read_only|].
  intros all_files.
  apply preserves_bind; [apply on_world_read_only, query_result_read_only|].
  intros duplicates. apply preserves_for_each. intros [|first rest].
  - apply preserves_raise.
  - apply append_operation_read_only.
Qed.

Lemma scan_and_plan_read_only : preserves (@runner_files St) scan_and_plan.
Proof.
  unfold scan_and_plan.
  apply preserves_bind; [apply on_runner_read_only | intros _].
  apply preserves_bind; [apply preserves_gets | intros dir].
  apply preserves_bind;
    [apply on_world_read_only, load_all_rules_read_only | intros rules].
  apply preserves_bind;
    [apply preserves_for_each; intros r;
     apply _plan_move_operations_read_only | intros _].
  apply preserves_bind;
    [apply preserves_for_each; intros r; apply plan_over_read_only
    | intros _].
  apply preserves_bind;
    [apply preserves_for_each; intros r; apply plan_over_read_only
    | intros _].
  apply preserves_bind;
    [apply preserves_for_each; intros r;
     apply _plan_duplicate_operations_read_only | intros _].
  apply preserves_gets.
Qed.
End ReadOnly.

(** ** C4: dry run and planning *)

(** C4. In dry-run mode [execute] returns the empty list, leaves the
    runner as it is and changes nothing of the world but the log, which
    gains the dry-run notice: the machine state is the same and no
    mutating call is made. Planning ([scan_and_plan]), however it ends,
    leaves the machine state and the trace of mutating calls as they
    were. *)
Theorem dry_run_and_planning_mutate_nothing :
  forall (St : Type) (H : Host St) (s : RState St),
    (dry_run (runner s) = true ->
       execute s
       = (PyOk [],
          MkRState (runner s)
            (MkWorld (os_state (world s)) (trace (world s))
                     (console (world s)) (log (world s) ++ [LogDryRun]))))
    /\ os_state (world (snd (scan_and_plan s))) = os_state (world s)
    /\ trace (world (snd (scan_and_plan s))) = trace (world s).
Proof.
  intros St H s. split.
  - intros Hdry. unfold execute, bind, gets. simpl. rewrite Hdry.
    reflexivity.
  - pose proof (scan_and_plan_read_only s) as Hro.
    unfold runner_files, files_of in Hro. inversion Hro. split; reflexivity.
Qed.

(** ** C5: execution *)

Local Open Scope list_scope.

Section Execute.
Context {St : Type} `{Host St}.





End Execute.


(** ** C7: what the planners scan *)

Section Planning.
Context {St : Type} `{Host St}.

Lemma matches_true_in_scope (st : St) (c : Condition) (f : Path) (scope : string) :
  matches st c f = PyOk true ->
  path c = Some scope -> scope <> ""%string ->
  startswith (path_str f) (expanduser scope) = true.
Proof.
  intros Hm Hp Hne. unfold matches in Hm.
  destruct (check_path c f) eqn:Ec; simpl in Hm; [|discriminate].
  unfold check_path in Ec. rewrite Hp in Ec.
  destruct scope; [contradiction|]. exact Ec.
Qed.

Lemma plans_nothing (s s' : RState St) :
  world s' = world s -> operations (runner s') = operations (runner s) ->
  plans s s' [].
Proof. intros Hw Ho. split; [exact Hw | rewrite app_nil_r; exact Ho]. Qed.

Lemma plans_trans (s s1 s2 : RState St) (new1 new2 : list Operation) :
  plans s s1 new1 -> plans s1 s2 new2 -> plans s s2 (new1 ++ new2).
Proof.
  intros [Hw1 Ho1] [Hw2 Ho2]. split.
  - congruence.
  - rewrite Ho2, Ho1, app_assoc. reflexivity.
Qed.

Lemma append_operation_plans (op : Operation) (s : RState St) :
  append_operation op s
  = (PyOk tt, snd (append_operation op s))
  /\ plans s (snd (append_operation op s)) [op].
Proof. repeat split. Qed.

Section Matching.
Variable rule : Rule.
Variable plan : Path -> M (RState St) unit.
Variable mk : Path -> Operation.
Variable P : Operation -> Prop.

Hypothesis plan_spec :
  forall (f : Path) (s : RState St),
  exists new,
    plans s (snd (plan f s)) new
    /\ Forall (fun op => source op = f /\ P op) new
    /\ (fst (plan f s) = PyOk tt -> new = [mk f]).

Lemma plan_matching_cons (f : Path) (files : list Path) (s : RState St) :
  plan_matching rule (f :: files) plan s
  = let s0 := MkRState (runner s) (world s) in
    match matches (os_state (world s)) (condition rule) f with
    | PyOk true =>
        match plan f s0 with
        | (PyOk _, s1) => plan_matching rule files plan s1
        | (PyRaise e, s1) => (PyRaise e, s1)
        end
    | PyOk false => plan_matching rule files plan s0
    | PyRaise e => (PyRaise e, s0)
    end.
Proof.
  unfold plan_matching. simpl for_each. unfold bind, on_world, query_result.
  destruct (matches (os_state (world s)) (condition rule) f) as [[|]|e];
    reflexivity.
Qed.

Lemma plan_matching_spec (files : list Path) :
  forall s : RState St,
  exists new,
    plans s (snd (plan_matching rule files plan s)) new
    /\ Forall (fun op =>
                 In (source op) files
                 /\ matches (os_state (world s)) (condition rule) (source op)
                    = PyOk true
                 /\ P op) new
    /\ (fst (plan_matching rule files plan s) = PyOk tt ->
        new = map mk (filter (matched (os_state (world s)) (condition rule))
                             files)).
Proof.
  induction files as [|f files IH]; intros s.
  - exists []. split; [apply plans_nothing; reflexivity|].
    split; [constructor | reflexivity].
  - rewrite plan_matching_cons. cbv zeta.
    set (s0 := MkRState (runner s) (world s)).
    assert (Hfilter :
              filter (matched (os_state (world s)) (condition rule)) (f :: files)
              = if matched (os_state (world s)) (condition rule) f
                then f :: filter (matched (os_state (world s)) (condition rule)) files
                else filter (matched (os_state (world s)) (condition rule)) files)
      by reflexivity.
    rewrite Hfilter. unfold matched at 1.
    destruct (matches (os_state (world s)) (condition rule) f)
      as [[|]|e] eqn:Em.
    + (* the file matches *)
      destruct (plan_spec f s0) as (new1 & Hp1 & Hall1 & Hret1).
      assert (Hfirst :
                Forall (fun op =>
                          In (source op) (f :: files)
                          /\ matches (os_state (world s)) (condition rule)
                                     (source op) = PyOk true
                          /\ P op) new1).
      { eapply Forall_impl; [|exact Hall1].
        intros op [Hsrc HP]. rewrite Hsrc.
        repeat split; [left; reflexivity | exact Em | exact HP]. }
      destruct (plan f s0) as [[[]|e] s1] eqn:Eplan.
      * destruct (IH s1) as (new2 & Hp2 & Hall2 & Hret2).
        assert (Hw : world s1 = world s) by exact (proj1 Hp1).
        rewrite Hw in Hall2, Hret2.
        exists (new1 ++ new2). split; [|split].
        -- eapply plans_trans; [|exact Hp2].
           destruct Hp1 as [Hw1 Ho1]. split; [exact Hw1 | exact Ho1].
        -- apply Forall_app. split; [exact Hfirst|].
           eapply Forall_impl; [|exact Hall2].
           intros op (Hin & Hm & HP). repeat split; auto. right; exact Hin.
        -- intros Hok. rewrite (Hret1 eq_refl), (Hret2 Hok). reflexivity.
      * exists new1. split; [|split].
        -- destruct Hp1 as [Hw1 Ho1]. split; [exact Hw1 | exact Ho1].
        -- exact Hfirst.
        -- discriminate.
    + (* the file does not match *)
      destruct (IH s0) as (new2 & Hp2 & Hall2 & Hret2).
      exists new2. split; [|split].
      * destruct Hp2 as [Hw Ho]. split; [exact Hw | exact Ho].
      * eapply Forall_impl; [|exact Hall2].
        intros op (Hin & Hm & HP). repeat split; auto. right; exact Hin.
      * exact Hret2.
    + (* [matches] raised *)
      exists []. split; [|split].
      * apply plans_nothing; reflexivity.
      * constructor.
      * discriminate.
Qed.
End Matching.

Lemma append_plan_spec (mk : Path -> Operation) (P : Operation -> Prop) :
  (forall f, source (mk f) = f /\ P (mk f)) ->
  forall (f : Path) (s : RState St),
  exists new,
    plans s (snd (append_operation (mk f) s)) new
    /\ Forall (fun op => source op = f /\ P op) new
    /\ (fst (append_operation (mk f) s) = PyOk tt -> new = [mk f]).
Proof.
  intros Hmk f s. exists [mk f]. split; [|split].
  - apply append_operation_plans.
  - constructor; [apply Hmk | constructor].
  - reflexivity.
Qed.

Lemma plan_over_cons rule operation_type dets scan_path scan_paths
    (s : RState St) :
  plan_over (scan_path :: scan_paths) rule operation_type dets s
  = match _scan_directory (os_state (world s)) scan_path with
    | PyOk files =>
        match
          plan_matching rule files
            (fun f => append_operation
                        (new_operation (name rule) operation_type f dets))
            (MkRState (runner s) (world s))
        with
        | (PyOk _, s1) => plan_over scan_paths rule operation_type dets s1
        | (PyRaise e, s1) => (PyRaise e, s1)
        end
    | PyRaise e => (PyRaise e, MkRState (runner s) (world s))
    end.
Proof.
  unfold plan_over. simpl for_each. unfold bind at 1. unfold bind at 1.
  unfold on_world, query_result.
  destruct (_scan_directory (os_state (world s)) scan_path); reflexivity.
Qed.

(** What a scan returns, in terms of the answers of the file system. *)
Lemma regular_items_ok (st : St) (regular : Path -> bool) (items : list Path) :
  (forall f, In f items -> is_file st f = PyOk (regular f)) ->
  regular_items st items None = PyOk (filter regular items).
Proof.
  induction items as [|f items IH]; intros Hf; simpl; [reflexivity|].
  rewrite (Hf f (or_introl eq_refl)). simpl.
  rewrite IH by (intros g Hg; apply Hf; right; exact Hg). simpl.
  destruct (regular f); reflexivity.
Qed.

Lemma regular_items_sound (st : St) (ending : option exn) (items : list Path) :
  forall files,
    regular_items st items ending = PyOk files ->
    ending = None
    /\ forall f, In f files -> is_file st f = PyOk true /\ In f items.
Proof.
  induction items as [|i items IH]; simpl; intros files Hr.
  - destruct ending; [discriminate|]. inversion Hr; subst.
    split; [reflexivity | intros f []].
  - destruct (is_file st i) as [regular|e] eqn:Ei; [|discriminate]. simpl in Hr.
    destruct (regular_items st items ending) as [rest|e] eqn:Er; [|discriminate].
    simpl in Hr. inversion Hr; subst. destruct (IH rest eq_refl) as [He Hrest].
    split; [exact He|]. intros f Hin.
    destruct regular.
    + destruct Hin as [<-|Hin]; [split; [exact Ei | left; reflexivity]|].
      destruct (Hrest f Hin). split; [assumption | right; assumption].
    + destruct (Hrest f Hin). split; [assumption | right; assumption].
Qed.

Lemma regular_items_raises (st : St) (ending : option exn) (items : list Path)
    (e : exn) :
  regular_items st items ending = PyRaise e ->
  ending = Some e \/ exists f, In f items /\ is_file st f = PyRaise e.
Proof.
  induction items as [|i items IH]; simpl; intros Hr.
  - destruct ending; [|discriminate]. inversion Hr; subst. left; reflexivity.
  - destruct (is_file st i) as [regular|e'] eqn:Ei; simpl in Hr.
    + destruct (regular_items st items ending) as [rest|e'] eqn:Er;
        simpl in Hr; [discriminate|].
      inversion Hr; subst. destruct (IH eq_refl) as [He|(f & Hin & Hf)].
      * left; exact He.
      * right. exists f. split; [right; exact Hin | exact Hf].
    + inversion Hr; subst. right. exists i. split; [left; reflexivity | exact Ei].
Qed.

Lemma _scan_directory_spec (st : St) (path : string) :
  let p := path_of_str (expanduser path) in
  (path_exists st p = PyOk false -> _scan_directory st path = PyOk [])
  /\ (path_exists st p = PyOk true -> is_file st p = PyOk true ->
      _scan_directory st path = PyOk [p])
  /\ (forall (items : list Path) (regular : Path -> bool),
        path_exists st p = PyOk true -> is_file st p = PyOk false ->
        rglob st p = (items, None) ->
        (forall f, In f items -> is_file st f = PyOk (regular f)) ->
        _scan_directory st path = PyOk (filter regular items))
  /\ (forall files,
        _scan_directory st path = PyOk files ->
        forall f, In f files ->
          is_file st f = PyOk true /\ (f = p \/ In f (fst (rglob st p))))
  /\ (forall e,
        _scan_directory st path = PyRaise e ->
        path_exists st p = PyRaise e \/ is_file st p = PyRaise e
        \/ (path_exists st p = PyOk true /\ is_file st p = PyOk false
            /\ (snd (rglob st p) = Some e
                \/ exists f, In f (fst (rglob st p))
                             /\ is_file st f = PyRaise e))).
Proof.
  intros p. unfold _scan_directory. fold p.
  split; [|split; [|split; [|split]]].
  - intros Hex. rewrite Hex. reflexivity.
  - intros Hex Hf. rewrite Hex. simpl. rewrite Hf. reflexivity.
  - intros items regular Hex Hf Hg Hitems. rewrite Hex. simpl. rewrite Hf. simpl.
    rewrite Hg. apply regular_items_ok. exact Hitems.
  - intros files Hs f Hin.
    destruct (path_exists st p) as [[|]|e] eqn:Hex; simpl in Hs;
      [| inversion Hs; subst; destruct Hin | discriminate].
    destruct (is_file st p) as [[|]|e] eqn:Hf; simpl in Hs; [| |discriminate].
    + inversion Hs; subst. destruct Hin as [<-|[]].
      split; [exact Hf | left; reflexivity].
    + destruct (rglob st p) as [items ending].
      destruct (regular_items_sound st ending items files Hs) as [_ Hall].
      destruct (Hall f Hin). split; [assumption | right; assumption].
  - intros e Hs.
    destruct (path_exists st p) as [[|]|e'] eqn:Hex; simpl in Hs;
      [| discriminate | inversion Hs; subst; left; reflexivity].
    destruct (is_file st p) as [[|]|e'] eqn:Hf; simpl in Hs;
      [discriminate | | inversion Hs; subst; right; left; reflexivity].
    right. right. split; [reflexivity|]. split; [reflexivity|].
    destruct (rglob st p) as [items ending].
    exact (regular_items_raises st ending items e Hs).
Qed.

Lemma scan_all_three (st : St) (a b c : string) (files : list Path) :
  scan_all st [a; b; c] = PyOk files ->
  exists fa fb fc,
    _scan_directory st a = PyOk fa /\ _scan_directory st b = PyOk fb
    /\ _scan_directory st c = PyOk fc /\ files = fa ++ fb ++ fc.
Proof.
  cbn [scan_all].
  destruct (_scan_directory st a) as [fa|]; [|discriminate].
  destruct (_scan_directory st b) as [fb|]; [|discriminate].
  destruct (_scan_directory st c) as [fc|]; [|discriminate].
  simpl. intros Hf. inversion Hf. exists fa, fb, fc.
  rewrite app_nil_r. repeat split.
Qed.

Lemma plan_over_spec (rule : Rule) (operation_type : string) (dets : pydict)
    (scan_paths : list string) :
  forall s : RState St,
  exists new,
    plans s (snd (plan_over scan_paths rule operation_type dets s)) new
    /\ Forall (fun op =>
                 (exists scan_path files,
                     In scan_path scan_paths
                     /\ _scan_directory (os_state (world s)) scan_path
                        = PyOk files
                     /\ In (source op) files)
                 /\ matches (os_state (world s)) (condition rule) (source op)
                    = PyOk true
                 /\ op = new_operation (name rule) operation_type
                                       (source op) dets) new
    /\ (fst (plan_over scan_paths rule operation_type dets s) = PyOk tt ->
        exists files,
          scan_all (os_state (world s)) scan_paths = PyOk files
          /\ map source new
             = filter (matched (os_state (world s)) (condition rule)) files).
Proof.
  pose (mk := fun f => new_operation (name rule) operation_type f dets).
  induction scan_paths as [|scan_path scan_paths IH]; intros s.
  - exists []. split; [apply plans_nothing; reflexivity|].
    split; [constructor|]. intros _. exists []. split; reflexivity.
  - rewrite plan_over_cons.
    set (s0 := MkRState (runner s) (world s)).
    destruct (_scan_directory (os_state (world s)) scan_path)
      as [files|e] eqn:Escan.
    2:{ exists []. split; [apply plans_nothing; reflexivity|].
        split; [constructor | discriminate]. }
    set (plan := fun f => append_operation
                            (new_operation (name rule) operation_type f dets)).
    destruct (plan_matching_spec rule plan mk
                (fun op => op = mk (source op))
                (append_plan_spec mk _ (fun f => conj eq_refl eq_refl))
                files s0)
      as (new1 & Hp1 & Hall1 & Hret1).
    change (world s0) with (world s) in Hall1, Hret1.
    assert (Hfirst :
              Forall (fun op =>
                        (exists scan_path' files',
                            In scan_path' (scan_path :: scan_paths)
                            /\ _scan_directory (os_state (world s)) scan_path'
                               = PyOk files'
                            /\ In (source op) files')
                        /\ matches (os_state (world s)) (condition rule)
                                   (source op) = PyOk true
                        /\ op = mk (source op)) new1).
    { eapply Forall_impl; [|exact Hall1].
      intros op (Hin & Hm & HP). repeat split; auto.
      exists scan_path, files. repeat split; auto. left; reflexivity. }
    destruct (plan_matching rule files plan s0) as [[[]|e] s1].
    + destruct (IH s1) as (new2 & Hp2 & Hall2 & Hret2).
      assert (Hw : world s1 = world s) by exact (proj1 Hp1).
      rewrite Hw in Hall2, Hret2.
      exists (new1 ++ new2). split; [|split].
      * eapply plans_trans; [|exact Hp2].
        destruct Hp1 as [Hw1 Ho1]. split; [exact Hw1 | exact Ho1].
      * apply Forall_app. split; [exact Hfirst|].
        eapply Forall_impl; [|exact Hall2].
        intros op ((sp & fs & Hsp & Hfs & Hin) & Hm & HP). repeat split; auto.
        exists sp, fs. repeat split; auto. right; exact Hsp.
      * intros Hok. destruct (Hret2 Hok) as (more & Hmore & Hsrc).
        exists (files ++ more). split.
        -- simpl. rewrite Escan. simpl. rewrite Hmore. reflexivity.
        -- rewrite map_app, filter_app, Hsrc.
           rewrite (Hret1 eq_refl), map_map.
           change (fun x => source (mk x)) with (fun x : Path => x).
           rewrite map_id. reflexivity.
    + exists new1. split; [|split].
      * destruct Hp1 as [Hw1 Ho1]. split; [exact Hw1 | exact Ho1].
      * exact Hfirst.
      * discriminate.
Qed.

Lemma _plan_move_operations_scoped (rule : Rule) (scope : string)
    (s : RState St) :
  path (condition rule) = Some scope -> scope <> ""%string ->
  _plan_move_operations rule s
  = match _scan_directory (os_state (world s)) scope with
    | PyOk files =>
        plan_matching rule files
          (fun file_path =>
             match move (action rule) with
             | Some m =>
                 append_operation
                   (new_operation (name rule) "move" file_path
                                  (move_details rule (expanduser m)))
             | None =>
                 raise (Exn TypeError
                          "expected str, bytes or os.PathLike object, not NoneType")
             end)
          (MkRState (runner s) (world s))
    | PyRaise e => (PyRaise e, MkRState (runner s) (world s))
    end.
Proof.
  intros Hpath Hne. unfold _plan_move_operations. rewrite Hpath.
  destruct scope as [|a scope]; [contradiction|].
  change (negb (truthy (String a scope))) with false. cbv iota.
  unfold bind at 1. unfold on_world, query_result.
  destruct (_scan_directory (os_state (world s)) (String a scope)); reflexivity.
Qed.

Lemma _plan_move_operations_spec (rule : Rule) (scope : string)
    (files : list Path) :
  path (condition rule) = Some scope -> scope <> ""%string ->
  forall s : RState St,
  _scan_directory (os_state (world s)) scope = PyOk files ->
  exists new,
    plans s (snd (_plan_move_operations rule s)) new
    /\ Forall (fun op =>
                 operation_type op = "move"%string
                 /\ In (source op) files
                 /\ startswith (path_str (source op)) (expanduser scope) = true)
              new
    /\ (fst (_plan_move_operations rule s) = PyOk tt ->
        map source new
        = filter (matched (os_state (world s)) (condition rule)) files).
Proof.
  intros Hpath Hne s Hscan.
  rewrite (_plan_move_operations_scoped rule scope s Hpath Hne), Hscan.
  set (s0 := MkRState (runner s) (world s)).
  destruct (move (action rule)) as [m|] eqn:Emove.
  - set (mk := fun f => new_operation (name rule) "move" f
                          (move_details rule (expanduser m))).
    destruct (plan_matching_spec rule (fun f => append_operation (mk f)) mk
                (fun op => operation_type op = "move"%string)
                (append_plan_spec mk _ (fun f => conj eq_refl eq_refl))
                files s0)
      as (new & Hp & Hall & Hret).
    change (world s0) with (world s) in Hall, Hret.
    exists new. split; [|split].
    + destruct Hp as [Hw Ho]. split; [exact Hw | exact Ho].
    + eapply Forall_impl; [|exact Hall].
      intros op (Hin & Hm & HP). repeat split; auto.
      eapply matches_true_in_scope; eauto.
    + intros Hok. rewrite (Hret Hok), map_map.
      change (fun x => source (mk x)) with (fun x : Path => x).
      apply map_id.
  - (* no destination: the first matching file raises *)
    set (mk := fun f => new_operation (name rule) "move" f []).
    assert (Hraise :
              forall (f : Path) (s1 : RState St),
              exists new,
                plans s1
                  (snd (raise (A := unit)
                          (Exn TypeError
                             "expected str, bytes or os.PathLike object, not NoneType")
                          s1)) new
                /\ Forall (fun op => source op = f /\ False) new
                /\ (fst (raise (A := unit)
                           (Exn TypeError
                              "expected str, bytes or os.PathLike object, not NoneType")
                           s1) = PyOk tt -> new = [mk f])).
    { intros f s1. exists []. split; [|split].
      - apply plans_nothing; reflexivity.
      - constructor.
      - discriminate. }
    destruct (plan_matching_spec rule _ mk (fun op => False) Hraise files s0)
      as (new & Hp & Hall & Hret).
    change (world s0) with (world s) in Hall, Hret.
    exists new. split; [|split].
    + destruct Hp as [Hw Ho]. split; [exact Hw | exact Ho].
    + eapply Forall_impl; [|exact Hall].
      intros op (Hin & Hm & HP). contradiction.
    + intros Hok. rewrite (Hret Hok), map_map.
      change (fun x => source (mk x)) with (fun x : Path => x).
      apply map_id.
Qed.

Lemma _plan_move_operations_scan_raises (rule : Rule) (scope : string)
    (e : exn) (s : RState St) :
  path (condition rule) = Some scope -> scope <> ""%string ->
  _scan_directory (os_state (world s)) scope = PyRaise e ->
  _plan_move_operations rule s = (PyRaise e, s).
Proof.
  intros Hpath Hne Hscan.
  rewrite (_plan_move_operations_scoped rule scope s Hpath Hne), Hscan.
  destruct s; reflexivity.
Qed.
End Planning.

(** C7. A move rule whose condition has no path (unset, or the empty
    text) plans nothing: the state is returned as it is. A move rule with
    a path scans that path and nothing else: if the scan raises, so does
    the planner, with nothing planned; otherwise it plans only for files
    that the scan returned, whose text starts with the expanded path, and
    when the planner returns, the planned sources are exactly the scanned
    files that match. A rename rule and a tag rule plan over the scans of
    the three fixed directories, which do not depend on the rule, filtered
    by the rule's condition. Planning leaves the world as it is and only
    appends operations.

    A scan of a path is, in terms of the answers of the file system:
    nothing when the expanded path does not exist; the path itself when
    it is a regular file; otherwise the paths that [rglob] yields for
    which [is_file] answers true, in the order yielded. Every path that a
    scan returns is such a regular file. A scan raises only what
    [exists], [is_file] or the listing raised. *)
Theorem planners_scan_scope :
  forall (St : Type) (H : Host St) (rule : Rule) (s : RState St),
    ((path (condition rule) = None \/ path (condition rule) = Some ""%string) ->
       _plan_move_operations rule s = (PyOk tt, s))
    /\ (forall scope : string,
          path (condition rule) = Some scope -> scope <> ""%string ->
          (forall e,
              _scan_directory (os_state (world s)) scope = PyRaise e ->
              _plan_move_operations rule s = (PyRaise e, s))
          /\ (forall files,
                _scan_directory (os_state (world s)) scope = PyOk files ->
                exists new,
                  plans s (snd (_plan_move_operations rule s)) new
                  /\ Forall (fun op =>
                               operation_type op = "move"%string
                               /\ In (source op) files
                               /\ startswith (path_str (source op))
                                             (expanduser scope) = true) new
                  /\ (fst (_plan_move_operations rule s) = PyOk tt ->
                      map source new
                      = filter (matched (os_state (world s)) (condition rule))
                               files)))
    /\ (exists new,
          plans s (snd (_plan_rename_operations rule s)) new
          /\ Forall (fun op =>
                       (exists scan_path files,
                           In scan_path
                              ["~/Downloads"; "~/Documents"; "~/Desktop"]%string
                           /\ _scan_directory (os_state (world s)) scan_path
                              = PyOk files
                           /\ In (source op) files)
                       /\ matches (os_state (world s)) (condition rule) (source op)
                          = PyOk true
                       /\ op = new_operation (name rule) "rename" (source op)
                                             (rename_details rule)) new
          /\ (fst (_plan_rename_operations rule s) = PyOk tt ->
              exists downloads documents desktop,
                _scan_directory (os_state (world s)) "~/Downloads"
                = PyOk downloads
                /\ _scan_directory (os_state (world s)) "~/Documents"
                   = PyOk documents
                /\ _scan_directory (os_state (world s)) "~/Desktop"
                   = PyOk desktop
                /\ map source new
                   = filter (matched (os_state (world s)) (condition rule))
                            (downloads ++ documents ++ desktop)))
    /\ (exists new,
          plans s (snd (_plan_tag_operations rule s)) new
          /\ Forall (fun op =>
                       (exists scan_path files,
                           In scan_path
                              ["~/Downloads"; "~/Documents"; "~/Desktop"]%string
                           /\ _scan_directory (os_state (world s)) scan_path
                              = PyOk files
                           /\ In (source op) files)
                       /\ matches (os_state (world s)) (condition rule) (source op)
                          = PyOk true
                       /\ op = new_operation (name rule) "tag" (source op)
                                             (or_default (tag (action rule)) []))
                    new
          /\ (fst (_plan_tag_operations rule s) = PyOk tt ->
              exists downloads documents desktop,
                _scan_directory (os_state (world s)) "~/Downloads"
                = PyOk downloads
                /\ _scan_directory (os_state (world s)) "~/Documents"
                   = PyOk documents
                /\ _scan_directory (os_state (world s)) "~/Desktop"
                   = PyOk desktop
                /\ map source new
                   = filter (matched (os_state (world s)) (condition rule))
                            (downloads ++ documents ++ desktop)))
    /\ (forall (st : St) (path : string),
          let p := path_of_str (expanduser path) in
          (path_exists st p = PyOk false -> _scan_directory st path = PyOk [])
          /\ (path_exists st p = PyOk true -> is_file st p = PyOk true ->
              _scan_directory st path = PyOk [p])
          /\ (forall (items : list Path) (regular : Path -> bool),
                path_exists st p = PyOk true -> is_file st p = PyOk false ->
                rglob st p = (items, None) ->
                (forall f, In f items -> is_file st f = PyOk (regular f)) ->
                _scan_directory st path = PyOk (filter regular items))
          /\ (forall files,
                _scan_directory st path = PyOk files ->
                forall f, In f files ->
                  is_file st f = PyOk true
                  /\ (f = p \/ In f (fst (rglob st p))))
          /\ (forall e,
                _scan_directory st path = PyRaise e ->
                path_exists st p = PyRaise e \/ is_file st p = PyRaise e
                \/ (path_exists st p = PyOk true /\ is_file st p = PyOk false
                    /\ (snd (rglob st p) = Some e
                        \/ exists f, In f (fst (rglob st p))
                                     /\ is_file st f = PyRaise e)))).
Proof.
  intros St H rule s. split; [|split; [|split; [|split]]].
  - intros [Hp|Hp]; unfold _plan_move_operations; rewrite Hp; reflexivity.
  - intros scope Hp Hne. split.
    + intros e He. apply (_plan_move_operations_scan_raises rule scope); assumption.
    + intros files Hf. apply (_plan_move_operations_spec rule scope); assumption.
  - destruct (plan_over_spec rule "rename" (rename_details rule)
                            rename_scan_paths s) as (new & Hp & Hall & Hret).
    exists new. split; [exact Hp|]. split; [exact Hall|].
    intros Hok. destruct (Hret Hok) as (files & Hscan & Hmap).
    destruct (scan_all_three _ _ _ _ _ Hscan)
      as (fa & fb & fc & Ha & Hb & Hc & ->).
    exists fa, fb, fc. repeat split; assumption.
  - destruct (plan_over_spec rule "tag" (or_default (tag (action rule)) [])
                            rename_scan_paths s) as (new & Hp & Hall & Hret).
    exists new. split; [exact Hp|]. split; [exact Hall|].
    intros Hok. destruct (Hret Hok) as (files & Hscan & Hmap).
    destruct (scan_all_three _ _ _ _ _ Hscan)
      as (fa & fb & fc & Ha & Hb & Hc & ->).
    exists fa, fb, fc. repeat split; assumption.
  - intros st path. apply _scan_directory_spec.
Qed.

(** ** C8: renaming *)

Lemma list_eqb_refl {A} (eqb : A -> A -> bool) (l : list A) :
  (forall x, eqb x x = true) -> list_eqb eqb l l = true.
Proof.
  intros Hr. induction l as [|x l IH]; simpl; [reflexivity|].
  rewrite Hr, IH. reflexivity.
Qed.

Lemma list_eqb_app {A} (eqb : A -> A -> bool) (l x y : list A) :
  (forall a, eqb a a = true) ->
  list_eqb eqb (l ++ x) (l ++ y) = list_eqb eqb x y.
Proof.
  intros Hr. induction l as [|a l IH]; simpl; [reflexivity|].
  rewrite Hr, IH. reflexivity.
Qed.

Lemma path_eqb_refl (p : Path) : path_eqb p p = true.
Proof.
  unfold path_eqb. rewrite Bool.eqb_reflx, list_eqb_refl; [reflexivity|].
  apply String.eqb_refl.
Qed.

Lemma path_name_last (a : bool) (dir : list string) (n : string) :
  path_name (MkPath a (dir ++ [n])) = n.
Proof. unfold path_name. simpl. apply last_last. Qed.

Lemma path_parent_last (a : bool) (dir : list string) (n : string) :
  path_parent (MkPath a (dir ++ [n])) = MkPath a dir.
Proof. unfold path_parent. simpl. rewrite removelast_last. reflexivity. Qed.

Lemma split_on_absent (sep : ascii) (n : string) :
  mem_char sep n = false -> split_on sep n = [n].
Proof.
  induction n as [|c t IH]; cbn [mem_char split_on]; [reflexivity|].
  intros Hm. apply orb_false_iff in Hm. destruct Hm as [Hc Ht].
  rewrite Ascii.eqb_sym in Hc. rewrite Hc, (IH Ht). reflexivity.
Qed.

Lemma startswith_absent (sep : ascii) (n : string) :
  mem_char sep n = false -> startswith n (String sep "") = false.
Proof.
  destruct n as [|c t]; cbn [mem_char startswith]; [reflexivity|].
  intros Hm. apply orb_false_iff in Hm. destruct Hm as [Hc _].
  rewrite Ascii.eqb_sym in Hc. rewrite Hc. reflexivity.
Qed.

Lemma path_join_component (a : bool) (dir : list string) (n : string) :
  is_component n = true ->
  path_join (MkPath a dir) n = MkPath a (dir ++ [n]).
Proof.
  unfold is_component. intros Hn. apply andb_true_iff in Hn.
  destruct Hn as [Hreal Hslash]. apply negb_true_iff in Hslash.
  unfold path_join, path_of_str.
  rewrite (split_on_absent "/" n Hslash), (startswith_absent "/" n Hslash).
  cbn [filter]. rewrite Hreal. reflexivity.
Qed.

(** The scenario, in any directory. *)
Lemma new_path_of_vacation (a : bool) (dir : list string) :
  Renamer.new_path_of (MkPath a (dir ++ ["vacation.png"%string]))
                      None (Some "IMG"%string) None "-"
  = PyOk (MkPath a (dir ++ ["IMG-vacation.png"%string])).
Proof.
  unfold Renamer.new_path_of, Renamer.new_name_of, path_stem, path_suffix.
  rewrite path_name_last, path_parent_last.
  vm_compute. reflexivity.
Qed.

(** C8. Renaming a file named vacation.png with prefix "IMG" and separator
    "-" computes the name IMG-vacation.png in the same directory and asks
    the file system for exactly that rename; when the call succeeds the
    new path is returned. Whenever the computed path equals the current
    one, and so whenever the computed file name is the current file
    name, [rename] returns the path and leaves the world, trace included,
    as it was: no rename call is made. *)
Theorem rename_scenario_and_no_op :
  forall (St : Type) (H : Host St) (w : World St),
    (forall (a : bool) (dir : list string),
        let file_path := MkPath a (dir ++ ["vacation.png"%string]) in
        let new_path := MkPath a (dir ++ ["IMG-vacation.png"%string]) in
        path_exists (os_state w) file_path = PyOk true ->
        Renamer.new_path_of file_path None (Some "IMG"%string) None "-"
        = PyOk new_path
        /\ path_name new_path = "IMG-vacation.png"%string
        /\ trace (snd (Renamer.rename file_path None (Some "IMG"%string) None "-" w))
           = trace w ++ [SysRename file_path new_path]
        /\ (forall st',
              os_rename file_path new_path (os_state w) = (PyOk tt, st') ->
              Renamer.rename file_path None (Some "IMG"%string) None "-" w
              = (PyOk new_path,
                 MkWorld st' (trace w ++ [SysRename file_path new_path])
                         (console w) (log w))))
    /\ (forall (file_path : Path) (replace prefix suffix : option string)
               (separator : string),
          path_exists (os_state w) file_path = PyOk true ->
          Renamer.new_path_of file_path replace prefix suffix separator
          = PyOk file_path ->
          Renamer.rename file_path replace prefix suffix separator w
          = (PyOk file_path, w))
    /\ (forall (a : bool) (dir : list string) (n : string)
               (replace prefix suffix : option string) (separator : string),
          is_component n = true ->
          path_exists (os_state w) (MkPath a (dir ++ [n])) = PyOk true ->
          Renamer.new_name_of (MkPath a (dir ++ [n]))
                              replace prefix suffix separator
          = PyOk n ->
          Renamer.rename (MkPath a (dir ++ [n]))
                         replace prefix suffix separator w
          = (PyOk (MkPath a (dir ++ [n])), w)).
Proof.
  intros St H w. split.
  - intros a dir file_path new_path Hex.
    assert (Hne : path_eqb new_path file_path = false).
    { unfold path_eqb, new_path, file_path. simpl.
      rewrite Bool.eqb_reflx, list_eqb_app by apply String.eqb_refl.
      reflexivity. }
    split; [apply new_path_of_vacation|].
    split; [apply path_name_last|].
    assert (Hrun :
              Renamer.rename file_path None (Some "IMG"%string) None "-" w
              = bind (sys_rename file_path new_path) (fun _ => ret new_path) w).
    { pose proof (new_path_of_vacation a dir) as Hnew.
      fold file_path new_path in Hnew.
      unfold Renamer.rename, bind, query_result, lift_result.
      rewrite Hex. simpl negb. cbv iota. rewrite Hnew, Hne. reflexivity. }
    rewrite Hrun. unfold bind, sys_rename, syscall_run. split.
    + destruct (os_rename file_path new_path (os_state w)) as [[[]|e] st'];
        reflexivity.
    + intros st' Hos. rewrite Hos. reflexivity.
  - assert (Hnoop :
              forall file_path replace prefix suffix separator,
                path_exists (os_state w) file_path = PyOk true ->
                Renamer.new_path_of file_path replace prefix suffix separator
                = PyOk file_path ->
                Renamer.rename file_path replace prefix suffix separator w
                = (PyOk file_path, w)).
    { intros file_path replace prefix suffix separator Hex Hnew.
      unfold Renamer.rename, bind, query_result, lift_result.
      rewrite Hex, Hnew. simpl. rewrite path_eqb_refl. reflexivity. }
    split; [exact Hnoop|].
    intros a dir n replace prefix suffix separator Hn Hex Hname.
    apply Hnoop; [exact Hex|].
    unfold Renamer.new_path_of. rewrite Hname. simpl rbind.
    rewrite path_parent_last, (path_join_component a dir n Hn). reflexivity.
Qed.

(** ** C2: duplicate groups *)

Section Grouping.
Import Deduplicator.

Lemma group_of_add (key k : string) (p : Path) groups :
  group_of key (group_add k p groups)
  = if String.eqb k key then group_of key groups ++ [p]
    else group_of key groups.
Proof.
  induction groups as [|[k' paths] rest IH]; simpl.
  - destruct (String.eqb k key); reflexivity.
  - destruct (String.eqb_spec k' k) as [->|Hne]; simpl.
    + destruct (String.eqb k key); reflexivity.
    + rewrite IH. destruct (String.eqb_spec k' key) as [->|Hne'].
      * destruct (String.eqb_spec k key) as [->|_]; [contradiction|reflexivity].
      * reflexivity.
Qed.

Lemma group_of_in (key : string) groups :
  group_of key groups <> [] -> In (group_of key groups) (map snd groups).
Proof.
  induction groups as [|[k paths] rest IH]; simpl; intros Hne.
  - contradiction.
  - destruct (String.eqb k key); [left; reflexivity | right; auto].
Qed.

Lemma more_than_one_sound groups g :
  In g (more_than_one groups) -> (2 <= List.length g)%nat.
Proof.
  unfold more_than_one. intros Hin. apply filter_In in Hin.
  destruct Hin as [_ Hlen]. apply Nat.ltb_lt in Hlen. lia.
Qed.

Lemma more_than_one_complete (key : string) groups :
  (2 <= List.length (group_of key groups))%nat ->
  In (group_of key groups) (more_than_one groups).
Proof.
  intros Hlen. unfold more_than_one. apply filter_In. split.
  - apply group_of_in. intros E. rewrite E in Hlen. simpl in Hlen. lia.
  - apply Nat.ltb_lt. lia.
Qed.

Context {St : Type} `{Host St}.
Variable st : St.







End Grouping.


(** The same filter guards the grouping by name. *)
Lemma name_duplicates_have_two (files : list Path) (g : list Path) :
  In g (Deduplicator._find_by_name files) -> (2 <= List.length g)%nat.
Proof. apply more_than_one_sound. Qed.

(** ** C3: the keep policy *)

Section KeepPolicy.
Import Deduplicator.
Context {St : Type} `{Host St}.
Variable st : St.
Variable info : Path -> stat_result.

Lemma mtimes_ok (l : list Path) :
  (forall p, In p l -> stat st p = PyOk (info p)) ->
  mtimes st l = PyOk (keyed info l).
Proof.
  induction l as [|p l IH]; intros Hs; simpl; [reflexivity|].
  rewrite (Hs p (or_introl eq_refl)). simpl.
  rewrite IH by (intros q Hq; apply Hs; right; exact Hq).
  reflexivity.
Qed.

Lemma max_by_key_spec (l : list Path) :
  forall best : Path,
    let k := max_by_key best (st_mtime (info best)) (keyed info l) in
    In k (best :: l)
    /\ forall p, In p (best :: l) -> st_mtime (info p) <= st_mtime (info k).
Proof.
  induction l as [|q l IH]; intros best; simpl.
  - split; [left; reflexivity|]. intros p [<-|[]]. lia.
  - destruct (st_mtime (info best) <? st_mtime (info q)) eqn:E.
    + apply Z.ltb_lt in E. destruct (IH q) as [Hin Hmax]. split.
      * right. exact Hin.
      * intros p [<-|Hp]; [|apply Hmax; exact Hp].
        pose proof (Hmax q (or_introl eq_refl)). lia.
    + apply Z.ltb_ge in E. destruct (IH best) as [Hin Hmax]. split.
      * destruct Hin as [<-|Hin]; [left; reflexivity | right; right; exact Hin].
      * intros p [<-|[<-|Hp]].
        -- apply Hmax. left; reflexivity.
        -- pose proof (Hmax best (or_introl eq_refl)). lia.
        -- apply Hmax. right; exact Hp.
Qed.

Lemma min_by_key_spec (l : list Path) :
  forall best : Path,
    let k := min_by_key best (st_mtime (info best)) (keyed info l) in
    In k (best :: l)
    /\ forall p, In p (best :: l) -> st_mtime (info k) <= st_mtime (info p).
Proof.
  induction l as [|q l IH]; intros best; simpl.
  - split; [left; reflexivity|]. intros p [<-|[]]. lia.
  - destruct (st_mtime (info q) <? st_mtime (info best)) eqn:E.
    + apply Z.ltb_lt in E. destruct (IH q) as [Hin Hmin]. split.
      * right. exact Hin.
      * intros p [<-|Hp]; [|apply Hmin; exact Hp].
        pose proof (Hmin q (or_introl eq_refl)). lia.
    + apply Z.ltb_ge in E. destruct (IH best) as [Hin Hmin]. split.
      * destruct Hin as [<-|Hin]; [left; reflexivity | right; right; exact Hin].
      * intros p [<-|[<-|Hp]].
        -- apply Hmin. left; reflexivity.
        -- pose proof (Hmin best (or_introl eq_refl)). lia.
        -- apply Hmin. right; exact Hp.
Qed.

(** The first member whose [stat] raises ends the reading of the
    times. *)
Lemma mtimes_raises (pre post : list Path) (p : Path) (e : exn) :
  (forall q, In q pre -> exists s, stat st q = PyOk s) ->
  stat st p = PyRaise e ->
  mtimes st (pre ++ p :: post) = PyRaise e.
Proof.
  intros Hpre Hp. induction pre as [|q pre IH]; simpl.
  - rewrite Hp. reflexivity.
  - destruct (Hpre q (or_introl eq_refl)) as [sq ->]. simpl.
    rewrite IH by (intros r Hr; apply Hpre; right; exact Hr). reflexivity.
Qed.

Lemma select_keep_newest (group : list Path) :
  group <> [] ->
  (forall p, In p group -> stat st p = PyOk (info p)) ->
  exists k,
    select_keep st group (VStr "newest") = PyOk k
    /\ In k group
    /\ forall p, In p group -> st_mtime (info p) <= st_mtime (info k).
Proof.
  intros Hne Hs. unfold select_keep. simpl pyval_eq_str. cbv iota.
  rewrite (mtimes_ok group Hs).
  destruct group as [|p rest]; [contradiction|]. simpl.
  eexists. split; [reflexivity|]. apply max_by_key_spec.
Qed.

Lemma select_keep_oldest (group : list Path) :
  group <> [] ->
  (forall p, In p group -> stat st p = PyOk (info p)) ->
  exists k,
    select_keep st group (VStr "oldest") = PyOk k
    /\ In k group
    /\ forall p, In p group -> st_mtime (info k) <= st_mtime (info p).
Proof.
  intros Hne Hs. unfold select_keep. simpl pyval_eq_str. cbv iota.
  rewrite (mtimes_ok group Hs).
  destruct group as [|p rest]; [contradiction|]. simpl.
  eexists. split; [reflexivity|]. apply min_by_key_spec.
Qed.
End KeepPolicy.

(** C3, in the form that holds. For a group of at least two files whose
    [stat] succeeds: with keep "newest" the file chosen is a member whose
    modification time no member exceeds, with "oldest" one that no member
    precedes; with "first" it is the first element, whatever the state of
    the file system (no time is read). The chosen file is passed over by
    the disposal loop, which is all that [handle_duplicates] then runs.
    When [stat] raises for a member, "newest" and "oldest" choose no
    file: the first such exception is raised, and [handle_duplicates]
    raises it with the world as it was. For a group of fewer than two
    files [handle_duplicates] returns at once and the world is as it
    was. *)
Theorem keep_policy_selects :
  forall (St : Type) (H : Host St) (w : World St) (group : list Path)
         (tag_duplicates : bool) (duplicate_label : pyval),
    (forall info : Path -> stat_result,
        (2 <= List.length group)%nat ->
        (forall p, In p group -> stat (os_state w) p = PyOk (info p)) ->
        (exists k,
            Deduplicator.select_keep (os_state w) group (VStr "newest") = PyOk k
            /\ In k group
            /\ forall p, In p group -> st_mtime (info p) <= st_mtime (info k))
        /\ (exists k,
               Deduplicator.select_keep (os_state w) group (VStr "oldest") = PyOk k
               /\ In k group
               /\ forall p, In p group -> st_mtime (info k) <= st_mtime (info p)))
    /\ (forall (st : St) (first : Path) (rest : list Path),
          group = first :: rest ->
          Deduplicator.select_keep st group (VStr "first") = PyOk first)
    /\ (forall (keep : pyval) (k : Path),
          (2 <= List.length group)%nat ->
          Deduplicator.select_keep (os_state w) group keep = PyOk k ->
          Deduplicator.handle_duplicates group keep tag_duplicates
                                         duplicate_label w
          = for_each group
              (Deduplicator.dispose k tag_duplicates duplicate_label) w
          /\ forall w', Deduplicator.dispose k tag_duplicates duplicate_label k w'
                        = (PyOk tt, w'))
    /\ (forall (pre post : list Path) (p : Path) (e : exn),
          group = pre ++ p :: post ->
          (forall q, In q pre -> exists s, stat (os_state w) q = PyOk s) ->
          stat (os_state w) p = PyRaise e ->
          Deduplicator.select_keep (os_state w) group (VStr "newest")
          = PyRaise e
          /\ Deduplicator.select_keep (os_state w) group (VStr "oldest")
             = PyRaise e)
    /\ (forall (keep : pyval) (e : exn),
          (2 <= List.length group)%nat ->
          Deduplicator.select_keep (os_state w) group keep = PyRaise e ->
          Deduplicator.handle_duplicates group keep tag_duplicates
                                         duplicate_label w
          = (PyRaise e, w))
    /\ (forall keep : pyval,
          (List.length group < 2)%nat ->
          Deduplicator.handle_duplicates group keep tag_duplicates
                                         duplicate_label w
          = (PyOk tt, w)).
Proof.
  intros St H w group tag_duplicates duplicate_label.
  split; [|split; [|split; [|split; [|split]]]].
  - intros info Hlen Hstat.
    assert (Hne : group <> []) by (destruct group; [simpl in Hlen; lia | discriminate]).
    split.
    + apply select_keep_newest; assumption.
    + apply select_keep_oldest; assumption.
  - intros st first rest ->. reflexivity.
  - intros keep k Hlen Hsel. split.
    + unfold Deduplicator.handle_duplicates.
      destruct (Nat.ltb_spec (List.length group) 2) as [Hlt|_]; [lia|].
      unfold bind, query_result. rewrite Hsel. reflexivity.
    + intros w'. unfold Deduplicator.dispose. rewrite path_eqb_refl.
      reflexivity.
  - intros pre post p e -> Hpre Hp. unfold Deduplicator.select_keep.
    simpl pyval_eq_str. cbv iota.
    rewrite (mtimes_raises (os_state w) pre post p e Hpre Hp).
    split; reflexivity.
  - intros keep e Hlen Hsel. unfold Deduplicator.handle_duplicates.
    destruct (Nat.ltb_spec (List.length group) 2) as [Hlt|_]; [lia|].
    unfold bind, query_result. rewrite Hsel. reflexivity.
  - intros keep Hlen. unfold Deduplicator.handle_duplicates.
    destruct (Nat.ltb_spec (List.length group) 2) as [_|Hge]; [reflexivity | lia].
Qed.

(** ** C6: a move that carries a tag *)

Section TagCalls.
Context {St : Type} `{Host St}.

Lemma tags_only_pure {A} (m : M (World St) A) :
  (forall w, trace (snd (m w)) = trace w) -> tags_only m.
Proof.
  intros Hm w. exists []. rewrite app_nil_r. split; [apply Hm | constructor].
Qed.

Lemma tags_only_bind {A B} (m : M (World St) A) (k : A -> M (World St) B) :
  tags_only m -> (forall a, tags_only (k a)) -> tags_only (bind m k).
Proof.
  intros Hm Hk w. unfold bind. destruct (Hm w) as (c1 & E1 & F1).
  destruct (m w) as [[a|e] w1]; simpl in *.
  - destruct (Hk a w1) as (c2 & E2 & F2).
    exists (c1 ++ c2). rewrite E2, E1, app_assoc.
    split; [reflexivity | apply Forall_app; split; assumption].
  - exists c1. split; assumption.
Qed.

Lemma tags_only_try_except {A} (m : M (World St) A)
    (h : exn -> M (World St) A) :
  tags_only m -> (forall e, tags_only (h e)) -> tags_only (try_except m h).
Proof.
  intros Hm Hh w. unfold try_except. destruct (Hm w) as (c1 & E1 & F1).
  destruct (m w) as [[a|e] w1]; simpl in *.
  - exists c1. split; assumption.
  - destruct (Hh e w1) as (c2 & E2 & F2).
    exists (c1 ++ c2). rewrite E2, E1, app_assoc.
    split; [reflexivity | apply Forall_app; split; assumption].
Qed.

Lemma tags_only_syscall {A} (c : syscall) (f : St -> result A * St) :
  is_tag_call c -> tags_only (syscall_run c f).
Proof.
  intros Hc w. exists [c]. unfold syscall_run.
  destruct (f (os_state w)). simpl. split; [reflexivity|].
  constructor; [exact Hc | constructor].
Qed.

Lemma add_tag_tags_only (file_path : Path) (color label : pyval) :
  tags_only (Tagger.add_tag file_path color label).
Proof.
  unfold Tagger.add_tag. destruct is_macos; simpl.
  2:{ apply tags_only_pure. reflexivity. }
  apply tags_only_bind; [apply tags_only_pure; reflexivity|].
  intros present. destruct present; simpl.
  2:{ apply tags_only_pure. reflexivity. }
  apply tags_only_bind; [apply tags_only_pure; reflexivity|].
  intros ctags.
  destruct (ctags ++ (if pyval_truthy label then [label] else [])).
  { apply tags_only_pure. reflexivity. }
  apply tags_only_try_except.
  - apply tags_only_bind; [apply tags_only_pure; reflexivity|].
    intros strs.
    apply tags_only_bind; [apply tags_only_syscall; exact I|].
    intros returncode.
    apply tags_only_bind; [|intros; apply tags_only_pure; reflexivity].
    destruct (negb (returncode =? 0)).
    + unfold Tagger._add_tag_osascript.
      apply tags_only_bind; [apply tags_only_pure; reflexivity|].
      intros abs_path. apply tags_only_syscall. exact I.
    + apply tags_only_pure. reflexivity.
  - intros e. apply tags_only_pure. reflexivity.
Qed.

Lemma add_tag_kwargs_tags_only (file_path : Path) (kw : pydict) :
  tags_only (Tagger.add_tag_kwargs file_path kw).
Proof.
  unfold Tagger.add_tag_kwargs.
  destruct (Tagger.bind_kwargs kw VNone VNone) as [[color label]|e].
  - apply add_tag_tags_only.
  - apply tags_only_pure. reflexivity.
Qed.

Lemma _execute_move_steps (op : Operation) (d : string) (kw : pydict)
    (w w0 : World St) :
  dict_find (details op) "destination" = Some (VStr d) ->
  dict_get (details op) "tag" = VDict kw -> kw <> [] ->
  prepare_destination op (path_of_str d) w = (PyOk tt, w0) ->
  _execute_move op w
  = match Mover.move (source op) (path_of_str d) w0 with
    | (PyOk _, w1) =>
        match Tagger.add_tag_kwargs (source op) kw w1 with
        | (PyOk _, w2) => (PyOk tt, w2)
        | (PyRaise e, w2) => (PyRaise e, w2)
        end
    | (PyRaise e, w1) => (PyRaise e, w1)
    end.
Proof.
  intros Hd Ht Hkw Hprep. unfold _execute_move, details_item.
  rewrite Hd, Ht. unfold bind at 1. unfold lift_result. simpl rbind.
  cbv iota beta. unfold bind at 1.
  unfold prepare_destination in Hprep. rewrite Hprep.
  unfold bind at 1.
  destruct (Mover.move (source op) (path_of_str d) w0) as [[p|e] w1];
    [|reflexivity].
  destruct kw as [|entry kw]; [contradiction|].
  change (pyval_truthy (VDict (entry :: kw))) with true. cbv iota.
  unfold bind.
  destruct (Tagger.add_tag_kwargs (source op) (entry :: kw) w1)
    as [[b|e] w2]; reflexivity.
Qed.
End TagCalls.

(** C6, in the form that holds. For a move operation that carries a tag,
    once the destination directory is prepared:
    - if the relocation ([Mover.move]) raises, the operation ends there
      with that exception, in the world the relocation left: the tag is
      not attempted;
    - if the relocation returns, the tag call runs next, and from then on
      the only mutating calls are tag-setting ones: nothing moves the file
      back;
    - if the tag call returns, whatever it returns ([False] reports a tag
      that was not set), the operation succeeds and its success flag is
      set;
    - if the tag call raises, the operation ends with that exception: the
      success flag is cleared and the error text stored, the relocation
      standing as it is. A tag mapping that does not bind to the
      parameters of [add_tag] raises in this way. *)
Theorem move_then_tag :
  forall (St : Type) (H : Host St) (op : Operation) (d : string) (kw : pydict)
         (w w0 : World St),
    operation_type op = "move"%string ->
    dict_find (details op) "destination" = Some (VStr d) ->
    dict_get (details op) "tag" = VDict kw -> kw <> [] ->
    prepare_destination op (path_of_str d) w = (PyOk tt, w0) ->
    (forall e w1,
        Mover.move (source op) (path_of_str d) w0 = (PyRaise e, w1) ->
        dispatch op w = (PyRaise e, w1))
    /\ (forall p w1,
          Mover.move (source op) (path_of_str d) w0 = (PyOk p, w1) ->
          snd (dispatch op w) = snd (Tagger.add_tag_kwargs (source op) kw w1)
          /\ (exists calls,
                 trace (snd (dispatch op w)) = trace w1 ++ calls
                 /\ Forall is_tag_call calls)
          /\ (forall b w2,
                 Tagger.add_tag_kwargs (source op) kw w1 = (PyOk b, w2) ->
                 dispatch op w = (PyOk tt, w2)
                 /\ forall o, success (flag_outcome (fst (dispatch op w)) o) = true)
          /\ (forall e w2,
                 Tagger.add_tag_kwargs (source op) kw w1 = (PyRaise e, w2) ->
                 dispatch op w = (PyRaise e, w2)
                 /\ forall o,
                     success (flag_outcome (fst (dispatch op w)) o) = false
                     /\ error (flag_outcome (fst (dispatch op w)) o)
                        = Some (exn_msg e))
          /\ (forall e,
                 Tagger.bind_kwargs kw VNone VNone = PyRaise e ->
                 Tagger.add_tag_kwargs (source op) kw w1 = (PyRaise e, w1))).
Proof.
  intros St H op d kw w w0 Hty Hd Ht Hkw Hprep.
  assert (Hdisp : dispatch op w = _execute_move op w).
  { unfold dispatch. rewrite Hty. reflexivity. }
  rewrite Hdisp, (_execute_move_steps op d kw w w0 Hd Ht Hkw Hprep).
  split.
  - intros e w1 Hmv. rewrite Hmv. reflexivity.
  - intros p w1 Hmv. rewrite Hmv.
    destruct (add_tag_kwargs_tags_only (source op) kw w1) as (calls & Etr & Fc).
    destruct (Tagger.add_tag_kwargs (source op) kw w1) as [[b|e] w2] eqn:Etag;
      simpl in Etr.
    + split; [reflexivity|]. split; [exists calls; split; assumption|].
      split; [|split].
      * intros b' w2' Heq. inversion Heq; subst. split; reflexivity.
      * intros e w2' Heq. discriminate.
      * intros e Hb. unfold Tagger.add_tag_kwargs in Etag. rewrite Hb in Etag.
        discriminate.
    + split; [reflexivity|]. split; [exists calls; split; assumption|].
      split; [|split].
      * intros b w2' Heq. discriminate.
      * intros e' w2' Heq. inversion Heq; subst. repeat split; reflexivity.
      * intros e' Hb. unfold Tagger.add_tag_kwargs in Etag. rewrite Hb in Etag.
        unfold raise in Etag. inversion Etag; subst. reflexivity.
Qed.

(** C6 as the specification words it does not hold. The file /in/a.txt
    is moved to /out with the tag mapping [{"colour": "red"}]: the
    relocation is done (the file is at /out/a.txt and no longer at
    /in/a.txt), the tag call raises [TypeError], and the move operation is
    reported as failed. The same move without a tag is reported as
    successful: the failure of the tag sub-step did change the move's
    success flag. *)
Lemma tag_failure_marks_move_failed :
  path_exists
    (os_state (world (snd (execute
       (Samples.runner_for false
          [Samples.move_with_tag [("colour"%string, VStr "red")]])))))
    (path_of_str "/out/a.txt") = PyOk true
  /\ path_exists
       (os_state (world (snd (execute
          (Samples.runner_for false
             [Samples.move_with_tag [("colour"%string, VStr "red")]])))))
       (path_of_str "/in/a.txt") = PyOk false
  /\ map (fun o => (executed o, success o))
         (operations (runner (snd (execute
            (Samples.runner_for false
               [Samples.move_with_tag [("colour"%string, VStr "red")]])))))
     = [(true, false)]
  /\ map (fun o => (executed o, success o))
         (operations (runner (snd (execute
            (Samples.runner_for false [Samples.move_with_tag []])))))
     = [(true, true)].
Proof. vm_compute. repeat split. Qed.


(** C3 as the specification words it does not hold for every group. The
    group of /in/a.txt and /in/gone.txt, a file that is no longer there,
    has two members; with keep "newest" no file is chosen:
    [handle_duplicates] raises [FileNotFoundError] and leaves the world as
    it was. *)
Lemma keep_newest_fails_on_a_missing_member :
  let group := [path_of_str "/in/a.txt"; path_of_str "/in/gone.txt"] in
  (2 <= List.length group)%nat
  /\ ~ (exists k,
          Deduplicator.select_keep Samples.inbox group (VStr "newest") = PyOk k)
  /\ Deduplicator.handle_duplicates group (VStr "newest") false VNone
       (MemHost.fresh Samples.inbox)
     = (PyRaise MemHost.no_such_file, MemHost.fresh Samples.inbox).
Proof.
  cbv zeta. split; [simpl; lia|]. split.
  - intros (k & Hk). vm_compute in Hk. discriminate Hk.
  - vm_compute. reflexivity.
Qed.

(** ** The statements above at concrete inputs *)

Lemma sample_files_answer :
  forall f,
    In f [path_of_str "/in/a.txt"; path_of_str "/in/b.txt";
          path_of_str "/in/c.txt"] ->
    exists b, is_file Samples.inbox f = PyOk b.
Proof. intros f [<-|[<-|[<-|[]]]]; eexists; reflexivity. Defined.


Lemma sample_stats :
  forall p, In p Samples.group_ab ->
            stat Samples.inbox p = PyOk (Samples.info_of p).
Proof. intros p [<-|[<-|[]]]; reflexivity. Defined.

Lemma keep_policy_selects_witness :
  (exists k,
      Deduplicator.select_keep Samples.inbox Samples.group_ab (VStr "newest")
      = PyOk k
      /\ In k Samples.group_ab
      /\ forall p, In p Samples.group_ab ->
                   st_mtime (Samples.info_of p) <= st_mtime (Samples.info_of k))
  /\ (exists k,
         Deduplicator.select_keep Samples.inbox Samples.group_ab (VStr "oldest")
         = PyOk k
         /\ In k Samples.group_ab
         /\ forall p, In p Samples.group_ab ->
                      st_mtime (Samples.info_of k) <= st_mtime (Samples.info_of p)).
Proof.
  exact (proj1 (keep_policy_selects MemHost.state MemHost.host
                  (MemHost.fresh Samples.inbox) Samples.group_ab false VNone)
               Samples.info_of (le_n 2) sample_stats).
Defined.

Example newest_of_sample_is_b :
  Deduplicator.select_keep Samples.inbox Samples.group_ab (VStr "newest")
  = PyOk (path_of_str "/in/b.txt")
  /\ Deduplicator.select_keep Samples.inbox Samples.group_ab (VStr "oldest")
     = PyOk (path_of_str "/in/a.txt")
  /\ Deduplicator.select_keep Samples.inbox (rev Samples.group_ab) (VStr "first")
     = PyOk (path_of_str "/in/b.txt").
Proof. vm_compute. repeat split. Qed.

(** The scenario of the specification: a.txt, b.txt, c.txt with the same
    content and modification times 10:00, 10:05, 10:02; keeping the newest
    keeps b.txt and disposes of a.txt and c.txt. *)
Example newest_of_three_keeps_b :
  let st := MemHost.machine
              [MemHost.file "/d/a.txt" "x" 1000; MemHost.file "/d/b.txt" "x" 1005;
               MemHost.file "/d/c.txt" "x" 1002] in
  let group := [path_of_str "/d/a.txt"; path_of_str "/d/b.txt";
                path_of_str "/d/c.txt"] in
  let w' := snd (Deduplicator.handle_duplicates group (VStr "newest") false VNone
                   (MemHost.fresh st)) in
  trace w' = [SysFinderTrash (path_of_str "/d/a.txt");
              SysFinderTrash (path_of_str "/d/c.txt")]
  /\ map MemHost.e_path (MemHost.entries (os_state w')) = [path_of_str "/d/b.txt"].
Proof. vm_compute. repeat split. Qed.

Lemma dry_run_and_planning_mutate_nothing_witness :
  execute (Samples.runner_for true [Samples.move_with_tag []])
  = (PyOk [],
     MkRState (runner (Samples.runner_for true [Samples.move_with_tag []]))
       (MkWorld Samples.inbox [] [] [LogDryRun])).
Proof.
  exact (proj1 (dry_run_and_planning_mutate_nothing MemHost.state MemHost.host
                  (Samples.runner_for true [Samples.move_with_tag []]))
               eq_refl).
Defined.


(** Two operations of which the first fails: the second one still runs,
    and there is one result for each. *)
Example failure_does_not_stop_the_batch :
  let missing := new_operation "r" "rename" (path_of_str "/in/zzz.txt")
                   [("prefix"%string, VStr "X"); ("separator"%string, VStr "-")] in
  let present := new_operation "r" "rename" (path_of_str "/in/c.txt")
                   [("prefix"%string, VStr "X"); ("separator"%string, VStr "-")] in
  let s' := snd (execute (Samples.runner_for false [missing; present])) in
  map (fun o => (executed o, success o, error o)) (operations (runner s'))
  = [(true, false, Some "File not found: /in/zzz.txt"%string);
     (true, true, None)]
  /\ map operation (results (runner s')) = [0%nat; 1%nat]
  /\ trace (world s')
     = [SysRename (path_of_str "/in/c.txt") (path_of_str "/in/X-c.txt")].
Proof. vm_compute. repeat split. Qed.

Lemma move_then_tag_witness :
  exists calls,
    trace (snd (dispatch (Samples.move_with_tag [("color"%string, VStr "red")])
                         (MemHost.fresh Samples.inbox)))
    = trace (snd (Mover.move (path_of_str "/in/a.txt") (path_of_str "/out")
                             (MemHost.fresh Samples.inbox)))
      ++ calls
    /\ Forall is_tag_call calls.
Proof.
  refine (proj1 (proj2 (proj2 (move_then_tag MemHost.state MemHost.host
            (Samples.move_with_tag [("color"%string, VStr "red")])
            "/out" [("color"%string, VStr "red")]
            (MemHost.fresh Samples.inbox) (MemHost.fresh Samples.inbox)
            eq_refl eq_refl eq_refl _ eq_refl)
          (path_of_str "/out/a.txt")
          (snd (Mover.move (path_of_str "/in/a.txt") (path_of_str "/out")
                           (MemHost.fresh Samples.inbox)))
          eq_refl))).
  intros E. discriminate E.
Defined.

Lemma sample_items_are_regular :
  forall f, In f [Samples.vacation; Samples.notes] ->
            is_file Samples.downloads f = PyOk true.
Proof. intros f [<-|[<-|[]]]; reflexivity. Defined.

Lemma planners_scan_scope_witness :
  _scan_directory Samples.downloads "~/Downloads"
  = PyOk [Samples.vacation; Samples.notes]
  /\ exists new,
       plans Samples.planning
             (snd (_plan_move_operations Samples.png_rule Samples.planning)) new
       /\ Forall (fun op =>
                    operation_type op = "move"%string
                    /\ In (source op) [Samples.vacation; Samples.notes]
                    /\ startswith (path_str (source op))
                                  (expanduser "~/Downloads") = true) new
       /\ (fst (_plan_move_operations Samples.png_rule Samples.planning)
           = PyOk tt ->
           map source new
           = filter (matched Samples.downloads (condition Samples.png_rule))
                    [Samples.vacation; Samples.notes]).
Proof.
  pose proof (planners_scan_scope MemHost.state MemHost.host
                Samples.png_rule Samples.planning)
    as (_ & Hmove & _ & _ & Hscan).
  assert (Hfiles : _scan_directory Samples.downloads "~/Downloads"
                   = PyOk [Samples.vacation; Samples.notes]).
  { destruct (Hscan Samples.downloads "~/Downloads"%string)
      as (_ & _ & Hlist & _).
    exact (Hlist [Samples.vacation; Samples.notes] (fun _ => true)
                 eq_refl eq_refl eq_refl sample_items_are_regular). }
  split; [exact Hfiles|].
  assert (Hne : "~/Downloads"%string <> ""%string) by discriminate.
  exact (proj2 (Hmove "~/Downloads"%string eq_refl Hne)
               [Samples.vacation; Samples.notes] Hfiles).
Defined.

Example move_rule_plans_the_png :
  map (fun op => (operation_type op, path_str (source op)))
      (operations (runner (snd (_plan_move_operations Samples.png_rule
                                  Samples.planning))))
  = [("move"%string, "/home/user/Downloads/vacation.png"%string)].
Proof. vm_compute. reflexivity. Qed.

Lemma rename_scenario_and_no_op_witness :
  (Renamer.new_path_of (path_of_str "/home/user/Downloads/vacation.png")
                       None (Some "IMG"%string) None "-"
   = PyOk (path_of_str "/home/user/Downloads/IMG-vacation.png")
   /\ trace (snd (Renamer.rename
                    (path_of_str "/home/user/Downloads/vacation.png")
                    None (Some "IMG"%string) None "-"
                    (MemHost.fresh Samples.downloads)))
      = [SysRename (path_of_str "/home/user/Downloads/vacation.png")
                   (path_of_str "/home/user/Downloads/IMG-vacation.png")])
  /\ Renamer.rename (path_of_str "/home/user/Downloads/notes.txt")
                    None None None "-" (MemHost.fresh Samples.downloads)
     = (PyOk (path_of_str "/home/user/Downloads/notes.txt"),
        MemHost.fresh Samples.downloads)
  /\ Renamer.rename (path_of_str "/home/user/Downloads/notes.txt")
                    None None None "_" (MemHost.fresh Samples.downloads)
     = (PyOk (path_of_str "/home/user/Downloads/notes.txt"),
        MemHost.fresh Samples.downloads).
Proof.
  pose proof (rename_scenario_and_no_op MemHost.state MemHost.host
                (MemHost.fresh Samples.downloads))
    as (Hscenario & Hnoop & Hname).
  split; [|split].
  - destruct (Hscenario true ["home"; "user"; "Downloads"]%string eq_refl)
      as (Hnew & _ & Htrace & _).
    split; [exact Hnew | exact Htrace].
  - exact (Hnoop (path_of_str "/home/user/Downloads/notes.txt")
                 None None None "-"%string eq_refl eq_refl).
  - exact (Hname true ["home"; "user"; "Downloads"]%string "notes.txt"%string
                 None None None "_"%string eq_refl eq_refl eq_refl).
Defined.

(* ================================================================= *)
(** * Further properties of the code *)

(** ** [parse_size]: what it raises, letter case and padding *)

Lemma py_float_raises (s : string) (e : exn) :
  py_float s = PyRaise e -> is_ValueError e = true.
Proof.
  unfold py_float. destruct (opt_sign (strip_by is_c_space s)) as [neg body].
  destruct (_ || _)%bool; [discriminate|].
  destruct (String.eqb _ _); [discriminate|].
  destruct (float_number body) as [[[d e10] [|c r]]|]; intros Hr;
    inversion Hr; reflexivity.
Qed.

Lemma py_int_raises (s : string) (e : exn) :
  py_int s = PyRaise e -> is_ValueError e = true.
Proof.
  unfold py_int. destruct (opt_sign (strip_by is_c_space s)) as [neg body].
  destruct (digitpart body) as [[ds [|c r]]|]; intros Hr;
    inversion Hr; reflexivity.
Qed.

Lemma int_of_float_raises (f : pyfloat) (e : exn) :
  int_of_float f = PyRaise e ->
  is_ValueError e = true
  \/ (e = float_overflow /\ exists neg, f = FInf neg).
Proof.
  destruct f as [m x|neg|]; simpl; intros Hr; inversion Hr.
  - right. split; [reflexivity | exists neg; reflexivity].
  - left. reflexivity.
Qed.

(** One turn of the loop of [parse_size]: [return], [break], or an
    exception that is not a [ValueError]. *)
Lemma parse_size_turn (text : string) (multiplier : Z) :
  match
    rbind (py_float text)
          (fun f => int_of_float (float_mul_int f multiplier))
  with
  | PyOk _ => True
  | PyRaise e =>
      is_ValueError e = true
      \/ (e = float_overflow
          /\ exists f neg,
               py_float text = PyOk f
               /\ float_mul_int f multiplier = FInf neg)
  end.
Proof.
  destruct (py_float text) as [f|e] eqn:Ef; simpl.
  - destruct (int_of_float (float_mul_int f multiplier)) as [n|e] eqn:Ei;
      [exact I|].
    destruct (int_of_float_raises _ _ Ei) as [Hv|[He [neg Hn]]].
    + left. exact Hv.
    + right. split; [exact He|]. exists f, neg. split; [reflexivity | exact Hn].
  - left. exact (py_float_raises _ _ Ef).
Qed.

Lemma parse_size_loop_raises (s : string) (us : list (string * Z)) (e : exn) :
  parse_size_loop s us = PyRaise e -> e = float_overflow.
Proof.
  induction us as [|[unit multiplier] rest IH]; simpl; [discriminate|].
  destruct (endswith s unit); [|exact IH].
  pose proof (parse_size_turn (drop_last (String.length unit) s) multiplier)
    as Hturn.
  destruct (rbind _ _) as [n|e']; [discriminate|].
  destruct Hturn as [Hv|[He _]].
  - rewrite Hv. discriminate.
  - subst e'. simpl. intros Hr. inversion Hr. reflexivity.
Qed.

Lemma parse_size_raises (s : string) (e : exn) :
  parse_size s = PyRaise e -> e = float_overflow.
Proof.
  unfold parse_size. intros Hr.
  destruct (parse_size_loop (upper (strip s)) units) as [[n|]|e'] eqn:El.
  - discriminate.
  - destruct (py_int (upper (strip s))) as [n|e'] eqn:Ei; [discriminate|].
    rewrite (py_int_raises _ _ Ei) in Hr. discriminate.
  - inversion Hr. subst e'. exact (parse_size_loop_raises _ _ _ El).
Qed.

Lemma endswith_tail (s u : string) (c : ascii) :
  endswith s (String c u) = true -> endswith s u = true.
Proof.
  induction s as [|d t IH]; intros He.
  - simpl in He. discriminate.
  - cbn [endswith] in He. apply orb_true_iff in He. destruct He as [He|He].
    + apply String.eqb_eq in He. inversion He. subst.
      cbn [endswith]. apply orb_true_iff. right. apply endswith_refl.
    + cbn [endswith]. apply orb_true_iff. right. exact (IH He).
Qed.

(** X1. [parse_size] raises exactly when the text, stripped and
    upper-cased, ends in "B" and what stands before it is read by [float]
    as a value whose product with 1 is an infinity ("inf", "-Infinity",
    "1e999"); the exception is then the [OverflowError] of [int]. In
    every other case it returns. *)
Theorem parse_size_raises_exactly_on_infinities :
  forall (s : string) (e : exn),
    parse_size s = PyRaise e
    <-> (e = float_overflow
         /\ endswith (upper (strip s)) "B" = true
         /\ exists f neg,
              py_float (drop_last 1 (upper (strip s))) = PyOk f
              /\ float_mul_int f 1 = FInf neg).
Proof.
  intros s e. split.
  - intros Hr. pose proof (parse_size_raises s e Hr) as He. subst e.
    split; [reflexivity|].
    unfold parse_size in Hr. set (t := upper (strip s)) in *.
    destruct (endswith t "B") eqn:EB.
    + split; [reflexivity|].
      unfold units in Hr. cbn [parse_size_loop] in Hr. rewrite EB in Hr.
      change (String.length "B") with 1%nat in Hr.
      pose proof (parse_size_turn (drop_last 1 t) 1) as Hturn.
      destruct (rbind _ _) as [n|e']; [discriminate|].
      destruct Hturn as [Hv|[_ Hf]]; [|exact Hf].
      rewrite Hv in Hr.
      destruct (py_int t) as [n|e''] eqn:Ei; [discriminate|].
      rewrite (py_int_raises _ _ Ei) in Hr. discriminate.
    + exfalso.
      assert (Hno : forall c, endswith t (String c "B") = false).
      { intros c. destruct (endswith t (String c "B")) eqn:Ec; [|reflexivity].
        rewrite (endswith_tail _ _ _ Ec) in EB. discriminate. }
      unfold units in Hr. cbn [parse_size_loop] in Hr.
      rewrite EB, !Hno in Hr.
      destruct (py_int t) as [n|e''] eqn:Ei; [discriminate|].
      rewrite (py_int_raises _ _ Ei) in Hr. discriminate.
  - intros (He & EB & f & neg & Hf & Hinf). subst e.
    unfold parse_size, units. cbn [parse_size_loop]. rewrite EB.
    change (String.length "B") with 1%nat. rewrite Hf. simpl rbind.
    rewrite Hinf. reflexivity.
Qed.

Example parse_size_raises_on_large_exponent :
  parse_size " 1e999 b" = PyRaise float_overflow.
Proof. vm_compute. reflexivity. Qed.

Lemma map_str_lstrip (p : ascii -> bool) (f : ascii -> ascii) (s : string) :
  (forall c, p (f c) = p c) ->
  lstrip_by p (map_str f s) = map_str f (lstrip_by p s).
Proof.
  intros Hp. induction s as [|c t IH]; cbn [map_str lstrip_by]; [reflexivity|].
  rewrite Hp. destruct (p c); [exact IH | reflexivity].
Qed.

Lemma map_str_rstrip (p : ascii -> bool) (f : ascii -> ascii) (s : string) :
  (forall c, p (f c) = p c) ->
  rstrip_by p (map_str f s) = map_str f (rstrip_by p s).
Proof.
  intros Hp. induction s as [|c t IH]; cbn [map_str rstrip_by]; [reflexivity|].
  rewrite IH, Hp.
  destruct (rstrip_by p t) as [|d r]; cbn [map_str]; [|reflexivity].
  destruct (p c); reflexivity.
Qed.

Lemma map_str_strip (p : ascii -> bool) (f : ascii -> ascii) (s : string) :
  (forall c, p (f c) = p c) ->
  strip_by p (map_str f s) = map_str f (strip_by p s).
Proof.
  intros Hp. unfold strip_by.
  rewrite map_str_lstrip, map_str_rstrip by exact Hp. reflexivity.
Qed.

Lemma map_str_twice (f g h : ascii -> ascii) (s : string) :
  (forall c, f (g c) = h c) -> map_str f (map_str g s) = map_str h s.
Proof.
  intros Hc. induction s as [|c t IH]; cbn [map_str]; [reflexivity|].
  rewrite Hc, IH. reflexivity.
Qed.

Lemma upper_char_upper (c : ascii) : upper_char (upper_char c) = upper_char c.
Proof. destruct c as [[] [] [] [] [] [] [] []]; reflexivity. Qed.

Lemma upper_char_lower (c : ascii) : upper_char (lower_char c) = upper_char c.
Proof. destruct c as [[] [] [] [] [] [] [] []]; reflexivity. Qed.

Lemma lower_char_upper (c : ascii) : lower_char (upper_char c) = lower_char c.
Proof. destruct c as [[] [] [] [] [] [] [] []]; reflexivity. Qed.

Lemma lower_char_lower (c : ascii) : lower_char (lower_char c) = lower_char c.
Proof. destruct c as [[] [] [] [] [] [] [] []]; reflexivity. Qed.

Lemma is_space_upper (c : ascii) : is_space (upper_char c) = is_space c.
Proof. destruct c as [[] [] [] [] [] [] [] []]; reflexivity. Qed.

Lemma is_space_lower (c : ascii) : is_space (lower_char c) = is_space c.
Proof. destruct c as [[] [] [] [] [] [] [] []]; reflexivity. Qed.

Lemma lstrip_head (p : ascii -> bool) (s : string) :
  lstrip_by p s = ""%string
  \/ exists c t, lstrip_by p s = String c t /\ p c = false.
Proof.
  induction s as [|c t IH]; cbn [lstrip_by]; [left; reflexivity|].
  destruct (p c) eqn:Ec; [exact IH|].
  right. exists c, t. split; [reflexivity | exact Ec].
Qed.

Lemma rstrip_keeps_head (p : ascii -> bool) (c : ascii) (t : string) :
  p c = false -> exists r, rstrip_by p (String c t) = String c r.
Proof.
  intros Hc. cbn [rstrip_by]. rewrite Hc.
  destruct (rstrip_by p t) as [|d r]; eexists; reflexivity.
Qed.

Lemma rstrip_rstrip (p : ascii -> bool) (s : string) :
  rstrip_by p (rstrip_by p s) = rstrip_by p s.
Proof.
  induction s as [|c t IH]; cbn [rstrip_by]; [reflexivity|].
  destruct (rstrip_by p t) as [|d r] eqn:Er.
  - destruct (p c) eqn:Ec; cbn [rstrip_by]; [reflexivity|].
    rewrite Ec. reflexivity.
  - cbn [rstrip_by]. cbn [rstrip_by] in IH. rewrite IH. reflexivity.
Qed.

Lemma strip_strip (p : ascii -> bool) (s : string) :
  strip_by p (strip_by p s) = strip_by p s.
Proof.
  unfold strip_by.
  assert (Hl : lstrip_by p (rstrip_by p (lstrip_by p s))
               = rstrip_by p (lstrip_by p s)).
  { destruct (lstrip_head p s) as [->|(c & t & -> & Hc)]; [reflexivity|].
    destruct (rstrip_keeps_head p c t Hc) as [r ->].
    cbn [lstrip_by]. rewrite Hc. reflexivity. }
  rewrite Hl. apply rstrip_rstrip.
Qed.

(** X2. [parse_size] reads its text without regard to letter case and to
    surrounding whitespace: the lower-cased, the upper-cased and the
    stripped text all parse (or fail) exactly as the text itself. *)
Theorem parse_size_ignores_case_and_padding :
  forall s : string,
    parse_size (lower s) = parse_size s
    /\ parse_size (upper s) = parse_size s
    /\ parse_size (strip s) = parse_size s.
Proof.
  intros s.
  assert (Hlow : upper (strip (lower s)) = upper (strip s)).
  { unfold upper, lower, strip.
    rewrite (map_str_strip is_space lower_char s is_space_lower).
    apply map_str_twice, upper_char_lower. }
  assert (Hup : upper (strip (upper s)) = upper (strip s)).
  { unfold upper, strip.
    rewrite (map_str_strip is_space upper_char s is_space_upper).
    apply map_str_twice, upper_char_upper. }
  assert (Hst : upper (strip (strip s)) = upper (strip s)).
  { unfold strip. rewrite strip_strip. reflexivity. }
  unfold parse_size. rewrite Hlow, Hup, Hst. repeat split.
Qed.

(** ** [parse_condition], [parse_rule] *)

Lemma parse_size_field_raises (o : option size_data) (e : exn) :
  parse_size_field o = PyRaise e ->
  exists s, o = Some (SizeStr s) /\ parse_size s = PyRaise e.
Proof.
  destruct o as [[n|s]|]; simpl; try discriminate.
  destruct (parse_size s) as [n|e'] eqn:Es; simpl; [discriminate|].
  intros Hr. inversion Hr. subst e'. exists s. split; [reflexivity | exact Es].
Qed.

Lemma parse_size_field_plain (o : option size_data) :
  is_text o = false -> exists n, parse_size_field o = PyOk n.
Proof.
  destruct o as [[n|s]|]; simpl; intros Ht;
    [eexists; reflexivity | discriminate | eexists; reflexivity].
Qed.

Lemma parse_condition_raises (data : node cond_data) (e : exn) :
  parse_condition data = PyRaise e ->
  (exists v, data = NotMapping v /\ e = no_get v)
  \/ (e = float_overflow
      /\ exists cd s,
           data = Mapping cd
           /\ (cd_size_gt cd = Some (SizeStr s)
               \/ cd_size_lt cd = Some (SizeStr s))
           /\ parse_size s = PyRaise e).
Proof.
  destruct data as [cd|v]; unfold parse_condition; simpl.
  - destruct (parse_size_field (cd_size_gt cd)) as [gt|e1] eqn:Eg; simpl.
    + destruct (parse_size_field (cd_size_lt cd)) as [lt|e2] eqn:El; simpl;
        [discriminate|].
      intros Hr. inversion Hr. subst e2.
      destruct (parse_size_field_raises _ _ El) as (s & Hs & Hp).
      right. split; [exact (parse_size_raises s e Hp)|].
      exists cd, s. repeat split; [right; exact Hs | exact Hp].
    + intros Hr. inversion Hr. subst e1.
      destruct (parse_size_field_raises _ _ Eg) as (s & Hs & Hp).
      right. split; [exact (parse_size_raises s e Hp)|].
      exists cd, s. repeat split; [left; exact Hs | exact Hp].
  - intros Hr. inversion Hr. left. exists v. split; reflexivity.
Qed.

Lemma parse_condition_plain (o : option (node cond_data)) :
  plain_condition o = true ->
  exists c, parse_condition (or_default o (Mapping empty_cond_data)) = PyOk c.
Proof.
  destruct o as [[cd|v]|]; simpl; intros Hp;
    [| discriminate | eexists; reflexivity].
  apply andb_true_iff in Hp. destruct Hp as [Hg Hl].
  apply negb_true_iff in Hg, Hl.
  destruct (parse_size_field_plain _ Hg) as [gt Egt].
  destruct (parse_size_field_plain _ Hl) as [lt Elt].
  unfold parse_condition. simpl. rewrite Egt. simpl. rewrite Elt. simpl.
  eexists; reflexivity.
Qed.

(** X3. [parse_rule] raises in these cases and in no other: the entry,
    or the value of its key "condition" or "action", is not a mapping
    (null, a scalar, a sequence), and the call of [get] on it raises
    [AttributeError]; or a size bound of the condition is a text on which
    [parse_size] raises its [OverflowError]. The condition is looked at
    before the action. An entry that is a mapping, whose condition and
    action are absent or mappings, and whose size bounds are integers or
    absent, always parses. *)
Theorem parse_rule_raises_on_shape_or_size :
  forall data : node rule_data,
    (forall e,
        parse_rule data = PyRaise e ->
        (exists v,
            e = no_get v
            /\ (data = NotMapping v
                \/ exists rd,
                     data = Mapping rd
                     /\ (rd_condition rd = Some (NotMapping v)
                         \/ rd_action rd = Some (NotMapping v))))
        \/ (e = float_overflow
            /\ exists rd cd s,
                 data = Mapping rd
                 /\ rd_condition rd = Some (Mapping cd)
                 /\ (cd_size_gt cd = Some (SizeStr s)
                     \/ cd_size_lt cd = Some (SizeStr s))
                 /\ parse_size s = PyRaise e))
    /\ (forall v, data = NotMapping v -> parse_rule data = PyRaise (no_get v))
    /\ (forall rd v,
          data = Mapping rd -> rd_condition rd = Some (NotMapping v) ->
          parse_rule data = PyRaise (no_get v))
    /\ (forall rd v,
          data = Mapping rd -> plain_condition (rd_condition rd) = true ->
          rd_action rd = Some (NotMapping v) ->
          parse_rule data = PyRaise (no_get v))
    /\ (forall rd,
          data = Mapping rd -> plain_condition (rd_condition rd) = true ->
          absent_or_mapping (rd_action rd) = true ->
          exists r, parse_rule data = PyOk r).
Proof.
  intros data. split; [|split; [|split; [|split]]].
  - intros e. destruct data as [rd|v]; unfold parse_rule; simpl.
    2:{ intros Hr. inversion Hr. left. exists v. split; [reflexivity|].
        left. reflexivity. }
    destruct (parse_condition (or_default (rd_condition rd)
                                          (Mapping empty_cond_data)))
      as [c|e1] eqn:Ec; simpl.
    + destruct (rd_action rd) as [[ad|v]|] eqn:Ea; simpl; try discriminate.
      intros Hr. inversion Hr. left. exists v. split; [reflexivity|].
      right. exists rd. split; [reflexivity | right; exact Ea].
    + intros Hr. inversion Hr. subst e1.
      destruct (rd_condition rd) as [cdata|] eqn:Erc; simpl in Ec;
        [|discriminate].
      destruct (parse_condition_raises cdata e Ec)
        as [(v & -> & ->)|(He & cd & s & -> & Hs & Hp)].
      * left. exists v. split; [reflexivity|].
        right. exists rd. split; [reflexivity | left; exact Erc].
      * right. split; [exact He|]. exists rd, cd, s. repeat split; assumption.
  - intros v ->. reflexivity.
  - intros rd v -> Hc. unfold parse_rule. simpl. rewrite Hc. reflexivity.
  - intros rd v -> Hc Ha. unfold parse_rule. simpl.
    destruct (parse_condition_plain _ Hc) as [c ->]. simpl.
    rewrite Ha. reflexivity.
  - intros rd -> Hc Ha. unfold parse_rule. simpl.
    destruct (parse_condition_plain _ Hc) as [c ->]. simpl.
    destruct (rd_action rd) as [[ad|v]|]; simpl;
      [eexists; reflexivity | discriminate | eexists; reflexivity].
Qed.

(** [parse_duplicate_rule] raises for an entry that is not a mapping,
    and for no other. *)
Lemma parse_duplicate_rule_raises (data : node dup_rule_data) (e : exn) :
  parse_duplicate_rule data = PyRaise e <->
  exists v, data = NotMapping v /\ e = no_get v.
Proof.
  destruct data as [rd|v]; unfold parse_duplicate_rule; simpl; split.
  - discriminate.
  - intros (v & Hv & _). discriminate.
  - intros Hr. inversion Hr. exists v. split; reflexivity.
  - intros (v' & Hv & ->). inversion Hv. reflexivity.
Qed.

(** ** [RuleParser._load_rules] *)

Section LoadRules.
Context {St : Type} `{Host St} {D R : Type}.
Variable parser : node D -> result R.
Variable name_of : D -> option string.

Lemma printed_nothing (w : World St) : printed w [] = w.
Proof. unfold printed. rewrite app_nil_r. destruct w; reflexivity. Qed.

Lemma printed_more (w : World St) (m : message) (l : list message) :
  printed (MkWorld (os_state w) (trace w) (console w ++ [m]) (log w)) l
  = printed w (m :: l).
Proof. unfold printed. simpl. rewrite <- app_assoc. reflexivity. Qed.

Lemma parse_entries_mappings (ds : list D) :
  forall w : World St,
    parse_entries parser name_of (map Mapping ds) w
    = (PyOk (accepted parser (map Mapping ds)),
       printed w (rejections parser name_of ds)).
Proof.
  induction ds as [|d ds IH]; intros w.
  - simpl. rewrite printed_nothing. reflexivity.
  - cbn [map parse_entries accepted rejections].
    destruct (parser (Mapping d)) as [r|e].
    + unfold bind. rewrite IH. reflexivity.
    + unfold bind, lift_result, print, modify. simpl. rewrite IH.
      rewrite printed_more. reflexivity.
Qed.

(** The first entry that is not a mapping ends the loop: the parser
    raises on it, and so does the handler that would report it. *)
Lemma parse_entries_stray (pre : list D) (v : other) (post : list (node D)) :
  (exists e, parser (NotMapping v) = PyRaise e) ->
  forall w : World St,
    parse_entries parser name_of (map Mapping pre ++ NotMapping v :: post) w
    = (PyRaise (no_get v), printed w (rejections parser name_of pre)).
Proof.
  intros [e He]. induction pre as [|d pre IH]; intros w.
  - simpl. rewrite He, printed_nothing. reflexivity.
  - cbn [map app parse_entries rejections].
    destruct (parser (Mapping d)) as [r|e'].
    + unfold bind. rewrite IH. reflexivity.
    + unfold bind, lift_result, print, modify. simpl. rewrite IH.
      rewrite printed_more. reflexivity.
Qed.

Lemma _load_rules_run (rules_dir : Path) (filename : string)
    (load : St -> Path -> result (document D)) (is_enabled : R -> bool)
    (data : document D) (w : World St) :
  path_exists (os_state w) (path_join rules_dir filename) = PyOk true ->
  load (os_state w) (path_join rules_dir filename) = PyOk data ->
  _load_rules rules_dir filename load parser name_of is_enabled w
  = match rbind (rules_of_document data) iterate_rules with
    | PyOk entries =>
        match parse_entries parser name_of entries w with
        | (PyOk rules, w') => (PyOk (filter is_enabled rules), w')
        | (PyRaise e, w') => (PyRaise e, w')
        end
    | PyRaise e => (PyRaise e, w)
    end.
Proof.
  intros Hex Hload. unfold _load_rules, bind, query_result, lift_result.
  rewrite Hex. cbn [negb]. cbv beta iota. rewrite Hload.
  destruct (rbind (rules_of_document data) iterate_rules) as [entries|e];
    [|reflexivity].
  destruct (parse_entries parser name_of entries w) as [[rules|e] w'];
    reflexivity.
Qed.
End LoadRules.

(** X4. Loading a rule file with a parser that calls [get] on the
    entry:
    - when the file does not exist, the result is the empty list and
      nothing is printed; when [exists()] raises, so does the loader;
    - when the file cannot be read or is not valid YAML, the exception of
      the reader is raised as it is;
    - a document that is not a mapping gives no rule if it tests false
      (an empty file), and raises [AttributeError] otherwise; a mapping
      without the key "rules" gives no rule;
    - a value of "rules" that is a scalar other than a text raises
      [TypeError]; a text or a mapping that is not empty raises
      [AttributeError] at its first character or key;
    - for a sequence of mappings the loader does not raise: the rules
      returned are the enabled ones among the entries that parse, in the
      order of the file; an entry that fails to parse costs one printed
      line and nothing else, and the entries after it are still read;
    - the first entry of a sequence that is not a mapping ends the
      loading with [AttributeError], after the lines for the rejected
      entries before it.
    The file system is not written to in any case. *)
Theorem load_rules_skips_bad_entries :
  forall (St : Type) (H : Host St) (D R : Type) (rules_dir : Path)
         (filename : string) (load : St -> Path -> result (document D))
         (parser : node D -> result R) (name_of : D -> option string)
         (is_enabled : R -> bool) (w : World St),
    (forall v, parser (NotMapping v) = PyRaise (no_get v)) ->
    let rule_file := path_join rules_dir filename in
    let run := _load_rules rules_dir filename load parser name_of
                           is_enabled w in
    (path_exists (os_state w) rule_file = PyOk false -> run = (PyOk [], w))
    /\ (forall e,
          path_exists (os_state w) rule_file = PyRaise e ->
          run = (PyRaise e, w))
    /\ (path_exists (os_state w) rule_file = PyOk true ->
        (forall e,
            load (os_state w) rule_file = PyRaise e -> run = (PyRaise e, w))
        /\ (forall v,
              load (os_state w) rule_file = PyOk (NotMapping v) ->
              run = (if other_truthy v then PyRaise (no_get v) else PyOk [],
                     w))
        /\ (load (os_state w) rule_file = PyOk (Mapping None) ->
            run = (PyOk [], w))
        /\ (forall a,
              load (os_state w) rule_file = PyOk (Mapping (Some (RulesAtom a))) ->
              (forall s, a <> AStr s) ->
              exists msg, run = (PyRaise (Exn TypeError msg), w))
        /\ (forall s,
              load (os_state w) rule_file
              = PyOk (Mapping (Some (RulesAtom (AStr s)))) ->
              run = (match s with
                     | EmptyString => PyOk []
                     | String c _ =>
                         PyRaise (no_get (OAtom (AStr (String c ""))))
                     end, w))
        /\ (forall keys,
              load (os_state w) rule_file
              = PyOk (Mapping (Some (RulesKeys keys))) ->
              run = (match keys with
                     | [] => PyOk []
                     | k :: _ => PyRaise (no_get (OAtom k))
                     end, w))
        /\ (forall ds,
              load (os_state w) rule_file
              = PyOk (Mapping (Some (RulesSeq (map Mapping ds)))) ->
              run = (PyOk (filter is_enabled (accepted parser (map Mapping ds))),
                     printed w (rejections parser name_of ds)))
        /\ (forall pre v post,
              load (os_state w) rule_file
              = PyOk (Mapping (Some (RulesSeq
                                       (map Mapping pre ++ NotMapping v :: post)))) ->
              run = (PyRaise (no_get v),
                     printed w (rejections parser name_of pre)))).
Proof.
  intros St H D R rules_dir filename load parser name_of is_enabled w
         Hshape rule_file run.
  assert (Hstray : forall v, exists e, parser (NotMapping v) = PyRaise e)
    by (intros v; eexists; apply Hshape).
  subst run rule_file.
  split; [|split].
  - intros Hex. unfold _load_rules, bind, query_result. rewrite Hex. reflexivity.
  - intros e Hex. unfold _load_rules, bind, query_result. rewrite Hex.
    reflexivity.
  - intros Hex.
    split; [|split; [|split; [|split; [|split; [|split; [|split]]]]]].
    + intros e Hload. unfold _load_rules, bind, query_result.
      rewrite Hex. cbn [negb]. cbv beta iota. rewrite Hload. reflexivity.
    + intros v Hload. rewrite (_load_rules_run _ _ _ _ _ _ _ _ Hex Hload).
      simpl. destruct (other_truthy v); reflexivity.
    + intros Hload. rewrite (_load_rules_run _ _ _ _ _ _ _ _ Hex Hload).
      reflexivity.
    + intros a Hload Ha. rewrite (_load_rules_run _ _ _ _ _ _ _ _ Hex Hload).
      destruct a as [|b|n|f|s]; simpl; try (eexists; reflexivity).
      exfalso. exact (Ha s eq_refl).
    + intros s Hload. rewrite (_load_rules_run _ _ _ _ _ _ _ _ Hex Hload).
      destruct s as [|c t]; [reflexivity|]. simpl.
      rewrite Hshape. reflexivity.
    + intros keys Hload. rewrite (_load_rules_run _ _ _ _ _ _ _ _ Hex Hload).
      destruct keys as [|k keys]; [reflexivity|]. simpl.
      rewrite Hshape. reflexivity.
    + intros ds Hload. rewrite (_load_rules_run _ _ _ _ _ _ _ _ Hex Hload).
      simpl rbind. cbv iota. rewrite parse_entries_mappings. reflexivity.
    + intros pre v post Hload.
      rewrite (_load_rules_run _ _ _ _ _ _ _ _ Hex Hload).
      simpl rbind. cbv iota.
      rewrite (parse_entries_stray parser name_of pre v post (Hstray v)).
      reflexivity.
Qed.

(** ** [Condition.matches]: what a match guarantees *)

(** X5. When [matches] returns [True], every criterion that is set
    holds of the file: the text of its path starts with the expanded
    [path]; its suffix, lower-cased and without leading dots, is among
    the extensions so normalised; [name_pattern] and [pattern] are both
    found in the file name; and when a size bound is set and not 0, the
    file could be inspected and its size lies strictly above [size_gt]
    and strictly below [size_lt]. In particular a file that [stat] cannot
    inspect never matches a condition with a size bound. *)
Theorem match_meets_every_criterion :
  forall (St : Type) (H : Host St) (st : St) (c : Condition) (f : Path),
    matches st c f = PyOk true ->
    (forall p, path c = Some p -> p <> ""%string ->
               startswith (path_str f) (expanduser p) = true)
    /\ (forall exts, extension c = Some exts -> exts <> [] ->
                     In (norm_ext (path_suffix f)) (map norm_ext exts))
    /\ (forall p, name_pattern c = Some p -> p <> ""%string ->
                  re_search p (path_name f) = PyOk true)
    /\ (forall p, pattern c = Some p -> p <> ""%string ->
                  re_search p (path_name f) = PyOk true)
    /\ (forall n, size_gt c = Some n -> n <> 0 ->
                  exists s, stat st f = PyOk s /\ n < st_size s)
    /\ (forall n, size_lt c = Some n -> n <> 0 ->
                  exists s, stat st f = PyOk s /\ st_size s < n).
Proof.
  intros St H st c f Hm. unfold matches in Hm.
  destruct (check_path c f) eqn:Epath; simpl in Hm; [|discriminate].
  destruct (check_extension c f) eqn:Eext; simpl in Hm; [|discriminate].
  destruct (check_regex (name_pattern c) f) as [[|]|e1] eqn:Ename;
    simpl in Hm; try discriminate.
  destruct (check_regex (pattern c) f) as [[|]|e2] eqn:Epat;
    simpl in Hm; try discriminate.
  assert (Hregex : forall o p,
             check_regex o f = PyOk true -> o = Some p -> p <> ""%string ->
             re_search p (path_name f) = PyOk true).
  { intros o p Hc -> Hne. unfold check_regex in Hc.
    destruct p; [contradiction | exact Hc]. }
  split; [|split; [|split; [|split; [|split]]]].
  - intros p Hp Hne. unfold check_path in Epath. rewrite Hp in Epath.
    destruct p; [contradiction | exact Epath].
  - intros exts He Hne. unfold check_extension in Eext. rewrite He in Eext.
    destruct exts as [|x exts]; [contradiction|].
    apply existsb_exists in Eext. destruct Eext as (y & Hy & Heq).
    apply String.eqb_eq in Heq. rewrite Heq. exact Hy.
  - intros p. apply Hregex. exact Ename.
  - intros p. apply Hregex. exact Epat.
  - intros n Hn Hne. unfold check_size in Hm. rewrite Hn in Hm.
    assert (Ht : opt_int_truthy (Some n) = true).
    { simpl. apply negb_true_iff, Z.eqb_neq. exact Hne. }
    rewrite Ht in Hm. simpl orb in Hm. cbv iota in Hm.
    destruct (stat st f) as [s|e] eqn:Es.
    + exists s. split; [reflexivity|]. simpl andb in Hm. simpl or_default in Hm.
      destruct (st_size s <=? n) eqn:Ele; [discriminate|].
      apply Z.leb_gt in Ele. exact Ele.
    + destruct (is_OSError e); discriminate.
  - intros n Hn Hne. unfold check_size in Hm. rewrite Hn in Hm.
    assert (Ht : opt_int_truthy (Some n) = true).
    { simpl. apply negb_true_iff, Z.eqb_neq. exact Hne. }
    rewrite Ht, orb_true_r in Hm.
    destruct (stat st f) as [s|e] eqn:Es.
    + exists s. split; [reflexivity|].
      destruct (opt_int_truthy (size_gt c) && _)%bool; [discriminate|].
      simpl andb in Hm. simpl or_default in Hm.
      destruct (n <=? st_size s) eqn:Ele; [discriminate|].
      apply Z.leb_gt in Ele. exact Ele.
    + destruct (is_OSError e); discriminate.
Qed.

(** ** The spelling of extensions *)

Lemma norm_ext_dotted_upper (e : string) :
  norm_ext (dotted_upper e) = norm_ext e.
Proof.
  unfold norm_ext, dotted_upper, lstrip_chars, lower, upper.
  cbn [append map_str]. 
  rewrite (map_str_twice lower_char upper_char lower_char e lower_char_upper).
  reflexivity.
Qed.

(** X6. The extensions of a condition may be spelled in any letter case
    and with or without a leading dot: a condition whose extensions are
    written in capitals behind a dot matches exactly the files that the
    condition with the plain spelling matches, in every state of the
    file system. *)
Theorem extension_spelling_is_immaterial :
  forall (St : Type) (H : Host St) (st : St) (c : Condition) (f : Path)
         (exts : list string),
    matches st (with_extension c (Some (map dotted_upper exts))) f
    = matches st (with_extension c (Some exts)) f.
Proof.
  intros St H st c f exts.
  assert (Hext : check_extension
                   (with_extension c (Some (map dotted_upper exts))) f
                 = check_extension (with_extension c (Some exts)) f).
  { unfold check_extension, with_extension. simpl extension.
    destruct exts as [|e exts]; [reflexivity|].
    cbn [map]. rewrite norm_ext_dotted_upper.
    rewrite map_map.
    rewrite (map_ext (fun x => norm_ext (dotted_upper x)) norm_ext
                     norm_ext_dotted_upper).
    reflexivity. }
  unfold matches. rewrite Hext. reflexivity.
Qed.

(** ** Duplicate groups, exactly *)

Section GroupingExact.
Import Deduplicator.
Variable key : Path -> option string.

Lemma group_of_file_under (k : string) groups (f : Path) :
  group_of k (file_under key groups f)
  = group_of k groups ++ (if filed_under key k f then [f] else []).
Proof.
  unfold file_under, filed_under. destruct (key f) as [k'|].
  - rewrite group_of_add. destruct (String.eqb k' k); [reflexivity|].
    rewrite app_nil_r. reflexivity.
  - rewrite app_nil_r. reflexivity.
Qed.

Lemma group_of_fold (k : string) (files : list Path) :
  forall groups,
    group_of k (fold_left (file_under key) files groups)
    = group_of k groups ++ filter (filed_under key k) files.
Proof.
  induction files as [|f files IH]; intros groups; simpl.
  - rewrite app_nil_r. reflexivity.
  - rewrite IH, group_of_file_under, <- app_assoc.
    destruct (filed_under key k f); reflexivity.
Qed.

Lemma group_add_keys (k : string) (p : Path) groups :
  map fst (group_add k p groups)
  = if existsb (String.eqb k) (map fst groups) then map fst groups
    else map fst groups ++ [k].
Proof.
  induction groups as [|[k' paths] rest IH]; simpl; [reflexivity|].
  rewrite (String.eqb_sym k k').
  destruct (String.eqb k' k); simpl; [reflexivity|].
  rewrite IH. destruct (existsb _ _); reflexivity.
Qed.

Lemma group_add_nodup (k : string) (p : Path) groups :
  NoDup (map fst groups) -> NoDup (map fst (group_add k p groups)).
Proof.
  intros Hnd. rewrite group_add_keys.
  destruct (existsb (String.eqb k) (map fst groups)) eqn:E; [exact Hnd|].
  apply NoDup_app; [exact Hnd | repeat constructor; intros [] |].
  intros x Hx [Heq|[]]. subst x.
  assert (Ht : existsb (String.eqb k) (map fst groups) = true).
  { apply existsb_exists. exists k. split; [exact Hx | apply String.eqb_refl]. }
  rewrite Ht in E. discriminate.
Qed.

Lemma fold_file_under_nodup (files : list Path) :
  forall groups,
    NoDup (map fst groups) ->
    NoDup (map fst (fold_left (file_under key) files groups)).
Proof.
  induction files as [|f files IH]; intros groups Hnd; simpl; [exact Hnd|].
  apply IH. unfold file_under. destruct (key f); [|exact Hnd].
  apply group_add_nodup. exact Hnd.
Qed.

Lemma group_of_member (k : string) (paths : list Path) groups :
  NoDup (map fst groups) -> In (k, paths) groups -> group_of k groups = paths.
Proof.
  induction groups as [|[k' ps] rest IH]; simpl; intros Hnd Hin; [contradiction|].
  inversion Hnd as [|x l Hnot Hrest]; subst.
  destruct Hin as [Heq|Hin].
  - inversion Heq. subst. rewrite String.eqb_refl. reflexivity.
  - destruct (String.eqb_spec k' k) as [->|Hne].
    + exfalso. apply Hnot. apply in_map_iff. exists (k, paths).
      split; [reflexivity | exact Hin].
    + apply IH; assumption.
Qed.

(** The groups that a grouping loop returns are, exactly, the lists of
    two or more input paths filed under one key, each in input order. *)
Lemma grouping_exact (files : list Path) (g : list Path) :
  In g (more_than_one (fold_left (file_under key) files []))
  <-> (exists k, g = filter (filed_under key k) files)
      /\ (2 <= List.length g)%nat.
Proof.
  set (groups := fold_left (file_under key) files []).
  assert (Hof : forall k, group_of k groups = filter (filed_under key k) files).
  { intros k. unfold groups. rewrite group_of_fold. reflexivity. }
  split.
  - intros Hin. split; [|exact (more_than_one_sound groups g Hin)].
    unfold more_than_one in Hin. apply filter_In in Hin.
    destruct Hin as [Hin _]. apply in_map_iff in Hin.
    destruct Hin as ([k paths] & Hsnd & Hin). simpl in Hsnd. subst paths.
    exists k. rewrite <- Hof. symmetry. apply group_of_member; [|exact Hin].
    apply fold_file_under_nodup. constructor.
  - intros [[k ->] Hlen]. rewrite <- Hof. apply more_than_one_complete.
    rewrite Hof. exact Hlen.
Qed.
End GroupingExact.

Lemma fold_left_ext {A B} (f g : A -> B -> A) (l : list B) :
  (forall a b, f a b = g a b) ->
  forall a, fold_left f l a = fold_left g l a.
Proof.
  intros Hfg. induction l as [|b l IH]; intros a; simpl; [reflexivity|].
  rewrite Hfg. apply IH.
Qed.

Section ContentLoop.
Import Deduplicator.
Context {St : Type} `{Host St}.
Variable st : St.

Lemma hash_step_file_under groups (f : Path) (b : bool) :
  is_file st f = PyOk b ->
  hash_step st groups f = PyOk (file_under (content_key st) groups f).
Proof.
  intros Hb. unfold hash_step, file_under, content_key. rewrite Hb. simpl.
  destruct b; simpl; [|reflexivity].
  destruct (_hash_file st f); reflexivity.
Qed.

Lemma hash_loop_fold (files : list Path) :
  (forall f, In f files -> exists b, is_file st f = PyOk b) ->
  forall groups,
    hash_loop st files groups
    = PyOk (fold_left (file_under (content_key st)) files groups).
Proof.
  induction files as [|f files IH]; intros Hf groups; simpl; [reflexivity|].
  destruct (Hf f (or_introl eq_refl)) as [b Hb].
  rewrite (hash_step_file_under groups f b Hb). simpl.
  apply IH. intros g Hg. apply Hf. right; exact Hg.
Qed.

Lemma hash_loop_answers (files : list Path) :
  forall groups groups',
    hash_loop st files groups = PyOk groups' ->
    forall f, In f files -> exists b, is_file st f = PyOk b.
Proof.
  induction files as [|f files IH]; intros groups groups' Hl g Hg;
    [destruct Hg|].
  simpl in Hl.
  destruct (hash_step st groups f) as [g1|e] eqn:E1; [|discriminate].
  simpl in Hl. destruct Hg as [<-|Hg].
  - unfold hash_step in E1. destruct (is_file st f) as [b|e];
      [exists b; reflexivity | discriminate].
  - exact (IH g1 groups' Hl g Hg).
Qed.

Lemma hash_loop_raised (files : list Path) (e : exn) :
  forall groups,
    hash_loop st files groups = PyRaise e ->
    exists pre f post,
      files = pre ++ f :: post
      /\ (forall p, In p pre -> exists b, is_file st p = PyOk b)
      /\ is_file st f = PyRaise e.
Proof.
  induction files as [|f files IH]; intros groups Hl; simpl in Hl;
    [discriminate|].
  destruct (is_file st f) as [b|e'] eqn:Ef.
  - rewrite (hash_step_file_under groups f b Ef) in Hl. simpl in Hl.
    destruct (IH _ Hl) as (pre & g & post & -> & Hpre & Hg).
    exists (f :: pre), g, post. split; [reflexivity|]. split; [|exact Hg].
    intros p [<-|Hp]; [exists b; exact Ef | exact (Hpre p Hp)].
  - unfold hash_step in Hl. rewrite Ef in Hl. simpl in Hl. inversion Hl; subst.
    exists [], f, files. split; [reflexivity|]. split; [intros p [] | exact Ef].
Qed.
End ContentLoop.

(** X7. The grouping by content returns exactly when [is_file()]
    answers for every entry of the list; the first entry for which it
    raises ends the call with that exception. The groups returned are
    exactly the lists of two or more input paths that are regular files,
    can be read and have one and the same digest: every member of a
    group has the digest of the group, and no input file with that digest
    is missing from it; the members stand in input order. A path that is
    not a regular file, or that cannot be read, is in no group. *)
Theorem content_groups_are_exact :
  forall (St : Type) (H : Host St) (st : St) (files : list Path),
    ((exists groups, Deduplicator._find_by_content st files = PyOk groups)
     <-> (forall f, In f files -> exists b, is_file st f = PyOk b))
    /\ (forall groups,
          Deduplicator._find_by_content st files = PyOk groups ->
          forall g,
            In g groups
            <-> (exists h, g = filter (filed_under (content_key st) h) files)
                /\ (2 <= List.length g)%nat)
    /\ (forall e,
          Deduplicator._find_by_content st files = PyRaise e ->
          exists pre f post,
            files = pre ++ f :: post
            /\ (forall p, In p pre -> exists b, is_file st p = PyOk b)
            /\ is_file st f = PyRaise e).
Proof.
  intros St H st files. unfold Deduplicator._find_by_content.
  split; [|split].
  - split.
    + intros [groups Hg].
      destruct (Deduplicator.hash_loop st files []) as [hg|e] eqn:El;
        [|discriminate].
      exact (hash_loop_answers st files [] hg El).
    + intros Hf. rewrite (hash_loop_fold st files Hf). eexists; reflexivity.
  - intros groups Hg g.
    destruct (Deduplicator.hash_loop st files []) as [hg|e] eqn:El;
      [|discriminate].
    rewrite (hash_loop_fold st files (hash_loop_answers st files [] hg El))
      in El.
    inversion El; subst hg. inversion Hg; subst groups.
    apply grouping_exact.
  - intros e He.
    destruct (Deduplicator.hash_loop st files []) as [hg|e'] eqn:El;
      [discriminate|].
    inversion He; subst e'. exact (hash_loop_raised st files e [] El).
Qed.

(** X8. The groups returned by the grouping by name are exactly the
    lists of two or more input paths with one and the same final
    component, in input order, whatever the paths are (regular files or
    not, existing or not): the file system is not consulted. *)
Theorem name_groups_are_exact :
  forall (files g : list Path),
    In g (Deduplicator._find_by_name files)
    <-> (exists n, g = filter (fun f => String.eqb (path_name f) n) files)
        /\ (2 <= List.length g)%nat.
Proof.
  intros files g. unfold Deduplicator._find_by_name.
  rewrite (fold_left_ext
             (fun groups file_path =>
                Deduplicator.group_add (path_name file_path) file_path groups)
             (file_under name_key) files) by reflexivity.
  apply (grouping_exact name_key).
Qed.

(** ** [handle_duplicates]: what is disposed of *)

Section Disposal.
Import Deduplicator.
Context {St : Type} `{Host St}.

Lemma _move_to_trash_call (p : Path) (w : World St) :
  trace (snd (_move_to_trash p w)) = trace w ++ [disposal p]
  /\ (is_macos = false -> fst (_move_to_trash p w) = PyOk tt).
Proof.
  unfold _move_to_trash, disposal. destruct is_macos.
  - unfold sys_finder_trash, syscall_run.
    destruct (finder_trash p (os_state w)) as [r st']. simpl.
    split; [reflexivity | discriminate].
  - unfold try_except, sys_unlink, syscall_run, print, modify.
    destruct (os_unlink p (os_state w)) as [[[]|e] st']; simpl;
      split; reflexivity.
Qed.

Lemma for_each_cons_run {S A} (body : A -> M S unit) (x : A) (l : list A)
    (s : S) :
  for_each (x :: l) body s
  = match body x s with
    | (PyOk _, s1) => for_each l body s1
    | (PyRaise e, s1) => (PyRaise e, s1)
    end.
Proof. reflexivity. Qed.

Lemma dispose_delete_loop (k : Path) (label : pyval) (l : list Path) :
  forall w : World St,
  exists done rest,
    others k l = done ++ rest
    /\ trace (snd (for_each l (dispose k false label) w))
       = trace w ++ map disposal done
    /\ (fst (for_each l (dispose k false label) w) = PyOk tt -> rest = [])
    /\ (is_macos = false ->
        fst (for_each l (dispose k false label) w) = PyOk tt).
Proof.
  induction l as [|p l IH]; intros w.
  - exists [], []. simpl. rewrite app_nil_r. repeat split.
  - rewrite for_each_cons_run. unfold others. cbn [filter].
    fold (others k l).
    destruct (path_eqb p k) eqn:Ek; cbn [negb].
    + assert (Hd : dispose k false label p w = (PyOk tt, w))
        by (unfold dispose; rewrite Ek; reflexivity).
      rewrite Hd. exact (IH w).
    + assert (Hd : dispose k false label p w = _move_to_trash p w)
        by (unfold dispose; rewrite Ek; reflexivity).
      rewrite Hd.
      destruct (_move_to_trash_call p w) as [Htr Hok].
      destruct (_move_to_trash p w) as [[[]|e] w1] eqn:Et; simpl in Htr, Hok.
      * destruct (IH w1) as (done & rest & Hsplit & Htr1 & Hall & Hnever).
        exists (p :: done), rest. rewrite Hsplit.
        split; [reflexivity|]. split; [|split; assumption].
        rewrite Htr1, Htr, <- app_assoc. reflexivity.
      * exists [p], (others k l). split; [reflexivity|].
        split; [exact Htr|]. split; [discriminate|].
        intros Hmac. specialize (Hok Hmac). discriminate.
Qed.
End Disposal.

(** X9. Deleting duplicates ([tag_duplicates] false) for a group of at
    least two files. If choosing the file to keep raises (a member could
    not be inspected), nothing is disposed of. Otherwise the mutating
    calls made are disposals, by the platform's means, of members other
    than the kept file, in group order, one per member, up to the first
    disposal that raises: the kept file is never disposed of, and neither
    is anything outside the group. When the loop returns, every other
    member was disposed of. Where the platform is not macOS the loop
    always returns: a deletion that fails is reported and the next
    member is taken. *)
Theorem deleting_duplicates_spares_the_kept_file :
  forall (St : Type) (H : Host St) (w : World St) (group : list Path)
         (keep label : pyval),
    (2 <= List.length group)%nat ->
    let run := Deduplicator.handle_duplicates group keep false label w in
    (forall e,
        Deduplicator.select_keep (os_state w) group keep = PyRaise e ->
        run = (PyRaise e, w))
    /\ (forall k,
          Deduplicator.select_keep (os_state w) group keep = PyOk k ->
          exists done rest,
            others k group = done ++ rest
            /\ trace (snd run) = trace w ++ map disposal done
            /\ (fst run = PyOk tt -> rest = [])
            /\ (is_macos = false -> fst run = PyOk tt)).
Proof.
  intros St H w group keep label Hlen run. subst run.
  unfold Deduplicator.handle_duplicates.
  destruct (Nat.ltb_spec (List.length group) 2) as [Hlt|_]; [lia|].
  unfold bind, query_result. split.
  - intros e Hsel. rewrite Hsel. reflexivity.
  - intros k Hsel. rewrite Hsel. apply dispose_delete_loop.
Qed.

Section AddTag.
Context {St : Type} `{Host St}.

Lemma all_strings_spec (tags : list pyval) (strs : list string) :
  Tagger.all_strings tags = PyOk strs -> tags = map VStr strs.
Proof.
  revert strs. induction tags as [|t tags IH]; intros strs; simpl.
  - intros Hs. inversion Hs. reflexivity.
  - destruct t; try discriminate.
    destruct (Tagger.all_strings tags) as [l|e]; simpl; [|discriminate].
    intros Hs. inversion Hs. subst strs. simpl. rewrite (IH l eq_refl).
    reflexivity.
Qed.

Lemma color_tags_text (color : pyval) :
  (color = VNone \/ exists c, color = VStr c) ->
  exists ctags,
    Tagger.color_tags color = PyOk ctags
    /\ Forall (fun t => exists c, t = VStr c /\ In c Tagger.TAG_COLORS) ctags.
Proof.
  intros [->|[c ->]].
  - exists []. split; [reflexivity | constructor].
  - unfold Tagger.color_tags. destruct (pyval_truthy (VStr c)).
    + destruct (existsb (String.eqb (lower c)) Tagger.TAG_COLORS) eqn:E.
      * exists [VStr (lower c)]. split; [reflexivity|].
        constructor; [|constructor]. exists (lower c). split; [reflexivity|].
        apply existsb_exists in E. destruct E as (x & Hx & Heq).
        apply String.eqb_eq in Heq. subst x. exact Hx.
      * exists []. split; [reflexivity | constructor].
    + exists []. split; [reflexivity | constructor].
Qed.

(** The body of the [try] of [add_tag]. *)
Lemma add_tag_attempt (file_path : Path) (tags : list pyval) (w : World St) :
  let attempt :=
    (strs <- lift_result (Tagger.all_strings tags) ;;
     returncode <- sys_xattr_tags strs (path_str file_path) ;;
     (if negb (returncode =? 0)
      then Tagger._add_tag_osascript file_path strs
      else ret tt) ;;
     ret true) in
  match attempt w with
  | (PyOk b, w1) =>
      b = true
      /\ exists strs rest,
           tags = map VStr strs
           /\ trace w1
              = trace w ++ SysXattrTags strs (path_str file_path) :: rest
           /\ (rest = []
               \/ exists p, rest = [SysFinderLabel p
                                      (Tagger.first_color_index strs)])
  | (PyRaise _, _) => True
  end.
Proof.
  intros attempt. subst attempt. unfold bind at 1. unfold lift_result.
  destruct (Tagger.all_strings tags) as [strs|e] eqn:Es; [|exact I].
  apply all_strings_spec in Es.
  unfold bind at 1. unfold sys_xattr_tags, syscall_run.
  destruct (xattr_tags strs (path_str file_path) (os_state w))
    as [[returncode|e] st1]; [|exact I].
  destruct (negb (returncode =? 0)).
  - unfold Tagger._add_tag_osascript, bind, query_result, sys_finder_label,
      syscall_run. simpl os_state.
    destruct (resolve st1 file_path) as [abs_path|e]; [|exact I].
    destruct (finder_label abs_path (Tagger.first_color_index strs) st1)
      as [[[]|e] st2]; [|exact I].
    simpl. split; [reflexivity|]. exists strs, [SysFinderLabel abs_path
                                                  (Tagger.first_color_index strs)].
    split; [exact Es|]. split; [|right; eexists; reflexivity].
    rewrite <- app_assoc. reflexivity.
  - unfold bind, ret. simpl. split; [reflexivity|]. exists strs, [].
    split; [exact Es|]. split; [reflexivity | left; reflexivity].
Qed.
Lemma add_tag_run (file_path : Path) (color label : pyval) (w : World St) :
  Tagger.add_tag file_path color label w
  = if negb is_macos then (PyOk false, printed w [MsgTagsUnsupported])
    else
      match path_exists (os_state w) file_path with
      | PyRaise e => (PyRaise e, w)
      | PyOk false => (PyOk false, printed w [MsgFileNotFound file_path])
      | PyOk true =>
          match Tagger.color_tags color with
          | PyRaise e => (PyRaise e, w)
          | PyOk ctags =>
              match ctags ++ (if pyval_truthy label then [label] else []) with
              | [] => (PyOk false, w)
              | t :: ts =>
                  match
                    (strs <- lift_result (Tagger.all_strings (t :: ts)) ;;
                     returncode <- sys_xattr_tags strs (path_str file_path) ;;
                     (if negb (returncode =? 0)
                      then Tagger._add_tag_osascript file_path strs
                      else ret tt) ;;
                     ret true) w
                  with
                  | (PyOk b, w1) => (PyOk b, w1)
                  | (PyRaise e, w1) => (PyOk false, printed w1 [MsgTagError e])
                  end
              end
          end
      end.
Proof.
  unfold Tagger.add_tag. destruct is_macos; cbn [negb]; [|reflexivity].
  unfold bind at 1. unfold query_result.
  destruct (path_exists (os_state w) file_path) as [[|]|e0]; cbn [negb];
    [| reflexivity | reflexivity].
  unfold bind at 1. unfold lift_result.
  destruct (Tagger.color_tags color) as [ctags|e]; [|reflexivity].
  destruct (ctags ++ (if pyval_truthy label then [label] else []))
    as [|t ts]; [reflexivity|].
  unfold try_except.
  match goal with
  | |- match ?m w with _ => _ end = _ => destruct (m w) as [[b|e] w1]
  end; reflexivity.
Qed.

Lemma add_tag_keeps (I : St -> Prop) (file_path : Path) (color label : pyval)
    (w : World St) :
  tag_closed I -> I (os_state w) ->
  I (os_state (snd (Tagger.add_tag file_path color label w))).
Proof.
  intros [Hx Hf] Hw. rewrite add_tag_run.
  destruct is_macos; cbn [negb]; [|exact Hw].
  destruct (path_exists (os_state w) file_path) as [[|]|e0]; try exact Hw.
  destruct (Tagger.color_tags color) as [ctags|e]; [|exact Hw].
  destruct (ctags ++ (if pyval_truthy label then [label] else []))
    as [|t ts]; [exact Hw|].
  unfold bind at 1. unfold lift_result.
  destruct (Tagger.all_strings (t :: ts)) as [strs|e]; [|exact Hw].
  unfold bind at 1. unfold sys_xattr_tags, syscall_run.
  pose proof (Hx strs (path_str file_path) _ Hw) as H1.
  destruct (xattr_tags strs (path_str file_path) (os_state w))
    as [[returncode|e] st1]; simpl in H1; [|exact H1].
  destruct (negb (returncode =? 0)).
  - unfold Tagger._add_tag_osascript, bind, query_result, sys_finder_label,
      syscall_run. simpl os_state.
    destruct (resolve st1 file_path) as [abs_path|e]; [|exact H1].
    pose proof (Hf abs_path (Tagger.first_color_index strs) st1 H1) as H2.
    destruct (finder_label abs_path (Tagger.first_color_index strs) st1)
      as [[[]|e] st2]; exact H2.
  - exact H1.
Qed.
End AddTag.

Section Tagging.
Import Deduplicator.
Context {St : Type} `{Host St}.

(** With no colour, [add_tag] raises only what [exists()] raised. *)
Lemma add_tag_label_outcome (p : Path) (label : pyval) (w : World St) :
  (forall e,
      fst (Tagger.add_tag p VNone label w) = PyRaise e ->
      is_macos = true /\ path_exists (os_state w) p = PyRaise e)
  /\ (is_macos = false \/ (exists b, path_exists (os_state w) p = PyOk b) ->
      exists b, fst (Tagger.add_tag p VNone label w) = PyOk b).
Proof.
  rewrite add_tag_run. destruct is_macos; cbn [negb].
  2:{ split; [discriminate | intros _; eexists; reflexivity]. }
  destruct (path_exists (os_state w) p) as [[|]|e0].
  - change (Tagger.color_tags VNone) with (@PyOk (list pyval) []).
    cbv iota. cbn [app].
    destruct (pyval_truthy label).
    + match goal with
      | |- context [match ?m w with _ => _ end] => destruct (m w) as [[b|e] w1]
      end; (split; [discriminate | intros _; eexists; reflexivity]).
    + split; [discriminate | intros _; eexists; reflexivity].
  - split; [discriminate | intros _; eexists; reflexivity].
  - split.
    + intros e He. inversion He. split; reflexivity.
    + intros [Hf|[b Hb]]; discriminate.
Qed.

Lemma tags_only_for_each {A} (l : list A) (body : A -> M (World St) unit) :
  (forall a, tags_only (body a)) -> tags_only (for_each l body).
Proof.
  intros Hb. induction l as [|a l IH]; simpl.
  - apply tags_only_pure. reflexivity.
  - apply tags_only_bind; [apply Hb | intros _; exact IH].
Qed.

Lemma dispose_tag_tags_only (k : Path) (label : pyval) (p : Path) :
  tags_only (dispose k true label p).
Proof.
  unfold dispose. destruct (path_eqb p k).
  - apply tags_only_pure. reflexivity.
  - apply tags_only_bind; [apply add_tag_tags_only|].
    intros b. apply tags_only_pure. reflexivity.
Qed.

Lemma dispose_tag_returns (k : Path) (label : pyval) (I : St -> Prop)
    (l : list Path) :
  is_macos = false
  \/ (tag_closed I
      /\ forall st p, I st -> In p l -> exists b, path_exists st p = PyOk b) ->
  forall w : World St,
    I (os_state w) -> fst (for_each l (dispose k true label) w) = PyOk tt.
Proof.
  induction l as [|p l IH]; intros Hall w Hw; [reflexivity|].
  assert (Hrest : is_macos = false
                  \/ (tag_closed I
                      /\ forall st q, I st -> In q l ->
                                      exists b, path_exists st q = PyOk b)).
  { destruct Hall as [Hmac|[Hc Hall]]; [left; exact Hmac | right].
    split; [exact Hc|]. intros st q Hst Hq. apply (Hall st q Hst).
    right. exact Hq. }
  rewrite for_each_cons_run.
  destruct (path_eqb p k) eqn:Ek.
  - assert (Hd : dispose k true label p w = (PyOk tt, w))
      by (unfold dispose; rewrite Ek; reflexivity).
    rewrite Hd. exact (IH Hrest w Hw).
  - assert (Hd : dispose k true label p w
                 = bind (Tagger.add_tag p VNone label) (fun _ => ret tt) w)
      by (unfold dispose; rewrite Ek; reflexivity).
    rewrite Hd. unfold bind.
    destruct (add_tag_label_outcome p label w) as [_ Hval].
    assert (Hk : I (os_state (snd (Tagger.add_tag p VNone label w)))).
    { destruct Hall as [Hmac|[Hc _]].
      - unfold Tagger.add_tag. rewrite Hmac. exact Hw.
      - exact (add_tag_keeps I p VNone label w Hc Hw). }
    destruct (Tagger.add_tag p VNone label w) as [[b'|e'] w1];
      simpl in Hval, Hk.
    + unfold ret at 1. exact (IH Hrest w1 Hk).
    + exfalso.
      assert (Hb : exists b, PyRaise e' = @PyOk bool b).
      { apply Hval. destruct Hall as [Hmac|[_ Hall]]; [left; exact Hmac|].
        right. apply (Hall (os_state w) p Hw). left. reflexivity. }
      destruct Hb as [b Hb]. discriminate.
Qed.

Lemma dispose_tag_raises (k : Path) (label : pyval) (l : list Path) :
  forall (w : World St) e,
    fst (for_each l (dispose k true label) w) = PyRaise e ->
    is_macos = true
    /\ exists w' p,
         In p (others k l) /\ path_exists (os_state w') p = PyRaise e.
Proof.
  induction l as [|p l IH]; intros w e.
  - simpl. discriminate.
  - rewrite for_each_cons_run. unfold others. cbn [filter].
    fold (others k l).
    destruct (path_eqb p k) eqn:Ek; cbn [negb].
    + assert (Hd : dispose k true label p w = (PyOk tt, w))
        by (unfold dispose; rewrite Ek; reflexivity).
      rewrite Hd. exact (IH w e).
    + assert (Hd : dispose k true label p w
                   = bind (Tagger.add_tag p VNone label) (fun _ => ret tt) w)
        by (unfold dispose; rewrite Ek; reflexivity).
      rewrite Hd. unfold bind.
      destruct (add_tag_label_outcome p label w) as [Hexn _].
      destruct (Tagger.add_tag p VNone label w) as [[b'|e'] w1];
        simpl in Hexn.
      * unfold ret at 1. intros He.
        destruct (IH w1 e He) as (Hmac & w' & q & Hq & Hw').
        split; [exact Hmac|]. exists w', q.
        split; [right; exact Hq | exact Hw'].
      * destruct (Hexn e' eq_refl) as [Hmac Hp].
        simpl. intros He. inversion He; subst e'.
        split; [exact Hmac|]. exists w, p.
        split; [left; reflexivity | exact Hp].
Qed.

Lemma dispose_tag_elsewhere (k : Path) (label : pyval) (l : list Path) :
  is_macos = false ->
  preserves (@files_of St) (for_each l (dispose k true label)).
Proof.
  intros Hmac. apply preserves_for_each. intros p. unfold dispose.
  destruct (path_eqb p k); [apply preserves_ret|].
  apply preserves_bind; [|intros; apply preserves_ret].
  unfold Tagger.add_tag. rewrite Hmac. simpl.
  apply preserves_bind; [apply print_read_only | intros; apply preserves_ret].
Qed.
End Tagging.

(** X10. Tagging duplicates ([tag_duplicates] true) deletes nothing:
    once the file to keep is chosen, the only mutating calls that the
    loop over the group makes are tag-setting ones (no unlink, no move to
    the trash, no rename), whether it returns or raises. Where tags are
    not supported it returns and no call is made at all. On macOS it
    returns when [exists()] answers for the members of the group in the
    state it starts from and in every state that tag-setting calls lead
    to, and what it raises is what [exists()] raised for a member other
    than the kept one. *)
Theorem tagging_duplicates_deletes_nothing :
  forall (St : Type) (H : Host St) (w : World St) (group : list Path)
         (keep label : pyval) (k : Path),
    Deduplicator.select_keep (os_state w) group keep = PyOk k ->
    let run := Deduplicator.handle_duplicates group keep true label w in
    (exists calls,
        trace (snd run) = trace w ++ calls /\ Forall is_tag_call calls)
    /\ (is_macos = false ->
        fst run = PyOk tt
        /\ os_state (snd run) = os_state w /\ trace (snd run) = trace w)
    /\ (forall I : St -> Prop,
          I (os_state w) -> tag_closed I ->
          (forall st p, I st -> In p group ->
                        exists b, path_exists st p = PyOk b) ->
          fst run = PyOk tt)
    /\ (forall e,
          fst run = PyRaise e ->
          is_macos = true
          /\ exists w' p,
               In p (others k group)
               /\ path_exists (os_state w') p = PyRaise e).
Proof.
  intros St H w group keep label k Hsel run. subst run.
  unfold Deduplicator.handle_duplicates.
  destruct (Nat.ltb (List.length group) 2).
  - simpl. split; [|split; [|split]].
    + exists []. rewrite app_nil_r. split; [reflexivity | constructor].
    + intros _. repeat split.
    + intros I _ _ _. reflexivity.
    + discriminate.
  - unfold bind, query_result. rewrite Hsel.
    split; [|split; [|split]].
    + apply (tags_only_for_each group _ (dispose_tag_tags_only k label)).
    + intros Hmac.
      split; [exact (dispose_tag_returns k label (fun _ => True) group
                       (or_introl Hmac) w I)|].
      pose proof (dispose_tag_elsewhere k label group Hmac w) as Hro.
      unfold files_of in Hro. inversion Hro. split; reflexivity.
    + intros I Hw Hc Hall.
      exact (dispose_tag_returns k label I group
               (or_intror (conj Hc Hall)) w Hw).
    + exact (dispose_tag_raises k label group w).
Qed.

(** ** [Tagger.add_tag] *)


(** X11. [add_tag] with a colour that is absent or a text raises in one
    case only, whatever the label is and whatever the [xattr] and
    [osascript] calls do: on macOS, when [exists()] raises for the file;
    the exception is that of [exists()] and the world is as it was.
    Where the platform is not macOS, or the file does not exist, it
    returns [False] and makes no mutating call. It returns [True] only
    on macOS for a file that exists, after an [xattr] call on that file
    with a non-empty list of tags, each of which is the label or one of
    the seven colour names (a colour that is not among them is dropped),
    followed at most by the Finder fallback. *)
Theorem add_tag_contract :
  forall (St : Type) (H : Host St) (file_path : Path) (color label : pyval)
         (w : World St),
    (color = VNone \/ exists c, color = VStr c) ->
    let run := Tagger.add_tag file_path color label w in
    (forall e,
        fst run = PyRaise e
        <-> is_macos = true /\ path_exists (os_state w) file_path = PyRaise e)
    /\ (forall e, fst run = PyRaise e -> snd run = w)
    /\ (is_macos = false \/ path_exists (os_state w) file_path = PyOk false ->
        fst run = PyOk false
        /\ os_state (snd run) = os_state w /\ trace (snd run) = trace w)
    /\ (fst run = PyOk true ->
        is_macos = true
        /\ path_exists (os_state w) file_path = PyOk true
        /\ exists tags rest,
             tags <> []
             /\ Forall (fun t => In t Tagger.TAG_COLORS \/ label = VStr t) tags
             /\ trace (snd run)
                = trace w ++ SysXattrTags tags (path_str file_path) :: rest
             /\ (rest = []
                 \/ exists p, rest = [SysFinderLabel p
                                        (Tagger.first_color_index tags)])).
Proof.
  intros St H file_path color label w Hcolor run. subst run.
  rewrite add_tag_run.
  destruct is_macos; cbn [negb].
  2:{ simpl. split; [intros e; split; [discriminate | intros [Hf _]; discriminate]|].
      split; [discriminate|]. split; [|discriminate].
      intros _. repeat split. }
  destruct (path_exists (os_state w) file_path) as [[|]|e0].
  2:{ simpl. split; [intros e; split; [discriminate | intros [_ Hf]; discriminate]|].
      split; [discriminate|]. split; [|discriminate].
      intros _. repeat split. }
  2:{ simpl. split.
      - intros e; split.
        + intros He. inversion He. split; reflexivity.
        + intros [_ He]. inversion He. reflexivity.
      - split; [reflexivity|]. split; [|discriminate].
        intros [Hf|Hf]; discriminate. }
  assert (Hnot : forall (b : bool) (e : exn),
            @PyOk bool b = PyRaise e <-> true = true /\ @PyOk bool true = PyRaise e)
    by (intros b e; split; [discriminate | intros [_ Hf]; discriminate]).
  destruct (color_tags_text color Hcolor) as (ctags & Hct & Hall).
  rewrite Hct.
  set (tags := ctags ++ (if pyval_truthy label then [label] else [])).
  assert (Htags : Forall (fun t => exists c, t = VStr c
                                   /\ (In c Tagger.TAG_COLORS \/ label = VStr c))
                         tags
                  \/ exists t, In t tags /\ forall c, t <> VStr c).
  { unfold tags. destruct (pyval_truthy label).
    - destruct label as [| | |l| |];
        try (right; eexists; split;
             [apply in_or_app; right; left; reflexivity | discriminate]).
      left. apply Forall_app. split.
      + eapply Forall_impl; [|exact Hall]. intros t (c & -> & Hc).
        exists c. split; [reflexivity | left; exact Hc].
      + constructor; [|constructor]. exists l. split; [reflexivity|].
        right. reflexivity.
    - left. rewrite app_nil_r. eapply Forall_impl; [|exact Hall].
      intros t (c & -> & Hc). exists c. split; [reflexivity | left; exact Hc]. }
  destruct tags as [|t0 tags0] eqn:Et.
  { simpl. split; [intros e; apply Hnot|]. split; [discriminate|].
    split; [|discriminate]. intros [Hf|Hf]; discriminate. }
  pose proof (add_tag_attempt file_path (t0 :: tags0) w) as Hat.
  cbv zeta in Hat.
  match type of Hat with
  | match ?m w with _ => _ end => destruct (m w) as [[b|e] w1]
  end.
  - destruct Hat as (-> & strs & rest & Hmap & Htr & Hrest). simpl.
    split; [intros e; apply Hnot|]. split; [discriminate|].
    split; [intros [Hf|Hf]; discriminate|].
    intros _. split; [reflexivity|]. split; [reflexivity|].
    exists strs, rest. split; [|split; [|split; assumption]].
    + intros ->. discriminate.
    + destruct Htags as [Hok|(t & Hin & Hno)].
      * rewrite Hmap in Hok. clear - Hok.
        induction strs as [|x strs IH]; [constructor|].
        inversion Hok as [|y l (c & Hc & Hor) Hrest]; subst.
        inversion Hc. subst c. constructor; [exact Hor | exact (IH Hrest)].
      * exfalso. rewrite Hmap in Hin. apply in_map_iff in Hin.
        destruct Hin as (x & <- & _). exact (Hno x eq_refl).
  - simpl. split; [intros e'; apply Hnot|]. split; [discriminate|].
    split; [intros [Hf|Hf]; discriminate | discriminate].
Qed.

(** ** Tag operations *)

Section TagOperations.
Context {St : Type} `{Host St}.

Lemma bind_kwargs_unknown (kw : pydict) :
  (exists k v, In (k, v) kw /\ k <> "color"%string /\ k <> "label"%string) ->
  forall color label,
  exists msg,
    Tagger.bind_kwargs kw color label = PyRaise (Exn TypeError msg).
Proof.
  induction kw as [|[k0 v0] kw IH]; intros (k & v & Hin & Hc & Hl) color label.
  - contradiction.
  - cbn [Tagger.bind_kwargs]. destruct Hin as [Heq|Hin].
    + inversion Heq. subst k0 v0.
      destruct (String.eqb_spec k "color") as [->|_]; [contradiction|].
      destruct (String.eqb_spec k "label") as [->|_]; [contradiction|].
      eexists. reflexivity.
    + assert (Hex : exists k v, In (k, v) kw /\ k <> "color"%string
                                /\ k <> "label"%string)
        by (exists k, v; auto).
      destruct (String.eqb k0 "color"); [apply IH; exact Hex|].
      destruct (String.eqb k0 "label"); [apply IH; exact Hex|].
      eexists. reflexivity.
Qed.

(** With a colour that is absent or a text, [add_tag] raises only what
    [exists()] raised, and only on macOS. *)
Lemma add_tag_raises (file_path : Path) (color label : pyval) (w : World St) :
  (color = VNone \/ exists c, color = VStr c) ->
  forall e,
    fst (Tagger.add_tag file_path color label w) = PyRaise e
    <-> is_macos = true /\ path_exists (os_state w) file_path = PyRaise e.
Proof.
  intros Hcolor e. rewrite add_tag_run.
  destruct is_macos; cbn [negb].
  2:{ split; [discriminate | intros [Hf _]; discriminate]. }
  destruct (path_exists (os_state w) file_path) as [[|]|e0].
  - destruct (color_tags_text color Hcolor) as (ctags & -> & _).
    destruct (ctags ++ _) as [|t ts].
    + split; [discriminate | intros [_ Hf]; discriminate].
    + match goal with
      | |- context [match ?m w with _ => _ end] => destruct (m w) as [[b|e'] w1]
      end; (split; [discriminate | intros [_ Hf]; discriminate]).
  - split; [discriminate | intros [_ Hf]; discriminate].
  - split.
    + intros He. inversion He. split; reflexivity.
    + intros [_ He]. inversion He. reflexivity.
Qed.
End TagOperations.

(** X12. A tag mapping with a key other than [color] and [label] does
    not bind to the parameters of [add_tag]: executing a tag operation
    with such details raises [TypeError] before anything is looked at or
    done, so the operation is reported as failed and the world is as it
    was. *)
Theorem unknown_tag_key_fails_the_operation :
  forall (St : Type) (H : Host St) (op : Operation) (w : World St),
    operation_type op = "tag"%string ->
    (exists k v, In (k, v) (details op)
                 /\ k <> "color"%string /\ k <> "label"%string) ->
    exists msg,
      dispatch op w = (PyRaise (Exn TypeError msg), w)
      /\ forall o, success (flag_outcome (fst (dispatch op w)) o) = false.
Proof.
  intros St H op w Hty Hkey.
  destruct (bind_kwargs_unknown (details op) Hkey VNone VNone) as [msg Hb].
  exists msg.
  assert (Hrun : dispatch op w = (PyRaise (Exn TypeError msg), w)).
  { unfold dispatch. rewrite Hty. simpl.
    unfold _execute_tag, Tagger.add_tag_kwargs, bind. rewrite Hb.
    reflexivity. }
  rewrite Hrun. split; [reflexivity | intros o; reflexivity].
Qed.

(** X13. A tag operation whose details bind, with a colour that is
    absent or a text, fails in one case only: on macOS, when [exists()]
    raises for the file. In every other case it is reported as
    successful: the value that [add_tag] returns is dropped, so this is
    so also when no tag was set. In particular, for a file that does not
    exist (or on a platform without tags) the operation makes no mutating
    call and is still reported as successful. *)
Theorem tag_operation_reports_success_regardless :
  forall (St : Type) (H : Host St) (op : Operation) (color label : pyval)
         (w : World St),
    operation_type op = "tag"%string ->
    Tagger.bind_kwargs (details op) VNone VNone = PyOk (color, label) ->
    (color = VNone \/ exists c, color = VStr c) ->
    (forall e,
        fst (dispatch op w) = PyRaise e
        <-> is_macos = true
            /\ path_exists (os_state w) (source op) = PyRaise e)
    /\ (is_macos = false
        \/ (exists b, path_exists (os_state w) (source op) = PyOk b) ->
        fst (dispatch op w) = PyOk tt
        /\ forall o, success (flag_outcome (fst (dispatch op w)) o) = true)
    /\ (is_macos = false
        \/ path_exists (os_state w) (source op) = PyOk false ->
        os_state (snd (dispatch op w)) = os_state w
        /\ trace (snd (dispatch op w)) = trace w).
Proof.
  intros St H op color label w Hty Hb Hcolor.
  assert (Hrun : dispatch op w
                 = match Tagger.add_tag (source op) color label w with
                   | (PyOk _, w1) => (PyOk tt, w1)
                   | (PyRaise e, w1) => (PyRaise e, w1)
                   end).
  { unfold dispatch. rewrite Hty. simpl.
    unfold _execute_tag, Tagger.add_tag_kwargs, bind. rewrite Hb.
    destruct (Tagger.add_tag (source op) color label w) as [[b|e] w1];
      reflexivity. }
  rewrite Hrun.
  pose proof (add_tag_raises (source op) color label w Hcolor) as Hiff.
  assert (Hquiet : is_macos = false
                   \/ path_exists (os_state w) (source op) = PyOk false ->
                   os_state (snd (Tagger.add_tag (source op) color label w))
                   = os_state w
                   /\ trace (snd (Tagger.add_tag (source op) color label w))
                      = trace w).
  { rewrite add_tag_run. intros [Hm|Hm].
    - rewrite Hm. split; reflexivity.
    - rewrite Hm. destruct (negb is_macos); split; reflexivity. }
  destruct (Tagger.add_tag (source op) color label w) as [[b'|e'] w1];
    simpl in Hiff, Hquiet |- *.
  - split; [|split].
    + intros e. split; [discriminate|]. intros Hr.
      apply (proj2 (Hiff e)) in Hr. discriminate.
    + intros _. split; [reflexivity | intros o; reflexivity].
    + exact Hquiet.
  - destruct (proj1 (Hiff e') eq_refl) as [Hmac Hex].
    split; [|split].
    + intros e. split.
      * intros He. inversion He; subst. split; assumption.
      * intros [_ He]. rewrite Hex in He. inversion He. reflexivity.
    + intros [Hf|[b Hb']]; [rewrite Hmac in Hf; discriminate|].
      rewrite Hex in Hb'. discriminate.
    + exact Hquiet.
Qed.

(** ** [Mover.move] *)

(** X14. [Mover.move], with [target] the destination itself, or the
    source's name inside it when the destination is a directory:
    - a source that does not exist raises [FileNotFoundError] and nothing
      is done; when [exists()] raises for the source, or [is_dir()] for
      the destination, that exception is raised and nothing is done;
    - otherwise the parent of the target is created and then the file is
      moved to the target, in that order and with no other mutating call;
      no check of the target is made, and the only exceptions are those
      of these two calls; the move is not attempted when creating the
      parent raises;
    - the path returned is the target;
    - for a destination that is a directory and a source whose name is a
      proper component, the target has the source's name and the
      destination as its parent. *)
Theorem move_contract :
  forall (St : Type) (H : Host St) (source destination : Path) (w : World St),
    let run := Mover.move source destination w in
    (path_exists (os_state w) source = PyOk false ->
       run = (PyRaise (Exn FileNotFoundError
                           ("Source file not found: " ++ path_str source)), w))
    /\ (forall e,
          path_exists (os_state w) source = PyRaise e -> run = (PyRaise e, w))
    /\ (path_exists (os_state w) source = PyOk true ->
        (forall e,
            is_dir (os_state w) destination = PyRaise e ->
            run = (PyRaise e, w))
        /\ (forall into : bool,
              is_dir (os_state w) destination = PyOk into ->
              let target :=
                if into then path_join destination (path_name source)
                else destination in
              let made := SysMkdir (path_parent target) in
              let moved := SysMove (path_str source) (path_str target) in
              (forall e st1,
                  mkdir_parents (path_parent target) (os_state w)
                  = (PyRaise e, st1) ->
                  fst run = PyRaise e /\ os_state (snd run) = st1
                  /\ trace (snd run) = trace w ++ [made])
              /\ (forall st1 r st2,
                    mkdir_parents (path_parent target) (os_state w)
                    = (PyOk tt, st1) ->
                    shutil_move (path_str source) (path_str target) st1
                    = (r, st2) ->
                    fst run = match r with
                              | PyOk _ => PyOk target
                              | PyRaise e => PyRaise e
                              end
                    /\ os_state (snd run) = st2
                    /\ trace (snd run) = trace w ++ [made; moved])
              /\ (into = true ->
                  is_component (path_name source) = true ->
                  path_name target = path_name source
                  /\ path_parent target = destination))).
Proof.
  intros St H source destination w run.
  subst run. unfold Mover.move, bind, query_result.
  split; [|split].
  - intros Hex. rewrite Hex. reflexivity.
  - intros e Hex. rewrite Hex. reflexivity.
  - intros Hex. rewrite Hex. cbn [negb]. cbv iota. split.
    + intros e Hdir. rewrite Hdir. reflexivity.
    + intros into Hdir. rewrite Hdir.
      set (target := if into then path_join destination (path_name source)
                     else destination).
      unfold sys_mkdir, sys_move, syscall_run. split; [|split].
      * intros e st1 Hmk. rewrite Hmk. repeat split.
      * intros st1 r st2 Hmk Hmv. rewrite Hmk. simpl. rewrite Hmv.
        rewrite <- app_assoc. destruct r as [[]|e]; repeat split.
      * intros Hinto Hname. subst target. rewrite Hinto.
        destruct destination as [a dir].
        rewrite (path_join_component a dir (path_name source) Hname).
        split; [apply path_name_last | apply path_parent_last].
Qed.

(** ** [Renamer.rename] *)

Lemma sub_loop_skip (m : Re.matcher) (tmpl : list Re.titem) (s : string) :
  forall k, Re.sub_loop m tmpl k s = Re.sub_loop m tmpl 0 (drop_first k s).
Proof.
  induction s as [|c t IH]; intros k.
  - destruct k; reflexivity.
  - destruct k as [|k]; [reflexivity|]. cbn [Re.sub_loop drop_first].
    apply IH.
Qed.

Lemma run_of_suffix (c : ascii) (t : string) :
  exists n,
    String.length t = (n + String.length (Re.run_of c t))%nat
    /\ drop_first n t = Re.run_of c t.
Proof.
  induction t as [|d t IH].
  - exists 0%nat. split; reflexivity.
  - cbn [Re.run_of]. destruct (Ascii.eqb d c).
    + destruct IH as (n & Hlen & Hdrop). exists (S n). simpl.
      rewrite Hlen. split; [reflexivity | exact Hdrop].
    + exists 0%nat. split; reflexivity.
Qed.

Lemma run_of_head (c : ascii) (t : string) :
  Re.run_of c t = ""%string
  \/ exists d r, Re.run_of c t = String d r /\ Ascii.eqb d c = false.
Proof.
  induction t as [|d t IH]; [left; reflexivity|].
  cbn [Re.run_of]. destruct (Ascii.eqb d c) eqn:E; [exact IH|].
  right. exists d, t. split; [reflexivity | exact E].
Qed.

Lemma run_of_length (c : ascii) (t : string) :
  (String.length (Re.run_of c t) <= String.length t)%nat.
Proof. destruct (run_of_suffix c t) as (n & Hlen & _). lia. Qed.

(** One step of the collapse for a separator of one character. *)
Lemma collapse_step (c d : ascii) (t : string) :
  Re.sub_loop (Re.m_separator "" c) [Re.TLit c] 0 (String d t)
  = if Ascii.eqb d c
    then String c (Re.sub_loop (Re.m_separator "" c) [Re.TLit c] 0
                     (Re.run_of c t))
    else String d (Re.sub_loop (Re.m_separator "" c) [Re.TLit c] 0 t).
Proof.
  cbn [Re.sub_loop]. unfold Re.m_separator at 1.
  cbn [startswith String.length drop_first].
  destruct (Ascii.eqb d c); [|reflexivity].
  destruct (run_of_suffix c t) as (n & Hlen & Hdrop).
  unfold Re.consumed. cbn [String.length]. rewrite Hlen.
  replace (S (n + String.length (Re.run_of c t))
           - String.length (Re.run_of c t))%nat with (S n) by lia.
  cbn [Re.expand append]. rewrite sub_loop_skip, Hdrop. reflexivity.
Qed.

Lemma collapse_no_double (c : ascii) (n : nat) :
  forall s, (String.length s <= n)%nat ->
    no_double c (Re.sub_loop (Re.m_separator "" c) [Re.TLit c] 0 s) = true
    /\ (forall d t, s = String d t ->
          exists r,
            Re.sub_loop (Re.m_separator "" c) [Re.TLit c] 0 s = String d r).
Proof.
  induction n as [|n IH]; intros s Hlen.
  - destruct s; [|simpl in Hlen; lia]. split; [reflexivity|]. discriminate.
  - destruct s as [|d t]; [split; [reflexivity | discriminate]|].
    simpl in Hlen. rewrite collapse_step.
    destruct (Ascii.eqb d c) eqn:Edc.
    + apply Ascii.eqb_eq in Edc. subst d.
      assert (Hrun : (String.length (Re.run_of c t) <= n)%nat)
        by (pose proof (run_of_length c t); lia).
      destruct (IH (Re.run_of c t) Hrun) as [Hnd Hhead]. split.
      * cbn [no_double]. rewrite Hnd, andb_true_r.
        destruct (run_of_head c t) as [E|(e & r & E & Hne)].
        -- rewrite E. reflexivity.
        -- destruct (Hhead e r E) as [r' ->]. rewrite Hne, andb_false_r.
           reflexivity.
      * intros d' t' Heq. inversion Heq. subst. eexists. reflexivity.
    + destruct (IH t ltac:(lia)) as [Hnd Hhead]. split.
      * cbn [no_double]. rewrite Hnd, andb_true_r.
        destruct (Re.sub_loop _ _ 0 t); [reflexivity|].
        rewrite Edc. reflexivity.
      * intros d' t' Heq. inversion Heq. subst. eexists. reflexivity.
Qed.

Lemma no_double_tail (c a : ascii) (t : string) :
  no_double c (String a t) = true -> no_double c t = true.
Proof. cbn [no_double]. intros Hn. apply andb_true_iff in Hn. apply Hn. Qed.

Lemma no_double_cons (c a b : ascii) (r : string) :
  no_double c (String a (String b r))
  = (negb (Ascii.eqb a c && Ascii.eqb b c) && no_double c (String b r))%bool.
Proof. reflexivity. Qed.

Lemma no_double_lstrip (c : ascii) (p : ascii -> bool) (s : string) :
  no_double c s = true -> no_double c (lstrip_by p s) = true.
Proof.
  induction s as [|a t IH]; intros Hn; cbn [lstrip_by]; [reflexivity|].
  destruct (p a); [|exact Hn]. apply IH. exact (no_double_tail c a t Hn).
Qed.

Lemma no_double_rstrip (c : ascii) (p : ascii -> bool) (s : string) :
  no_double c s = true -> no_double c (rstrip_by p s) = true.
Proof.
  induction s as [|a t IH]; intros Hn; cbn [rstrip_by]; [reflexivity|].
  pose proof (IH (no_double_tail c a t Hn)) as Ht.
  destruct (rstrip_by p t) as [|b r] eqn:Er.
  - destruct (p a); reflexivity.
  - rewrite no_double_cons, Ht, andb_true_r.
    destruct t as [|b' t']; [discriminate|].
    assert (Hb : b' = b).
    { cbn [rstrip_by] in Er. destruct (rstrip_by p t');
        [destruct (p b'); [discriminate | inversion Er; reflexivity]
        | inversion Er; reflexivity]. }
    subst b'. rewrite no_double_cons in Hn.
    apply andb_true_iff in Hn. apply Hn.
Qed.

Lemma collapse_single (c : ascii) (name r : string) :
  Re.collapse_separator (String c "") name = PyOk r ->
  r = Re.sub_loop (Re.m_separator "" c) [Re.TLit c] 0 name.
Proof.
  unfold Re.collapse_separator. cbn [Re.split_last].
  unfold Re.sub, Re.parse_template. cbn [Re.parse_template_from Re.tstep].
  unfold Re.plain. destruct (Ascii.eqb c "\"); simpl.
  - discriminate.
  - intros Hr. inversion Hr. reflexivity.
Qed.

(** X15. The file name that [rename] computes is a base followed by the
    extension of the file, unchanged; the base neither starts nor ends
    with a character of the separator (stripping it again changes
    nothing). For a separator of one character the base holds, moreover,
    no two adjacent separators: runs are collapsed to one. *)
Theorem new_name_is_trimmed_and_keeps_the_extension :
  forall (file_path : Path) (replace prefix suffix : option string)
         (separator n : string),
    Renamer.new_name_of file_path replace prefix suffix separator = PyOk n ->
    exists base,
      n = (base ++ path_suffix file_path)%string
      /\ strip_chars separator base = base
      /\ forall c, separator = String c "" -> no_double c base = true.
Proof.
  intros file_path replace prefix suffix separator n.
  unfold Renamer.new_name_of.
  destruct (if opt_str_truthy replace then _ else _) as [name0|e];
    simpl rbind; [|discriminate].
  set (name1 := if opt_str_truthy suffix then _ else _).
  destruct (Re.collapse_separator separator name1) as [name2|e] eqn:Ec;
    simpl rbind; [|discriminate].
  intros Hn. inversion Hn. exists (strip_chars separator name2).
  split; [reflexivity|]. split.
  - unfold strip_chars. apply strip_strip.
  - intros c ->. apply collapse_single in Ec. subst name2.
    unfold strip_chars, strip_by.
    apply no_double_rstrip, no_double_lstrip.
    exact (proj1 (collapse_no_double c _ name1 (le_n _))).
Qed.

Lemma collapse_bad_separator (separator name : string) :
  separator = ""%string \/ separator = "\"%string ->
  exists e, Re.collapse_separator separator name = PyRaise e.
Proof. intros [->| ->]; eexists; reflexivity. Qed.

Lemma new_path_of_bad_separator (file_path : Path)
    (replace prefix suffix : option string) (separator : string) :
  separator = ""%string \/ separator = "\"%string ->
  exists e,
    Renamer.new_path_of file_path replace prefix suffix separator = PyRaise e.
Proof.
  intros Hsep. unfold Renamer.new_path_of, Renamer.new_name_of.
  destruct (if opt_str_truthy replace then _ else _) as [name0|e];
    simpl rbind; [|eexists; reflexivity].
  set (name1 := if opt_str_truthy suffix then _ else _).
  destruct (collapse_bad_separator separator name1 Hsep) as [e ->].
  eexists. reflexivity.
Qed.

(** X16. [rename] and the file system:
    - a file that does not exist raises [FileNotFoundError], and nothing
      is done; when [exists()] itself raises, that exception is raised
      and nothing is done;
    - when computing the new name raises (a replacement text that is not
      a valid template, a separator that cannot be repeated), that
      exception is raised and nothing is done;
    - when the new path differs from the old one, exactly one mutating
      call is made, the rename of the file to the new path, and [rename]
      returns the new path or raises what that call raised;
    - with the empty separator, and with the separator made of one
      backslash, [rename] always raises and never touches the file. *)
Theorem rename_touches_only_the_file :
  forall (St : Type) (H : Host St) (file_path : Path)
         (replace prefix suffix : option string) (separator : string)
         (w : World St),
    let planned :=
      Renamer.new_path_of file_path replace prefix suffix separator in
    let run := Renamer.rename file_path replace prefix suffix separator w in
    (path_exists (os_state w) file_path = PyOk false ->
       run = (PyRaise (Exn FileNotFoundError
                           ("File not found: " ++ path_str file_path)), w))
    /\ (forall e,
          path_exists (os_state w) file_path = PyRaise e ->
          run = (PyRaise e, w))
    /\ (forall e,
          path_exists (os_state w) file_path = PyOk true ->
          planned = PyRaise e -> run = (PyRaise e, w))
    /\ (forall new_path r st1,
          path_exists (os_state w) file_path = PyOk true ->
          planned = PyOk new_path ->
          path_eqb new_path file_path = false ->
          os_rename file_path new_path (os_state w) = (r, st1) ->
          run = (match r with
                 | PyOk _ => PyOk new_path
                 | PyRaise e => PyRaise e
                 end,
                 MkWorld st1 (trace w ++ [SysRename file_path new_path])
                         (console w) (log w)))
    /\ (separator = ""%string \/ separator = "\"%string ->
        exists e, run = (PyRaise e, w)).
Proof.
  intros St H file_path replace prefix suffix separator w planned run.
  subst run planned.
  unfold Renamer.rename, bind, query_result, lift_result.
  split; [|split; [|split; [|split]]].
  - intros Hex. rewrite Hex. reflexivity.
  - intros e Hex. rewrite Hex. reflexivity.
  - intros e Hex Hnew. rewrite Hex, Hnew. reflexivity.
  - intros new_path r st1 Hex Hnew Hne Hos. rewrite Hex, Hnew. simpl.
    rewrite Hne. simpl. unfold sys_rename, syscall_run. rewrite Hos.
    destruct r as [[]|e]; reflexivity.
  - intros Hsep.
    destruct (new_path_of_bad_separator file_path replace prefix suffix
                separator Hsep) as [e He].
    rewrite He. destruct (path_exists (os_state w) file_path) as [[|]|e0];
      eexists; reflexivity.
Qed.

Lemma substring_drop_first (s : string) :
  forall i, (substring 0 i s ++ drop_first i s)%string = s.
Proof.
  induction s as [|c t IH]; intros i.
  - destruct i; reflexivity.
  - destruct i as [|i]; [reflexivity|]. cbn [substring drop_first append].
    rewrite IH. reflexivity.
Qed.

Lemma stem_suffix (p : Path) :
  (path_stem p ++ path_suffix p)%string = path_name p.
Proof.
  unfold path_stem, path_suffix.
  destruct (suffix_index (path_name p)) as [i|].
  - apply substring_drop_first.
  - apply app_nil_r_str.
Qed.

Lemma parse_template_plain (groups : nat) (s : string) :
  no_backslash s = true ->
  exists tmpl, Re.parse_template groups s = PyOk tmpl.
Proof.
  unfold Re.parse_template, no_backslash.
  induction s as [|c t IH]; intros Hs; [eexists; reflexivity|].
  cbn [all_chars] in Hs. apply andb_true_iff in Hs. destruct Hs as [Hc Ht].
  apply negb_true_iff in Hc.
  cbn [Re.parse_template_from Re.tstep]. unfold Re.plain. rewrite Hc.
  simpl rbind. destruct (IH Ht) as [tmpl ->]. eexists. reflexivity.
Qed.

Lemma mem_char_drop_first (l : ascii) (s : string) :
  forall n, mem_char l s = false -> mem_char l (drop_first n s) = false.
Proof.
  induction s as [|c t IH]; intros n Hm.
  - destruct n; reflexivity.
  - destruct n as [|n]; [exact Hm|]. cbn [drop_first]. apply IH.
    cbn [mem_char] in Hm. apply orb_false_iff in Hm. apply Hm.
Qed.

Lemma m_separator_needs_last (init : string) (l : ascii) (s : string) :
  mem_char l s = false -> Re.m_separator init l s = None.
Proof.
  intros Hm. unfold Re.m_separator.
  destruct (startswith s init); [|reflexivity].
  pose proof (mem_char_drop_first l s (String.length init) Hm) as Hd.
  destruct (drop_first (String.length init) s) as [|d t]; [reflexivity|].
  cbn [mem_char] in Hd. apply orb_false_iff in Hd. destruct Hd as [Hd _].
  rewrite Ascii.eqb_sym, Hd. reflexivity.
Qed.

Lemma sub_loop_without_match (m : Re.matcher) (tmpl : list Re.titem)
    (l : ascii) (s : string) :
  (forall u, mem_char l u = false -> m u = None) ->
  mem_char l s = false -> Re.sub_loop m tmpl 0 s = s.
Proof.
  intros Hm. induction s as [|c t IH]; intros Hs; [reflexivity|].
  cbn [Re.sub_loop]. rewrite (Hm _ Hs).
  cbn [mem_char] in Hs. apply orb_false_iff in Hs.
  rewrite (IH (proj2 Hs)). reflexivity.
Qed.

Lemma split_last_member (s init : string) (l : ascii) :
  Re.split_last s = Some (init, l) -> mem_char l s = true.
Proof.
  revert init. induction s as [|c t IH]; intros init; [discriminate|].
  cbn [Re.split_last mem_char].
  destruct (Re.split_last t) as [[i x]|] eqn:Et.
  - intros Hs. inversion Hs. subst. rewrite (IH i eq_refl).
    apply orb_true_r.
  - intros Hs. inversion Hs. subst. rewrite Ascii.eqb_refl. reflexivity.
Qed.

Lemma free_of_member (chars s : string) (l : ascii) :
  free_of chars s = true -> mem_char l chars = true -> mem_char l s = false.
Proof.
  unfold free_of. intros Hf Hl. induction s as [|c t IH]; [reflexivity|].
  cbn [all_chars] in Hf. apply andb_true_iff in Hf. destruct Hf as [Hc Ht].
  cbn [mem_char]. rewrite (IH Ht), orb_false_r.
  destruct (Ascii.eqb_spec l c) as [->|_]; [|reflexivity].
  rewrite Hl in Hc. discriminate.
Qed.

(** X17. A rename that asks for nothing changes nothing: without a
    replacement, a prefix or a suffix (each absent or empty), with a
    separator that is not empty and holds no backslash, a file whose stem
    holds no character of the separator keeps its name, and [rename]
    returns the path as it is without any mutating call. *)
Theorem rename_without_changes_is_a_no_op :
  forall (St : Type) (H : Host St) (w : World St) (a : bool)
         (dir : list string) (n : string)
         (replace prefix suffix : option string) (separator : string),
    let file_path := MkPath a (dir ++ [n]) in
    is_component n = true ->
    path_exists (os_state w) file_path = PyOk true ->
    opt_str_truthy replace = false ->
    opt_str_truthy prefix = false ->
    opt_str_truthy suffix = false ->
    separator <> ""%string ->
    no_backslash separator = true ->
    free_of separator (path_stem file_path) = true ->
    Renamer.new_name_of file_path replace prefix suffix separator = PyOk n
    /\ Renamer.rename file_path replace prefix suffix separator w
       = (PyOk file_path, w).
Proof.
  intros St H w a dir n replace prefix suffix separator file_path
         Hn Hex Hr Hp Hs Hne Hnb Hfree.
  assert (Hname : Renamer.new_name_of file_path replace prefix suffix separator
                  = PyOk n).
  { unfold Renamer.new_name_of. rewrite Hr, Hp, Hs. simpl rbind.
    unfold Re.collapse_separator.
    destruct (Re.split_last separator) as [[init l]|] eqn:Esl.
    2:{ destruct separator as [|c sep]; [contradiction | simpl in Esl].
        destruct (Re.split_last sep) as [[? ?]|]; discriminate. }
    pose proof (free_of_member separator (path_stem file_path) l Hfree
                  (split_last_member separator init l Esl)) as Hl.
    unfold Re.sub. destruct (parse_template_plain 0 separator Hnb) as [tmpl ->].
    simpl rbind.
    rewrite (sub_loop_without_match (Re.m_separator init l) tmpl l
               (path_stem file_path) (m_separator_needs_last init l) Hl).
    unfold strip_chars, strip_by.
    rewrite lstrip_none, rstrip_none by exact Hfree.
    rewrite stem_suffix. unfold file_path. rewrite path_name_last.
    reflexivity. }
  split; [exact Hname|].
  unfold Renamer.rename, bind, query_result, lift_result.
  rewrite Hex. cbn [negb]. unfold Renamer.new_path_of. rewrite Hname.
  simpl rbind. unfold file_path at 1.
  rewrite path_parent_last, (path_join_component a dir n Hn).
  fold file_path. rewrite path_eqb_refl. reflexivity.
Qed.

(** ** Planning as a whole *)

Section PlanningAsAWhole.
Context {St : Type} `{Host St}.

Lemma scan_regular (st : St) (path : string) (files : list Path) (f : Path) :
  _scan_directory st path = PyOk files -> In f files ->
  is_file st f = PyOk true.
Proof.
  intros Hs Hin.
  destruct (_scan_directory_spec st path) as (_ & _ & _ & Hsound & _).
  exact (proj1 (Hsound files Hs f Hin)).
Qed.

Lemma scan_all_regular (st : St) (paths : list string) :
  forall files,
    scan_all st paths = PyOk files ->
    forall f, In f files -> is_file st f = PyOk true.
Proof.
  induction paths as [|p paths IH]; simpl; intros files Hs f Hin.
  - inversion Hs; subst. destruct Hin.
  - destruct (_scan_directory st p) as [fs|e] eqn:Ep; [|discriminate].
    simpl in Hs.
    destruct (scan_all st paths) as [more|e] eqn:Em; [|discriminate].
    simpl in Hs. inversion Hs; subst. apply in_app_or in Hin.
    destruct Hin as [Hin|Hin];
      [exact (scan_regular st p fs f Ep Hin) | exact (IH more eq_refl f Hin)].
Qed.

Lemma plans_only_for_each {A} (st : St) (Q : Operation -> Prop)
    (body : A -> M (RState St) unit) (l : list A) :
  (forall x, plans_only st Q (body x)) -> plans_only st Q (for_each l body).
Proof.
  intros Hb. induction l as [|x l IH]; intros s Hst.
  - exists []. split; [apply plans_nothing; reflexivity | constructor].
  - rewrite for_each_cons_run.
    destruct (Hb x s Hst) as (new1 & Hp1 & Hq1).
    destruct (body x s) as [[[]|e] s1]; simpl in Hp1.
    + assert (Hst1 : os_state (world s1) = st)
        by (rewrite (proj1 Hp1); exact Hst).
      destruct (IH s1 Hst1) as (new2 & Hp2 & Hq2).
      exists (new1 ++ new2). split; [exact (plans_trans _ _ _ _ _ Hp1 Hp2)|].
      apply Forall_app. split; assumption.
    + exists new1. split; assumption.
Qed.

Lemma plan_matching_planned (st : St) (rule : Rule) (t : string)
    (files : list Path) (plan : Path -> M (RState St) unit)
    (mk : Path -> Operation) :
  (forall f, In f files -> is_file st f = PyOk true) ->
  (forall f, exists nm dets, mk f = new_operation nm t f dets) ->
  (forall f, plan f = append_operation (mk f)) \/ (exists e, forall f, plan f = raise e) ->
  plans_only st (planned_as st t) (plan_matching rule files plan).
Proof.
  intros Hfiles Hmk Hplan s Hst.
  destruct (plan_matching_spec rule plan mk
              (fun op => operation_type op = t /\ executed op = false
                         /\ success op = false /\ error op = None))
    with (files := files) (s := s) as (new & Hp & Hall & _).
  { intros f s0. destruct Hplan as [Hplan|[e Hplan]]; rewrite Hplan.
    - exists [mk f]. split; [|split].
      + apply append_operation_plans.
      + constructor; [|constructor].
        destruct (Hmk f) as (nm & dets & ->). repeat split.
      + reflexivity.
    - exists []. split; [apply plans_nothing; reflexivity|].
      split; [constructor | discriminate]. }
  exists new. split; [exact Hp|].
  eapply Forall_impl; [|exact Hall].
  intros op (Hin & _ & Hty & He & Hs & Her).
  repeat split; try assumption. exact (Hfiles _ Hin).
Qed.

Lemma _plan_move_operations_planned (st : St) (rule : Rule) :
  plans_only st (planned_as st "move") (_plan_move_operations rule).
Proof.
  intros s Hst.
  destruct (path (condition rule)) as [scope|] eqn:Hpath.
  2:{ unfold _plan_move_operations. rewrite Hpath.
      exists []. split; [apply plans_nothing; reflexivity | constructor]. }
  destruct scope as [|c scope].
  { unfold _plan_move_operations. rewrite Hpath.
    exists []. split; [apply plans_nothing; reflexivity | constructor]. }
  rewrite (_plan_move_operations_scoped rule (String c scope) s Hpath)
    by discriminate.
  destruct (_scan_directory (os_state (world s)) (String c scope))
    as [files|e] eqn:Escan.
  2:{ exists []. split; [apply plans_nothing; reflexivity | constructor]. }
  set (s0 := MkRState (runner s) (world s)).
  assert (Hst0 : os_state (world s0) = st) by exact Hst.
  assert (Hsame : forall s' new, plans s0 s' new -> plans s s' new)
    by (intros s' new Hp; exact Hp).
  assert (Hreg : forall f, In f files -> is_file st f = PyOk true).
  { intros f Hin. rewrite <- Hst.
    exact (scan_regular _ _ files f Escan Hin). }
  destruct (move (action rule)) as [m|].
  - destruct (plan_matching_planned st rule "move" files
                (fun file_path =>
                   append_operation
                     (new_operation (name rule) "move" file_path
                                    (move_details rule (expanduser m))))
                (fun f => new_operation (name rule) "move" f
                                        (move_details rule (expanduser m))))
      with (s := s0) as (new & Hp & Hq).
    + exact Hreg.
    + intros f. eexists. eexists. reflexivity.
    + left. reflexivity.
    + exact Hst0.
    + exists new. split; [exact (Hsame _ _ Hp) | exact Hq].
  - destruct (plan_matching_planned st rule "move" files
                (fun file_path =>
                   raise (Exn TypeError
                            "expected str, bytes or os.PathLike object, not NoneType"))
                (fun f => new_operation "" "move" f []))
      with (s := s0) as (new & Hp & Hq).
    + exact Hreg.
    + intros f. eexists. eexists. reflexivity.
    + right. eexists. reflexivity.
    + exact Hst0.
    + exists new. split; [exact (Hsame _ _ Hp) | exact Hq].
Qed.

Lemma plan_over_planned (st : St) (rule : Rule) (t : string) (dets : pydict)
    (scan_paths : list string) :
  plans_only st (planned_as st t) (plan_over scan_paths rule t dets).
Proof.
  unfold plan_over. apply plans_only_for_each. intros scan_path s Hst.
  unfold bind at 1. unfold on_world, query_result.
  destruct (_scan_directory (os_state (world s)) scan_path)
    as [files|e] eqn:Escan.
  2:{ exists []. split; [apply plans_nothing; reflexivity | constructor]. }
  set (s0 := MkRState (runner s) (world s)).
  destruct (plan_matching_planned st rule t files
              (fun file_path =>
                 append_operation (new_operation (name rule) t file_path dets))
              (fun f => new_operation (name rule) t f dets))
    with (s := s0) as (new & Hp & Hq).
  - intros f Hin. rewrite <- Hst. exact (scan_regular _ _ files f Escan Hin).
  - intros f. eexists. eexists. reflexivity.
  - left. reflexivity.
  - exact Hst.
  - exists new. split; [exact Hp | exact Hq].
Qed.

Lemma find_duplicates_two (st : St) (files : list Path) (check_by : string)
    (groups : list (list Path)) (g : list Path) :
  Deduplicator.find_duplicates st files check_by = PyOk groups ->
  In g groups ->
  exists first rest, g = first :: rest /\ rest <> [].
Proof.
  intros Hfind Hin.
  assert (Hlen : (2 <= List.length g)%nat).
  { unfold Deduplicator.find_duplicates in Hfind.
    destruct (String.eqb check_by "name").
    - inversion Hfind; subst. exact (more_than_one_sound _ g Hin).
    - unfold Deduplicator._find_by_content in Hfind.
      destruct (Deduplicator.hash_loop st files []); [|discriminate].
      inversion Hfind; subst. exact (more_than_one_sound _ g Hin). }
  destruct g as [|first [|second rest]]; simpl in Hlen; try lia.
  exists first, (second :: rest). split; [reflexivity | discriminate].
Qed.

Lemma plan_groups (rule : DuplicateRule) (groups : list (list Path)) :
  (forall g, In g groups -> exists first rest, g = first :: rest /\ rest <> []) ->
  forall s : RState St,
  exists new,
    for_each groups
      (fun duplicate_group =>
         match duplicate_group with
         | first :: _ =>
             append_operation
               (new_operation (dup_name rule) "duplicate" first
                              (duplicate_details rule duplicate_group))
         | [] => raise (Exn IndexError "list index out of range")
         end) s
    = (PyOk tt,
       MkRState (with_operations (runner s) (operations (runner s) ++ new))
                (world s))
    /\ Forall2 (duplicate_operation rule) groups new.
Proof.
  induction groups as [|g groups IH]; intros Hall s.
  - exists []. rewrite app_nil_r. split; [|constructor].
    destruct s as [[? ? ? ? ?] ?]; reflexivity.
  - rewrite for_each_cons_run.
    destruct (Hall g (or_introl eq_refl)) as (first & rest & -> & Hrest).
    unfold append_operation at 1. unfold on_runner, modify.
    set (s1 := MkRState _ _).
    destruct (IH (fun g' Hg' => Hall g' (or_intror Hg')) s1) as (new & Hrun & Hf2).
    exists (new_operation (dup_name rule) "duplicate" first
                          (duplicate_details rule (first :: rest)) :: new).
    split.
    + rewrite Hrun. unfold s1. simpl. rewrite <- app_assoc. reflexivity.
    + constructor; [|exact Hf2]. exists first, rest. repeat split. exact Hrest.
Qed.

Lemma find_duplicates_members (st : St) (files : list Path)
    (check_by : string) (groups : list (list Path)) (g : list Path)
    (f : Path) :
  Deduplicator.find_duplicates st files check_by = PyOk groups ->
  In g groups -> In f g -> In f files.
Proof.
  intros Hfind Hg Hf.
  assert (Hex : exists key k, g = filter (filed_under key k) files).
  { unfold Deduplicator.find_duplicates in Hfind.
    destruct (String.eqb check_by "name").
    - inversion Hfind; subst groups.
      unfold Deduplicator._find_by_name in Hg.
      rewrite (fold_left_ext
                 (fun groups file_path =>
                    Deduplicator.group_add (path_name file_path) file_path
                                           groups)
                 (file_under name_key) files) in Hg by reflexivity.
      apply grouping_exact in Hg. destruct Hg as [[k Hk] _].
      exists name_key, k. exact Hk.
    - unfold Deduplicator._find_by_content in Hfind.
      destruct (Deduplicator.hash_loop st files []) as [hg|e] eqn:El;
        [|discriminate].
      rewrite (hash_loop_fold st files (hash_loop_answers st files [] hg El))
        in El.
      inversion El; subst hg. inversion Hfind; subst groups.
      apply grouping_exact in Hg. destruct Hg as [[k Hk] _].
      exists (content_key st), k. exact Hk. }
  destruct Hex as (key & k & ->). apply filter_In in Hf. apply Hf.
Qed.

(** The duplicate planner, step by step: the two scans, the grouping,
    one operation per group. *)
Lemma _plan_duplicate_operations_run (rule : DuplicateRule) (s : RState St) :
  match scan_all (os_state (world s)) duplicate_scan_paths with
  | PyRaise e => _plan_duplicate_operations rule s = (PyRaise e, s)
  | PyOk files =>
      match
        Deduplicator.find_duplicates (os_state (world s)) files (check_by rule)
      with
      | PyRaise e => _plan_duplicate_operations rule s = (PyRaise e, s)
      | PyOk groups =>
          exists new,
            _plan_duplicate_operations rule s
            = (PyOk tt,
               MkRState (with_operations (runner s)
                                         (operations (runner s) ++ new))
                        (world s))
            /\ Forall2 (duplicate_operation rule) groups new
      end
  end.
Proof.
  assert (Hfirst :
            _plan_duplicate_operations rule s
            = match scan_all (os_state (world s)) duplicate_scan_paths with
              | PyRaise e => (PyRaise e, s)
              | PyOk files =>
                  match
                    Deduplicator.find_duplicates (os_state (world s)) files
                                                 (check_by rule)
                  with
                  | PyRaise e => (PyRaise e, s)
                  | PyOk groups =>
                      for_each groups
                        (fun duplicate_group =>
                           match duplicate_group with
                           | first :: _ =>
                               append_operation
                                 (new_operation
                                    (dup_name rule) "duplicate" first
                                    (duplicate_details rule duplicate_group))
                           | [] =>
                               raise (Exn IndexError
                                          "list index out of range")
                           end) s
                  end
              end).
  { destruct s as [r w].
    unfold _plan_duplicate_operations, bind, on_world, query_result.
    cbn [world runner os_state].
    destruct (scan_all (os_state w) duplicate_scan_paths) as [files|e];
      [|reflexivity].
    destruct (Deduplicator.find_duplicates (os_state w) files (check_by rule));
      reflexivity. }
  destruct (scan_all (os_state (world s)) duplicate_scan_paths)
    as [files|e] eqn:Escan; [|exact Hfirst].
  destruct (Deduplicator.find_duplicates (os_state (world s)) files
                                         (check_by rule))
    as [groups|e] eqn:Efind; [|exact Hfirst].
  destruct (plan_groups rule groups
              (fun g Hg => find_duplicates_two _ _ _ groups g Efind Hg) s)
    as (new & Hrun & Hf2).
  exists new. split; [rewrite Hfirst; exact Hrun | exact Hf2].
Qed.

Lemma duplicate_operations_planned (st : St) (rule : DuplicateRule)
    (files : list Path) (check_by : string) (groups gs : list (list Path))
    (new : list Operation) :
  (forall f, In f files -> is_file st f = PyOk true) ->
  Deduplicator.find_duplicates st files check_by = PyOk groups ->
  (forall g, In g gs -> In g groups) ->
  Forall2 (duplicate_operation rule) gs new ->
  Forall (planned_as st "duplicate") new.
Proof.
  intros Hfiles Hfind Hsub Hf2.
  induction Hf2 as [|g op gs new (first & rest & -> & _ & ->) _ IH];
    constructor.
  - repeat split. simpl. apply Hfiles.
    apply (find_duplicates_members st files check_by groups (first :: rest)).
    + exact Hfind.
    + apply Hsub. left. reflexivity.
    + left. reflexivity.
  - apply IH. intros g Hg. apply Hsub. right. exact Hg.
Qed.

Lemma _plan_duplicate_operations_planned (st : St) (rule : DuplicateRule) :
  plans_only st (planned_as st "duplicate") (_plan_duplicate_operations rule).
Proof.
  intros s Hst. pose proof (_plan_duplicate_operations_run rule s) as Hrun.
  destruct (scan_all (os_state (world s)) duplicate_scan_paths)
    as [files|e] eqn:Escan.
  2:{ rewrite Hrun. exists [].
      split; [apply plans_nothing; reflexivity | constructor]. }
  destruct (Deduplicator.find_duplicates (os_state (world s)) files
                                         (check_by rule))
    as [groups|e] eqn:Efind.
  2:{ rewrite Hrun. exists [].
      split; [apply plans_nothing; reflexivity | constructor]. }
  destruct Hrun as (new & Hrun & Hf2).
  exists new. rewrite Hrun. split; [split; reflexivity|].
  rewrite Hst in Escan, Efind.
  eapply duplicate_operations_planned; [| exact Efind | | exact Hf2].
  - exact (scan_all_regular st duplicate_scan_paths files Escan).
  - intros g Hg. exact Hg.
Qed.

Lemma four_loops (st : St) (m1 m2 m3 m4 : M (RState St) unit)
    (Q1 Q2 Q3 Q4 : Operation -> Prop) :
  plans_only st Q1 m1 -> plans_only st Q2 m2 ->
  plans_only st Q3 m3 -> plans_only st Q4 m4 ->
  forall s, os_state (world s) = st ->
    let run := (m1 ;; m2 ;; m3 ;; m4 ;;
                gets (fun s => operations (runner s))) s in
    exists n1 n2 n3 n4,
      plans s (snd run) (n1 ++ n2 ++ n3 ++ n4)
      /\ Forall Q1 n1 /\ Forall Q2 n2 /\ Forall Q3 n3 /\ Forall Q4 n4
      /\ (forall ops, fst run = PyOk ops -> ops = operations (runner (snd run))).
Proof.
  intros H1 H2 H3 H4 s Hst run. subst run. unfold bind, gets.
  destruct (H1 s Hst) as (n1 & Hp1 & Hq1).
  destruct (m1 s) as [[[]|e1] s1]; simpl in Hp1.
  2:{ exists n1, [], [], []. rewrite !app_nil_r.
      repeat split; try constructor; try assumption; try apply Hp1.
      discriminate. }
  assert (Hst1 : os_state (world s1) = st) by (rewrite (proj1 Hp1); exact Hst).
  destruct (H2 s1 Hst1) as (n2 & Hp2 & Hq2).
  destruct (m2 s1) as [[[]|e2] s2]; simpl in Hp2.
  2:{ exists n1, n2, [], []. rewrite !app_nil_r.
      pose proof (plans_trans _ _ _ _ _ Hp1 Hp2) as Hp.
      repeat split; try constructor; try assumption; try apply Hp.
      discriminate. }
  assert (Hst2 : os_state (world s2) = st) by (rewrite (proj1 Hp2); exact Hst1).
  destruct (H3 s2 Hst2) as (n3 & Hp3 & Hq3).
  destruct (m3 s2) as [[[]|e3] s3]; simpl in Hp3.
  2:{ exists n1, n2, n3, []. rewrite !app_nil_r.
      pose proof (plans_trans _ _ _ _ _ Hp1
                    (plans_trans _ _ _ _ _ Hp2 Hp3)) as Hp.
      repeat split; try constructor; try assumption; try apply Hp.
      discriminate. }
  assert (Hst3 : os_state (world s3) = st) by (rewrite (proj1 Hp3); exact Hst2).
  destruct (H4 s3 Hst3) as (n4 & Hp4 & Hq4).
  pose proof (plans_trans _ _ _ _ _ Hp1
                (plans_trans _ _ _ _ _ Hp2
                   (plans_trans _ _ _ _ _ Hp3 Hp4))) as Hp.
  destruct (m4 s3) as [[[]|e4] s4]; simpl in Hp4, Hp |- *;
    exists n1, n2, n3, n4;
    repeat split; try assumption; try apply Hp.
  - intros ops Hops. inversion Hops. reflexivity.
  - discriminate.
Qed.

Lemma count_type_from (t : string) (ops : list Operation) :
  forall acc,
    fold_left
      (fun acc o => if String.eqb (operation_type o) t then acc + 1 else acc)
      ops acc
    = acc + count_type t ops.
Proof.
  unfold count_type. induction ops as [|o ops IH]; intros acc; simpl; [lia|].
  rewrite IH, (IH (if String.eqb (operation_type o) t then 1 else 0)).
  destruct (String.eqb (operation_type o) t); lia.
Qed.

Lemma count_type_cons (t : string) (o : Operation) (ops : list Operation) :
  count_type t (o :: ops)
  = (if String.eqb (operation_type o) t then 1 else 0) + count_type t ops.
Proof.
  unfold count_type at 1. simpl. rewrite count_type_from.
  destruct (String.eqb (operation_type o) t); reflexivity.
Qed.

Lemma count_type_app (t : string) (l1 l2 : list Operation) :
  count_type t (l1 ++ l2) = count_type t l1 + count_type t l2.
Proof.
  induction l1 as [|o l1 IH]; [reflexivity|].
  rewrite <- app_comm_cons, !count_type_cons, IH. lia.
Qed.

Lemma count_type_all (st : St) (t t' : string) (l : list Operation) :
  Forall (planned_as st t') l ->
  count_type t l = if String.eqb t' t then Z.of_nat (List.length l) else 0.
Proof.
  induction 1 as [|o l (Hty & _) _ IH]; [destruct (String.eqb t' t); reflexivity|].
  rewrite count_type_cons, IH, Hty. simpl List.length.
  destruct (String.eqb t' t); lia.
Qed.
Lemma scan_and_plan_run (s : RState St) :
  scan_and_plan s
  = match load_all_rules (rules_dir (runner s)) (world s) with
    | (PyOk rules, w1) =>
        (for_each (move_rules rules) _plan_move_operations ;;
         for_each (rename_rules rules) _plan_rename_operations ;;
         for_each (tag_rules rules) _plan_tag_operations ;;
         for_each (duplicate_rules rules) _plan_duplicate_operations ;;
         gets (fun s => operations (runner s)))
          (MkRState (with_operations (runner s) []) w1)
    | (PyRaise e, w1) =>
        (PyRaise e, MkRState (with_operations (runner s) []) w1)
    end.
Proof.
  unfold scan_and_plan.
  unfold bind at 1. unfold on_runner, modify.
  unfold bind at 1. unfold gets at 1.
  unfold bind at 1. unfold on_world at 1. cbn [runner world].
  change (rules_dir (with_operations (runner s) []))
    with (rules_dir (runner s)).
  destruct (load_all_rules (rules_dir (runner s)) (world s))
    as [[rules|e] w1]; reflexivity.
Qed.
End PlanningAsAWhole.

(** X18. Planning for a duplicate rule leaves the world alone. It scans
    ~/Downloads and then ~/Documents and groups the files found: when a
    scan raises, or the grouping does, the planner raises that exception
    and plans nothing. Otherwise it returns, having appended exactly one
    operation per group that [find_duplicates] returned, in the order of
    the groups. The operation is of type "duplicate", its source is the
    first member of the group, a regular file, and its details carry the
    whole group, which has at least two members, together with the rule's
    action. *)
Theorem duplicate_planner_plans_one_operation_per_group :
  forall (St : Type) (H : Host St) (rule : DuplicateRule) (s : RState St),
    let st := os_state (world s) in
    let run := _plan_duplicate_operations rule s in
    (forall e,
        _scan_directory st "~/Downloads" = PyRaise e -> run = (PyRaise e, s))
    /\ (forall found e,
          _scan_directory st "~/Downloads" = PyOk found ->
          _scan_directory st "~/Documents" = PyRaise e ->
          run = (PyRaise e, s))
    /\ (forall found more,
          _scan_directory st "~/Downloads" = PyOk found ->
          _scan_directory st "~/Documents" = PyOk more ->
          (forall e,
              Deduplicator.find_duplicates st (found ++ more) (check_by rule)
              = PyRaise e ->
              run = (PyRaise e, s))
          /\ (forall groups,
                Deduplicator.find_duplicates st (found ++ more) (check_by rule)
                = PyOk groups ->
                exists new,
                  run = (PyOk tt,
                         MkRState (with_operations
                                     (runner s) (operations (runner s) ++ new))
                                  (world s))
                  /\ Forall2 (duplicate_operation rule) groups new
                  /\ Forall (planned_as st "duplicate") new)).
Proof.
  intros St H rule s st run. subst run.
  pose proof (_plan_duplicate_operations_run rule s) as Hrun.
  unfold duplicate_scan_paths in Hrun. cbn [scan_all] in Hrun. fold st in Hrun.
  split; [|split].
  - intros e He. rewrite He in Hrun. exact Hrun.
  - intros found e Hf He. rewrite Hf, He in Hrun. exact Hrun.
  - intros found more Hf Hm. rewrite Hf, Hm in Hrun. simpl rbind in Hrun.
    rewrite app_nil_r in Hrun. split.
    + intros e He. rewrite He in Hrun. exact Hrun.
    + intros groups Hg. rewrite Hg in Hrun.
      destruct Hrun as (new & Hrun & Hf2).
      exists new. split; [exact Hrun|]. split; [exact Hf2|].
      eapply duplicate_operations_planned; [| exact Hg | | exact Hf2].
      * intros f Hin. apply in_app_or in Hin.
        destruct Hin as [Hin|Hin];
          [exact (scan_regular st _ found f Hf Hin)
          | exact (scan_regular st _ more f Hm Hin)].
      * intros g Hin. exact Hin.
Qed.

(** X19. However [scan_and_plan] ends, the operations it leaves in the
    runner are those planned in this run and no others (operations of an
    earlier run are dropped), and they stand in the order of the rule
    files: first the moves, then the renames, then the tags, then the
    duplicate operations. Every one of them is freshly planned (not
    executed, no error) and its source was a regular file when the plan
    was made. When [scan_and_plan] returns, it returns this list, and
    [get_summary] then reports the four lengths and their sum. *)
Theorem planning_orders_operations_by_rule_file :
  forall (St : Type) (H : Host St) (s : RState St),
    let st := os_state (world s) in
    let after := runner (snd (scan_and_plan s)) in
    exists mv rn tg dp,
      operations after = mv ++ rn ++ tg ++ dp
      /\ Forall (planned_as st "move") mv
      /\ Forall (planned_as st "rename") rn
      /\ Forall (planned_as st "tag") tg
      /\ Forall (planned_as st "duplicate") dp
      /\ (forall ops, fst (scan_and_plan s) = PyOk ops ->
                      ops = mv ++ rn ++ tg ++ dp)
      /\ by_move (get_summary after) = Z.of_nat (List.length mv)
      /\ by_rename (get_summary after) = Z.of_nat (List.length rn)
      /\ by_tag (get_summary after) = Z.of_nat (List.length tg)
      /\ by_duplicate (get_summary after) = Z.of_nat (List.length dp)
      /\ total (get_summary after)
         = by_move (get_summary after) + by_rename (get_summary after)
           + by_tag (get_summary after) + by_duplicate (get_summary after).
Proof.
  intros St H s st after.
  assert (Hshape :
            exists mv rn tg dp,
              operations after = mv ++ rn ++ tg ++ dp
              /\ Forall (planned_as st "move") mv
              /\ Forall (planned_as st "rename") rn
              /\ Forall (planned_as st "tag") tg
              /\ Forall (planned_as st "duplicate") dp
              /\ (forall ops, fst (scan_and_plan s) = PyOk ops ->
                              ops = mv ++ rn ++ tg ++ dp)).
  { subst after. rewrite !scan_and_plan_run.
    pose proof (load_all_rules_read_only (rules_dir (runner s)) (world s))
      as Hro.
    destruct (load_all_rules (rules_dir (runner s)) (world s))
      as [[rules|e] w1]; simpl in Hro.
    2:{ exists [], [], [], []. simpl.
        repeat split; try constructor. discriminate. }
    set (s1 := MkRState (with_operations (runner s) []) w1).
    assert (Hst1 : os_state (world s1) = st).
    { unfold files_of in Hro. inversion Hro as [[Hos Htr]]. exact Hos. }
    destruct (four_loops st
                (for_each (move_rules rules) _plan_move_operations)
                (for_each (rename_rules rules) _plan_rename_operations)
                (for_each (tag_rules rules) _plan_tag_operations)
                (for_each (duplicate_rules rules) _plan_duplicate_operations)
                (planned_as st "move") (planned_as st "rename")
                (planned_as st "tag") (planned_as st "duplicate"))
      with (s := s1) as (mv & rn & tg & dp & Hp & Hmv & Hrn & Htg & Hdp & Hret).
    - apply plans_only_for_each. intros r.
      apply _plan_move_operations_planned.
    - apply plans_only_for_each. intros r. apply plan_over_planned.
    - apply plans_only_for_each. intros r. apply plan_over_planned.
    - apply plans_only_for_each. intros r.
      apply _plan_duplicate_operations_planned.
    - exact Hst1.
    - exists mv, rn, tg, dp. cbv zeta in Hp, Hret.
      assert (Hops : operations (runner (snd
                  ((for_each (move_rules rules) _plan_move_operations ;;
                    for_each (rename_rules rules) _plan_rename_operations ;;
                    for_each (tag_rules rules) _plan_tag_operations ;;
                    for_each (duplicate_rules rules) _plan_duplicate_operations ;;
                    gets (fun s => operations (runner s))) s1)))
                = mv ++ rn ++ tg ++ dp) by exact (proj2 Hp).
      split; [exact Hops|]. repeat split; try assumption.
      intros ops Hfst. rewrite (Hret ops Hfst). exact Hops. }
  destruct Hshape as (mv & rn & tg & dp & Hops & Hmv & Hrn & Htg & Hdp & Hret).
  exists mv, rn, tg, dp.
  assert (Hcount : forall t,
             count_type t (operations after)
             = (if String.eqb "move" t then Z.of_nat (List.length mv) else 0)
               + (if String.eqb "rename" t then Z.of_nat (List.length rn) else 0)
               + (if String.eqb "tag" t then Z.of_nat (List.length tg) else 0)
               + (if String.eqb "duplicate" t
                  then Z.of_nat (List.length dp) else 0)).
  { intros t. rewrite Hops, !count_type_app.
    rewrite (count_type_all st t "move" mv Hmv),
      (count_type_all st t "rename" rn Hrn),
      (count_type_all st t "tag" tg Htg),
      (count_type_all st t "duplicate" dp Hdp). lia. }
  unfold get_summary. cbn [total by_move by_rename by_tag by_duplicate].
  rewrite !Hcount. simpl String.eqb. cbv iota.
  rewrite Hops, !length_app.
  repeat split; try assumption; lia.
Qed.

Lemma known_types_are_counted (ops : list Operation) :
  count_type "move" ops + count_type "rename" ops + count_type "tag" ops
  + count_type "duplicate" ops
  + Z.of_nat (List.length (filter unknown_type ops))
  = Z.of_nat (List.length ops).
Proof.
  induction ops as [|o ops IH]; [reflexivity|].
  rewrite !count_type_cons. cbn [filter]. unfold unknown_type at 1.
  change (List.length (o :: ops)) with (S (List.length ops)).
  rewrite Nat2Z.inj_succ.
  assert (Hcases :
            operation_type o = "move"%string
            \/ operation_type o = "rename"%string
            \/ operation_type o = "tag"%string
            \/ operation_type o = "duplicate"%string
            \/ (String.eqb (operation_type o) "move" = false
                /\ String.eqb (operation_type o) "rename" = false
                /\ String.eqb (operation_type o) "tag" = false
                /\ String.eqb (operation_type o) "duplicate" = false)).
  { destruct (String.eqb_spec (operation_type o) "move"); [auto|].
    destruct (String.eqb_spec (operation_type o) "rename"); [auto|].
    destruct (String.eqb_spec (operation_type o) "tag"); [auto|].
    destruct (String.eqb_spec (operation_type o) "duplicate"); [auto 6|].
    right. right. right. right. repeat split. }
  destruct Hcases as [E|[E|[E|[E|(E1 & E2 & E3 & E4)]]]];
    [rewrite E .. | rewrite E1, E2, E3, E4];
    repeat match goal with
           | |- context [String.eqb ?a ?b] =>
               let v := eval vm_compute in (String.eqb a b) in
               change (String.eqb a b) with v
           end;
    cbn [orb negb]; cbv iota;
    change (List.length (o :: filter unknown_type ops))
      with (S (List.length (filter unknown_type ops)));
    rewrite ?Nat2Z.inj_succ; lia.
Qed.

(** X20. In the summary of a runner, the four counts by type and the
    number of operations of any other type add up to the total: the
    counts by type sum to the total exactly when every operation has one
    of the types move, rename, tag, duplicate, and fall short of it by
    the number of the others. The summary's dry-run flag is the
    runner's. *)
Theorem summary_counts_add_up :
  forall self : Runner,
    by_move (get_summary self) + by_rename (get_summary self)
    + by_tag (get_summary self) + by_duplicate (get_summary self)
    + Z.of_nat (List.length (filter unknown_type (operations self)))
    = total (get_summary self)
    /\ summary_dry_run (get_summary self) = dry_run self
    /\ (by_move (get_summary self) + by_rename (get_summary self)
        + by_tag (get_summary self) + by_duplicate (get_summary self)
        = total (get_summary self)
        <-> Forall (fun o => unknown_type o = false) (operations self)).
Proof.
  intros self. pose proof (known_types_are_counted (operations self)) as Hsum.
  unfold get_summary. cbn [total by_move by_rename by_tag by_duplicate
                           summary_dry_run].
  split; [exact Hsum|]. split; [reflexivity|].
  assert (Hnone : List.length (filter unknown_type (operations self)) = 0%nat
                  <-> Forall (fun o => unknown_type o = false)
                             (operations self)).
  { clear Hsum. induction (operations self) as [|o ops IH]; simpl.
    - split; [constructor | reflexivity].
    - destruct (unknown_type o) eqn:E; simpl.
      + split; [discriminate|]. intros Hf. inversion Hf. congruence.
      + rewrite IH. split; [intros Hf; constructor; assumption|].
        intros Hf. inversion Hf. assumption. }
  rewrite <- Hnone. lia.
Qed.

(** ** Planning stops at the first failure *)

Section PlanningFailures.
Context {St : Type} `{Host St}.

Lemma plan_matching_raises (rule : Rule) (plan : Path -> M (RState St) unit)
    (f : Path) (files : list Path) :
  (forall f' s', world (snd (plan f' s')) = world s') ->
  In f files ->
  forall s,
    (exists e, matches (os_state (world s)) (condition rule) f = PyRaise e)
    \/ (matches (os_state (world s)) (condition rule) f = PyOk true
        /\ forall s', exists e, fst (plan f s') = PyRaise e) ->
    exists e, fst (plan_matching rule files plan s) = PyRaise e.
Proof.
  intros Hworld Hin. induction files as [|f0 files IH]; [contradiction|].
  intros s Hfail.
  unfold plan_matching. rewrite for_each_cons_run.
  fold (plan_matching rule files plan).
  unfold bind at 1. unfold on_world, query_result.
  set (s0 := MkRState (runner s) (world s)).
  assert (Hrest : forall s1, world s1 = world s -> In f files ->
                    exists e, fst (plan_matching rule files plan s1) = PyRaise e).
  { intros s1 Hw Hf. apply (IH Hf). rewrite Hw. exact Hfail. }
  destruct Hin as [->|Hin].
  - destruct Hfail as [[e He]|[Hm Hplan]].
    + rewrite He. exists e. reflexivity.
    + rewrite Hm. destruct (Hplan s0) as [e He].
      destruct (plan f s0) as [[[]|e'] s1]; simpl in He; [discriminate|].
      exists e'. reflexivity.
  - destruct (matches (os_state (world s)) (condition rule) f0) as [[|]|e0].
    + pose proof (Hworld f0 s0) as Hw.
      destruct (plan f0 s0) as [[[]|e'] s1]; simpl in Hw.
      * apply Hrest; [exact Hw | exact Hin].
      * exists e'. reflexivity.
    + unfold ret. apply Hrest; [reflexivity | exact Hin].
    + exists e0. reflexivity.
Qed.

Lemma plan_matching_world (rule : Rule) (plan : Path -> M (RState St) unit)
    (files : list Path) :
  (forall f' s', world (snd (plan f' s')) = world s') ->
  forall s, world (snd (plan_matching rule files plan s)) = world s.
Proof.
  intros Hworld. induction files as [|f0 files IH]; intros s; [reflexivity|].
  unfold plan_matching. rewrite for_each_cons_run.
  fold (plan_matching rule files plan).
  unfold bind at 1. unfold on_world, query_result.
  set (s0 := MkRState (runner s) (world s)).
  destruct (matches (os_state (world s)) (condition rule) f0) as [[|]|e0].
  - pose proof (Hworld f0 s0) as Hw.
    destruct (plan f0 s0) as [[[]|e'] s1]; simpl in Hw |- *.
    + rewrite IH. exact Hw.
    + exact Hw.
  - unfold ret. rewrite IH. reflexivity.
  - reflexivity.
Qed.

Lemma for_each_raises {A} (st : St) (Q : Operation -> Prop)
    (body : A -> M (RState St) unit) (x : A) (l : list A) :
  (forall y, plans_only st Q (body y)) ->
  (forall s, os_state (world s) = st -> exists e, fst (body x s) = PyRaise e) ->
  In x l ->
  forall s, os_state (world s) = st ->
    exists e, fst (for_each l body s) = PyRaise e.
Proof.
  intros Hplans Hx Hin. induction l as [|y l IH]; [contradiction|].
  intros s Hst. rewrite for_each_cons_run.
  destruct (Hplans y s Hst) as (new & [Hw _] & _).
  destruct Hin as [->|Hin].
  - destruct (Hx s Hst) as [e He].
    destruct (body x s) as [[[]|e'] s1]; simpl in He; [discriminate|].
    exists e'. reflexivity.
  - destruct (body y s) as [[[]|e'] s1]; simpl in Hw.
    + apply (IH Hin). rewrite Hw. exact Hst.
    + exists e'. reflexivity.
Qed.

Lemma append_operation_world (op : Operation) (s : RState St) :
  world (snd (append_operation op s)) = world s.
Proof. reflexivity. Qed.

Lemma _plan_move_operations_raises (rule : Rule) (scope : string)
    (files : list Path) (f : Path) (s : RState St) :
  path (condition rule) = Some scope -> scope <> ""%string ->
  _scan_directory (os_state (world s)) scope = PyOk files -> In f files ->
  (exists e, matches (os_state (world s)) (condition rule) f = PyRaise e)
  \/ (matches (os_state (world s)) (condition rule) f = PyOk true
      /\ move (action rule) = None) ->
  exists e, fst (_plan_move_operations rule s) = PyRaise e.
Proof.
  intros Hpath Hne Hscan Hin Hfail.
  rewrite (_plan_move_operations_scoped rule scope s Hpath Hne), Hscan.
  apply (plan_matching_raises rule _ f).
  - intros f' s'. destruct (move (action rule)); reflexivity.
  - exact Hin.
  - destruct Hfail as [He|[Hm Hmove]]; [left; exact He|].
    right. split; [exact Hm|]. intros s'. rewrite Hmove.
    eexists. reflexivity.
Qed.

Lemma plan_over_raises (rule : Rule) (t : string) (dets : pydict)
    (scan_paths : list string) (scan_path : string) (files : list Path)
    (f : Path) :
  forall s : RState St,
    In scan_path scan_paths ->
    _scan_directory (os_state (world s)) scan_path = PyOk files ->
    In f files ->
    (exists e, matches (os_state (world s)) (condition rule) f = PyRaise e) ->
    exists e, fst (plan_over scan_paths rule t dets s) = PyRaise e.
Proof.
  induction scan_paths as [|p scan_paths IH]; intros s Hp Hscan Hin Hfail;
    [contradiction|].
  rewrite plan_over_cons.
  set (s0 := MkRState (runner s) (world s)).
  destruct (_scan_directory (os_state (world s)) p) as [found|e0] eqn:Ep;
    [|exists e0; reflexivity].
  pose proof (plan_matching_world rule
                (fun f => append_operation (new_operation (name rule) t f dets))
                found (fun f' s' => eq_refl) s0) as Hw.
  destruct Hp as [->|Hp].
  - rewrite Hscan in Ep. inversion Ep; subst found.
    destruct (plan_matching_raises rule
                (fun f => append_operation (new_operation (name rule) t f dets))
                f files (fun f' s' => eq_refl) Hin s0 (or_introl Hfail))
      as [e He].
    destruct (plan_matching rule _ _ s0) as [[[]|e'] s1]; simpl in He;
      [discriminate|].
    exists e'. reflexivity.
  - destruct (plan_matching rule _ _ s0) as [[[]|e'] s1]; simpl in Hw.
    + apply IH; try rewrite Hw; assumption.
    + exists e'. reflexivity.
Qed.

Lemma loops_raise {A} (st : St) (m1 m2 m3 : M (RState St) unit)
    (k : M (RState St) A) (Q1 Q2 Q3 : Operation -> Prop) :
  plans_only st Q1 m1 -> plans_only st Q2 m2 -> plans_only st Q3 m3 ->
  (forall s, os_state (world s) = st -> exists e, fst (m1 s) = PyRaise e)
  \/ (forall s, os_state (world s) = st -> exists e, fst (m2 s) = PyRaise e)
  \/ (forall s, os_state (world s) = st -> exists e, fst (m3 s) = PyRaise e) ->
  forall s, os_state (world s) = st ->
    exists e, fst ((m1 ;; m2 ;; m3 ;; k) s) = PyRaise e.
Proof.
  intros H1 H2 H3 Hfail s Hst. unfold bind.
  destruct (H1 s Hst) as (n1 & [Hw1 _] & _).
  assert (Hr1 : (forall s, os_state (world s) = st ->
                           exists e, fst (m1 s) = PyRaise e) ->
                exists e, fst (m1 s) = PyRaise e) by (intros Hr; exact (Hr s Hst)).
  destruct (m1 s) as [[[]|e1] s1]; simpl in Hw1, Hr1;
    [|exists e1; reflexivity].
  assert (Hst1 : os_state (world s1) = st) by (rewrite Hw1; exact Hst).
  destruct (H2 s1 Hst1) as (n2 & [Hw2 _] & _).
  assert (Hr2 : (forall s, os_state (world s) = st ->
                           exists e, fst (m2 s) = PyRaise e) ->
                exists e, fst (m2 s1) = PyRaise e) by (intros Hr; exact (Hr s1 Hst1)).
  destruct (m2 s1) as [[[]|e2] s2]; simpl in Hw2, Hr2;
    [|exists e2; reflexivity].
  assert (Hst2 : os_state (world s2) = st) by (rewrite Hw2; exact Hst1).
  assert (Hr3 : (forall s, os_state (world s) = st ->
                           exists e, fst (m3 s) = PyRaise e) ->
                exists e, fst (m3 s2) = PyRaise e) by (intros Hr; exact (Hr s2 Hst2)).
  destruct (m3 s2) as [[[]|e3] s3]; simpl in Hr3;
    [|exists e3; reflexivity].
  destruct Hfail as [Hf|[Hf|Hf]].
  - destruct (Hr1 Hf) as [e He]. discriminate.
  - destruct (Hr2 Hf) as [e He]. discriminate.
  - destruct (Hr3 Hf) as [e He]. discriminate.
Qed.

Lemma planning_raises (s : RState St) (rules : AllRules) (w1 : World St) :
  load_all_rules (rules_dir (runner s)) (world s) = (PyOk rules, w1) ->
  let st := os_state (world s) in
  (forall s', os_state (world s') = st ->
     exists e, fst (for_each (move_rules rules) _plan_move_operations s')
               = PyRaise e)
  \/ (forall s', os_state (world s') = st ->
        exists e, fst (for_each (rename_rules rules) _plan_rename_operations s')
                  = PyRaise e)
  \/ (forall s', os_state (world s') = st ->
        exists e, fst (for_each (tag_rules rules) _plan_tag_operations s')
                  = PyRaise e) ->
  exists e, fst (scan_and_plan s) = PyRaise e.
Proof.
  intros Hload st Hfail. rewrite scan_and_plan_run.
  pose proof (load_all_rules_read_only (rules_dir (runner s)) (world s)) as Hro.
  rewrite Hload in *. simpl in Hro.
  apply (loops_raise st _ _ _ _ (planned_as st "move")
                     (planned_as st "rename") (planned_as st "tag")).
  - apply plans_only_for_each. intros r. apply _plan_move_operations_planned.
  - apply plans_only_for_each. intros r. apply plan_over_planned.
  - apply plans_only_for_each. intros r. apply plan_over_planned.
  - exact Hfail.
  - unfold files_of in Hro. inversion Hro as [[Hos Htr]]. exact Hos.
Qed.
End PlanningFailures.

(** X21. Planning stops at the first failure. Once the rule files are
    loaded, if the condition of some enabled rule raises on one of the
    files it is tried on (a pattern that is not a valid regular
    expression, for one), then [scan_and_plan] raises: no list of
    operations is returned, whatever the other rules and files are. This
    holds for a move rule and a file under its path, and for a rename or
    a tag rule and a file under one of the three fixed directories. *)
Theorem a_failing_match_aborts_planning :
  forall (St : Type) (H : Host St) (s : RState St) (rules : AllRules)
         (w1 : World St) (rule : Rule) (f : Path) (e : exn),
    load_all_rules (rules_dir (runner s)) (world s) = (PyOk rules, w1) ->
    matches (os_state (world s)) (condition rule) f = PyRaise e ->
    (In rule (move_rules rules)
     /\ exists scope files,
          path (condition rule) = Some scope /\ scope <> ""%string
          /\ _scan_directory (os_state (world s)) scope = PyOk files
          /\ In f files)
    \/ ((In rule (rename_rules rules) \/ In rule (tag_rules rules))
        /\ exists scan_path files,
             In scan_path ["~/Downloads"; "~/Documents"; "~/Desktop"]%string
             /\ _scan_directory (os_state (world s)) scan_path = PyOk files
             /\ In f files) ->
    exists e', fst (scan_and_plan s) = PyRaise e'.
Proof.
  intros St H s rules w1 rule f e Hload Hfail Hwhere.
  apply (planning_raises s rules w1 Hload).
  set (st := os_state (world s)).
  destruct Hwhere
    as [(Hin & scope & files & Hpath & Hne & Hscan & Hf)
       |([Hin|Hin] & scan_path & files & Hp & Hscan & Hf)].
  - left. intros s' Hst.
    apply (for_each_raises st (planned_as st "move") _ rule); try assumption.
    + intros r. apply _plan_move_operations_planned.
    + intros s0 Hst0.
      apply (_plan_move_operations_raises rule scope files f s0 Hpath Hne);
        rewrite ?Hst0; [exact Hscan | exact Hf | left; exists e; exact Hfail].
  - right. left. intros s' Hst.
    apply (for_each_raises st (planned_as st "rename") _ rule); try assumption.
    + intros r. apply plan_over_planned.
    + intros s0 Hst0.
      apply (plan_over_raises rule _ _ _ scan_path files f);
        rewrite ?Hst0;
        [exact Hp | exact Hscan | exact Hf | exists e; exact Hfail].
  - right. right. intros s' Hst.
    apply (for_each_raises st (planned_as st "tag") _ rule); try assumption.
    + intros r. apply plan_over_planned.
    + intros s0 Hst0.
      apply (plan_over_raises rule _ _ _ scan_path files f);
        rewrite ?Hst0;
        [exact Hp | exact Hscan | exact Hf | exists e; exact Hfail].
Qed.

(** X22. A move rule without a move target makes planning fail as soon
    as one file matches it: expanding the absent target raises, so
    [scan_and_plan] raises and returns no operations. An enabled rule in
    move.yaml that has a path but no [move] is therefore harmless only as
    long as no file under its path matches. *)
Theorem move_rule_without_target_aborts_planning :
  forall (St : Type) (H : Host St) (s : RState St) (rules : AllRules)
         (w1 : World St) (rule : Rule) (scope : string) (files : list Path)
         (f : Path),
    load_all_rules (rules_dir (runner s)) (world s) = (PyOk rules, w1) ->
    In rule (move_rules rules) ->
    move (action rule) = None ->
    path (condition rule) = Some scope -> scope <> ""%string ->
    _scan_directory (os_state (world s)) scope = PyOk files ->
    In f files ->
    matches (os_state (world s)) (condition rule) f = PyOk true ->
    exists e, fst (scan_and_plan s) = PyRaise e.
Proof.
  intros St H s rules w1 rule scope files f Hload Hin Hmove Hpath Hne Hscan
         Hf Hm.
  apply (planning_raises s rules w1 Hload).
  set (st := os_state (world s)).
  left. intros s' Hst.
  apply (for_each_raises st (planned_as st "move") _ rule); try assumption.
  - intros r. apply _plan_move_operations_planned.
  - intros s0 Hst0.
    apply (_plan_move_operations_raises rule scope files f s0 Hpath Hne);
      rewrite ?Hst0; [exact Hscan | exact Hf | right; split; assumption].
Qed.

(** ** From the plan to the execution *)

(** X23. What the planner writes into the details of an operation, the
    executor reads back unchanged:
    - a planned rename runs [Renamer.rename] on the source with the
      replacement, prefix, suffix and separator of the rule's action;
    - a planned move creates the destination directory when the rule asks
      for it, runs [Mover.move] on the source and the destination, and
      then the tag call with the rule's tag mapping, if the rule has a
      non-empty one; without it nothing follows the move;
    - a planned tag operation runs the tag call with the rule's tag
      mapping, the empty mapping when the rule has none. *)
Theorem executor_reads_back_the_plan :
  forall (St : Type) (H : Host St) (rule : Rule) (f : Path) (dest : string)
         (w : World St),
    dispatch (new_operation (name rule) "rename" f (rename_details rule)) w
    = (Renamer.rename f (replace (action rule)) (prefix (action rule))
                      (suffix (action rule)) (separator (action rule)) ;;
       ret tt) w
    /\ dispatch (new_operation (name rule) "move" f (move_details rule dest)) w
       = ((if create_if_missing (action rule)
           then sys_mkdir (path_of_str dest) else ret tt) ;;
          Mover.move f (path_of_str dest) ;;
          match tag (action rule) with
          | Some [] => ret tt
          | Some kw => Tagger.add_tag_kwargs f kw ;; ret tt
          | None => ret tt
          end) w
    /\ dispatch (new_operation (name rule) "tag" f
                               (or_default (tag (action rule)) [])) w
       = (Tagger.add_tag_kwargs f (or_default (tag (action rule)) []) ;;
          ret tt) w.
Proof.
  intros St H rule f dest w. split; [|split].
  - unfold dispatch, new_operation. cbn [operation_type].
    change (String.eqb "rename" "move") with false.
    change (String.eqb "rename" "rename") with true. cbv iota.
    unfold _execute_rename, rename_details. cbn [details source].
    unfold dict_get, dict_get_default. cbn [dict_find].
    repeat match goal with
           | |- context [String.eqb ?a ?b] =>
               let v := eval vm_compute in (String.eqb a b) in
               change (String.eqb a b) with v
           end.
    cbv iota.
    destruct (replace (action rule)), (prefix (action rule)),
      (suffix (action rule)); reflexivity.
  - unfold dispatch, new_operation. cbn [operation_type].
    change (String.eqb "move" "move") with true. cbv iota.
    unfold _execute_move, details_item, move_details. cbn [details source].
    unfold dict_get. cbn [dict_find].
    repeat match goal with
           | |- context [String.eqb ?a ?b] =>
               let v := eval vm_compute in (String.eqb a b) in
               change (String.eqb a b) with v
           end.
    cbv iota. cbn [rbind as_str pyval_truthy].
    unfold bind at 1. unfold lift_result.
    destruct (tag (action rule)) as [[|entry kw]|]; reflexivity.
  - unfold dispatch, new_operation. cbn [operation_type].
    change (String.eqb "tag" "move") with false.
    change (String.eqb "tag" "rename") with false.
    change (String.eqb "tag" "tag") with true. cbv iota.
    reflexivity.
Qed.




(** ** [Renamer.clean_garbled] *)

Lemma ascii_not_194 (c : ascii) :
  Nat.ltb (code c) 128 = true -> Nat.eqb (code c) 194 = false.
Proof. intros Hc. apply Nat.ltb_lt in Hc. apply Nat.eqb_neq. lia. Qed.

Lemma remove_controls (s : string) :
  ascii_text s = true ->
  Re.sub_loop Re.m_control [] 0 s
  = keep_chars (fun c => negb (Re.is_control c)) s.
Proof.
  unfold ascii_text. induction s as [|c t IH]; intros Hs; [reflexivity|].
  cbn [all_chars] in Hs. apply andb_true_iff in Hs. destruct Hs as [Hc Ht].
  cbn [Re.sub_loop keep_chars]. unfold Re.m_control at 1.
  destruct (Re.is_control c); cbn [negb].
  - cbn [Re.expand append]. exact (IH Ht).
  - rewrite (ascii_not_194 c Hc), (IH Ht). reflexivity.
Qed.

Lemma ascii_no_symbol (c : ascii) (t : string) :
  Nat.ltb (code c) 128 = true -> Re.m_symbol (String c t) = None.
Proof.
  intros Hc. unfold Re.m_symbol, Re.trade_mark, Re.copyright, Re.registered.
  cbn [startswith].
  assert (H226 : Ascii.eqb c (ascii_of_nat 226) = false).
  { destruct (Ascii.eqb_spec c (ascii_of_nat 226)) as [->|_]; [|reflexivity].
    vm_compute in Hc. discriminate. }
  assert (H194 : Ascii.eqb c (ascii_of_nat 194) = false).
  { destruct (Ascii.eqb_spec c (ascii_of_nat 194)) as [->|_]; [|reflexivity].
    vm_compute in Hc. discriminate. }
  rewrite H226, H194. reflexivity.
Qed.

Lemma remove_symbols (tmpl : list Re.titem) (s : string) :
  ascii_text s = true -> Re.sub_loop Re.m_symbol tmpl 0 s = s.
Proof.
  unfold ascii_text. induction s as [|c t IH]; intros Hs; [reflexivity|].
  cbn [all_chars] in Hs. apply andb_true_iff in Hs. destruct Hs as [Hc Ht].
  cbn [Re.sub_loop]. rewrite (ascii_no_symbol c t Hc), (IH Ht). reflexivity.
Qed.

Lemma all_chars_keep (p q : ascii -> bool) (s : string) :
  all_chars p s = true -> all_chars p (keep_chars q s) = true.
Proof.
  induction s as [|c t IH]; intros Hs; [reflexivity|].
  cbn [all_chars] in Hs. apply andb_true_iff in Hs. destruct Hs as [Hc Ht].
  cbn [keep_chars]. destruct (q c); [|exact (IH Ht)].
  cbn [all_chars]. rewrite Hc, (IH Ht). reflexivity.
Qed.

Lemma keep_chars_kept (p : ascii -> bool) (s : string) :
  all_chars p (keep_chars p s) = true.
Proof.
  induction s as [|c t IH]; [reflexivity|]. cbn [keep_chars].
  destruct (p c) eqn:E; [|exact IH]. cbn [all_chars]. rewrite E, IH.
  reflexivity.
Qed.

Lemma keep_chars_all (p : ascii -> bool) (s : string) :
  all_chars p s = true -> keep_chars p s = s.
Proof.
  induction s as [|c t IH]; intros Hs; [reflexivity|].
  cbn [all_chars] in Hs. apply andb_true_iff in Hs. destruct Hs as [Hc Ht].
  cbn [keep_chars]. rewrite Hc, (IH Ht). reflexivity.
Qed.

Lemma lstrip_suffix (p : ascii -> bool) (t : string) :
  exists n,
    String.length t = (n + String.length (lstrip_by p t))%nat
    /\ drop_first n t = lstrip_by p t.
Proof.
  induction t as [|d t IH].
  - exists 0%nat. split; reflexivity.
  - cbn [lstrip_by]. destruct (p d).
    + destruct IH as (n & Hlen & Hdrop). exists (S n). simpl.
      rewrite Hlen. split; [reflexivity | exact Hdrop].
    + exists 0%nat. split; reflexivity.
Qed.

(** One step of the collapse of whitespace. *)
Lemma squeeze_step (c : ascii) (t : string) :
  Re.sub_loop Re.m_whitespace [Re.TLit " "] 0 (String c t)
  = if is_space c
    then String " " (Re.sub_loop Re.m_whitespace [Re.TLit " "] 0
                       (lstrip_by is_space t))
    else String c (Re.sub_loop Re.m_whitespace [Re.TLit " "] 0 t).
Proof.
  cbn [Re.sub_loop]. unfold Re.m_whitespace at 1. cbn [lstrip_by].
  destruct (is_space c).
  - destruct (lstrip_suffix is_space t) as (n & Hlen & Hdrop).
    unfold Re.consumed. cbn [String.length]. rewrite Hlen.
    replace (S (n + String.length (lstrip_by is_space t))
             - String.length (lstrip_by is_space t))%nat with (S n) by lia.
    cbn [Re.expand append]. rewrite sub_loop_skip, Hdrop. reflexivity.
  - unfold Re.consumed. rewrite Nat.sub_diag. reflexivity.
Qed.

Lemma lstrip_length (p : ascii -> bool) (t : string) :
  (String.length (lstrip_by p t) <= String.length t)%nat.
Proof. destruct (lstrip_suffix p t) as (n & Hlen & _). lia. Qed.

Lemma space_is_not_control (c : ascii) :
  is_space c = true -> Re.is_control c = false -> c = " "%char.
Proof.
  destruct c as [[] [] [] [] [] [] [] []]; intros Hs Hc;
    try reflexivity; vm_compute in Hs, Hc; discriminate.
Qed.

Lemma squeeze_tidy (n : nat) :
  forall s, (String.length s <= n)%nat ->
    let r := Re.sub_loop Re.m_whitespace [Re.TLit " "] 0 s in
    no_double " " r = true
    /\ (forall p : ascii -> bool,
          p " "%char = true -> all_chars p s = true -> all_chars p r = true)
    /\ (forall c t, s = String c t ->
          exists r', r = String (if is_space c then " "%char else c) r').
Proof.
  induction n as [|n IH]; intros s Hlen r; subst r.
  - destruct s; [|simpl in Hlen; lia].
    split; [reflexivity|]. split; [intros; reflexivity | discriminate].
  - destruct s as [|c t].
    { split; [reflexivity|]. split; [intros; reflexivity | discriminate]. }
    simpl in Hlen. rewrite squeeze_step.
    destruct (is_space c) eqn:Ec.
    + assert (Hl : (String.length (lstrip_by is_space t) <= n)%nat)
        by (pose proof (lstrip_length is_space t); lia).
      destruct (IH (lstrip_by is_space t) Hl) as (Hnd & Hall & Hhead).
      split; [|split].
      * cbn [no_double]. rewrite Hnd, andb_true_r.
        destruct (lstrip_head is_space t) as [E|(d & u & E & Hd)].
        -- rewrite E. reflexivity.
        -- destruct (Hhead d u E) as [r' Hr']. rewrite Hr', Hd.
           destruct (Ascii.eqb_spec d " ") as [->|_];
             [discriminate | reflexivity].
      * intros p Hp Hs. cbn [all_chars]. rewrite Hp. simpl.
        apply Hall; [exact Hp|].
        cbn [all_chars] in Hs. apply andb_true_iff in Hs.
        destruct Hs as [_ Ht]. clear - Ht.
        induction t as [|d t IHt]; [reflexivity|].
        cbn [lstrip_by]. cbn [all_chars] in Ht.
        apply andb_true_iff in Ht. destruct Ht as [Hd Ht].
        destruct (is_space d); [exact (IHt Ht)|].
        cbn [all_chars]. rewrite Hd, Ht. reflexivity.
      * intros c' t' Heq. inversion Heq. subst. rewrite Ec.
        eexists. reflexivity.
    + destruct (IH t ltac:(lia)) as (Hnd & Hall & Hhead).
      split; [|split].
      * cbn [no_double]. rewrite Hnd, andb_true_r.
        destruct (Re.sub_loop _ _ 0 t); [reflexivity|].
        destruct (Ascii.eqb_spec c " ") as [->|_];
          [discriminate | reflexivity].
      * intros p Hp Hs. cbn [all_chars] in Hs |- *.
        apply andb_true_iff in Hs. destruct Hs as [Hc Ht].
        rewrite Hc. simpl. exact (Hall p Hp Ht).
      * intros c' t' Heq. inversion Heq. subst. rewrite Ec.
        eexists. reflexivity.
Qed.

Lemma squeeze_fixed (s : string) :
  printable s = true -> no_double " " s = true ->
  Re.sub_loop Re.m_whitespace [Re.TLit " "] 0 s = s.
Proof.
  unfold printable. induction s as [|c t IH]; intros Hp Hn; [reflexivity|].
  cbn [all_chars] in Hp. apply andb_true_iff in Hp. destruct Hp as [Hc Ht].
  apply negb_true_iff in Hc.
  pose proof (IH Ht (no_double_tail _ _ _ Hn)) as IHt.
  rewrite squeeze_step. destruct (is_space c) eqn:Ec; [|rewrite IHt; reflexivity].
  rewrite (space_is_not_control c Ec Hc) in *.
  assert (Hl : lstrip_by is_space t = t).
  { destruct t as [|d u]; [reflexivity|]. cbn [lstrip_by].
    rewrite no_double_cons in Hn. apply andb_true_iff in Hn.
    destruct Hn as [Hn _]. cbn [all_chars] in Ht.
    apply andb_true_iff in Ht. destruct Ht as [Hd _].
    apply negb_true_iff in Hd.
    destruct (is_space d) eqn:Ed; [|reflexivity].
    rewrite (space_is_not_control d Ed Hd) in Hn. discriminate. }
  rewrite Hl, IHt. reflexivity.
Qed.

Lemma all_chars_lstrip (p q : ascii -> bool) (s : string) :
  all_chars p s = true -> all_chars p (lstrip_by q s) = true.
Proof.
  induction s as [|c t IH]; intros Hs; [reflexivity|].
  cbn [lstrip_by]. destruct (q c); [|exact Hs].
  cbn [all_chars] in Hs. apply andb_true_iff in Hs. apply IH, Hs.
Qed.

Lemma all_chars_rstrip (p q : ascii -> bool) (s : string) :
  all_chars p s = true -> all_chars p (rstrip_by q s) = true.
Proof.
  induction s as [|c t IH]; intros Hs; [reflexivity|].
  cbn [all_chars] in Hs. apply andb_true_iff in Hs. destruct Hs as [Hc Ht].
  cbn [rstrip_by]. pose proof (IH Ht) as Hr.
  destruct (rstrip_by q t) as [|d r].
  - destruct (q c); [reflexivity|]. cbn [all_chars]. rewrite Hc. reflexivity.
  - cbn [all_chars] in Hr |- *. rewrite Hc, Hr. reflexivity.
Qed.

Lemma clean_name_run (s : string) :
  ascii_text s = true ->
  Renamer.clean_name s
  = PyOk (strip (Re.sub_loop Re.m_whitespace [Re.TLit " "] 0
                   (keep_chars (fun c => negb (Re.is_control c)) s))).
Proof.
  intros Hs. unfold Renamer.clean_name, Re.sub.
  change (Re.parse_template 0 "") with (@PyOk (list Re.titem) []).
  change (Re.parse_template 0 " ") with (PyOk [Re.TLit " "]).
  cbn [rbind]. rewrite (remove_controls s Hs).
  rewrite remove_symbols; [reflexivity|].
  apply all_chars_keep. exact Hs.
Qed.

(** X25. The name that [clean_garbled] makes of a stem of ASCII
    characters is tidy: it holds no control character, no two adjacent
    spaces (and no whitespace but single spaces), and neither starts nor
    ends with whitespace. Cleaning is idempotent: the cleaned name is
    left as it is by a second cleaning. *)
Theorem cleaned_name_is_tidy :
  forall s : string,
    ascii_text s = true ->
    exists r,
      Renamer.clean_name s = PyOk r
      /\ ascii_text r = true
      /\ printable r = true
      /\ no_double " " r = true
      /\ strip r = r
      /\ Renamer.clean_name r = PyOk r.
Proof.
  intros s Hs. rewrite (clean_name_run s Hs).
  set (u := keep_chars (fun c => negb (Re.is_control c)) s).
  set (v := Re.sub_loop Re.m_whitespace [Re.TLit " "] 0 u).
  assert (Hu_ascii : ascii_text u = true) by (apply all_chars_keep; exact Hs).
  assert (Hu_print : printable u = true) by apply keep_chars_kept.
  destruct (squeeze_tidy (String.length u) u (le_n _)) as (Hnd & Hall & _).
  fold v in Hnd, Hall.
  assert (Hv_ascii : ascii_text v = true) by (apply Hall; [reflexivity | exact Hu_ascii]).
  assert (Hv_print : printable v = true) by (apply Hall; [reflexivity | exact Hu_print]).
  exists (strip v).
  assert (Hr_ascii : ascii_text (strip v) = true).
  { unfold strip, strip_by. apply all_chars_rstrip, all_chars_lstrip.
    exact Hv_ascii. }
  assert (Hr_print : printable (strip v) = true).
  { unfold strip, strip_by. apply all_chars_rstrip, all_chars_lstrip.
    exact Hv_print. }
  assert (Hr_nd : no_double " " (strip v) = true).
  { unfold strip, strip_by. apply no_double_rstrip, no_double_lstrip.
    exact Hnd. }
  assert (Hr_strip : strip (strip v) = strip v) by apply strip_strip.
  repeat split; try assumption.
  rewrite (clean_name_run (strip v) Hr_ascii).
  rewrite (keep_chars_all _ (strip v) Hr_print).
  rewrite (squeeze_fixed (strip v) Hr_print Hr_nd), Hr_strip. reflexivity.
Qed.

(** X26. [clean_garbled] and the file system: a file that does not
    exist raises [FileNotFoundError] and nothing is done, and when the
    existence check itself raises, that exception comes out and nothing
    is done; otherwise at most one mutating call is made, a rename of the
    file itself; and a file whose stem is already tidy (ASCII, no control
    character, single spaces only, none at the ends) is left alone: the
    path is returned as it is and no call is made. *)
Theorem clean_garbled_leaves_tidy_names_alone :
  forall (St : Type) (H : Host St) (w : World St) (a : bool)
         (dir : list string) (n : string),
    let file_path := MkPath a (dir ++ [n]) in
    let run := Renamer.clean_garbled file_path w in
    (path_exists (os_state w) file_path = PyOk false ->
       run = (PyRaise (Exn FileNotFoundError
                           ("File not found: " ++ path_str file_path)), w))
    /\ (forall e,
          path_exists (os_state w) file_path = PyRaise e ->
          run = (PyRaise e, w))
    /\ (trace (snd run) = trace w
        \/ exists new_path,
             trace (snd run) = trace w ++ [SysRename file_path new_path])
    /\ (path_exists (os_state w) file_path = PyOk true ->
        is_component n = true ->
        ascii_text (path_stem file_path) = true ->
        printable (path_stem file_path) = true ->
        no_double " " (path_stem file_path) = true ->
        strip (path_stem file_path) = path_stem file_path ->
        run = (PyOk file_path, w)).
Proof.
  intros St H w a dir n file_path run. subst run.
  unfold Renamer.clean_garbled, bind, query_result, lift_result.
  split; [|split; [|split]].
  - intros Hex. rewrite Hex. reflexivity.
  - intros e Hex. rewrite Hex. reflexivity.
  - destruct (path_exists (os_state w) file_path) as [[|]|e0]; cbn [negb];
      [|left; reflexivity|left; reflexivity].
    destruct (rbind (Renamer.clean_name (path_stem file_path)) _)
      as [new_path|e]; [|left; reflexivity].
    destruct (negb (path_eqb new_path file_path)); [|left; reflexivity].
    right. exists new_path. unfold sys_rename, syscall_run.
    destruct (os_rename file_path new_path (os_state w)) as [[[]|e] st1];
      reflexivity.
  - intros Hex Hn Hascii Hprint Hnd Hstrip. rewrite Hex. cbn [negb].
    rewrite (clean_name_run _ Hascii), (keep_chars_all _ _ Hprint),
      (squeeze_fixed _ Hprint Hnd), Hstrip.
    cbn [rbind]. rewrite stem_suffix.
    assert (Hjoin : path_join (path_parent file_path) (path_name file_path)
                    = file_path).
    { unfold file_path.
      rewrite path_name_last, path_parent_last.
      apply (path_join_component a dir n Hn). }
    rewrite Hjoin, path_eqb_refl. reflexivity.
Qed.

(** ** [check_rules_status] *)

(** X27. When [check_rules_status] finds no rule (the case in which the
    program prints its guide and stops), planning in the same state
    would have planned nothing: [scan_and_plan] returns the empty list.
    And [check_rules_status] raises exactly what loading the rule files
    raises. *)
Theorem no_rules_nothing_planned :
  forall (St : Type) (H : Host St) (s : RState St),
    (fst (check_rules_status (rules_dir (runner s)) (world s)) = PyOk false ->
     fst (scan_and_plan s) = PyOk []
     /\ operations (runner (snd (scan_and_plan s))) = [])
    /\ (forall e,
          fst (check_rules_status (rules_dir (runner s)) (world s)) = PyRaise e
          <-> fst (load_all_rules (rules_dir (runner s)) (world s)) = PyRaise e).
Proof.
  intros St H s. rewrite !scan_and_plan_run. unfold check_rules_status, bind.
  destruct (load_all_rules (rules_dir (runner s)) (world s))
    as [[rules|e] w1]; simpl fst.
  - split.
    + unfold ret. simpl fst. intros Hnone. inversion Hnone as [Hex].
      cbn [existsb] in Hex. rewrite !orb_false_iff in Hex.
      destruct Hex as (Hmv & Hrn & Htg & Hdp & _).
      destruct (move_rules rules); [|discriminate].
      destruct (rename_rules rules); [|discriminate].
      destruct (tag_rules rules); [|discriminate].
      destruct (duplicate_rules rules); [|discriminate].
      split; reflexivity.
    + intros e. split; discriminate.
  - split; [discriminate|].
    intros e'. split; intros He; inversion He; reflexivity.
Qed.

(** ** Where a move lands *)

Lemma bind_run {S A B} (m : M S A) (k : A -> M S B) (s s1 : S) (x : A) :
  m s = (PyOk x, s1) -> bind m k s = k x s1.
Proof. intros Hm. unfold bind. rewrite Hm. reflexivity. Qed.

Lemma move_into {St : Type} `{Host St} (f dest : Path) (w : World St) :
  path_exists (os_state w) f = PyOk true ->
  is_dir (os_state w) dest = PyOk true ->
  Mover.move f dest w
  = (sys_mkdir (path_parent (path_join dest (path_name f))) ;;
     sys_move (path_str f) (path_str (path_join dest (path_name f))) ;;
     ret (path_join dest (path_name f))) w.
Proof.
  intros Hex Hdir. unfold Mover.move. unfold bind at 1.
  unfold query_result at 1. rewrite Hex. cbn [negb].
  unfold bind at 1. unfold query_result at 1. rewrite Hdir.
  reflexivity.
Qed.

Lemma move_onto {St : Type} `{Host St} (f dest : Path) (w : World St) :
  path_exists (os_state w) f = PyOk true ->
  is_dir (os_state w) dest = PyOk false ->
  Mover.move f dest w
  = (sys_mkdir (path_parent dest) ;;
     sys_move (path_str f) (path_str dest) ;;
     ret dest) w.
Proof.
  intros Hex Hdir. unfold Mover.move. unfold bind at 1.
  unfold query_result at 1. rewrite Hex. cbn [negb].
  unfold bind at 1. unfold query_result at 1. rewrite Hdir.
  reflexivity.
Qed.

(** X28. Where a planned move without a tag puts the file depends on
    whether the destination is a directory when [Mover.move] looks at it.
    - With [create_if_missing] the destination is first created as a
      directory; once it is one, the file is moved into it under its own
      name: the calls are the creation of the destination, the creation
      of the target's parent (the destination again) and the move to
      destination/name.
    - Without [create_if_missing], when the destination is not a
      directory (it does not exist, say), the destination is taken as the
      new path of the file itself: its parent is created and the file is
      moved to the destination path, not into it. *)
Theorem move_lands_in_or_at_the_destination :
  forall (St : Type) (H : Host St) (rule : Rule) (f : Path) (d : string)
         (a : bool) (dir : list string) (w : World St),
    let dest := path_of_str d in
    let op := new_operation (name rule) "move" f (move_details rule d) in
    tag (action rule) = None ->
    path_exists (os_state w) f = PyOk true ->
    dest = MkPath a dir ->
    is_component (path_name f) = true ->
    (create_if_missing (action rule) = true ->
     forall st1,
       mkdir_parents dest (os_state w) = (PyOk tt, st1) ->
       path_exists st1 f = PyOk true -> is_dir st1 dest = PyOk true ->
       dispatch op w
       = (sys_mkdir dest ;; sys_mkdir dest ;;
          sys_move (path_str f)
                   (path_str (MkPath a (dir ++ [path_name f]))) ;;
          ret tt) w)
    /\ (create_if_missing (action rule) = false ->
        is_dir (os_state w) dest = PyOk false ->
        dispatch op w
        = (sys_mkdir (path_parent dest) ;;
           sys_move (path_str f) (path_str dest) ;;
           ret tt) w).
Proof.
  intros St H rule f d a dir w dest op Htag Hex Hdest Hname.
  assert (Hrun : dispatch op w
                 = ((if create_if_missing (action rule)
                     then sys_mkdir dest else ret tt) ;;
                    Mover.move f dest ;; ret tt) w).
  { unfold op, dispatch, new_operation. cbn [operation_type].
    change (String.eqb "move" "move") with true. cbv iota.
    unfold _execute_move, details_item, move_details. cbn [details source].
    unfold dict_get. cbn [dict_find].
    repeat match goal with
           | |- context [String.eqb ?a ?b] =>
               let v := eval vm_compute in (String.eqb a b) in
               change (String.eqb a b) with v
           end.
    cbv iota. cbn [rbind as_str pyval_truthy].
    unfold bind at 1. unfold lift_result. rewrite Htag. reflexivity. }
  rewrite Hrun. split.
  - intros Hc st1 Hmk Hex1 Hdir. rewrite Hc.
    set (w1 := MkWorld st1 (trace w ++ [SysMkdir dest]) (console w) (log w)).
    assert (Hmk1 : sys_mkdir dest w = (PyOk tt, w1)).
    { unfold sys_mkdir, syscall_run. rewrite Hmk. reflexivity. }
    rewrite !(bind_run (sys_mkdir dest) _ w w1 tt Hmk1).
    unfold bind at 1. rewrite (move_into f dest w1 Hex1 Hdir).
    assert (Hjoin : path_join dest (path_name f)
                    = MkPath a (dir ++ [path_name f])).
    { rewrite Hdest. apply (path_join_component a dir _ Hname). }
    rewrite Hjoin, path_parent_last, <- Hdest.
    unfold bind.
    destruct (sys_mkdir dest w1) as [[[]|e1] w2]; [|reflexivity].
    destruct (sys_move _ _ w2) as [[[]|e2] w3]; reflexivity.
  - intros Hc Hdir. rewrite Hc.
    unfold bind at 1. unfold ret at 1.
    unfold bind at 1. rewrite (move_onto f dest w Hex Hdir).
    unfold bind.
    destruct (sys_mkdir (path_parent dest) w) as [[[]|e1] w2]; [|reflexivity].
    destruct (sys_move _ _ w2) as [[[]|e2] w3]; reflexivity.
Qed.

(** ** The further properties at concrete inputs *)

Lemma parse_rule_raises_on_shape_or_size_witness :
  parse_rule (Mapping Samples.hollow_rule) = PyRaise (no_get (OAtom ANull))
  /\ no_get (OAtom ANull)
     = Exn AttributeError "'NoneType' object has no attribute 'get'"
  /\ exists (cd : cond_data) (s : string),
       rd_condition Samples.infinite_bound = Some (Mapping cd)
       /\ (cd_size_gt cd = Some (SizeStr s) \/ cd_size_lt cd = Some (SizeStr s))
       /\ parse_size s = PyRaise float_overflow.
Proof.
  split; [|split; [reflexivity|]].
  - destruct (parse_rule_raises_on_shape_or_size
                (Mapping Samples.hollow_rule)) as (_ & _ & Hcond & _).
    exact (Hcond Samples.hollow_rule (OAtom ANull) eq_refl eq_refl).
  - destruct (parse_rule_raises_on_shape_or_size
                (Mapping Samples.infinite_bound)) as (Honly & _).
    destruct (Honly float_overflow ltac:(vm_compute; reflexivity))
      as [(v & Hv & _)|(_ & rd & cd & s & Hrd & Hcd & Hs & Hraise)].
    + destruct v as [[| | | |]|]; discriminate Hv.
    + inversion Hrd; subst rd. exists cd, s. repeat split; assumption.
Defined.

Lemma load_rules_skips_bad_entries_witness :
  load_move_rules (path_of_str "/rules")
    (world (Samples.with_rule_file "move.yaml"
              (map Mapping [Samples.infinite_bound; Samples.disabled_rule;
                            Samples.plain_rule])))
  = (PyOk (filter enabled
             (accepted parse_rule
                (map Mapping [Samples.infinite_bound; Samples.disabled_rule;
                              Samples.plain_rule]))),
     printed (world (Samples.with_rule_file "move.yaml"
                       (map Mapping [Samples.infinite_bound;
                                     Samples.disabled_rule;
                                     Samples.plain_rule])))
             [MsgRuleError "huge" float_overflow])
  /\ map name (filter enabled
                 (accepted parse_rule
                    (map Mapping [Samples.infinite_bound;
                                  Samples.disabled_rule;
                                  Samples.plain_rule])))
     = ["plain"%string].
Proof.
  split; [|vm_compute; reflexivity].
  pose proof (load_rules_skips_bad_entries MemHost.state MemHost.host
                rule_data Rule (path_of_str "/rules") "move.yaml"
                yaml_rules parse_rule rd_name enabled
                (world (Samples.with_rule_file "move.yaml"
                          (map Mapping [Samples.infinite_bound;
                                        Samples.disabled_rule;
                                        Samples.plain_rule])))
                (fun v => eq_refl)) as Hload.
  cbv zeta in Hload. destruct Hload as (_ & _ & Hthere).
  destruct (Hthere ltac:(vm_compute; reflexivity))
    as (_ & _ & _ & _ & _ & _ & Hseq & _).
  exact (Hseq [Samples.infinite_bound; Samples.disabled_rule;
               Samples.plain_rule] eq_refl).
Defined.

(** An entry that is not a mapping ends the loading: the entries after
    it are not read. *)
Example stray_entry_ends_the_loading :
  fst (load_move_rules (path_of_str "/rules")
         (world (Samples.with_rule_file "move.yaml"
                   [Mapping Samples.plain_rule;
                    NotMapping Samples.stray_entry;
                    Mapping Samples.plain_rule])))
  = PyRaise (Exn AttributeError "'str' object has no attribute 'get'").
Proof. vm_compute. reflexivity. Qed.

(** A rule whose key ["condition"] holds no value is rejected, with the
    line the loader prints for it. *)
Example hollow_rule_is_rejected :
  load_move_rules (path_of_str "/rules")
    (world (Samples.with_rule_file "move.yaml" [Mapping Samples.hollow_rule]))
  = (PyOk [],
     printed (world (Samples.with_rule_file "move.yaml"
                       [Mapping Samples.hollow_rule]))
             [MsgRuleError "hollow" (no_get (OAtom ANull))]).
Proof. vm_compute. reflexivity. Qed.

(** A rule whose key ["enabled"] holds no value parses and is dropped
    by the loader; nothing is printed for it. *)
Example null_switch_disables_the_rule :
  load_move_rules (path_of_str "/rules")
    (world (Samples.with_rule_file "move.yaml"
              [Mapping Samples.unset_switch; Mapping Samples.plain_rule]))
  = (PyOk [Samples.rule_of (Mapping Samples.plain_rule)],
     world (Samples.with_rule_file "move.yaml"
              [Mapping Samples.unset_switch; Mapping Samples.plain_rule])).
Proof. vm_compute. reflexivity. Qed.

(** The separators 28 to 31 are whitespace for [str.strip], not for
    [float] and [int]: a size with one of them before the unit is not a
    number, and gives 0. *)
Example unit_separator_is_no_number :
  parse_size ("inf" ++ String (ascii_of_nat 31) "B") = PyOk 0
  /\ parse_size ("12" ++ String (ascii_of_nat 31) "B") = PyOk 0
  /\ parse_size ("12" ++ String (ascii_of_nat 32) "B") = PyOk 12.
Proof. vm_compute. repeat split. Qed.

Lemma content_groups_are_exact_witness :
  exists groups,
    Deduplicator._find_by_content Samples.inbox
      [path_of_str "/in/a.txt"; path_of_str "/in/b.txt";
       path_of_str "/in/c.txt"]
    = PyOk groups.
Proof.
  exact (proj2 (proj1 (content_groups_are_exact
                         MemHost.state MemHost.host Samples.inbox
                         [path_of_str "/in/a.txt"; path_of_str "/in/b.txt";
                          path_of_str "/in/c.txt"]))
               sample_files_answer).
Defined.

Lemma match_meets_every_criterion_witness :
  startswith (path_str Samples.vacation) (expanduser "~/Downloads") = true
  /\ (exists s, stat Samples.downloads Samples.vacation = PyOk s
                /\ 2 < st_size s)
  /\ (exists s, stat Samples.downloads Samples.vacation = PyOk s
                /\ st_size s < 10).
Proof.
  pose proof (match_meets_every_criterion MemHost.state MemHost.host
                Samples.downloads Samples.small_picture Samples.vacation
                ltac:(vm_compute; reflexivity))
    as (Hpath & _ & _ & _ & Hgt & Hlt).
  split; [|split].
  - apply (Hpath "~/Downloads"%string); [reflexivity | discriminate].
  - apply (Hgt 2); [reflexivity | discriminate].
  - apply (Hlt 10); [reflexivity | discriminate].
Defined.

Lemma deleting_duplicates_spares_the_kept_file_witness :
  exists done rest,
    others (path_of_str "/in/b.txt") Samples.group_ab = done ++ rest
    /\ trace (snd (Deduplicator.handle_duplicates Samples.group_ab
                     (VStr "newest") false VNone
                     (MemHost.fresh Samples.inbox)))
       = trace (MemHost.fresh Samples.inbox) ++ map disposal done
    /\ (fst (Deduplicator.handle_duplicates Samples.group_ab
               (VStr "newest") false VNone (MemHost.fresh Samples.inbox))
        = PyOk tt -> rest = [])
    /\ (is_macos = false ->
        fst (Deduplicator.handle_duplicates Samples.group_ab
               (VStr "newest") false VNone (MemHost.fresh Samples.inbox))
        = PyOk tt).
Proof.
  apply (proj2 (deleting_duplicates_spares_the_kept_file
                  MemHost.state MemHost.host (MemHost.fresh Samples.inbox)
                  Samples.group_ab (VStr "newest") VNone
                  ltac:(vm_compute; lia))).
  vm_compute. reflexivity.
Defined.

Lemma unlocked_is_tag_closed :
  tag_closed (fun st : MemHost.state => MemHost.locked st = []).
Proof.
  split.
  - intros tags file st Hst. cbn. unfold MemHost.mem_xattr.
    destruct (MemHost.lookup (MemHost.entries st) (path_of_str file));
      exact Hst.
  - intros p idx st Hst. exact Hst.
Defined.

Lemma tagging_duplicates_deletes_nothing_witness :
  (exists calls,
      trace (snd (Deduplicator.handle_duplicates Samples.group_ab
                    (VStr "oldest") true (VStr "dup")
                    (MemHost.fresh Samples.inbox)))
      = trace (MemHost.fresh Samples.inbox) ++ calls
      /\ Forall is_tag_call calls)
  /\ fst (Deduplicator.handle_duplicates Samples.group_ab (VStr "oldest") true
            (VStr "dup") (MemHost.fresh Samples.inbox)) = PyOk tt.
Proof.
  pose proof (tagging_duplicates_deletes_nothing MemHost.state MemHost.host
                (MemHost.fresh Samples.inbox) Samples.group_ab (VStr "oldest")
                (VStr "dup") (path_of_str "/in/a.txt")
                ltac:(vm_compute; reflexivity)) as Htag.
  cbv zeta in Htag. destruct Htag as (Hcalls & _ & Hreturns & _).
  split; [exact Hcalls|].
  apply (Hreturns (fun st => MemHost.locked st = []) eq_refl
                  unlocked_is_tag_closed).
  intros st p Hst _. cbn. unfold MemHost.mem_exists, MemHost.guarded.
  rewrite Hst. eexists. reflexivity.
Defined.

Lemma add_tag_contract_witness :
  fst (Tagger.add_tag (path_of_str "/in/a.txt") (VStr "Red") (VStr "keep")
         (MemHost.fresh Samples.inbox)) = PyOk true
  /\ exists tags rest,
       tags <> []
       /\ Forall (fun t => In t Tagger.TAG_COLORS \/ VStr "keep" = VStr t) tags
       /\ trace (snd (Tagger.add_tag (path_of_str "/in/a.txt") (VStr "Red")
                        (VStr "keep") (MemHost.fresh Samples.inbox)))
          = trace (MemHost.fresh Samples.inbox)
            ++ SysXattrTags tags (path_str (path_of_str "/in/a.txt")) :: rest
       /\ (rest = []
           \/ exists p, rest = [SysFinderLabel p
                                  (Tagger.first_color_index tags)]).
Proof.
  assert (Hret : fst (Tagger.add_tag (path_of_str "/in/a.txt") (VStr "Red")
                        (VStr "keep") (MemHost.fresh Samples.inbox))
                 = PyOk true) by (vm_compute; reflexivity).
  split; [exact Hret|].
  destruct (add_tag_contract MemHost.state MemHost.host
              (path_of_str "/in/a.txt") (VStr "Red") (VStr "keep")
              (MemHost.fresh Samples.inbox)
              (or_intror (ex_intro _ "Red"%string eq_refl)))
    as (_ & _ & _ & Htrue).
  exact (proj2 (proj2 (Htrue Hret))).
Defined.

Lemma unknown_tag_key_fails_the_operation_witness :
  exists msg,
    dispatch (Samples.tag_operation "/in/a.txt"
                [("colour"%string, VStr "red")])
             (MemHost.fresh Samples.inbox)
    = (PyRaise (Exn TypeError msg), MemHost.fresh Samples.inbox)
    /\ forall o,
         success (flag_outcome
                    (fst (dispatch (Samples.tag_operation "/in/a.txt"
                                      [("colour"%string, VStr "red")])
                                   (MemHost.fresh Samples.inbox))) o)
         = false.
Proof.
  apply (unknown_tag_key_fails_the_operation MemHost.state MemHost.host).
  - reflexivity.
  - exists "colour"%string, (VStr "red").
    split; [left; reflexivity | split; discriminate].
Defined.

Lemma tag_operation_reports_success_regardless_witness :
  fst (dispatch (Samples.tag_operation "/in/gone.txt"
                   [("color"%string, VStr "red")])
                (MemHost.fresh Samples.inbox)) = PyOk tt
  /\ trace (snd (dispatch (Samples.tag_operation "/in/gone.txt"
                             [("color"%string, VStr "red")])
                          (MemHost.fresh Samples.inbox))) = [].
Proof.
  destruct (tag_operation_reports_success_regardless
              MemHost.state MemHost.host
              (Samples.tag_operation "/in/gone.txt"
                 [("color"%string, VStr "red")])
              (VStr "red") VNone (MemHost.fresh Samples.inbox)
              eq_refl eq_refl
              (or_intror (ex_intro _ "red"%string eq_refl)))
    as (_ & Hok & Hquiet).
  assert (Hgone : path_exists (os_state (MemHost.fresh Samples.inbox))
                    (source (Samples.tag_operation "/in/gone.txt"
                               [("color"%string, VStr "red")]))
                  = PyOk false)
    by (vm_compute; reflexivity).
  split; [exact (proj1 (Hok (or_intror (ex_intro _ false Hgone))))|].
  exact (proj2 (Hquiet (or_intror Hgone))).
Defined.

Lemma new_name_is_trimmed_and_keeps_the_extension_witness :
  exists base,
    "x-a-b.txt"%string
    = (base ++ path_suffix (path_of_str "/d/-a--b-.txt"))%string
    /\ strip_chars "-" base = base
    /\ forall c, "-"%string = String c "" -> no_double c base = true.
Proof.
  apply (new_name_is_trimmed_and_keeps_the_extension
           (path_of_str "/d/-a--b-.txt") None (Some "x"%string) None
           "-"%string "x-a-b.txt"%string).
  vm_compute. reflexivity.
Defined.

Lemma rename_without_changes_is_a_no_op_witness :
  Renamer.rename Samples.notes None (Some ""%string) None "_"
                 (MemHost.fresh Samples.downloads)
  = (PyOk Samples.notes, MemHost.fresh Samples.downloads).
Proof.
  exact (proj2 (rename_without_changes_is_a_no_op
                  MemHost.state MemHost.host (MemHost.fresh Samples.downloads)
                  true ["home"; "user"; "Downloads"]%string "notes.txt"%string
                  None (Some ""%string) None "_"%string
                  eq_refl eq_refl eq_refl eq_refl eq_refl
                  ltac:(discriminate) eq_refl eq_refl)).
Defined.

Lemma duplicate_planner_plans_one_operation_per_group_witness :
  exists new,
    _plan_duplicate_operations Samples.bare_duplicate_rule
                               Samples.twins_planning
    = (PyOk tt,
       MkRState (with_operations
                   (runner Samples.twins_planning)
                   (operations (runner Samples.twins_planning) ++ new))
                (world Samples.twins_planning))
    /\ Forall2 (duplicate_operation Samples.bare_duplicate_rule)
               [[path_of_str "/home/user/Downloads/a.txt";
                 path_of_str "/home/user/Downloads/b.txt"]] new
    /\ Forall (planned_as Samples.twins "duplicate") new.
Proof.
  destruct (duplicate_planner_plans_one_operation_per_group
              MemHost.state MemHost.host Samples.bare_duplicate_rule
              Samples.twins_planning) as (_ & _ & Hreturns).
  destruct (Hreturns [path_of_str "/home/user/Downloads/a.txt";
                      path_of_str "/home/user/Downloads/b.txt";
                      path_of_str "/home/user/Downloads/c.txt"] []
                     ltac:(vm_compute; reflexivity)
                     ltac:(vm_compute; reflexivity)) as [_ Hgroups].
  exact (Hgroups [[path_of_str "/home/user/Downloads/a.txt";
                   path_of_str "/home/user/Downloads/b.txt"]]
                 ltac:(vm_compute; reflexivity)).
Defined.

Lemma a_failing_match_aborts_planning_witness :
  exists e,
    fst (@scan_and_plan MemHost.state MemHost.elsewhere
           (Samples.with_rule_file "rename.yaml" [Samples.bad_pattern_rule]))
    = PyRaise e.
Proof.
  eapply (a_failing_match_aborts_planning MemHost.state MemHost.elsewhere
            (Samples.with_rule_file "rename.yaml" [Samples.bad_pattern_rule])
            _ _ (Samples.rule_of Samples.bad_pattern_rule) Samples.vacation).
  - vm_compute. reflexivity.
  - vm_compute. reflexivity.
  - right. split; [left; left; reflexivity|].
    exists "~/Downloads"%string. eexists.
    split; [left; reflexivity|].
    split; [vm_compute; reflexivity|]. vm_compute. auto.
Defined.

Lemma move_rule_without_target_aborts_planning_witness :
  exists e,
    fst (scan_and_plan
           (Samples.with_rule_file "move.yaml" [Samples.targetless_rule]))
    = PyRaise e.
Proof.
  eapply (move_rule_without_target_aborts_planning MemHost.state MemHost.host
            (Samples.with_rule_file "move.yaml" [Samples.targetless_rule])
            _ _ (Samples.rule_of Samples.targetless_rule)
            "~/Downloads"%string _ Samples.vacation).
  - vm_compute. reflexivity.
  - left. reflexivity.
  - reflexivity.
  - reflexivity.
  - discriminate.
  - vm_compute. reflexivity.
  - vm_compute. auto.
  - vm_compute. reflexivity.
Defined.


Lemma cleaned_name_is_tidy_witness :
  exists r,
    Renamer.clean_name "  a   b " = PyOk r
    /\ ascii_text r = true /\ printable r = true
    /\ no_double " " r = true /\ strip r = r
    /\ Renamer.clean_name r = PyOk r.
Proof. apply (cleaned_name_is_tidy "  a   b "). reflexivity. Defined.

Lemma move_lands_in_or_at_the_destination_witness :
  dispatch (new_operation "pictures" "move" Samples.vacation
              (move_details Samples.png_rule "/home/user/Pictures"))
           (MemHost.fresh Samples.downloads)
  = (sys_mkdir (path_of_str "/home/user/Pictures") ;;
     sys_mkdir (path_of_str "/home/user/Pictures") ;;
     sys_move (path_str Samples.vacation)
              (path_str (MkPath true ["home"; "user"; "Pictures";
                                      "vacation.png"]%string)) ;;
     ret tt) (MemHost.fresh Samples.downloads).
Proof.
  destruct (move_lands_in_or_at_the_destination MemHost.state MemHost.host
              Samples.png_rule Samples.vacation "/home/user/Pictures"%string
              true ["home"; "user"; "Pictures"]%string
              (MemHost.fresh Samples.downloads)
              eq_refl eq_refl eq_refl eq_refl) as [Hinto _].
  eapply (Hinto eq_refl).
  - vm_compute. reflexivity.
  - vm_compute. reflexivity.
  - vm_compute. reflexivity.
Defined.

(** ** The table of units *)

Lemma digits_before_unit (ds unit : string) :
  all_chars is_digit ds = true ->
  all_chars (fun c => negb (is_space c) && negb (is_lower c))%bool unit = true ->
  upper (strip (ds ++ unit)) = (ds ++ unit)%string.
Proof.
  intros Hd Hu.
  assert (Hall : all_chars (fun c => negb (is_space c) && negb (is_lower c))%bool
                           (ds ++ unit) = true).
  { rewrite all_chars_app, Hu, andb_true_r.
    eapply all_chars_impl; [|exact Hd]. intros c Hc.
    destruct (digit_plain c Hc) as (-> & -> & _). reflexivity. }
  unfold strip, strip_by.
  rewrite lstrip_none, rstrip_none
    by (eapply all_chars_impl; [|exact Hall];
        intros c Hc; apply andb_true_iff in Hc; apply Hc).
  apply upper_none.
  eapply all_chars_impl; [|exact Hall].
  intros c Hc. apply andb_true_iff in Hc. apply Hc.
Qed.

(** X29. Of the five units of the table, only B is ever applied. For a
    plain decimal number below 2^53 followed by a unit of the table,
    [parse_size] returns the number itself for B and 0 for KB, MB, GB and
    TB: the multiplier of the table is never used for them. *)
Theorem only_the_unit_B_is_applied :
  forall (ds unit : string) (multiplier : Z),
    In (unit, multiplier) units ->
    ds <> ""%string -> all_chars is_digit ds = true ->
    digits_value ds < 2 ^ 53 ->
    parse_size (ds ++ unit)
    = PyOk (if String.eqb unit "B" then digits_value ds else 0).
Proof.
  intros ds unit multiplier Hin Hne Hd Hlt.
  assert (Htwo : forall k, In k ["K"; "M"; "G"; "T"]%char ->
                           parse_size (ds ++ String k "B") = PyOk 0).
  { intros k Hk. apply (parse_size_two_letter_unit _ ds k Hk).
    apply digits_before_unit; [exact Hd|].
    simpl in Hk. destruct Hk as [<-|[<-|[<-|[<-|[]]]]]; reflexivity. }
  unfold units in Hin. simpl in Hin.
  destruct Hin as [Heq|[Heq|[Heq|[Heq|[Heq|[]]]]]]; inversion Heq; subst;
    cbn [String.eqb Ascii.eqb Bool.eqb].
  - apply parse_size_bytes; assumption.
  - apply Htwo. simpl. auto.
  - apply Htwo. simpl. auto.
  - apply Htwo. simpl. auto.
  - apply Htwo. simpl. auto.
Qed.

Lemma only_the_unit_B_is_applied_witness :
  parse_size ("512" ++ "GB") = PyOk (if String.eqb "GB" "B" then 512 else 0).
Proof.
  apply (only_the_unit_B_is_applied "512" "GB" (1024 * 1024 * 1024)).
  - right. right. right. left. reflexivity.
  - discriminate.
  - reflexivity.
  - vm_compute. reflexivity.
Defined.

Lemma move_contract_witness :
  fst (Mover.move (path_of_str "/in/a.txt") (path_of_str "/out")
         (MemHost.fresh Samples.inbox))
  = PyOk (path_of_str "/out/a.txt")
  /\ trace (snd (Mover.move (path_of_str "/in/a.txt") (path_of_str "/out")
                   (MemHost.fresh Samples.inbox)))
     = [SysMkdir (path_of_str "/out"); SysMove "/in/a.txt" "/out/a.txt"]
  /\ path_name (path_join (path_of_str "/out")
                          (path_name (path_of_str "/in/a.txt")))
     = "a.txt"%string.
Proof.
  pose proof (move_contract MemHost.state MemHost.host
                (path_of_str "/in/a.txt") (path_of_str "/out")
                (MemHost.fresh Samples.inbox)) as Hmove.
  cbv zeta in Hmove. destruct Hmove as (_ & _ & Hmoves).
  destruct (Hmoves eq_refl) as [_ Hinto].
  pose proof (Hinto true eq_refl) as Hin. cbv zeta in Hin.
  destruct Hin as (_ & Hok & Hname).
  destruct (Hok Samples.inbox (PyOk tt)
              (snd (shutil_move "/in/a.txt" "/out/a.txt" Samples.inbox))
              ltac:(vm_compute; reflexivity) ltac:(vm_compute; reflexivity))
    as (Hfst & _ & Htr).
  split; [exact Hfst|]. split; [exact Htr|].
  exact (proj1 (Hname eq_refl eq_refl)).
Defined.

Lemma rename_touches_only_the_file_witness :
  exists e,
    Renamer.rename Samples.notes None (Some "IMG"%string) None ""
                   (MemHost.fresh Samples.downloads)
    = (PyRaise e, MemHost.fresh Samples.downloads).
Proof.
  apply (proj2 (proj2 (proj2 (proj2
           (rename_touches_only_the_file MemHost.state MemHost.host
              Samples.notes None (Some "IMG"%string) None ""%string
              (MemHost.fresh Samples.downloads)))))).
  left. reflexivity.
Defined.

Lemma clean_garbled_leaves_tidy_names_alone_witness :
  Renamer.clean_garbled Samples.notes (MemHost.fresh Samples.downloads)
  = (PyOk Samples.notes, MemHost.fresh Samples.downloads).
Proof.
  apply (proj2 (proj2 (proj2
           (clean_garbled_leaves_tidy_names_alone MemHost.state MemHost.host
              (MemHost.fresh Samples.downloads) true
              ["home"; "user"; "Downloads"]%string "notes.txt"%string))));
    reflexivity.
Defined.

Lemma no_rules_nothing_planned_witness :
  fst (scan_and_plan Samples.planning) = PyOk []
  /\ operations (runner (snd (scan_and_plan Samples.planning))) = [].
Proof.
  apply (proj1 (no_rules_nothing_planned MemHost.state MemHost.host
                  Samples.planning)).
  vm_compute. reflexivity.
Defined.
